(** * Remote ID drone detection: a shallow embedding of the decoding,
      scanning, channel-plan, band-pass and threat-assessment code

    The development follows the Python sources:

    - [Py]            the fragment of the Python runtime the code relies on
                      (bytes, slices, [struct.unpack], [bytes.decode],
                      [str] methods, IEEE binary64 floats, exceptions);
    - [RemoteID]      [src/remote_id_decoder.py];
    - [Filter]        the acceptance filter and suffix loop shared by the
                      two scanning callers;
    - [WiFiSystem]    [main_gnuradio_wifi.py] (PDU processing, tolerance
                      scan);
    - [BLE]           [src/ble_scanner.py];
    - [ChannelPlan]   [main_gnuradio_wifi.py] (the channel plan of [main]);
    - [Preprocessing] [src/preprocessing.py] (band-pass step);
    - [Fusion]        [src/data_fusion.py] (threat assessment).

    Python [int] is [Z]; Python [float] is the primitive binary64 [float];
    [bytes] is [list byte]; [str] is [string] (the code only ever builds
    ASCII strings) except inside [_decode_printable], where the decoded text
    is a list of code points.  A call that may raise returns a [result];
    [while] loops take fuel and the theorems show that the fuel handed to
    them is enough. *)

From Stdlib Require Import ZArith List String Ascii Floats Bool Lia.
From Stdlib.Strings Require Import Byte.
Import ListNotations.

#[local] Set Warnings "-inexact-float".
#[local] Open Scope string_scope.
#[local] Open Scope list_scope.
#[local] Open Scope Z_scope.

(* ================================================================== *)
(** * The Python runtime fragment *)
(* ================================================================== *)

Module Py.

(** ** Exceptions and results *)

Inductive exn : Type :=
| IndexError
| StructError
| ValueError
| OverflowError
| ZeroDivisionError.

Inductive result (A : Type) : Type :=
| Ok (a : A)
| Raise (e : exn)
| OutOfFuel.

Arguments Ok {A} a.
Arguments Raise {A} e.
Arguments OutOfFuel {A}.

Definition bind {A B : Type} (m : result A) (k : A -> result B) : result B :=
  match m with
  | Ok a => k a
  | Raise e => Raise e
  | OutOfFuel => OutOfFuel
  end.

Definition fmap {A B : Type} (f : A -> B) (m : result A) : result B :=
  bind m (fun a => Ok (f a)).

Declare Scope py_scope.
Delimit Scope py_scope with py.
Notation "x <- m ;; k" := (bind m (fun x => k))
  (at level 61, m at next level, right associativity) : py_scope.

(** ** Sequences *)

Definition bytes : Type := list byte.

Definition byte_val (b : byte) : Z := Z.of_N (Byte.to_N b).

Definition len {A : Type} (l : list A) : Z := Z.of_nat (List.length l).

(** An index or slice bound as Python normalises it: a negative bound counts
    from the end, and a slice bound is clamped to [0, n]. *)
Definition slice_bound (n i : Z) : Z :=
  if i <? 0 then Z.max 0 (i + n) else Z.min i n.

(** [data[a:b]] *)
Definition slice {A : Type} (data : list A) (a b : Z) : list A :=
  let n := len data in
  let a' := slice_bound n a in
  let b' := slice_bound n b in
  firstn (Z.to_nat (b' - a')) (skipn (Z.to_nat a') data).

(** [data[a:]] *)
Definition slice_from {A : Type} (data : list A) (a : Z) : list A :=
  skipn (Z.to_nat (slice_bound (len data) a)) data.

(** [data[:b]] *)
Definition slice_to {A : Type} (data : list A) (b : Z) : list A :=
  firstn (Z.to_nat (slice_bound (len data) b)) data.

(** [data[i]] on [bytes] yields an [int]; out of range raises [IndexError]. *)
Definition getitem (data : bytes) (i : Z) : result Z :=
  let n := len data in
  let j := if i <? 0 then i + n else i in
  if (0 <=? j) && (j <? n) then
    match nth_error data (Z.to_nat j) with
    | Some b => Ok (byte_val b)
    | None => Raise IndexError
    end
  else Raise IndexError.

(** [bytes([v])]: one byte from an [int] in [range(256)]. *)
Definition bytes_of_int (v : Z) : result bytes :=
  if (0 <=? v) && (v <? 256) then
    match Byte.of_N (Z.to_N v) with
    | Some b => Ok [b]
    | None => Raise ValueError
    end
  else Raise ValueError.

(** ** [struct.unpack] *)

Fixpoint le_value (bs : bytes) : Z :=
  match bs with
  | [] => 0
  | b :: t => byte_val b + 256 * le_value t
  end.

Definition to_signed (bits v : Z) : Z :=
  if v <? 2 ^ (bits - 1) then v else v - 2 ^ bits.

Definition unpack_unsigned (size : Z) (bs : bytes) : result Z :=
  if len bs =? size then Ok (le_value bs) else Raise StructError.

Definition unpack_signed (size : Z) (bs : bytes) : result Z :=
  if len bs =? size then Ok (to_signed (8 * size) (le_value bs))
  else Raise StructError.

(** ['b'], ['<h'], ['<i'], ['<H'], ['<Q'] *)
Definition unpack_b := unpack_signed 1.
Definition unpack_lt_h := unpack_signed 2.
Definition unpack_lt_i := unpack_signed 4.
Definition unpack_lt_H := unpack_unsigned 2.
Definition unpack_lt_Q := unpack_unsigned 8.

(** ** [struct.pack] and [bytearray] *)

Definition byte_of_int (v : Z) : byte :=
  match Byte.of_N (Z.to_N v) with
  | Some b => b
  | None => x00
  end.

Fixpoint le_bytes (n : nat) (v : Z) : bytes :=
  match n with
  | O => []
  | S n' => byte_of_int (v mod 256) :: le_bytes n' (v / 256)
  end.

Definition pack_signed (size : Z) (v : Z) : result bytes :=
  if (- 2 ^ (8 * size - 1) <=? v) && (v <? 2 ^ (8 * size - 1))
  then Ok (le_bytes (Z.to_nat size) (v mod 2 ^ (8 * size)))
  else Raise StructError.

(** ['<h'], ['<i'] *)
Definition pack_lt_h := pack_signed 2.
Definition pack_lt_i := pack_signed 4.

(** [packet.append(v)] on a [bytearray]. *)
Definition append_int (packet : bytes) (v : Z) : result bytes :=
  (b <- bytes_of_int v ;;
   Ok (packet ++ b))%py.

(** [b.ljust(width, fill)] *)
Definition ljust (b : bytes) (width : Z) (fill : byte) : bytes :=
  b ++ repeat fill (Z.to_nat (width - len b)).

(** ** Floats *)

(** Conversion of an [int] to the nearest binary64 value (ties to even), as
    [float(n)] and mixed [int]/[float] arithmetic do. *)
Definition float_of_int (z : Z) : float :=
  SF2Prim (SpecFloat.binary_normalize 53 1024 z 0 false).

(** The same conversion with the [OverflowError] Python raises when the
    integer does not fit a finite float. *)
Definition int_to_float (z : Z) : result float :=
  let f := float_of_int z in
  if PrimFloat.is_infinity f then Raise OverflowError else Ok f.

(** [int(f)]: truncation towards zero. *)
Definition int_of_float (f : float) : result Z :=
  match Prim2SF f with
  | S754_zero _ => Ok 0
  | S754_finite s m e =>
    let v := if 0 <=? e then Zpos m * 2 ^ e else Zpos m / 2 ^ (- e) in
    Ok (if s then - v else v)
  | S754_infinity _ => Raise OverflowError
  | S754_nan => Raise ValueError
  end.

(** Truth value of a float: false exactly for [0.0] and [-0.0]. *)
Definition float_truthy (f : float) : bool := negb (PrimFloat.eqb f 0%float).

(** ** Text *)

(** A decoded [str] as its code points. *)
Definition ustr : Type := list Z.

Definition is_continuation (c : Z) : bool := (0x80 <=? c) && (c <? 0xC0).

(** [b.decode('utf-8', errors='ignore')], following CPython's decoder: an
    invalid start byte is dropped alone; when the n-th continuation byte is
    invalid the n bytes before it are dropped and decoding resumes at the
    offending byte; a sequence cut by the end of the input is dropped
    whole. *)
Fixpoint utf8_decode_ignore (bs : bytes) : ustr :=
  match bs with
  | [] => []
  | b1 :: t1 =>
    let c1 := byte_val b1 in
    if c1 <? 0x80 then c1 :: utf8_decode_ignore t1
    else if c1 <? 0xC2 then utf8_decode_ignore t1
    else if c1 <? 0xE0 then
      match t1 with
      | [] => []
      | b2 :: t2 =>
        let c2 := byte_val b2 in
        if is_continuation c2
        then (c1 * 64 + c2 - 0x3080) :: utf8_decode_ignore t2
        else utf8_decode_ignore t1
      end
    else if c1 <? 0xF0 then
      match t1 with
      | [] => []
      | b2 :: t2 =>
        let c2 := byte_val b2 in
        if negb (is_continuation c2)
           || (if c2 <? 0xA0 then c1 =? 0xE0 else c1 =? 0xED)
        then utf8_decode_ignore t1
        else
          match t2 with
          | [] => []
          | b3 :: t3 =>
            let c3 := byte_val b3 in
            if is_continuation c3
            then (c1 * 4096 + c2 * 64 + c3 - 0xE2080) :: utf8_decode_ignore t3
            else utf8_decode_ignore t2
          end
      end
    else if c1 <? 0xF5 then
      match t1 with
      | [] => []
      | b2 :: t2 =>
        let c2 := byte_val b2 in
        if negb (is_continuation c2)
           || (if c2 <? 0x90 then c1 =? 0xF0 else c1 =? 0xF4)
        then utf8_decode_ignore t1
        else
          match t2 with
          | [] => []
          | b3 :: t3 =>
            let c3 := byte_val b3 in
            if negb (is_continuation c3) then utf8_decode_ignore t2
            else
              match t3 with
              | [] => []
              | b4 :: t4 =>
                let c4 := byte_val b4 in
                if is_continuation c4
                then (c1 * 262144 + c2 * 4096 + c3 * 64 + c4 - 0x3C82080)
                       :: utf8_decode_ignore t4
                else utf8_decode_ignore t3
              end
          end
      end
    else utf8_decode_ignore t1
  end.

(** [s.rstrip('\x00')] on code points. *)
Definition rstrip_nul (s : ustr) : ustr :=
  fold_right (fun c acc =>
                match acc with
                | [] => if c =? 0 then [] else [c]
                | _ => c :: acc
                end) [] s.

Definition ascii_of_int (c : Z) : ascii := ascii_of_N (Z.to_N c).
Definition int_of_ascii (a : ascii) : Z := Z.of_N (N_of_ascii a).

Definition str_of_ustr (s : ustr) : string :=
  string_of_list_ascii (map ascii_of_int s).

(** [b.decode('ascii', errors='ignore')]: bytes above 0x7F are dropped. *)
Definition ascii_decode_ignore (bs : bytes) : string :=
  string_of_list_ascii
    (map (fun b => ascii_of_int (byte_val b))
         (filter (fun b => byte_val b <? 0x80) bs)).

Definition hex_digit (upper : bool) (d : Z) : ascii :=
  if d <? 10 then ascii_of_int (48 + d)
  else ascii_of_int ((if upper then 55 else 87) + d).

(** Two hex digits of a byte value, as in [f'{b:02x}'] and [bytes.hex()]. *)
Definition hex_byte (upper : bool) (b : byte) : list ascii :=
  [hex_digit upper (byte_val b / 16); hex_digit upper (byte_val b mod 16)].

(** [b.hex()] and [b.hex().upper()] *)
Definition hex (b : bytes) : string :=
  string_of_list_ascii (flat_map (hex_byte false) b).
Definition hex_upper (b : bytes) : string :=
  string_of_list_ascii (flat_map (hex_byte true) b).

Definition str_len (s : string) : Z := Z.of_nat (String.length s).

Definition lower_ascii (a : ascii) : ascii :=
  let c := int_of_ascii a in
  if (65 <=? c) && (c <=? 90) then ascii_of_int (c + 32) else a.

(** [s.lower()] on an ASCII string. *)
Fixpoint lower (s : string) : string :=
  match s with
  | EmptyString => EmptyString
  | String a t => String (lower_ascii a) (lower t)
  end.

(** White space as [str.strip()] sees it, within ASCII. *)
Definition is_space (a : ascii) : bool :=
  let c := int_of_ascii a in
  ((9 <=? c) && (c <=? 13)) || ((28 <=? c) && (c <=? 32)).

Fixpoint lstrip (s : string) : string :=
  match s with
  | EmptyString => EmptyString
  | String a t => if is_space a then lstrip t else s
  end.

Fixpoint rstrip (s : string) : string :=
  match s with
  | EmptyString => EmptyString
  | String a t =>
    match rstrip t with
    | EmptyString => if is_space a then EmptyString else String a EmptyString
    | t' => String a t'
    end
  end.

(** [s.strip()] *)
Definition strip (s : string) : string := rstrip (lstrip s).

(** [s.replace(c, '')] for a one-character [c]. *)
Fixpoint remove_char (c : ascii) (s : string) : string :=
  match s with
  | EmptyString => EmptyString
  | String a t =>
    if Ascii.eqb a c then remove_char c t else String a (remove_char c t)
  end.

(** [s.startswith(p)] *)
Fixpoint startswith (p s : string) : bool :=
  match p, s with
  | EmptyString, _ => true
  | String a p', String b s' => Ascii.eqb a b && startswith p' s'
  | String _ _, EmptyString => false
  end.

(** [p in s] *)
Fixpoint contains (p s : string) : bool :=
  startswith p s ||
  match s with
  | EmptyString => false
  | String _ t => contains p t
  end.

(** Truth value of a [str]. *)
Definition str_truthy (s : string) : bool :=
  match s with EmptyString => false | _ => true end.

(** [x or ""] and the truth value of an optional string. *)
Definition or_empty (o : option string) : string :=
  match o with
  | Some s => s
  | None => EmptyString
  end.

Definition opt_str_truthy (o : option string) : bool := str_truthy (or_empty o).

(** Truth value of an optional float ([None] and zero are false). *)
Definition opt_float_truthy (o : option float) : bool :=
  match o with
  | Some f => float_truthy f
  | None => false
  end.

Definition is_some {A : Type} (o : option A) : bool :=
  match o with Some _ => true | None => false end.

(** ** [bytes.find] *)

Fixpoint bytes_prefix (p data : bytes) : bool :=
  match p, data with
  | [], _ => true
  | a :: p', b :: d' => Byte.eqb a b && bytes_prefix p' d'
  | _ :: _, [] => false
  end.

(** Offset of the first occurrence of [p] at or after position [pos] of the
    original input, [-1] when there is none. *)
Fixpoint find_from (pos : Z) (p data : bytes) : Z :=
  if bytes_prefix p data then pos
  else
    match data with
    | [] => -1
    | _ :: t => find_from (pos + 1) p t
    end.

(** [data.find(p)] *)
Definition find (data p : bytes) : Z := find_from 0 p data.

Definition bytes_of_string (s : string) : bytes :=
  map byte_of_ascii (list_ascii_of_string s).

End Py.

Import Py.
#[local] Open Scope py_scope.

(* ================================================================== *)
(** * [src/remote_id_decoder.py] *)
(* ================================================================== *)

Module RemoteID.

(** ** [RemoteIDData] *)

Record RemoteIDData : Type := mkRemoteIDData {
  uas_id : option string;
  uas_id_type : option string;
  latitude : option float;
  longitude : option float;
  altitude_msl : option float;
  altitude_agl : option float;
  height : option float;
  speed : option float;
  direction : option float;
  vertical_speed : option float;
  operator_latitude : option float;
  operator_longitude : option float;
  operator_altitude : option float;
  operator_id : option string;
  timestamp : option float;
  status : option string;
  classification : option string;
  self_id_text : option string;
  auth_type : option Z;
  auth_page_index : option Z;
  auth_last_page_index : option Z;
  auth_payload : option bytes;
  system_category : option Z;
  system_eu_class : option Z;
  system_operator_location_type : option Z
}.

(** [RemoteIDData()]: every field defaults to [None]. *)
Definition new_RemoteIDData : RemoteIDData :=
  mkRemoteIDData None None None None None None None None None None None None None
    None None None None None None None None None None None None.

(** Attribute assignment [remote_id.f = v], one setter per assigned field. *)
Definition set_uas_id (v : option string) (r : RemoteIDData) : RemoteIDData :=
  mkRemoteIDData
    v (uas_id_type r) (latitude r) (longitude r) (altitude_msl r)
    (altitude_agl r) (height r) (speed r) (direction r)
    (vertical_speed r) (operator_latitude r) (operator_longitude r)
    (operator_altitude r) (operator_id r) (timestamp r) (status r)
    (classification r) (self_id_text r) (auth_type r)
    (auth_page_index r) (auth_last_page_index r) (auth_payload r)
    (system_category r) (system_eu_class r)
    (system_operator_location_type r).

Definition set_uas_id_type (v : option string) (r : RemoteIDData) : RemoteIDData :=
  mkRemoteIDData
    (uas_id r) v (latitude r) (longitude r) (altitude_msl r)
    (altitude_agl r) (height r) (speed r) (direction r)
    (vertical_speed r) (operator_latitude r) (operator_longitude r)
    (operator_altitude r) (operator_id r) (timestamp r) (status r)
    (classification r) (self_id_text r) (auth_type r)
    (auth_page_index r) (auth_last_page_index r) (auth_payload r)
    (system_category r) (system_eu_class r)
    (system_operator_location_type r).

Definition set_latitude (v : option float) (r : RemoteIDData) : RemoteIDData :=
  mkRemoteIDData
    (uas_id r) (uas_id_type r) v (longitude r) (altitude_msl r)
    (altitude_agl r) (height r) (speed r) (direction r)
    (vertical_speed r) (operator_latitude r) (operator_longitude r)
    (operator_altitude r) (operator_id r) (timestamp r) (status r)
    (classification r) (self_id_text r) (auth_type r)
    (auth_page_index r) (auth_last_page_index r) (auth_payload r)
    (system_category r) (system_eu_class r)
    (system_operator_location_type r).

Definition set_longitude (v : option float) (r : RemoteIDData) : RemoteIDData :=
  mkRemoteIDData
    (uas_id r) (uas_id_type r) (latitude r) v (altitude_msl r)
    (altitude_agl r) (height r) (speed r) (direction r)
    (vertical_speed r) (operator_latitude r) (operator_longitude r)
    (operator_altitude r) (operator_id r) (timestamp r) (status r)
    (classification r) (self_id_text r) (auth_type r)
    (auth_page_index r) (auth_last_page_index r) (auth_payload r)
    (system_category r) (system_eu_class r)
    (system_operator_location_type r).

Definition set_altitude_msl (v : option float) (r : RemoteIDData) : RemoteIDData :=
  mkRemoteIDData
    (uas_id r) (uas_id_type r) (latitude r) (longitude r) v
    (altitude_agl r) (height r) (speed r) (direction r)
    (vertical_speed r) (operator_latitude r) (operator_longitude r)
    (operator_altitude r) (operator_id r) (timestamp r) (status r)
    (classification r) (self_id_text r) (auth_type r)
    (auth_page_index r) (auth_last_page_index r) (auth_payload r)
    (system_category r) (system_eu_class r)
    (system_operator_location_type r).

Definition set_height (v : option float) (r : RemoteIDData) : RemoteIDData :=
  mkRemoteIDData
    (uas_id r) (uas_id_type r) (latitude r) (longitude r)
    (altitude_msl r) (altitude_agl r) v (speed r) (direction r)
    (vertical_speed r) (operator_latitude r) (operator_longitude r)
    (operator_altitude r) (operator_id r) (timestamp r) (status r)
    (classification r) (self_id_text r) (auth_type r)
    (auth_page_index r) (auth_last_page_index r) (auth_payload r)
    (system_category r) (system_eu_class r)
    (system_operator_location_type r).

Definition set_speed (v : option float) (r : RemoteIDData) : RemoteIDData :=
  mkRemoteIDData
    (uas_id r) (uas_id_type r) (latitude r) (longitude r)
    (altitude_msl r) (altitude_agl r) (height r) v (direction r)
    (vertical_speed r) (operator_latitude r) (operator_longitude r)
    (operator_altitude r) (operator_id r) (timestamp r) (status r)
    (classification r) (self_id_text r) (auth_type r)
    (auth_page_index r) (auth_last_page_index r) (auth_payload r)
    (system_category r) (system_eu_class r)
    (system_operator_location_type r).

Definition set_direction (v : option float) (r : RemoteIDData) : RemoteIDData :=
  mkRemoteIDData
    (uas_id r) (uas_id_type r) (latitude r) (longitude r)
    (altitude_msl r) (altitude_agl r) (height r) (speed r) v
    (vertical_speed r) (operator_latitude r) (operator_longitude r)
    (operator_altitude r) (operator_id r) (timestamp r) (status r)
    (classification r) (self_id_text r) (auth_type r)
    (auth_page_index r) (auth_last_page_index r) (auth_payload r)
    (system_category r) (system_eu_class r)
    (system_operator_location_type r).

Definition set_vertical_speed (v : option float) (r : RemoteIDData) : RemoteIDData :=
  mkRemoteIDData
    (uas_id r) (uas_id_type r) (latitude r) (longitude r)
    (altitude_msl r) (altitude_agl r) (height r) (speed r) (direction r)
    v (operator_latitude r) (operator_longitude r) (operator_altitude r)
    (operator_id r) (timestamp r) (status r) (classification r)
    (self_id_text r) (auth_type r) (auth_page_index r)
    (auth_last_page_index r) (auth_payload r) (system_category r)
    (system_eu_class r) (system_operator_location_type r).

Definition set_operator_id (v : option string) (r : RemoteIDData) : RemoteIDData :=
  mkRemoteIDData
    (uas_id r) (uas_id_type r) (latitude r) (longitude r)
    (altitude_msl r) (altitude_agl r) (height r) (speed r) (direction r)
    (vertical_speed r) (operator_latitude r) (operator_longitude r)
    (operator_altitude r) v (timestamp r) (status r) (classification r)
    (self_id_text r) (auth_type r) (auth_page_index r)
    (auth_last_page_index r) (auth_payload r) (system_category r)
    (system_eu_class r) (system_operator_location_type r).

Definition set_timestamp (v : option float) (r : RemoteIDData) : RemoteIDData :=
  mkRemoteIDData
    (uas_id r) (uas_id_type r) (latitude r) (longitude r)
    (altitude_msl r) (altitude_agl r) (height r) (speed r) (direction r)
    (vertical_speed r) (operator_latitude r) (operator_longitude r)
    (operator_altitude r) (operator_id r) v (status r)
    (classification r) (self_id_text r) (auth_type r)
    (auth_page_index r) (auth_last_page_index r) (auth_payload r)
    (system_category r) (system_eu_class r)
    (system_operator_location_type r).

Definition set_status (v : option string) (r : RemoteIDData) : RemoteIDData :=
  mkRemoteIDData
    (uas_id r) (uas_id_type r) (latitude r) (longitude r)
    (altitude_msl r) (altitude_agl r) (height r) (speed r) (direction r)
    (vertical_speed r) (operator_latitude r) (operator_longitude r)
    (operator_altitude r) (operator_id r) (timestamp r) v
    (classification r) (self_id_text r) (auth_type r)
    (auth_page_index r) (auth_last_page_index r) (auth_payload r)
    (system_category r) (system_eu_class r)
    (system_operator_location_type r).

Definition set_self_id_text (v : option string) (r : RemoteIDData) : RemoteIDData :=
  mkRemoteIDData
    (uas_id r) (uas_id_type r) (latitude r) (longitude r)
    (altitude_msl r) (altitude_agl r) (height r) (speed r) (direction r)
    (vertical_speed r) (operator_latitude r) (operator_longitude r)
    (operator_altitude r) (operator_id r) (timestamp r) (status r)
    (classification r) v (auth_type r) (auth_page_index r)
    (auth_last_page_index r) (auth_payload r) (system_category r)
    (system_eu_class r) (system_operator_location_type r).

Definition set_auth_type (v : option Z) (r : RemoteIDData) : RemoteIDData :=
  mkRemoteIDData
    (uas_id r) (uas_id_type r) (latitude r) (longitude r)
    (altitude_msl r) (altitude_agl r) (height r) (speed r) (direction r)
    (vertical_speed r) (operator_latitude r) (operator_longitude r)
    (operator_altitude r) (operator_id r) (timestamp r) (status r)
    (classification r) (self_id_text r) v (auth_page_index r)
    (auth_last_page_index r) (auth_payload r) (system_category r)
    (system_eu_class r) (system_operator_location_type r).

Definition set_auth_page_index (v : option Z) (r : RemoteIDData) : RemoteIDData :=
  mkRemoteIDData
    (uas_id r) (uas_id_type r) (latitude r) (longitude r)
    (altitude_msl r) (altitude_agl r) (height r) (speed r) (direction r)
    (vertical_speed r) (operator_latitude r) (operator_longitude r)
    (operator_altitude r) (operator_id r) (timestamp r) (status r)
    (classification r) (self_id_text r) (auth_type r) v
    (auth_last_page_index r) (auth_payload r) (system_category r)
    (system_eu_class r) (system_operator_location_type r).

Definition set_auth_last_page_index (v : option Z) (r : RemoteIDData) : RemoteIDData :=
  mkRemoteIDData
    (uas_id r) (uas_id_type r) (latitude r) (longitude r)
    (altitude_msl r) (altitude_agl r) (height r) (speed r) (direction r)
    (vertical_speed r) (operator_latitude r) (operator_longitude r)
    (operator_altitude r) (operator_id r) (timestamp r) (status r)
    (classification r) (self_id_text r) (auth_type r)
    (auth_page_index r) v (auth_payload r) (system_category r)
    (system_eu_class r) (system_operator_location_type r).

Definition set_auth_payload (v : option bytes) (r : RemoteIDData) : RemoteIDData :=
  mkRemoteIDData
    (uas_id r) (uas_id_type r) (latitude r) (longitude r)
    (altitude_msl r) (altitude_agl r) (height r) (speed r) (direction r)
    (vertical_speed r) (operator_latitude r) (operator_longitude r)
    (operator_altitude r) (operator_id r) (timestamp r) (status r)
    (classification r) (self_id_text r) (auth_type r)
    (auth_page_index r) (auth_last_page_index r) v (system_category r)
    (system_eu_class r) (system_operator_location_type r).

Definition set_system_category (v : option Z) (r : RemoteIDData) : RemoteIDData :=
  mkRemoteIDData
    (uas_id r) (uas_id_type r) (latitude r) (longitude r)
    (altitude_msl r) (altitude_agl r) (height r) (speed r) (direction r)
    (vertical_speed r) (operator_latitude r) (operator_longitude r)
    (operator_altitude r) (operator_id r) (timestamp r) (status r)
    (classification r) (self_id_text r) (auth_type r)
    (auth_page_index r) (auth_last_page_index r) (auth_payload r) v
    (system_eu_class r) (system_operator_location_type r).

Definition set_system_eu_class (v : option Z) (r : RemoteIDData) : RemoteIDData :=
  mkRemoteIDData
    (uas_id r) (uas_id_type r) (latitude r) (longitude r)
    (altitude_msl r) (altitude_agl r) (height r) (speed r) (direction r)
    (vertical_speed r) (operator_latitude r) (operator_longitude r)
    (operator_altitude r) (operator_id r) (timestamp r) (status r)
    (classification r) (self_id_text r) (auth_type r)
    (auth_page_index r) (auth_last_page_index r) (auth_payload r)
    (system_category r) v (system_operator_location_type r).

Definition set_system_operator_location_type (v : option Z) (r : RemoteIDData) : RemoteIDData :=
  mkRemoteIDData
    (uas_id r) (uas_id_type r) (latitude r) (longitude r)
    (altitude_msl r) (altitude_agl r) (height r) (speed r) (direction r)
    (vertical_speed r) (operator_latitude r) (operator_longitude r)
    (operator_altitude r) (operator_id r) (timestamp r) (status r)
    (classification r) (self_id_text r) (auth_type r)
    (auth_page_index r) (auth_last_page_index r) (auth_payload r)
    (system_category r) (system_eu_class r) v.

(** ** Class constants of [WiFiRemoteIDDecoder] *)


(** Wi-Fi Alliance OpenDroneID OUI. *)
Definition ODID_OUI : bytes := [xfa; x0b; xbc].

(** The pattern table, in the insertion order the [dict] iterates in. *)
Definition AUTHENTIC_PATTERNS : list (string * list bytes) :=
  [ ("dji_remote_id",
      [ bytes_of_string "DJI-RID-"; bytes_of_string "MAVIC";
        bytes_of_string "MINI"; bytes_of_string "AIR";
        bytes_of_string "FPV" ]);
    ("astm_f3411", [ [x0d; x00]; [x25; x00]; [x1a; x00] ]);
    ("opendroneid", [ [xfa; x0b; xbc] ]) ].

Definition MSG_TYPE_BASIC_ID : Z := 0x0.
Definition MSG_TYPE_LOCATION : Z := 0x1.
Definition MSG_TYPE_AUTH : Z := 0x2.
Definition MSG_TYPE_SELF_ID : Z := 0x3.
Definition MSG_TYPE_SYSTEM : Z := 0x4.
Definition MSG_TYPE_OPERATOR_ID : Z := 0x5.

Definition ID_TYPES : list (Z * string) :=
  [ (0, "None"); (1, "Serial Number"); (2, "CAA Registration ID");
    (3, "UTM UUID"); (4, "Specific Session ID") ].

(** [d.get(k, default)] on a dictionary with integer keys. *)
Fixpoint dict_get (d : list (Z * string)) (k : Z) (default : string) : string :=
  match d with
  | [] => default
  | (k', v) :: d' => if k =? k' then v else dict_get d' k default
  end.

(** ** [_decode_printable] *)

Definition is_printable (ch : Z) : bool := (32 <=? ch) && (ch <=? 126).

Definition _decode_printable (b : bytes) : string :=
  let s := rstrip_nul (utf8_decode_ignore b) in
  let printable := filter is_printable s in
  if len printable >=? Z.max 6 (len s / 2) then str_of_ustr printable
  else hex_upper b.

(** ** [_parse_remote_id_messages] *)

(** What one turn of the [while] loop leaves behind: the next offset, or a
    [break]; in both cases the record as mutated so far. *)
Inductive flow : Type :=
| Next (offset : Z) (remote_id : RemoteIDData)
| Break (remote_id : RemoteIDData).

Definition parse_basic_id (data : bytes) (offset : Z) (remote_id : RemoteIDData)
  : result flow :=
  let remaining := len data - offset in
  if remaining >=? 21 then
    id_type <- getitem data offset ;;
    let uas_id_bytes := slice data (offset + 1) (offset + 21) in
    let remote_id :=
      set_uas_id_type (Some (dict_get ID_TYPES id_type "Unknown")) remote_id in
    let remote_id :=
      set_uas_id (Some (_decode_printable uas_id_bytes)) remote_id in
    adv <- (if remaining >=? 23 then
              b21 <- getitem data (offset + 21) ;;
              if b21 =? 0x00 then
                b22 <- getitem data (offset + 22) ;;
                Ok (if b22 =? 0x00 then 23 else 21)
              else Ok 21
            else Ok 21) ;;
    Ok (Next (offset + adv) remote_id)
  else Ok (Next offset remote_id).

Definition parse_location (data : bytes) (offset : Z) (remote_id : RemoteIDData)
  : result flow :=
  if offset + 23 <=? len data then
    status <- getitem data offset ;;
    direction <- getitem data (offset + 1) ;;
    speed_encoded <- getitem data (offset + 2) ;;
    vb <- getitem data (offset + 3) ;;
    vbs <- bytes_of_int vb ;;
    vspeed_encoded <- unpack_b vbs ;;
    lat_encoded <- unpack_lt_i (slice data (offset + 4) (offset + 8)) ;;
    lon_encoded <- unpack_lt_i (slice data (offset + 8) (offset + 12)) ;;
    alt_encoded <- unpack_lt_h (slice data (offset + 12) (offset + 14)) ;;
    height_encoded <- unpack_lt_h (slice data (offset + 14) (offset + 16)) ;;
    let remote_id :=
      set_status
        (Some (if Z.land status 0x0F =? 0 then "Ground" else "Airborne"))
        remote_id in
    let remote_id :=
      set_direction
        (if direction =? 0xFF then None else Some (float_of_int direction))
        remote_id in
    let remote_id :=
      set_speed
        (if speed_encoded =? 0xFF then None
         else Some (float_of_int speed_encoded * 0.25)%float)
        remote_id in
    let remote_id :=
      set_vertical_speed
        (if vspeed_encoded =? 0x7F then None
         else Some (float_of_int vspeed_encoded * 0.5)%float)
        remote_id in
    let remote_id :=
      if lat_encoded =? 0 then remote_id
      else set_latitude (Some (float_of_int lat_encoded * 1e-7)%float) remote_id in
    let remote_id :=
      if lon_encoded =? 0 then remote_id
      else set_longitude (Some (float_of_int lon_encoded * 1e-7)%float) remote_id in
    let remote_id :=
      if alt_encoded =? -1000 then remote_id
      else set_altitude_msl (Some (float_of_int alt_encoded * 0.5)%float) remote_id in
    let remote_id :=
      if height_encoded =? -1000 then remote_id
      else set_height (Some (float_of_int height_encoded * 0.5)%float) remote_id in
    Ok (Next (offset + 23) remote_id)
  else Ok (Next offset remote_id).

Definition parse_auth (data : bytes) (offset : Z) (remote_id : RemoteIDData)
  : result flow :=
  if offset + 4 <=? len data then
    a_type <- getitem data offset ;;
    a_page <- getitem data (offset + 1) ;;
    a_last <- getitem data (offset + 2) ;;
    a_len <- getitem data (offset + 3) ;;
    let offset := offset + 4 in
    if offset + a_len <=? len data then
      let a_payload := slice data offset (offset + a_len) in
      let remote_id := set_auth_type (Some a_type) remote_id in
      let remote_id := set_auth_page_index (Some a_page) remote_id in
      let remote_id := set_auth_last_page_index (Some a_last) remote_id in
      let remote_id := set_auth_payload (Some a_payload) remote_id in
      Ok (Next (offset + a_len) remote_id)
    else Ok (Break remote_id)
  else Ok (Next offset remote_id).

Definition parse_self_id (data : bytes) (offset : Z) (remote_id : RemoteIDData)
  : result flow :=
  if offset + 24 <=? len data then
    d_type <- getitem data offset ;;
    let text_bytes := slice data (offset + 1) (offset + 24) in
    let remote_id :=
      set_self_id_text (Some (_decode_printable text_bytes)) remote_id in
    Ok (Next (offset + 24) remote_id)
  else Ok (Break remote_id).

Definition parse_system (data : bytes) (offset : Z) (remote_id : RemoteIDData)
  : result flow :=
  if offset + 3 <=? len data then
    op_loc <- getitem data offset ;;
    eu_cls <- getitem data (offset + 1) ;;
    cat <- getitem data (offset + 2) ;;
    let remote_id := set_system_operator_location_type (Some op_loc) remote_id in
    let remote_id := set_system_eu_class (Some eu_cls) remote_id in
    let remote_id := set_system_category (Some cat) remote_id in
    Ok (Next (offset + 3) remote_id)
  else Ok (Break remote_id).

Definition parse_operator_id (data : bytes) (offset : Z) (remote_id : RemoteIDData)
  : result flow :=
  if offset + 21 <=? len data then
    op_id_type <- getitem data offset ;;
    let op_id_bytes := slice data (offset + 1) (offset + 21) in
    let remote_id :=
      set_operator_id (Some (_decode_printable op_id_bytes)) remote_id in
    Ok (Next (offset + 21) remote_id)
  else Ok (Next offset remote_id).

(** The body of the [while offset < len(data)] loop. *)
Definition parse_message (data : bytes) (offset : Z) (remote_id : RemoteIDData)
  : result flow :=
  if offset + 1 >=? len data then Ok (Break remote_id)
  else
    msg_type <- getitem data offset ;;
    let offset := offset + 1 in
    if msg_type =? MSG_TYPE_BASIC_ID then parse_basic_id data offset remote_id
    else if msg_type =? MSG_TYPE_LOCATION then parse_location data offset remote_id
    else if msg_type =? MSG_TYPE_AUTH then parse_auth data offset remote_id
    else if msg_type =? MSG_TYPE_SELF_ID then parse_self_id data offset remote_id
    else if msg_type =? MSG_TYPE_SYSTEM then parse_system data offset remote_id
    else if msg_type =? MSG_TYPE_OPERATOR_ID then
      parse_operator_id data offset remote_id
    else Ok (Next (offset + 1) remote_id).

Fixpoint parse_loop (fuel : nat) (data : bytes) (offset : Z)
    (remote_id : RemoteIDData) : result RemoteIDData :=
  if offset <? len data then
    match fuel with
    | O => OutOfFuel
    | S fuel' =>
      fl <- parse_message data offset remote_id ;;
      match fl with
      | Next offset' remote_id' => parse_loop fuel' data offset' remote_id'
      | Break remote_id' => Ok remote_id'
      end
    end
  else Ok remote_id.

(** The method mutates [remote_id] in place; the model returns the record as
    the loop leaves it.  The loop is given one turn per input byte. *)
Definition _parse_remote_id_messages (data : bytes) (remote_id : RemoteIDData)
  : result RemoteIDData :=
  parse_loop (List.length data) data 0 remote_id.

(** ** 802.11 beacon parsing *)

(** One Information Element: the dictionary [{'id', 'length', 'data'}]. *)
Record InformationElement : Type := mkIE {
  ie_id : Z;
  ie_length : Z;
  ie_data : bytes
}.

Fixpoint ie_loop (fuel : nat) (ie_data : bytes) (offset : Z)
    (ies : list InformationElement) : result (list InformationElement) :=
  if offset <? len ie_data - 2 then
    match fuel with
    | O => OutOfFuel
    | S fuel' =>
      ie_id <- getitem ie_data offset ;;
      ie_len <- getitem ie_data (offset + 1) ;;
      if offset + 2 + ie_len >? len ie_data then Ok ies
      else
        let ie_content := slice ie_data (offset + 2) (offset + 2 + ie_len) in
        ie_loop fuel' ie_data (offset + 2 + ie_len)
                (ies ++ [mkIE ie_id ie_len ie_content])
    end
  else Ok ies.

Definition _parse_information_elements (ie_data : bytes)
  : result (list InformationElement) :=
  ie_loop (List.length ie_data) ie_data 0 [].

(** The dictionary built by [parse_beacon_frame] and [parse_beacon_body];
    the header keys are absent from the latter. *)
Record BeaconInfo : Type := mkBeaconInfo {
  frame_control : option Z;
  src_addr : option string;
  bssid : option string;
  beacon_timestamp : Z;
  beacon_interval : Z;
  capability : Z;
  information_elements : list InformationElement
}.

(** [except Exception: return None]; a loop that never ends is not caught. *)
Definition except_none {A : Type} (m : result (option A)) : result (option A) :=
  match m with
  | Raise _ => Ok None
  | _ => m
  end.

(** [':'.join([f'{b:02x}' for b in bs])] *)
Fixpoint mac_string (bs : bytes) : string :=
  match bs with
  | [] => ""
  | [b] => string_of_list_ascii (hex_byte false b)
  | b :: t => String.append (string_of_list_ascii (hex_byte false b))
                            (String ":" (mac_string t))
  end.

Definition parse_beacon_frame (frame_bytes : bytes) : result (option BeaconInfo) :=
  if len frame_bytes <? 36 then Ok None
  else
    except_none
      (fc <- unpack_lt_H (slice frame_bytes 0 2) ;;
       let src := mac_string (slice frame_bytes 10 16) in
       let bss := mac_string (slice frame_bytes 16 22) in
       ts <- unpack_lt_Q (slice frame_bytes 24 32) ;;
       bi <- unpack_lt_H (slice frame_bytes 32 34) ;;
       cap <- unpack_lt_H (slice frame_bytes 34 36) ;;
       ies <- _parse_information_elements (slice_from frame_bytes 36) ;;
       Ok (Some (mkBeaconInfo (Some fc) (Some src) (Some bss) ts bi cap ies))).

Definition parse_beacon_body (body_bytes : bytes) : result (option BeaconInfo) :=
  if len body_bytes <? 12 then Ok None
  else
    except_none
      (ts <- unpack_lt_Q (slice body_bytes 0 8) ;;
       bi <- unpack_lt_H (slice body_bytes 8 10) ;;
       cap <- unpack_lt_H (slice body_bytes 10 12) ;;
       ies <- _parse_information_elements (slice_from body_bytes 12) ;;
       Ok (Some (mkBeaconInfo None None None ts bi cap ies))).

Fixpoint bytes_eqb (a b : bytes) : bool :=
  match a, b with
  | [], [] => true
  | x :: a', y :: b' => Byte.eqb x y && bytes_eqb a' b'
  | _, _ => false
  end.

(** The [for ie in beacon_info['information_elements']] loop of
    [extract_remote_id]. *)
Fixpoint extract_loop (ies : list InformationElement) (remote_id_data : RemoteIDData)
  : result RemoteIDData :=
  match ies with
  | [] => Ok remote_id_data
  | ie :: rest =>
    if ie_id ie =? 0xDD then
      let data := ie_data ie in
      if len data <? 4 then extract_loop rest remote_id_data
      else
        let oui := slice data 0 3 in
        vendor_type <- getitem data 3 ;;
        if negb (bytes_eqb oui ODID_OUI) then extract_loop rest remote_id_data
        else
          remote_id_data <-
            (if len data >? 4
             then _parse_remote_id_messages (slice_from data 4) remote_id_data
             else Ok remote_id_data) ;;
          extract_loop rest remote_id_data
    else extract_loop rest remote_id_data
  end.

(** [now] is the reading of [datetime.now().timestamp()]. *)
Definition extract_remote_id (beacon_info : BeaconInfo) (now : float)
  : result (option RemoteIDData) :=
  let remote_id_data := set_timestamp (Some now) new_RemoteIDData in
  remote_id_data <- extract_loop (information_elements beacon_info) remote_id_data ;;
  if opt_str_truthy (uas_id remote_id_data)
     || opt_float_truthy (latitude remote_id_data)
  then Ok (Some remote_id_data)
  else Ok None.

(** ** Pattern search *)

(** The dictionary returned by [search_patterns_in_bytes]; the key [uas_id]
    is present only when an identifier could be cut out. *)
Record PatternInfo : Type := mkPatternInfo {
  pattern_type : string;
  pattern : string;
  pattern_offset : Z;
  pattern_uas_id : option string;
  confidence : string
}.

(** The body of the inner [for pattern in patterns] loop: [None] stands for
    falling through to the next pattern. *)
Definition try_pattern (data : bytes) (ptype : string) (pat : bytes)
  : option PatternInfo :=
  let offset := find data pat in
  if negb (offset =? -1) then
    let remaining := slice_from data offset in
    if String.eqb ptype "dji_remote_id" && (len remaining >=? 20) then
      let id_end := find remaining [x00] in
      if id_end >? len pat then
        Some (mkPatternInfo ptype (hex pat) offset
                (Some (ascii_decode_ignore (slice_to remaining id_end)))
                "pattern_match")
      else Some (mkPatternInfo ptype (hex pat) offset None "pattern_match")
    else Some (mkPatternInfo ptype (hex pat) offset None "pattern_match")
  else None.

(** First element of a list on which [f] returns: a [for] loop with a
    [return] in its body. *)
Fixpoint first_some {A B : Type} (f : A -> option B) (l : list A) : option B :=
  match l with
  | [] => None
  | a :: l' =>
    match f a with
    | Some b => Some b
    | None => first_some f l'
    end
  end.

Definition search_patterns_in_bytes (data : bytes) : option PatternInfo :=
  first_some
    (fun entry : string * list bytes =>
       first_some (try_pattern data (fst entry)) (snd entry))
    AUTHENTIC_PATTERNS.

(** ** [decode_from_raw_bytes] *)

(** The nested helper [is_valid_id]. *)
Definition is_valid_id (uas_id : option string) : bool :=
  if negb (opt_str_truthy uas_id) then false
  else
    let cleaned :=
      strip (remove_char "-" (remove_char " " (remove_char "0"
               (remove_char Ascii.zero (or_empty uas_id))))) in
    str_len cleaned >=? 3.

Definition decode_from_raw_bytes (raw_data : bytes) (now : float)
  : result (option RemoteIDData) :=
  let remote_id := set_timestamp (Some now) new_RemoteIDData in
  remote_id <- _parse_remote_id_messages raw_data remote_id ;;
  let remote_id :=
    if negb (is_valid_id (uas_id remote_id))
       && negb (opt_float_truthy (latitude remote_id))
    then
      match search_patterns_in_bytes raw_data with
      | Some pattern_info =>
        let remote_id :=
          set_uas_id
            (Some match pattern_uas_id pattern_info with
                  | Some u => u
                  | None => String.append "PATTERN_" (pattern_type pattern_info)
                  end)
            remote_id in
        set_uas_id_type
          (Some (String.append "Pattern Detection ("
                   (String.append (pattern_type pattern_info) ")")))
          remote_id
      | None => remote_id
      end
    else remote_id in
  Ok (Some remote_id).

(** ** [create_test_remote_id_packet] *)

Definition create_test_remote_id_packet : result bytes :=
  let packet : bytes := [] in
  packet <- append_int packet MSG_TYPE_BASIC_ID ;;
  packet <- append_int packet 1 ;;
  let uas_id := ljust (bytes_of_string "DJI-TEST-001") 20 x00 in
  let packet := packet ++ uas_id in
  packet <- append_int packet 0 ;;
  packet <- append_int packet 0 ;;
  packet <- append_int packet MSG_TYPE_LOCATION ;;
  packet <- append_int packet 0x01 ;;
  packet <- append_int packet 87 ;;
  v <- int_of_float (12.3 / 0.25)%float ;;
  packet <- append_int packet v ;;
  v <- int_of_float (2.5 / 0.5)%float ;;
  packet <- append_int packet v ;;
  lat_encoded <- int_of_float (12.3585 * 1e7)%float ;;
  b <- pack_lt_i lat_encoded ;;
  let packet := packet ++ b in
  lon_encoded <- int_of_float (-1.5352 * 1e7)%float ;;
  b <- pack_lt_i lon_encoded ;;
  let packet := packet ++ b in
  alt_encoded <- int_of_float (120.5 / 0.5)%float ;;
  b <- pack_lt_h alt_encoded ;;
  let packet := packet ++ b in
  height_encoded <- int_of_float (45.2 / 0.5)%float ;;
  b <- pack_lt_h height_encoded ;;
  let packet := packet ++ b in
  Ok (packet ++ repeat x00 5).

End RemoteID.

Import RemoteID.

(* ================================================================== *)
(** * The filter the scanning callers apply to a decoded record *)
(* ================================================================== *)

Module Filter.

(** The nested helper [is_plausible_ascii]; its three copies in the sources
    are identical. *)
Definition is_plausible_ascii (s : string) : bool :=
  if negb (str_truthy s) then false
  else if (str_len s <? 6) || (str_len s >? 32) then false
  else
    forallb (fun ch => let o := int_of_ascii ch in (32 <=? o) && (o <=? 126))
            (list_ascii_of_string s).

(** [x in allowed_types] *)
Definition set_mem (x : string) (allowed : list string) : bool :=
  existsb (String.eqb x) allowed.

Definition has_location (rid : RemoteIDData) : bool :=
  is_some (latitude rid) && is_some (longitude rid).

(** The block guarding the first [return rid] of
    [_try_decode_from_bytes]. *)
Definition wifi_first_filter (rid : RemoteIDData) : bool :=
  let uas_id := or_empty (RemoteID.uas_id rid) in
  let uas_id_type := lower (or_empty (RemoteID.uas_id_type rid)) in
  let allowed_types :=
    [ "serial number"; "caa registration id"; "utm uuid";
      "specific session id"; "pattern detection" ] in
  let is_pattern_detection := contains "pattern detection" uas_id_type in
  let id_ok :=
    (set_mem uas_id_type allowed_types && is_plausible_ascii uas_id)
    || is_pattern_detection in
  id_ok || has_location rid.

(** The block guarding [return rid] inside the suffix loops, and both
    blocks of the BLE scanner. *)
Definition strict_filter (rid : RemoteIDData) : bool :=
  let uas_id := or_empty (RemoteID.uas_id rid) in
  let uas_id_type := lower (or_empty (RemoteID.uas_id_type rid)) in
  let allowed_types :=
    [ "serial number"; "caa registration id"; "utm uuid";
      "specific session id" ] in
  let id_ok := set_mem uas_id_type allowed_types && is_plausible_ascii uas_id in
  id_ok || has_location rid.

(** [range(stop)] *)
Definition py_range (stop : Z) : list Z :=
  map Z.of_nat (seq 0 (Z.to_nat stop)).

(** Every call of [decode_from_raw_bytes] reads the wall clock once.  The
    readings are arbitrary, so a scan receives them as a family: index [0]
    is read by the attempt on the whole input and index [i + 1] by the
    attempt on the suffix starting at [i]. *)
Definition clock : Type := Z -> float.

(** One [try: ... except Exception: continue] attempt of a scan: [Ok None]
    stands for going on to the next candidate. *)
Definition attempt (filter : RemoteIDData -> bool) (chunk : bytes) (now : float)
  : result (option RemoteIDData) :=
  match decode_from_raw_bytes chunk now with
  | Ok (Some rid) => if filter rid then Ok (Some rid) else Ok None
  | Ok None => Ok None
  | Raise _ => Ok None
  | OutOfFuel => OutOfFuel
  end.

(** [for i in idxs: chunk = data[i:] ...] with its early [return]. *)
Fixpoint scan_suffixes (filter : RemoteIDData -> bool) (data : bytes)
    (clk : clock) (idxs : list Z) : result (option RemoteIDData) :=
  match idxs with
  | [] => Ok None
  | i :: rest =>
    r <- attempt filter (slice_from data i) (clk (i + 1)) ;;
    match r with
    | Some rid => Ok (Some rid)
    | None => scan_suffixes filter data clk rest
    end
  end.

End Filter.

Import Filter.

(* ================================================================== *)
(** * [main_gnuradio_wifi.py]: PDU processing and tolerance scan *)
(* ================================================================== *)

Module WiFiSystem.

(** The suffix start positions the loop of [_try_decode_from_bytes] visits
    on an input of [n] bytes. *)
Definition suffix_starts (n : Z) : list Z := py_range (Z.max 0 (n - 128)).

Definition _try_decode_from_bytes (data : bytes) (clk : clock)
  : result (option RemoteIDData) :=
  r <- attempt wifi_first_filter data (clk 0) ;;
  match r with
  | Some rid => Ok (Some rid)
  | None =>
    let n := len data in
    scan_suffixes strict_filter data clk (suffix_starts n)
  end.

(** What [_process_wifi_pdu] hands to [_handle_remote_id]: the record and the
    [method] string.  The frame counters and the log are left out: no
    emission depends on them.  An escaping exception is caught by the packet
    thread, which emits nothing. *)
Definition emission : Type := (RemoteIDData * string)%type.

Definition _process_wifi_pdu (packet_bytes : bytes) (clk : clock)
  : result (option emission) :=
  beacon_info <- parse_beacon_frame packet_bytes ;;
  match beacon_info with
  | Some bi =>
    remote_id <- extract_remote_id bi (clk 0) ;;
    match remote_id with
    | Some rid =>
      if opt_str_truthy (uas_id rid) then Ok (Some (rid, "wifi_beacon"))
      else Ok None
    | None => Ok None
    end
  | None =>
    beacon_body <- parse_beacon_body packet_bytes ;;
    let scan (clk' : clock) : result (option emission) :=
      rid <- _try_decode_from_bytes packet_bytes clk' ;;
      match rid with
      | Some rid =>
        if opt_str_truthy (uas_id rid) || has_location rid
        then Ok (Some (rid, "wifi_action_nan"))
        else Ok None
      | None => Ok None
      end in
    match beacon_body with
    | Some bb =>
      remote_id <- extract_remote_id bb (clk 0) ;;
      match remote_id with
      | Some rid =>
        if opt_str_truthy (uas_id rid) || has_location rid
        then Ok (Some (rid, "wifi_beacon_body"))
        else scan (fun k => clk (k + 1))
      | None => scan (fun k => clk (k + 1))
      end
    | None => scan clk
    end
  end.

End WiFiSystem.

(* ================================================================== *)
(** * [src/ble_scanner.py] *)
(* ================================================================== *)

Module BLE.

Definition suffix_starts (n : Z) : list Z := py_range (Z.max 0 (n - 64)).

Definition _try_decode (data : bytes) (clk : clock) : result (option RemoteIDData) :=
  r <- attempt strict_filter data (clk 0) ;;
  match r with
  | Some rid => Ok (Some rid)
  | None =>
    let n := len data in
    scan_suffixes strict_filter data clk (suffix_starts n)
  end.

(** [_handle_adv]: the records handed to [_publish] for one advertisement,
    given the values of its [service_data] and [manufacturer_data]
    dictionaries.  [clks k] supplies the clock readings of the scan of the
    [k]-th candidate. *)
Fixpoint publish_all (candidates : list bytes) (clks : nat -> clock) (k : nat)
  : result (list RemoteIDData) :=
  match candidates with
  | [] => Ok []
  | payload :: rest =>
    rid <- _try_decode payload (clks k) ;;
    published <- publish_all rest clks (S k) ;;
    match rid with
    | Some r => Ok (r :: published)
    | None => Ok published
    end
  end.

Definition _handle_adv (service_data manufacturer_data : list bytes)
    (clks : nat -> clock) : result (list RemoteIDData) :=
  let candidates :=
    filter (fun v => len v >=? 5) service_data
    ++ filter (fun v => len v >=? 5) manufacturer_data in
  publish_all candidates clks 0.

End BLE.

(* ================================================================== *)
(** * [main_gnuradio_wifi.py]: the channel plan parsed by [main] *)
(* ================================================================== *)

Module ChannelPlan.

Definition is_digit (a : ascii) : bool :=
  let c := int_of_ascii a in (48 <=? c) && (c <=? 57).

(** Digits of a decimal literal as [int(str)] accepts them: a single
    underscore may separate two digits. *)
Fixpoint parse_digits (acc : Z) (after_digit : bool) (s : string) : option Z :=
  match s with
  | EmptyString => if after_digit then Some acc else None
  | String a t =>
    if is_digit a then parse_digits (10 * acc + (int_of_ascii a - 48)) true t
    else if Ascii.eqb a "_" && after_digit then parse_digits acc false t
    else None
  end.

(** [int(s)] for a string: surrounding white space, an optional sign, then
    decimal digits; anything else raises [ValueError]. *)
Definition int_of_str (s : string) : result Z :=
  let s := strip s in
  let signed :=
    match s with
    | String "-" t => (true, t)
    | String "+" t => (false, t)
    | _ => (false, s)
    end in
  match parse_digits 0 false (snd signed) with
  | Some v => Ok (if fst signed then - v else v)
  | None => Raise ValueError
  end.

(** [s.split(sep)] for a one-character separator. *)
Fixpoint split (sep : ascii) (s : string) : list string :=
  match s with
  | EmptyString => [EmptyString]
  | String a t =>
    if Ascii.eqb a sep then EmptyString :: split sep t
    else
      match split sep t with
      | [] => [String a EmptyString]
      | h :: r => String a h :: r
      end
  end.

(** [a, b = s.split(sep, 1)] when [sep in s]: the text before and after the
    first separator. *)
Fixpoint split_once (sep : ascii) (s : string) : string * string :=
  match s with
  | EmptyString => (EmptyString, EmptyString)
  | String a t =>
    if Ascii.eqb a sep then (EmptyString, t)
    else let '(h, r) := split_once sep t in (String a h, r)
  end.

(** [c in s] for a character. *)
Fixpoint has_char (c : ascii) (s : string) : bool :=
  match s with
  | EmptyString => false
  | String a t => Ascii.eqb a c || has_char c t
  end.

(** [range(start, stop, step)] for a positive step. *)
Definition range_step (start stop step : Z) : list Z :=
  map (fun k => start + step * Z.of_nat k)
      (seq 0 (Z.to_nat ((stop - start + step - 1) / step))).

Definition ch_to_freq_2g (ch : Z) : result float :=
  f <- int_to_float (ch - 1) ;;
  Ok (2412e6 + 5e6 * f)%float.

Definition ch_to_freq_5g (ch : Z) : result float :=
  f <- int_to_float ch ;;
  Ok (5000e6 + 5e6 * f)%float.

(** The helpers append to the enclosing [channels_list]; here they take it
    and return it extended. *)
Fixpoint add_channels_2g (chs : list Z) (channels_list : list float)
  : result (list float) :=
  match chs with
  | [] => Ok channels_list
  | ch :: rest =>
    if (1 <=? ch) && (ch <=? 13) then
      f <- ch_to_freq_2g ch ;;
      add_channels_2g rest (channels_list ++ [f])
    else add_channels_2g rest channels_list
  end.

Definition add_range_2g (start stop : Z) (channels_list : list float)
  : result (list float) :=
  add_channels_2g (range_step start (stop + 1) 1) channels_list.

Fixpoint add_list_5g (lst : list Z) (channels_list : list float)
  : result (list float) :=
  match lst with
  | [] => Ok channels_list
  | c :: rest =>
    f <- ch_to_freq_5g c ;;
    add_list_5g rest (channels_list ++ [f])
  end.

Definition common_5g : list Z := [36; 40; 44; 48; 149; 153; 157; 161].

(** [for tok in rng.split('/'): if tok: channels_list.append(f(int(tok)))] *)
Fixpoint add_tokens (to_freq : Z -> result float) (toks : list string)
    (channels_list : list float) : result (list float) :=
  match toks with
  | [] => Ok channels_list
  | tok :: rest =>
    if str_truthy tok then
      c <- int_of_str tok ;;
      f <- to_freq c ;;
      add_tokens to_freq rest (channels_list ++ [f])
    else add_tokens to_freq rest channels_list
  end.

(** [s[3:]] *)
Definition drop3 (s : string) : string :=
  string_of_list_ascii (slice_from (list_ascii_of_string s) 3).

(** The body of [for p in parts]. *)
Definition add_part (p : string) (channels_list : list float)
  : result (list float) :=
  if startswith "2g:" p then
    let rng := drop3 p in
    if has_char "-" rng then
      let '(a, b) := split_once "-" rng in
      a <- int_of_str a ;;
      b <- int_of_str b ;;
      add_range_2g a b channels_list
    else add_tokens ch_to_freq_2g (split "/" rng) channels_list
  else if startswith "5g:" p then
    let rng := drop3 p in
    if String.eqb rng "common" then add_list_5g common_5g channels_list
    else if has_char "-" rng then
      let '(a, b) := split_once "-" rng in
      a <- int_of_str a ;;
      b <- int_of_str b ;;
      add_list_5g (range_step a (b + 1) 4) channels_list
    else add_tokens ch_to_freq_5g (split "/" rng) channels_list
  else
    c <- int_of_str p ;;
    f <- ch_to_freq_2g c ;;
    Ok (channels_list ++ [f]).

Fixpoint add_parts (parts : list string) (channels_list : list float)
  : result (list float) :=
  match parts with
  | [] => Ok channels_list
  | p :: rest =>
    channels_list <- add_part p channels_list ;;
    add_parts rest channels_list
  end.

(** [sorted(set(l))] on floats. *)
Fixpoint insert_sorted (x : float) (l : list float) : list float :=
  match l with
  | [] => [x]
  | y :: t =>
    if PrimFloat.eqb x y then l
    else if PrimFloat.ltb x y then x :: l
    else y :: insert_sorted x t
  end.

Definition sorted_set (l : list float) : list float :=
  fold_right insert_sorted [] l.

Definition default_channels : list float := [2412e6; 2437e6; 2462e6]%float.

(** The frequency list [main] builds from [--scan-channels]. *)
Definition parse_scan_channels (scan_channels : string) : result (list float) :=
  let channels_arg := lower (strip scan_channels) in
  if str_truthy channels_arg then
    let attempt : result (list float) :=
      if String.eqb channels_arg "all" then
        channels_list <- add_range_2g 1 13 [] ;;
        add_list_5g common_5g channels_list
      else
        let parts :=
          filter str_truthy (map strip (split "," channels_arg)) in
        channels_list <- add_parts parts [] ;;
        Ok (sorted_set channels_list) in
    match attempt with
    | Raise _ => Ok default_channels
    | r => r
    end
  else Ok [].

End ChannelPlan.

(* ================================================================== *)
(** * [src/preprocessing.py]: the band-pass step *)
(* ================================================================== *)

Module Preprocessing.

Inductive log_record : Type :=
| LogWarning (low_freq high_freq : float)
| LogDebug (low_freq high_freq : float) (order : Z).

(** [x / y] on floats. *)
Definition float_div (x y : float) : result float :=
  if PrimFloat.eqb y 0%float then Raise ZeroDivisionError else Ok (x / y)%float.

Section BandPass.

(** NumPy arrays and the SciPy filter design are external; the step is
    modelled over them. *)
Variable ndarray : Type.
Variable sos : Type.
Variable np_real np_imag : ndarray -> ndarray.
(** [i + 1j * q] *)
Variable np_complex : ndarray -> ndarray -> ndarray.
(** [signal.butter(order, [low, high], btype='band', output='sos')] *)
Variable butter_band : Z -> float -> float -> result sos.
Variable sosfilt : sos -> ndarray -> ndarray.

Definition bandpass_filter (sample_rate : float) (iq_samples : ndarray)
    (low_freq high_freq : float) (order : Z)
  : result (ndarray * list log_record) :=
  let nyquist := (sample_rate / 2.0)%float in
  low <- float_div low_freq nyquist ;;
  high <- float_div high_freq nyquist ;;
  if PrimFloat.leb low 0%float || PrimFloat.leb 1%float high then
    Ok (iq_samples, [LogWarning low_freq high_freq])
  else
    s <- butter_band order low high ;;
    let i_filtered := sosfilt s (np_real iq_samples) in
    let q_filtered := sosfilt s (np_imag iq_samples) in
    let filtered := np_complex i_filtered q_filtered in
    Ok (filtered, [LogDebug low_freq high_freq order]).

End BandPass.

End Preprocessing.

(* ================================================================== *)
(** * [src/data_fusion.py]: threat assessment *)
(* ================================================================== *)

Module Fusion.

(** The dictionaries [_assess_threat] reads.  A field is [None] when the
    key is missing; [fuse_detection_data] stores [float(...)] under every
    numeric key it sets.  [pos_other_keys] tells whether the position
    holds a key besides the three read here ([altitude_msl], [height]). *)
Record PositionDict : Type := mkPosition {
  pos_latitude : option float;
  pos_longitude : option float;
  pos_altitude_agl : option float;
  pos_other_keys : bool
}.

(** The truth value of [position]: [None] and the empty dictionary are
    false, a dictionary with a key is true. *)
Definition position_truthy (position : option PositionDict) : bool :=
  match position with
  | None => false
  | Some p =>
    is_some (pos_latitude p) || is_some (pos_longitude p)
    || is_some (pos_altitude_agl p) || pos_other_keys p
  end.

Record VelocityDict : Type := mkVelocity {
  vel_speed : option float
}.

Record OperatorDict : Type := mkOperator {
  op_distance_to_uas_m : option float
}.

(** [remote_id]: the empty dictionary, or one with (some of) its keys. *)
Inductive RemoteIdDict : Type :=
| EmptyDict
| Dict (uas_id : option string) (position : option PositionDict)
       (velocity : option VelocityDict) (operator : option OperatorDict).

Definition get_uas_id (d : RemoteIdDict) : option string :=
  match d with Dict u _ _ _ => u | EmptyDict => None end.
Definition get_position (d : RemoteIdDict) : option PositionDict :=
  match d with Dict _ p _ _ => p | EmptyDict => None end.
Definition get_velocity (d : RemoteIdDict) : option VelocityDict :=
  match d with Dict _ _ v _ => v | EmptyDict => None end.
Definition get_operator (d : RemoteIdDict) : option OperatorDict :=
  match d with Dict _ _ _ o => o | EmptyDict => None end.

Definition dict_truthy (d : RemoteIdDict) : bool :=
  match d with EmptyDict => false | Dict _ _ _ _ => true end.

Record Zone : Type := mkZone {
  zone_name : string;
  center_lat : float;
  center_lon : float;
  radius_km : float
}.

Definition RESTRICTED_ZONES : list Zone :=
  [ mkZone "Zone militaire exemple" 12.3714 (-1.5197) 5.0;
    mkZone "Aéroport Ouagadougou" 12.3532 (-1.5124) 10.0 ]%float.

Record Thresholds : Type := mkThresholds {
  altitude_agl_limit_m : float;
  speed_limit_mps : float;
  operator_distance_limit_m : float
}.

(** The defaults [__init__] falls back to. *)
Definition default_thresholds : Thresholds := mkThresholds 120 20 5000.

Inductive level : Type := HIGH | MEDIUM | LOW.

(** The reason strings; the two formatted ones carry the number they
    print. *)
Inductive reason : Type :=
| NoRemoteID
| RemoteIDAvailable
| InRestrictedZone
| HighAltitude (altitude_agl : float)
| HighSpeed (speed : float)
| OperatorFar
| ClassificationUncertain
| NoAnomaly.

Inductive fusion_exn : Type := KeyError.

Section Threat.

(** NumPy's elementary functions are external; [np_square x] is
    [x ** 2]. *)
Variable np_radians np_sin np_cos np_sqrt np_square : float -> float.
Variable np_arctan2 : float -> float -> float.

Variable restricted_zones : list Zone.
Variable threat_thresholds : Thresholds.

Definition _calculate_distance (lat1 lon1 lat2 lon2 : float) : float :=
  let R := float_of_int 6371000 in
  let lat1_rad := np_radians lat1 in
  let lat2_rad := np_radians lat2 in
  let dlat := np_radians (lat2 - lat1)%float in
  let dlon := np_radians (lon2 - lon1)%float in
  let a := (np_square (np_sin (dlat / 2)) +
            np_cos lat1_rad * np_cos lat2_rad
            * np_square (np_sin (dlon / 2)))%float in
  let c := (2 * np_arctan2 (np_sqrt a) (np_sqrt (1 - a)))%float in
  (R * c)%float.

Definition in_zone (lat lon : float) (zone : Zone) : bool :=
  PrimFloat.leb (_calculate_distance lat lon (center_lat zone) (center_lon zone))
                (radius_km zone * 1000)%float.

Definition _check_restricted_zone (position : option PositionDict) : bool :=
  match position with
  | None => false
  | Some p =>
    if negb (position_truthy position)
       || negb (opt_float_truthy (pos_latitude p))
       || negb (opt_float_truthy (pos_longitude p))
    then false
    else
      match pos_latitude p, pos_longitude p with
      | Some lat, Some lon => existsb (in_zone lat lon) restricted_zones
      | _, _ => false
      end
  end.

(** [d.get(k, 0)] for a numeric key. *)
Definition get0 (o : option float) : float :=
  match o with Some f => f | None => 0%float end.

(** The running [score] and [reasons] of [_assess_threat]. *)
Definition acc : Type := (Z * list reason)%type.

Definition bump (points : Z) (why : reason) (a : acc) : acc :=
  (fst a + points, snd a ++ [why]).

Definition step_remote_id (remote_id : RemoteIdDict) (a : acc) : acc :=
  if negb (dict_truthy remote_id) then bump 20 NoRemoteID a
  else if opt_str_truthy (get_uas_id remote_id) then bump (-10) RemoteIDAvailable a
  else a.

Definition step_zone (position : option PositionDict) (a : acc) : acc :=
  if position_truthy position && _check_restricted_zone position
  then bump 50 InRestrictedZone a else a.

(** [if position and position.get('altitude_agl', 0) > limit]: the
    altitude is read only from a position that is true, so the empty
    dictionary is passed over like [None]. *)
Definition step_altitude (position : option PositionDict) (a : acc)
  : fusion_exn + acc :=
  match position with
  | Some p =>
    if position_truthy position
       && PrimFloat.ltb (altitude_agl_limit_m threat_thresholds)
                        (get0 (pos_altitude_agl p))
    then
      match pos_altitude_agl p with
      | Some agl => inr (bump 20 (HighAltitude agl) a)
      | None => inl KeyError
      end
    else inr a
  | None => inr a
  end.

Definition step_speed (velocity : option VelocityDict) (a : acc)
  : fusion_exn + acc :=
  let speed := match velocity with Some v => vel_speed v | None => None end in
  if PrimFloat.ltb (speed_limit_mps threat_thresholds) (get0 speed) then
    match speed with
    | Some s => inr (bump 10 (HighSpeed s) a)
    | None => inl KeyError
    end
  else inr a.

Definition step_operator (operator : option OperatorDict) (a : acc) : acc :=
  let d := match operator with
           | Some o => op_distance_to_uas_m o
           | None => None
           end in
  if PrimFloat.ltb (operator_distance_limit_m threat_thresholds) (get0 d)
  then bump 15 OperatorFar a else a.

Definition step_classification (is_valid : bool) (a : acc) : acc :=
  if negb is_valid then bump 10 ClassificationUncertain a else a.

(** The score and reasons accumulated before the level is chosen. *)
Definition threat_score (remote_id : RemoteIdDict) (is_valid : bool)
  : fusion_exn + acc :=
  let a := step_remote_id remote_id (0, []) in
  let position := get_position remote_id in
  let a := step_zone position a in
  match step_altitude position a with
  | inl e => inl e
  | inr a =>
    match step_speed (get_velocity remote_id) a with
    | inl e => inl e
    | inr a =>
      let a := step_operator (get_operator remote_id) a in
      inr (step_classification is_valid a)
    end
  end.

Definition level_of (score : Z) : level :=
  if score >=? 50 then HIGH
  else if score >=? 20 then MEDIUM
  else LOW.

(** [classification.get('is_valid')] is passed as [is_valid]. *)
Definition _assess_threat (remote_id : RemoteIdDict) (is_valid : bool)
  : fusion_exn + (level * list reason) :=
  match threat_score remote_id is_valid with
  | inl e => inl e
  | inr (score, reasons) =>
    let level := level_of score in
    let reasons := match reasons with [] => [NoAnomaly] | _ => reasons end in
    inr (level, reasons)
  end.

End Threat.

End Fusion.


(* ================================================================== *)
(** * Notions used to state the properties *)
(* ================================================================== *)

Module Spec.

(** A turn of the message loop moves the offset forward or leaves the
    loop. *)
Definition advances (offset : Z) (fl : flow) : Prop :=
  match fl with
  | Next offset' _ => offset < offset'
  | Break _ => True
  end.

Definition flow_map (f : RemoteIDData -> RemoteIDData) (fl : flow) : flow :=
  match fl with
  | Next offset r => Next offset (f r)
  | Break r => Break (f r)
  end.

(** [returns m Q]: if [m] returns a value, the value satisfies [Q]. *)
Definition returns {A : Type} (m : result A) (Q : A -> Prop) : Prop :=
  match m with
  | Ok a => Q a
  | _ => True
  end.

Definition flow_record (fl : flow) : RemoteIDData :=
  match fl with
  | Next _ r => r
  | Break r => r
  end.

(** ** The emission invariant *)

Definition recognized_types : list string :=
  [ "Serial Number"; "CAA Registration ID"; "UTM UUID"; "Specific Session ID" ].

Definition printable_text (s : string) : Prop :=
  Forall (fun ch => 32 <= int_of_ascii ch <= 126) (list_ascii_of_string s).

(** (a) a recognised identifier type and a printable identifier of 6 to 32
    characters *)
Definition valid_identifier (r : RemoteIDData) : Prop :=
  exists t u,
    uas_id_type r = Some t /\ In t recognized_types
    /\ uas_id r = Some u /\ 6 <= str_len u <= 32 /\ printable_text u.

(** (b) latitude and longitude both present and non-zero *)
Definition position_present (r : RemoteIDData) : Prop :=
  exists lat lon,
    latitude r = Some lat /\ longitude r = Some lon
    /\ float_truthy lat = true /\ float_truthy lon = true.

Definition pattern_types : list string := map fst AUTHENTIC_PATTERNS.

Definition pattern_label (ptype : string) : string :=
  String.append "Pattern Detection (" (String.append ptype ")").

(** (c) the record comes from a pattern match *)
Definition pattern_provenance (r : RemoteIDData) : Prop :=
  exists ptype, In ptype pattern_types /\ uas_id_type r = Some (pattern_label ptype).

Definition emission_invariant (r : RemoteIDData) : Prop :=
  valid_identifier r \/ position_present r \/ pattern_provenance r.

(** ** What every record built by the decoder satisfies *)

Definition decoder_types : list string :=
  map snd ID_TYPES ++ ["Unknown"] ++ map pattern_label pattern_types.

Definition decoder_record (r : RemoteIDData) : Prop :=
  (forall t, uas_id_type r = Some t -> In t decoder_types)
  /\ (forall f, latitude r = Some f -> float_truthy f = true)
  /\ (forall f, longitude r = Some f -> float_truthy f = true).

(** ** Inputs of the literal scenarios *)

(** Scenario A: Basic-ID, Serial Number, ["DJI-TEST-001"] padded to 20
    bytes. *)
Definition scenario_A : bytes :=
  [x00; x01] ++ bytes_of_string "DJI-TEST-001" ++ repeat x00 8.

(** Scenario B: the Location/Vector message with latitude 123585000,
    longitude -15352000, altitude 241 and height 90 in little-endian
    order, followed by its five reserved bytes. *)
Definition scenario_B : bytes :=
  [x01; x01; x57; x31; x05;
   xe8; xc1; x5d; x07;
   x40; xbf; x15; xff;
   xf1; x00;
   x5a; x00;
   x00; x00; x00; x00; x00].

(** A Location/Vector message with direction, speed, vertical speed and
    altitude all set to their sentinels. *)
Definition location_unknown : bytes :=
  [x01; x01; xff; xff; x7f;
   xe8; xc1; x5d; x07;
   x40; xbf; x15; xff;
   x18; xfc;
   x5a; x00;
   x00; x00; x00; x00; x00; x00; x00].

(** A Basic-ID message of unknown type whose identifier is no text. *)
Definition unknown_basic_id : bytes := [x00; x09] ++ repeat xff 20.

(** Scenario A behind one stray byte and followed by filler, 150 bytes in
    all: only the suffix starting at position 1 decodes to an acceptable
    record. *)
Definition shifted_150 : bytes := x00 :: scenario_A ++ repeat xff 127.

(** The same with 90 bytes in all. *)
Definition shifted_90 : bytes := x00 :: scenario_A ++ repeat xff 67.

(** A Basic-ID of unknown type, then the text [MAVIC], then filler, 150
    bytes in all: the suffix starting at position 1 decodes to a
    pattern-detection record. *)
Definition pattern_behind_150 : bytes :=
  unknown_basic_id ++ bytes_of_string "MAVIC" ++ repeat xff 123.

(** The record decoded from Scenario A when the clock reads [now]. *)
Definition scenario_A_record (now : float) : RemoteIDData :=
  set_uas_id (Some "DJI-TEST-001")
    (set_uas_id_type (Some "Serial Number")
       (set_timestamp (Some now) new_RemoteIDData)).

(** A beacon frame (zeroed header) whose only element is an OpenDroneID
    vendor element carrying [unknown_basic_id]. *)
Definition beacon_unknown : bytes :=
  repeat x00 36 ++ [xdd; x1a; xfa; x0b; xbc; x0d] ++ unknown_basic_id.

(** A clock whose [k]-th reading is [k]. *)
Definition counting_clock : clock := fun k => float_of_int k.

(** [fmap] under the [Optional] a decoder returns. *)
Definition on_record (f : RemoteIDData -> RemoteIDData)
    (m : result (option RemoteIDData)) : result (option RemoteIDData) :=
  fmap (option_map f) m.

(** ** Stand-ins for the external numeric libraries

    Used only to run the models on concrete inputs; every general statement
    quantifies over the library functions instead. *)

Module Toy.

(** Complex samples as pairs; a real array has zero imaginary parts. *)
Definition ndarray : Type := list (float * float).
Definition sos : Type := (float * float)%type.

Definition np_real (x : ndarray) : ndarray :=
  map (fun c => (fst c, 0%float)) x.
Definition np_imag (x : ndarray) : ndarray :=
  map (fun c => (snd c, 0%float)) x.
Definition np_complex (i q : ndarray) : ndarray :=
  map (fun p => (fst (fst p), fst (snd p))) (combine i q).

(** Like SciPy, the design refuses band edges that do not increase. *)
Definition butter_band (order : Z) (low high : float) : result sos :=
  if PrimFloat.ltb low high then Ok (low, high) else Raise ValueError.

Definition sosfilt (s : sos) (x : ndarray) : ndarray :=
  map (fun c => ((snd s - fst s) * fst c, 0)%float) x.

(** Small-angle versions of the elementary functions. *)
Definition np_radians (x : float) : float := (x * 0.017453292519943295)%float.
Definition np_sin (x : float) : float := (x - x * x * x / 6)%float.
Definition np_cos (x : float) : float := (1 - x * x / 2)%float.
Definition np_sqrt (x : float) : float := PrimFloat.sqrt x.
Definition np_square (x : float) : float := (x * x)%float.
Definition np_arctan2 (y x : float) : float := (y / x)%float.

End Toy.

(** ** Threat assessment *)

(** Points a rule contributes when its condition holds. *)
Definition points (condition : bool) (p : Z) : Z := if condition then p else 0.

Definition speed_of (d : Fusion.RemoteIdDict) : float :=
  Fusion.get0 match Fusion.get_velocity d with
              | Some v => Fusion.vel_speed v
              | None => None
              end.

Definition height_agl_of (d : Fusion.RemoteIdDict) : float :=
  Fusion.get0 match Fusion.get_position d with
              | Some p => Fusion.pos_altitude_agl p
              | None => None
              end.

Definition operator_distance_of (d : Fusion.RemoteIdDict) : float :=
  Fusion.get0 match Fusion.get_operator d with
              | Some o => Fusion.op_distance_to_uas_m o
              | None => None
              end.

(** The haversine distance in metres between two points given in degrees,
    on a sphere of radius 6 371 000 m, over the elementary functions of
    the numeric library:
    [a = sin^2 (dphi / 2) + cos phi1 * cos phi2 * sin^2 (dlambda / 2)],
    [c = 2 * atan2 (sqrt a, sqrt (1 - a))], [d = R * c]. *)
Section Haversine.

Variable radians sin cos sqrt square : float -> float.
Variable atan2 : float -> float -> float.

Definition earth_radius_m : float := float_of_int 6371000.

Definition haversine (lat1 lon1 lat2 lon2 : float) : float :=
  let phi1 := radians lat1 in
  let phi2 := radians lat2 in
  let dphi := radians (lat2 - lat1)%float in
  let dlambda := radians (lon2 - lon1)%float in
  let a := (square (sin (dphi / 2))
            + cos phi1 * cos phi2 * square (sin (dlambda / 2)))%float in
  let c := (2 * atan2 (sqrt a) (sqrt (1 - a)))%float in
  (earth_radius_m * c)%float.

End Haversine.

(** The record of Scenario E at a given position. *)
Definition scenario_E (lat lon : float) : Fusion.RemoteIdDict :=
  Fusion.Dict (Some "1FFJX8K3QH000001")
    (Some (Fusion.mkPosition (Some lat) (Some lon) (Some 200%float) false))
    (Some (Fusion.mkVelocity (Some 25%float)))
    (Some (Fusion.mkOperator (Some 6000%float))).

End Spec.

Import Spec.

(* ================================================================== *)
(** * Further code: dictionaries, fusion, publication, the running system

    The modules below embed the code around the functions modelled so far:

    - [Dyn]            dictionaries whose keys may be missing or hold
                       [None], and the exceptions reading them raises;
    - [ToDict]         [RemoteIDData.to_dict];
    - [Demodulation]   [detect_and_decode_remote_id];
    - [FusionPipeline] [src/data_fusion.py] ([fuse_detection_data] and its
                       helpers);
    - [Mqtt]           [src/mqtt_publisher.py];
    - [GnuRadio]       [main_gnuradio_wifi.py] (frame statistics, channel
                       hopping, device arguments, hand-over to MQTT);
    - [BlePublish]     [src/ble_scanner.py] ([_publish]).

    A dictionary whose keys are fixed by the code is a record with one
    field per key; a dictionary that is only looked up and serialised is
    the JSON value it is.  NumPy, [json.dumps], the MQTT client and the
    clock are external and appear as section variables. *)
(* ================================================================== *)

(* ================================================================== *)
(** * Dictionaries with optional keys and values *)
(* ================================================================== *)

Module Dyn.

(** The exceptions the dictionary-handling code can raise. *)
Inductive error : Type :=
| TypeError
| KeyError (key : string)
| AttributeError
| ZeroDivisionError
| OverflowError
| ValueError.

Definition outcome (A : Type) : Type := (error + A)%type.

Definition obind {A B : Type} (m : outcome A) (k : A -> outcome B) : outcome B :=
  match m with
  | inl e => inl e
  | inr a => k a
  end.

Declare Scope dyn_scope.
Delimit Scope dyn_scope with dyn.
Notation "x <~ m ;; k" := (obind m (fun x => k))
  (at level 61, m at next level, right associativity) : dyn_scope.

(** What a dictionary holds under a key: nothing, [None], or a value. *)
Inductive entry (A : Type) : Type :=
| Missing
| Null
| Val (a : A).

Arguments Missing {A}.
Arguments Null {A}.
Arguments Val {A} a.

(** [d.get(k)] *)
Definition get {A : Type} (e : entry A) : option A :=
  match e with
  | Val a => Some a
  | _ => None
  end.

(** [d.get(k, default)]: the default replaces a missing key only. *)
Definition get_or {A : Type} (default : A) (e : entry A) : option A :=
  match e with
  | Missing => Some default
  | Null => None
  | Val a => Some a
  end.

(** [d[k]] *)
Definition item {A : Type} (key : string) (e : entry A) : outcome (option A) :=
  match e with
  | Missing => inl (KeyError key)
  | Null => inr None
  | Val a => inr (Some a)
  end.

(** [self.f] stored under a key: the key is always there. *)
Definition of_option {A : Type} (o : option A) : entry A :=
  match o with
  | Some a => Val a
  | None => Null
  end.

Definition is_missing {A : Type} (e : entry A) : bool :=
  match e with Missing => true | _ => false end.

(** [float(x)] and arithmetic on a number that may be [None]. *)
Definition number (x : option float) : outcome float :=
  match x with
  | Some f => inr f
  | None => inl TypeError
  end.

(** [x.get(...)] on a sub-dictionary fetched with [d.get(k, {})]: [None] has
    no [get]. *)
Definition as_dict {A : Type} (empty : A) (e : entry A) : outcome A :=
  match e with
  | Missing => inr empty
  | Null => inl AttributeError
  | Val a => inr a
  end.

End Dyn.
(* ================================================================== *)
(** * [src/remote_id_decoder.py]: [RemoteIDData.to_dict] *)
(* ================================================================== *)

Module ToDict.

Import Dyn.

(** The nested dictionaries of [to_dict], one record per dictionary and one
    field per key.  The same shapes are what [fuse_detection_data] reads
    from its [remote_id_data] argument, where keys may also be missing. *)
Record PositionD : Type := mkPositionD {
  pd_latitude : entry float;
  pd_longitude : entry float;
  pd_altitude_msl : entry float;
  pd_altitude_agl : entry float;
  pd_height : entry float
}.

Record VelocityD : Type := mkVelocityD {
  vd_speed : entry float;
  vd_direction : entry float;
  vd_vertical_speed : entry float
}.

Record OperatorD : Type := mkOperatorD {
  od_latitude : entry float;
  od_longitude : entry float;
  od_altitude : entry float;
  od_id : entry string
}.

Record AuthD : Type := mkAuthD {
  ad_type : entry Z;
  ad_page_index : entry Z;
  ad_last_page_index : entry Z;
  ad_payload_hex : entry string
}.

Record SystemD : Type := mkSystemD {
  sd_category : entry Z;
  sd_eu_class : entry Z;
  sd_operator_location_type : entry Z
}.

Record RidDict : Type := mkRidDict {
  rd_uas_id : entry string;
  rd_uas_id_type : entry string;
  rd_position : entry PositionD;
  rd_velocity : entry VelocityD;
  rd_operator : entry OperatorD;
  rd_timestamp : entry float;
  rd_status : entry string;
  rd_classification : entry string;
  rd_self_id : entry string;
  rd_auth : entry AuthD;
  rd_system : entry SystemD
}.

Definition to_dict (self : RemoteIDData) : RidDict :=
  mkRidDict
    (of_option (uas_id self))
    (of_option (uas_id_type self))
    (Val (mkPositionD
            (of_option (latitude self))
            (of_option (longitude self))
            (of_option (altitude_msl self))
            (of_option (altitude_agl self))
            (of_option (height self))))
    (Val (mkVelocityD
            (of_option (speed self))
            (of_option (direction self))
            (of_option (vertical_speed self))))
    (Val (mkOperatorD
            (of_option (operator_latitude self))
            (of_option (operator_longitude self))
            (of_option (operator_altitude self))
            (of_option (operator_id self))))
    (of_option (timestamp self))
    (of_option (status self))
    (of_option (classification self))
    (of_option (self_id_text self))
    (Val (mkAuthD
            (of_option (auth_type self))
            (of_option (auth_page_index self))
            (of_option (auth_last_page_index self))
            (of_option (option_map hex_upper (auth_payload self)))))
    (Val (mkSystemD
            (of_option (system_category self))
            (of_option (system_eu_class self))
            (of_option (system_operator_location_type self)))).

(** The dictionaries with no key at all. *)
Definition empty_position : PositionD :=
  mkPositionD Missing Missing Missing Missing Missing.
Definition empty_velocity : VelocityD := mkVelocityD Missing Missing Missing.
Definition empty_operator : OperatorD :=
  mkOperatorD Missing Missing Missing Missing.

(** Truth value of a dictionary: false when it is empty. *)
Definition rid_truthy (d : RidDict) : bool :=
  negb (is_missing (rd_uas_id d) && is_missing (rd_uas_id_type d)
        && is_missing (rd_position d) && is_missing (rd_velocity d)
        && is_missing (rd_operator d) && is_missing (rd_timestamp d)
        && is_missing (rd_status d) && is_missing (rd_classification d)
        && is_missing (rd_self_id d) && is_missing (rd_auth d)
        && is_missing (rd_system d)).

End ToDict.

(* ================================================================== *)
(** * [src/remote_id_decoder.py]: the demodulation entry point *)
(* ================================================================== *)

Module Demodulation.

Section Samples.

(** The I/Q samples are never looked at. *)
Variable ndarray : Type.

(** [demodulate_wifi_beacon]: the placeholder returns [None]. *)
Definition demodulate_wifi_beacon (iq_samples : ndarray) : option bytes := None.

Definition detect_and_decode_remote_id (iq_samples : ndarray) (now : float)
  : result (option RemoteIDData) :=
  match demodulate_wifi_beacon iq_samples with
  | None => Ok None
  | Some frame_bytes =>
    beacon_info <- parse_beacon_frame frame_bytes ;;
    match beacon_info with
    | None => Ok None
    | Some beacon_info => extract_remote_id beacon_info now
    end
  end.

End Samples.

End Demodulation.
(* ================================================================== *)
(** * [src/data_fusion.py]: [fuse_detection_data] and its helpers *)
(* ================================================================== *)

Module FusionPipeline.

Import Fusion.
Import Dyn ToDict.
#[local] Open Scope dyn_scope.

(** ** The dictionaries read *)

(** [detection_features['spectral_features']] *)
Record SpectralD : Type := mkSpectralD {
  sp_bandwidth : entry float;
  sp_peak_power_db : entry float
}.

Definition empty_spectral : SpectralD := mkSpectralD Missing Missing.

(** One burst: [(start, end, duration, power)], the first two being sample
    indices. *)
Definition Burst : Type := (Z * Z * float * float)%type.

Definition burst_start (b : Burst) : Z := fst (fst (fst b)).
Definition burst_end (b : Burst) : Z := snd (fst (fst b)).

(** [detection_features['bursts']] *)
Record BurstsD : Type := mkBurstsD {
  bu_count : entry Z;
  bu_bursts_list : entry (list Burst)
}.

Definition empty_bursts : BurstsD := mkBurstsD Missing Missing.

(** [detection_features]; its key [temporal_features] is fetched and never
    used. *)
Record FeaturesD : Type := mkFeaturesD {
  fe_spectral_features : entry SpectralD;
  fe_snr : entry float;
  fe_duration : entry float;
  fe_bursts : entry BurstsD;
  fe_sample_rate : entry float
}.

(** [classification_result] *)
Record ClassificationD : Type := mkClassificationD {
  cl_brand : entry string;
  cl_model : entry string;
  cl_protocol : entry string;
  cl_confidence : entry float;
  cl_method : entry string;
  cl_is_valid : entry bool;
  cl_top_predictions : entry (list (string * float))
}.

(** ** The dictionary built *)

Record BurstInfo : Type := mkBurstInfo {
  bi_count : Z;
  bi_avg_period_ms : float;
  bi_std_period_ms : float
}.

Record DetectionOut : Type := mkDetectionOut {
  de_frequency : float;
  de_frequency_mhz : float;
  de_bandwidth : float;
  de_bandwidth_mhz : float;
  de_snr : float;
  de_rssi_dbm : float;
  de_peak_power_db : float;
  de_signal_quality : string;
  de_duration_ms : float;
  de_burst_info : option BurstInfo
}.

Record ClassificationOut : Type := mkClassificationOut {
  co_brand : option string;
  co_model : option string;
  co_protocol : option string;
  co_confidence : float;
  co_method : option string;
  co_is_valid : option bool;
  co_top_predictions : option (list (string * float))
}.

Record PositionOut : Type := mkPositionOut {
  po_latitude : float;
  po_longitude : float;
  po_altitude_msl : float;
  po_altitude_agl : float;
  po_height : float
}.

Record VelocityOut : Type := mkVelocityOut {
  vo_speed : float;
  vo_speed_kmh : float;
  vo_direction : float;
  vo_vertical_speed : float
}.

Record OperatorOut : Type := mkOperatorOut {
  oo_latitude : float;
  oo_longitude : float;
  oo_altitude : float;
  oo_id : option string;
  oo_distance_to_uas_m : float
}.

(** [fusion_result['remote_id']] once [remote_id_data] was copied into it;
    before that, and for good when there is no Remote ID, it is the empty
    dictionary, [None] below. *)
Record RemoteIdOut : Type := mkRemoteIdOut {
  ro_uas_id : option string;
  ro_uas_id_type : option string;
  ro_position : option PositionOut;
  ro_velocity : option VelocityOut;
  ro_operator : option OperatorOut;
  ro_status : option string
}.

Record ThreatOut : Type := mkThreatOut {
  th_level : level;
  th_reasons : list reason;
  th_in_restricted_zone : bool
}.

Record MetadataOut : Type := mkMetadataOut {
  me_has_remote_id : bool;
  me_has_position : bool;
  me_has_operator_info : bool;
  me_detection_confidence : float;
  me_overall_quality : float
}.

(** [fusion_result]; the sections not assigned yet hold the empty
    dictionary they were created with, [None] below. *)
Record FusionResult : Type := mkFusionResult {
  fr_timestamp : string;
  fr_timestamp_unix : float;
  fr_detection : option DetectionOut;
  fr_classification : option ClassificationOut;
  fr_remote_id : option RemoteIdOut;
  fr_threat_assessment : option ThreatOut;
  fr_metadata : option MetadataOut
}.

(** Truth value of an optional value with its own truth value. *)
Definition truthy_float (o : option float) : bool := opt_float_truthy o.

Definition truthy_bool (o : option bool) : bool :=
  match o with Some b => b | None => false end.

Definition truthy_list {A : Type} (o : option (list A)) : bool :=
  match o with
  | Some (_ :: _) => true
  | _ => false
  end.

(** ** Helpers *)

(** [_estimate_rssi]: the peak power is not used. *)
Definition _estimate_rssi (peak_power_db snr : option float) : outcome float :=
  let noise_floor := float_of_int (-90) in
  snr <~ number snr ;;
  inr (noise_floor + snr)%float.

(** [_assess_signal_quality], on [features.get('snr', 0)]. *)
Definition _assess_signal_quality (snr : option float) : outcome string :=
  snr <~ number snr ;;
  if PrimFloat.leb 20 snr then inr "excellent"
  else if PrimFloat.leb 15 snr then inr "good"
  else if PrimFloat.leb 10 snr then inr "fair"
  else inr "poor".

(** [x / y] for an [int] [x] and a [float] [y]. *)
Definition int_div_float (x : Z) (y : float) : outcome float :=
  let fx := float_of_int x in
  if PrimFloat.is_infinity fx then inl OverflowError
  else if PrimFloat.eqb y 0%float then inl ZeroDivisionError
  else inr (fx / y)%float.

(** The loop [for i in range(1, len(bursts_list))], on the burst at [i - 1]
    and the bursts from [i] on. *)
Fixpoint burst_intervals (prev : Burst) (rest : list Burst)
    (sample_rate : option float) (intervals : list float)
  : outcome (list float) :=
  match rest with
  | [] => inr intervals
  | curr :: rest' =>
    let prev_end := burst_end prev in
    let curr_start := burst_start curr in
    sr <~ number sample_rate ;;
    interval <~ int_div_float (curr_start - prev_end) sr ;;
    burst_intervals curr rest' sample_rate (intervals ++ [interval])
  end.

Definition _compute_burst_intervals (bursts_list : list Burst)
    (sample_rate : option float) : outcome (list float) :=
  match bursts_list with
  | [] => inr []
  | first :: rest => burst_intervals first rest sample_rate []
  end.

(** [min(1.0, max(0, x))] as Python's [max] and [min] choose: the first
    argument stays unless the second is strictly beyond it. *)
Definition py_max0 (x : float) : float := if PrimFloat.ltb 0 x then x else 0%float.
Definition py_min1 (x : float) : float := if PrimFloat.ltb x 1 then x else 1%float.

(** [_compute_overall_quality], reading [fusion_result] as it stands when
    the call is made. *)
Definition _compute_overall_quality (fusion_result : FusionResult)
  : outcome float :=
  let quality := 0%float in
  confidence <~
    match fr_classification fusion_result with
    | Some c => inr (co_confidence c)
    | None => inl (KeyError "confidence")
    end ;;
  let quality := (quality + confidence * 0.4)%float in
  snr <~
    match fr_detection fusion_result with
    | Some d => inr (de_snr d)
    | None => inl (KeyError "snr")
    end ;;
  let snr_score := py_min1 (py_max0 ((snr - 5) / 20)%float) in
  let quality := (quality + snr_score * 0.3)%float in
  has_remote_id <~
    match fr_metadata fusion_result with
    | Some m => inr (me_has_remote_id m)
    | None => inl (KeyError "has_remote_id")
    end ;;
  let quality := if has_remote_id then (quality + 0.2)%float else quality in
  let is_valid :=
    truthy_bool match fr_classification fusion_result with
                | Some c => co_is_valid c
                | None => None
                end in
  let quality := if is_valid then (quality + 0.1)%float else quality in
  inr quality.

Section Fuse.

(** NumPy is external. *)
Variable np_radians np_sin np_cos np_sqrt np_square : float -> float.
Variable np_arctan2 : float -> float -> float.
Variable np_mean np_std : list float -> float.

Variable restricted_zones : list Zone.
Variable threat_thresholds : Thresholds.

(** What [_assess_threat] and [_check_restricted_zone] read of the
    dictionaries built here. *)
Definition position_view (p : PositionOut) : PositionDict :=
  mkPosition (Some (po_latitude p)) (Some (po_longitude p))
             (Some (po_altitude_agl p)) true.

Definition threat_view (remote_id : option RemoteIdOut) : RemoteIdDict :=
  match remote_id with
  | None => EmptyDict
  | Some r =>
    Dict (ro_uas_id r)
         (option_map position_view (ro_position r))
         (option_map (fun v => mkVelocity (Some (vo_speed v))) (ro_velocity r))
         (option_map (fun o => mkOperator (Some (oo_distance_to_uas_m o)))
                     (ro_operator r))
  end.

(** The only key [_assess_threat] can miss in such a dictionary is
    [velocity['speed']]: a position built here always has its
    [altitude_agl]. *)
Definition lift_threat {A : Type} (r : fusion_exn + A) : outcome A :=
  match r with
  | inl Fusion.KeyError => inl (Dyn.KeyError "speed")
  | inr a => inr a
  end.

(** The section [=== SECTION DETECTION ===]. *)
Definition detection_section (detection_features : FeaturesD)
    (center_freq : float) : outcome DetectionOut :=
  let frequency := center_freq in
  let frequency_mhz := (center_freq / 1e6)%float in
  spectral <~ as_dict empty_spectral (fe_spectral_features detection_features) ;;
  bandwidth <~ number (get_or 0%float (sp_bandwidth spectral)) ;;
  let bandwidth_mhz := (bandwidth / 1e6)%float in
  snr <~ number (get_or 0%float (fe_snr detection_features)) ;;
  rssi_dbm <~ _estimate_rssi
                (get_or (float_of_int (-100)) (sp_peak_power_db spectral))
                (get_or 0%float (fe_snr detection_features)) ;;
  peak_power_db <~ number (get_or (float_of_int (-100))
                                  (sp_peak_power_db spectral)) ;;
  signal_quality <~ _assess_signal_quality
                      (get_or 0%float (fe_snr detection_features)) ;;
  duration <~ number (get_or 0%float (fe_duration detection_features)) ;;
  let duration_ms := (duration * 1000)%float in
  let detection :=
    mkDetectionOut frequency frequency_mhz bandwidth bandwidth_mhz snr
      rssi_dbm peak_power_db signal_quality duration_ms None in
  bursts <~ as_dict empty_bursts (fe_bursts detection_features) ;;
  count <~ (match get_or 0 (bu_count bursts) with
            | Some c => inr c
            | None => inl TypeError
            end) ;;
  if count >? 0 then
    let bursts_list := get_or [] (bu_bursts_list bursts) in
    if truthy_list bursts_list then
      intervals <~ _compute_burst_intervals
                     match bursts_list with Some l => l | None => [] end
                     (get_or 25e6%float (fe_sample_rate detection_features)) ;;
      let avg_period_ms :=
        match intervals with
        | [] => 0%float
        | _ => (np_mean intervals * 1000)%float
        end in
      let std_period_ms :=
        if len intervals >? 1 then (np_std intervals * 1000)%float
        else 0%float in
      inr (mkDetectionOut frequency frequency_mhz bandwidth bandwidth_mhz snr
             rssi_dbm peak_power_db signal_quality duration_ms
             (Some (mkBurstInfo count avg_period_ms std_period_ms)))
    else inr detection
  else inr detection.

(** The section [=== SECTION CLASSIFICATION ===]. *)
Definition classification_section (classification_result : ClassificationD)
  : outcome ClassificationOut :=
  confidence <~ number (get_or 0%float (cl_confidence classification_result)) ;;
  let top_predictions := get (cl_top_predictions classification_result) in
  inr (mkClassificationOut
         (get_or "Unknown" (cl_brand classification_result))
         (get_or "Unknown" (cl_model classification_result))
         (get_or "Unknown" (cl_protocol classification_result))
         confidence
         (get_or "unknown" (cl_method classification_result))
         (get_or false (cl_is_valid classification_result))
         (if truthy_list top_predictions then top_predictions else None)).

(** The section [=== SECTION REMOTE ID ===]. *)
Definition remote_id_section (remote_id_data : option RidDict)
  : outcome (option RemoteIdOut) :=
  match remote_id_data with
  | None => inr None
  | Some d =>
    if negb (rid_truthy d) then inr None
    else
      let position := rd_position d in
      let uas_id := get (rd_uas_id d) in
      let uas_id_type := get (rd_uas_id_type d) in
      position <~ as_dict empty_position position ;;
      position_out <~
        (if truthy_float (get (pd_latitude position))
            && truthy_float (get (pd_longitude position))
         then
           latitude <~ number (get (pd_latitude position)) ;;
           longitude <~ number (get (pd_longitude position)) ;;
           altitude_msl <~ number (get_or 0%float (pd_altitude_msl position)) ;;
           altitude_agl <~ number (get_or 0%float (pd_altitude_agl position)) ;;
           height <~ number (get_or 0%float (pd_height position)) ;;
           inr (Some (mkPositionOut latitude longitude altitude_msl
                        altitude_agl height))
         else inr None) ;;
      velocity <~ as_dict empty_velocity (rd_velocity d) ;;
      velocity_out <~
        (match get (vd_speed velocity) with
         | Some _ =>
           speed <~ number (get (vd_speed velocity)) ;;
           let speed_kmh := (speed * 3.6)%float in
           direction <~ number (get_or 0%float (vd_direction velocity)) ;;
           vertical_speed <~
             number (get_or 0%float (vd_vertical_speed velocity)) ;;
           inr (Some (mkVelocityOut speed speed_kmh direction vertical_speed))
         | None => inr None
         end) ;;
      operator <~ as_dict empty_operator (rd_operator d) ;;
      operator_out <~
        (if truthy_float (get (od_latitude operator))
            && truthy_float (get (od_longitude operator))
         then
           latitude <~ number (get (od_latitude operator)) ;;
           longitude <~ number (get (od_longitude operator)) ;;
           altitude <~ number (get_or 0%float (od_altitude operator)) ;;
           let id := get (od_id operator) in
           drone_pos <~ (match position_out with
                         | Some p => inr p
                         | None => inl (KeyError "position")
                         end) ;;
           let distance :=
             _calculate_distance np_radians np_sin np_cos np_sqrt np_square
               np_arctan2 (po_latitude drone_pos) (po_longitude drone_pos)
               latitude longitude in
           inr (Some (mkOperatorOut latitude longitude altitude id distance))
         else inr None) ;;
      let status := get (rd_status d) in
      inr (Some (mkRemoteIdOut uas_id uas_id_type position_out velocity_out
                   operator_out status))
  end.

(** [now_iso] and [now_unix] are the two readings of [datetime.now()]. *)
Definition fuse_detection_data (detection_features : FeaturesD)
    (classification_result : ClassificationD)
    (remote_id_data : option RidDict) (center_freq : float)
    (now_iso : string) (now_unix : float) : outcome FusionResult :=
  let fusion_result :=
    mkFusionResult now_iso now_unix None None None None None in
  detection <~ detection_section detection_features center_freq ;;
  let fusion_result :=
    mkFusionResult now_iso now_unix (Some detection) None None None None in
  classification <~ classification_section classification_result ;;
  let fusion_result :=
    mkFusionResult now_iso now_unix (Some detection) (Some classification)
      None None None in
  remote_id <~ remote_id_section remote_id_data ;;
  let fusion_result :=
    mkFusionResult now_iso now_unix (Some detection) (Some classification)
      remote_id None None in
  assessed <~ lift_threat
                (_assess_threat np_radians np_sin np_cos np_sqrt np_square
                   np_arctan2 restricted_zones threat_thresholds
                   (threat_view remote_id)
                   (truthy_bool (co_is_valid classification))) ;;
  let '(threat_level, threat_reasons) := assessed in
  let in_restricted_zone :=
    _check_restricted_zone np_radians np_sin np_cos np_sqrt np_square
      np_arctan2 restricted_zones
      (option_map position_view
                  match remote_id with
                  | Some r => ro_position r
                  | None => None
                  end) in
  let fusion_result :=
    mkFusionResult now_iso now_unix (Some detection) (Some classification)
      remote_id
      (Some (mkThreatOut threat_level threat_reasons in_restricted_zone))
      None in
  let has_remote_id :=
    match remote_id_data with
    | Some d => rid_truthy d
    | None => false
    end in
  let has_position :=
    match remote_id with
    | Some r => is_some (ro_position r)
    | None => false
    end in
  let has_operator_info :=
    match remote_id with
    | Some r => is_some (ro_operator r)
    | None => false
    end in
  detection_confidence <~
    number (get_or 0%float (cl_confidence classification_result)) ;;
  overall_quality <~ _compute_overall_quality fusion_result ;;
  inr (mkFusionResult now_iso now_unix (Some detection) (Some classification)
         remote_id
         (Some (mkThreatOut threat_level threat_reasons in_restricted_zone))
         (Some (mkMetadataOut has_remote_id has_position has_operator_info
                  detection_confidence overall_quality))).

End Fuse.

End FusionPipeline.
(* ================================================================== *)
(** * [src/mqtt_publisher.py] *)
(* ================================================================== *)

Module Mqtt.

Import Dyn.
#[local] Open Scope dyn_scope.

(** ** The dictionaries handed to [json.dumps] *)

(** A detection is only looked up, tested and serialised, never computed
    with: it is kept as the JSON value it is. *)
#[local] Unset Elimination Schemes.

Inductive value : Type :=
| JNull
| JBool (b : bool)
| JInt (z : Z)
| JFloat (f : float)
| JStr (s : string)
| JList (l : list value)
| JDict (d : list (string * value)).

#[local] Set Elimination Schemes.

Fixpoint lookup (key : string) (d : list (string * value)) : option value :=
  match d with
  | [] => None
  | (k, v) :: rest => if String.eqb key k then Some v else lookup key rest
  end.

(** [x.get(key, default)] *)
Definition get_default (x : value) (key : string) (default : value)
  : outcome value :=
  match x with
  | JDict d =>
    inr match lookup key d with
        | Some v => v
        | None => default
        end
  | _ => inl AttributeError
  end.

(** [x.get(key)] *)
Definition get_key (x : value) (key : string) : outcome value :=
  get_default x key JNull.

(** [x[key]] *)
Definition subscript (x : value) (key : string) : outcome value :=
  match x with
  | JDict d =>
    match lookup key d with
    | Some v => inr v
    | None => inl (KeyError key)
    end
  | _ => inl TypeError
  end.

Definition truthy (x : value) : bool :=
  match x with
  | JNull => false
  | JBool b => b
  | JInt z => negb (z =? 0)
  | JFloat f => float_truthy f
  | JStr s => str_truthy s
  | JList l => match l with [] => false | _ => true end
  | JDict d => match d with [] => false | _ => true end
  end.

(** [x in ['HIGH', 'MEDIUM']] *)
Definition is_high_or_medium (x : value) : bool :=
  match x with
  | JStr s => String.eqb s "HIGH" || String.eqb s "MEDIUM"
  | _ => false
  end.

Definition is_str (x : value) : bool :=
  match x with JStr _ => true | _ => false end.

(** [', '.join(x)]: only whether it raises matters (its result is
    logged). *)
Definition join_check (x : value) : outcome unit :=
  match x with
  | JList l => if forallb is_str l then inr tt else inl TypeError
  | JStr _ => inr tt
  | JDict _ => inr tt
  | _ => inl TypeError
  end.

(** ** The publisher *)

(** The message handed to [client.publish]. *)
Record Message : Type := mkMessage {
  msg_topic : string;
  msg_payload : string;
  msg_qos : Z;
  msg_retain : bool
}.

Record Publisher : Type := mkPublisher {
  client_id : string;
  topics : list (string * string);
  qos : list (string * Z);
  retain : bool;
  connected : bool;
  last_publish_time : option float
}.

Definition TOPICS : list (string * string) :=
  [ ("detection", "drone/detection"); ("position", "drone/position");
    ("classification", "drone/classification"); ("alert", "drone/alert");
    ("health", "system/health") ].

Definition default_qos : list (string * Z) :=
  [ ("detection", 1); ("position", 1); ("alert", 2); ("health", 0) ].

(** [MQTTPublisher(broker_host, broker_port, client_id)] with the other
    arguments at their defaults. *)
Definition new_publisher (client_id : string) : Publisher :=
  mkPublisher client_id TOPICS default_qos false false None.

Fixpoint assoc {A : Type} (key : string) (d : list (string * A)) : option A :=
  match d with
  | [] => None
  | (k, v) :: rest => if String.eqb key k then Some v else assoc key rest
  end.

(** [self.topics[key]] *)
Definition topic_of (self : Publisher) (key : string) : outcome string :=
  match assoc key (topics self) with
  | Some t => inr t
  | None => inl (KeyError key)
  end.

(** [self.qos.get(key, default)] *)
Definition qos_of (self : Publisher) (key : string) (default : Z) : Z :=
  match assoc key (qos self) with
  | Some q => q
  | None => default
  end.

Definition MQTT_ERR_SUCCESS : Z := 0.

(** The messages published so far, and the computation threading them: an
    exception leaves what was published before it in place. *)
Definition outbox : Type := list Message.
Definition action (A : Type) : Type := outbox -> outbox * outcome A.

Definition aret {A : Type} (a : A) : action A := fun o => (o, inr a).

Definition abind {A B : Type} (m : action A) (k : A -> action B) : action B :=
  fun o =>
    match m o with
    | (o', inr a) => k a o'
    | (o', inl e) => (o', inl e)
    end.

(** A computation with no effect on the outbox. *)
Definition pure {A : Type} (m : outcome A) : action A := fun o => (o, m).

Declare Scope action_scope.
Delimit Scope action_scope with action.
Notation "x <~~ m ;; k" := (abind m (fun x => k))
  (at level 61, m at next level, right associativity) : action_scope.
#[local] Open Scope action_scope.

Section Client.

(** [json.dumps], with and without [ensure_ascii=False], and the paho
    client are external: [client_publish] is the [rc] of the result the
    client returns for a message, [None] when the client raises instead. *)
Variable dumps : value -> string.
Variable dumps_ascii : value -> string.
Variable client_publish : Message -> option Z.

(** [self.client.publish(topic, payload, qos=..., retain=self.retain)] *)
Definition send (m : Message) : action Z :=
  fun o =>
    match client_publish m with
    | Some rc => (o ++ [m], inr rc)
    | None => (o, inl ValueError)
    end.

(** [detection_data.get('threat_assessment', {}).get('level')] *)
Definition threat_level_of (detection_data : value) : outcome value :=
  threat <~ get_default detection_data "threat_assessment" (JDict []) ;;
  get_key threat "level".

Definition _publish_position (self : Publisher) (detection_data : value)
  : action unit :=
  remote_id <~~ pure (get_default detection_data "remote_id" (JDict [])) ;;
  position <~~ pure (get_key remote_id "position") ;;
  if negb (truthy position) then aret tt
  else
    timestamp <~~ pure (subscript detection_data "timestamp") ;;
    uas_id <~~ pure (get_key remote_id "uas_id") ;;
    latitude <~~ pure (get_key position "latitude") ;;
    longitude <~~ pure (get_key position "longitude") ;;
    altitude_msl <~~ pure (get_key position "altitude_msl") ;;
    altitude_agl <~~ pure (get_key position "altitude_agl") ;;
    velocity <~~ pure (get_default remote_id "velocity" (JDict [])) ;;
    threat_level <~~ pure (threat_level_of detection_data) ;;
    let position_data :=
      JDict [ ("timestamp", timestamp); ("uas_id", uas_id);
              ("latitude", latitude); ("longitude", longitude);
              ("altitude_msl", altitude_msl); ("altitude_agl", altitude_agl);
              ("velocity", velocity); ("threat_level", threat_level) ] in
    topic <~~ pure (topic_of self "position") ;;
    let payload := dumps position_data in
    _ <~~ send (mkMessage topic payload (qos_of self "position" 1)
                          (retain self)) ;;
    aret tt.

Definition _publish_classification (self : Publisher) (detection_data : value)
  : action unit :=
  classification <~~ pure (get_default detection_data "classification"
                                       (JDict [])) ;;
  timestamp <~~ pure (subscript detection_data "timestamp") ;;
  brand <~~ pure (get_key classification "brand") ;;
  model <~~ pure (get_key classification "model") ;;
  protocol <~~ pure (get_key classification "protocol") ;;
  confidence <~~ pure (get_key classification "confidence") ;;
  method <~~ pure (get_key classification "method") ;;
  top_predictions <~~ pure (get_default classification "top_predictions"
                                        (JList [])) ;;
  let classification_data :=
    JDict [ ("timestamp", timestamp); ("brand", brand); ("model", model);
            ("protocol", protocol); ("confidence", confidence);
            ("method", method); ("top_predictions", top_predictions) ] in
  topic <~~ pure (topic_of self "classification") ;;
  let payload := dumps classification_data in
  _ <~~ send (mkMessage topic payload (qos_of self "detection" 1)
                        (retain self)) ;;
  aret tt.

Definition _publish_alert (self : Publisher) (detection_data : value)
  : action unit :=
  threat <~~ pure (get_default detection_data "threat_assessment" (JDict [])) ;;
  remote_id <~~ pure (get_default detection_data "remote_id" (JDict [])) ;;
  classification <~~ pure (get_default detection_data "classification"
                                       (JDict [])) ;;
  timestamp <~~ pure (subscript detection_data "timestamp") ;;
  alert_level <~~ pure (get_key threat "level") ;;
  reasons <~~ pure (get_default threat "reasons" (JList [])) ;;
  in_restricted_zone <~~ pure (get_default threat "in_restricted_zone"
                                           (JBool false)) ;;
  brand <~~ pure (get_key classification "brand") ;;
  model <~~ pure (get_key classification "model") ;;
  uas_id <~~ pure (get_key remote_id "uas_id") ;;
  position <~~ pure (get_key remote_id "position") ;;
  detection <~~ pure (get_default detection_data "detection" (JDict [])) ;;
  frequency_mhz <~~ pure (get_key detection "frequency_mhz") ;;
  let alert_data :=
    JDict [ ("timestamp", timestamp); ("alert_level", alert_level);
            ("reasons", reasons); ("in_restricted_zone", in_restricted_zone);
            ("drone_info",
             JDict [ ("brand", brand); ("model", model); ("uas_id", uas_id) ]);
            ("position", position);
            ("detection_frequency_mhz", frequency_mhz) ] in
  topic <~~ pure (topic_of self "alert") ;;
  let payload := dumps alert_data in
  _ <~~ send (mkMessage topic payload (qos_of self "alert" 2) (retain self)) ;;
  logged_level <~~ pure (get_key threat "level") ;;
  logged_reasons <~~ pure (get_default threat "reasons" (JList [])) ;;
  _ <~~ pure (join_check logged_reasons) ;;
  aret tt.

(** [publish_detection]: the outbox afterwards and the value returned. *)
Definition publish_detection (self : Publisher) (detection_data : value)
    (o : outbox) : outbox * bool :=
  if negb (connected self) then (o, false)
  else
    let attempt : action bool :=
      topic <~~ pure (topic_of self "detection") ;;
      let payload := dumps detection_data in
      rc <~~ send (mkMessage topic payload (qos_of self "detection" 1)
                             (retain self)) ;;
      if rc =? MQTT_ERR_SUCCESS then
        _ <~~ _publish_position self detection_data ;;
        _ <~~ _publish_classification self detection_data ;;
        threat_level <~~ pure (threat_level_of detection_data) ;;
        if is_high_or_medium threat_level then
          _ <~~ _publish_alert self detection_data ;;
          aret true
        else aret true
      else aret false in
    match attempt o with
    | (o', inr b) => (o', b)
    | (o', inl _) => (o', false)
    end.

(** [_publish_health_status]; [now_iso] is [datetime.now().isoformat()]. *)
Definition _publish_health_status (self : Publisher) (status : string)
    (now_iso : string) : action unit :=
  let health_data :=
    JDict [ ("timestamp", JStr now_iso); ("status", JStr status);
            ("client_id", JStr (client_id self));
            ("connected", JBool (connected self));
            ("last_publish",
             match last_publish_time self with
             | Some t => JFloat t
             | None => JNull
             end) ] in
  topic <~~ pure (topic_of self "health") ;;
  let payload := dumps_ascii health_data in
  _ <~~ send (mkMessage topic payload (qos_of self "health" 0) (retain self)) ;;
  aret tt.

Definition publish_heartbeat (self : Publisher) (now_iso : string)
  : action unit :=
  _publish_health_status self "running" now_iso.

Definition set_connected (b : bool) (self : Publisher) : Publisher :=
  mkPublisher (client_id self) (topics self) (qos self) (retain self) b
              (last_publish_time self).

(** [_on_connect]: the outbox and the publisher afterwards, and whether the
    callback returned or raised.  The flag is set before the status message
    is published. *)
Definition _on_connect (self : Publisher) (rc : Z) (now_iso : string)
    (o : outbox) : outbox * Publisher * outcome unit :=
  if rc =? 0 then
    let self := set_connected true self in
    let '(o', r) := _publish_health_status self "connected" now_iso o in
    (o', self, r)
  else (o, set_connected false self, inr tt).

(** [_on_disconnect] *)
Definition _on_disconnect (self : Publisher) (rc : Z) : Publisher :=
  set_connected false self.

(** [disconnect]; stopping the network loop and closing the connection are
    the client's business. *)
Definition disconnect (self : Publisher) (now_iso : string) (o : outbox)
  : outbox * Publisher * outcome unit :=
  if connected self then
    let self := set_connected false self in
    let '(o', r) := _publish_health_status self "disconnected" now_iso o in
    (o', self, r)
  else (o, self, inr tt).

End Client.

End Mqtt.
(* ================================================================== *)
(** * [main_gnuradio_wifi.py]: statistics, hopping, hand-over to MQTT *)
(* ================================================================== *)

Module GnuRadio.

Import Dyn ToDict Mqtt.

(** ** Frame statistics of [_process_wifi_pdu] *)

Record FrameCounts : Type := mkFrameCounts {
  mgmt_beacon : Z;
  mgmt_action : Z;
  mgmt_probe_resp : Z;
  ctrl : Z;
  data : Z;
  other : Z
}.

(** [self.frame_counts] as [__init__] creates it. *)
Definition no_frames : FrameCounts := mkFrameCounts 0 0 0 0 0 0.

(** The [if ftv == 0: ... elif ftv == 1: ...] ladder; its two copies in the
    source are the same. *)
Definition count_frame (ftype fsub : Z) (c : FrameCounts) : FrameCounts :=
  if ftype =? 0 then
    if fsub =? 8 then
      mkFrameCounts (mgmt_beacon c + 1) (mgmt_action c) (mgmt_probe_resp c)
                    (ctrl c) (data c) (other c)
    else if fsub =? 13 then
      mkFrameCounts (mgmt_beacon c) (mgmt_action c + 1) (mgmt_probe_resp c)
                    (ctrl c) (data c) (other c)
    else if fsub =? 5 then
      mkFrameCounts (mgmt_beacon c) (mgmt_action c) (mgmt_probe_resp c + 1)
                    (ctrl c) (data c) (other c)
    else
      mkFrameCounts (mgmt_beacon c) (mgmt_action c) (mgmt_probe_resp c)
                    (ctrl c) (data c) (other c + 1)
  else if ftype =? 1 then
    mkFrameCounts (mgmt_beacon c) (mgmt_action c) (mgmt_probe_resp c)
                  (ctrl c + 1) (data c) (other c)
  else if ftype =? 2 then
    mkFrameCounts (mgmt_beacon c) (mgmt_action c) (mgmt_probe_resp c)
                  (ctrl c) (data c + 1) (other c)
  else
    mkFrameCounts (mgmt_beacon c) (mgmt_action c) (mgmt_probe_resp c)
                  (ctrl c) (data c) (other c + 1).

(** The metadata of a PDU once [pmt.to_python] has turned it into a
    dictionary: keys are [bytes] or [str]; of a value only what [int()]
    makes of it matters. *)
Inductive meta_key : Type :=
| KBytes (s : string)
| KStr (s : string).

Inductive meta_value : Type :=
| MNone
| MInt (z : Z)
| MNotInt.

Definition meta_key_eqb (a b : meta_key) : bool :=
  match a, b with
  | KBytes x, KBytes y => String.eqb x y
  | KStr x, KStr y => String.eqb x y
  | _, _ => false
  end.

(** [md.get(key, default)] *)
Fixpoint md_get (md : list (meta_key * meta_value)) (key : meta_key)
    (default : meta_value) : meta_value :=
  match md with
  | [] => default
  | (k, v) :: rest => if meta_key_eqb key k then v else md_get rest key default
  end.

Definition is_none (v : meta_value) : bool :=
  match v with MNone => true | _ => false end.

(** The first block of [_process_wifi_pdu]; [md] is [None] when the
    conversion failed or gave no dictionary, or [pmt] could not be
    imported.  Every exception is swallowed. *)
Definition count_from_metadata (md : option (list (meta_key * meta_value)))
    (c : FrameCounts) : FrameCounts :=
  match md with
  | None => c
  | Some md =>
    let ft := md_get md (KBytes "frame_type") (md_get md (KStr "frame_type") MNone) in
    let fs :=
      md_get md (KBytes "frame_subtype") (md_get md (KStr "frame_subtype") MNone) in
    let ft :=
      if is_none ft then md_get md (KBytes "type") (md_get md (KStr "type") MNone)
      else ft in
    let fs :=
      if is_none fs
      then md_get md (KBytes "subtype") (md_get md (KStr "subtype") MNone)
      else fs in
    match ft with
    | MNone => c
    | MNotInt => c
    | MInt ftv =>
      match fs with
      | MNone => count_frame ftv (-1) c
      | MInt fsv => count_frame ftv fsv c
      | MNotInt => c
      end
    end
  end.

(** The second block: the frame-control byte of a packet long enough to
    have a header. *)
Definition count_from_header (packet_bytes : bytes) (c : FrameCounts)
  : result FrameCounts :=
  if len packet_bytes >=? 24 then
    fc0 <- getitem packet_bytes 0 ;;
    let ftype := Z.land (Z.shiftr fc0 2) 0x3 in
    let fsub := Z.land (Z.shiftr fc0 4) 0xF in
    Ok (count_frame ftype fsub c)
  else Ok c.

(** Both blocks, in the order of the source. *)
Definition count_pdu (md : option (list (meta_key * meta_value)))
    (packet_bytes : bytes) (c : FrameCounts) : result FrameCounts :=
  count_from_header packet_bytes (count_from_metadata md c).

(** ** Channel plan of [__init__] and hopping *)

(** [self.channels] as [__init__] leaves it. *)
Definition init_channels (channels : option (list float)) (include_5ghz : bool)
  : list float :=
  let channels :=
    match channels with
    | Some l => l
    | None => [2412e6; 2437e6; 2462e6]%float
    end in
  if include_5ghz then channels ++ [5180e6; 5200e6]%float else channels.

(** [start] runs the hopper thread when this holds. *)
Definition hopping_started (channels : list float) : bool :=
  match channels with
  | [] => false
  | _ => len channels >? 1
  end.

(** The state the hopper thread works on: its index, the centre frequency
    recorded in [self.freq], and the retunes the USRP accepted. *)
Record Hopper : Type := mkHopper {
  hop_idx : Z;
  hop_freq : float;
  hop_tuned : list float
}.

Section Hopping.

(** [time.sleep] is external: it pauses and returns, or it raises
    (ValueError for a negative length and for NaN, OverflowError for a
    length beyond the range of the clock). *)
Variable time_sleep : float -> outcome unit.

(** [self.hop_interval] *)
Variable hop_interval : float.

(** One turn of [while self.running]; [accepted] tells whether
    [set_center_freq] returned or raised.  The pause after an accepted
    retune sits inside the [try], after [self.freq = freq] and before
    [idx += 1]: when it raises, the retune stays, the index does not move
    and the handler pauses in turn.  What the pause of the handler raises
    leaves the loop: the outcome of the turn is then that exception, and
    the thread ends in the state returned with it. *)
Definition hop_turn (channels : list float) (accepted : bool) (h : Hopper)
  : Hopper * outcome unit :=
  let freq :=
    nth (Z.to_nat (hop_idx h mod len channels)) channels 0%float in
  if accepted then
    match time_sleep hop_interval with
    | inr _ => (mkHopper (hop_idx h + 1) freq (hop_tuned h ++ [freq]), inr tt)
    | inl _ =>
      (mkHopper (hop_idx h) freq (hop_tuned h ++ [freq]),
       time_sleep hop_interval)
    end
  else (h, time_sleep hop_interval).

(** The turns of the loop, one entry of [turns] per turn, up to the first
    one that ends the thread. *)
Fixpoint hop_turns (channels : list float) (turns : list bool) (h : Hopper)
  : Hopper * outcome unit :=
  match turns with
  | [] => (h, inr tt)
  | accepted :: rest =>
    match hop_turn channels accepted h with
    | (h', inr _) => hop_turns channels rest h'
    | (h', inl e) => (h', inl e)
    end
  end.

(** [_channel_hopper] over the turns made while [self.running] holds: the
    state it leaves, and the exception that ended the thread if one did. *)
Definition _channel_hopper (has_usrp_source : bool) (channels : list float)
    (turns : list bool) (freq : float) : Hopper * outcome unit :=
  let start := mkHopper 0 freq [] in
  if negb has_usrp_source || match channels with [] => true | _ => false end
  then (start, inr tt)
  else hop_turns channels turns start.

End Hopping.

(** ** [main]: the UHD device arguments *)

(** [s.endswith(p)] *)
Definition endswith (p s : string) : bool :=
  let n := String.length s in
  let k := String.length p in
  if (n <? k)%nat then false
  else String.eqb (String.substring (n - k) k s) p.

(** The block [if getattr(args, 'uhd_serial', ''): ...]. *)
Definition with_serial (uhd_args uhd_serial : string) : string :=
  if str_truthy uhd_serial then
    if negb (contains "serial=" uhd_args) then
      if str_truthy uhd_args && negb (endswith "," uhd_args)
      then String.append uhd_args (String.append ",serial=" uhd_serial)
      else String.append uhd_args (String.append "serial=" uhd_serial)
    else uhd_args
  else uhd_args.

(** [if channels_arg == 'all' and args.hop_interval < 7.0] *)
Definition adjusted_hop_interval (scan_channels : string) (hop_interval : float)
  : float :=
  let channels_arg := lower (strip scan_channels) in
  if String.eqb channels_arg "all" && PrimFloat.ltb hop_interval 7.0
  then 7.0%float else hop_interval.

(** ** Hand-over of a detection *)

(** The dictionary of [to_dict] as [json.dumps] sees it. *)
Definition json_entry {A : Type} (f : A -> value) (key : string) (e : entry A)
  : list (string * value) :=
  match e with
  | Missing => []
  | Null => [(key, JNull)]
  | Val a => [(key, f a)]
  end.

Definition json_of_position (p : PositionD) : value :=
  JDict (json_entry JFloat "latitude" (pd_latitude p)
         ++ json_entry JFloat "longitude" (pd_longitude p)
         ++ json_entry JFloat "altitude_msl" (pd_altitude_msl p)
         ++ json_entry JFloat "altitude_agl" (pd_altitude_agl p)
         ++ json_entry JFloat "height" (pd_height p)).

Definition json_of_velocity (v : VelocityD) : value :=
  JDict (json_entry JFloat "speed" (vd_speed v)
         ++ json_entry JFloat "direction" (vd_direction v)
         ++ json_entry JFloat "vertical_speed" (vd_vertical_speed v)).

Definition json_of_operator (o : OperatorD) : value :=
  JDict (json_entry JFloat "latitude" (od_latitude o)
         ++ json_entry JFloat "longitude" (od_longitude o)
         ++ json_entry JFloat "altitude" (od_altitude o)
         ++ json_entry JStr "id" (od_id o)).

Definition json_of_auth (a : AuthD) : value :=
  JDict (json_entry JInt "type" (ad_type a)
         ++ json_entry JInt "page_index" (ad_page_index a)
         ++ json_entry JInt "last_page_index" (ad_last_page_index a)
         ++ json_entry JStr "payload_hex" (ad_payload_hex a)).

Definition json_of_system (s : SystemD) : value :=
  JDict (json_entry JInt "category" (sd_category s)
         ++ json_entry JInt "eu_class" (sd_eu_class s)
         ++ json_entry JInt "operator_location_type"
                       (sd_operator_location_type s)).

Definition json_of_rid (d : RidDict) : value :=
  JDict (json_entry JStr "uas_id" (rd_uas_id d)
         ++ json_entry JStr "uas_id_type" (rd_uas_id_type d)
         ++ json_entry json_of_position "position" (rd_position d)
         ++ json_entry json_of_velocity "velocity" (rd_velocity d)
         ++ json_entry json_of_operator "operator" (rd_operator d)
         ++ json_entry JFloat "timestamp" (rd_timestamp d)
         ++ json_entry JStr "status" (rd_status d)
         ++ json_entry JStr "classification" (rd_classification d)
         ++ json_entry JStr "self_id" (rd_self_id d)
         ++ json_entry json_of_auth "auth" (rd_auth d)
         ++ json_entry json_of_system "system" (rd_system d)).

(** [_display_remote_id] only logs, but a format specification applied to
    [None] raises: [f"{remote_id.altitude_msl:.1f}"] and
    [f"{remote_id.height:.1f}"] are evaluated whenever latitude and
    longitude are both set and non-zero. *)
Definition _display_remote_id (remote_id : RemoteIDData) : outcome unit :=
  if opt_float_truthy (latitude remote_id)
     && opt_float_truthy (longitude remote_id)
  then
    match altitude_msl remote_id, height remote_id with
    | Some _, Some _ => inr tt
    | _, _ => inl TypeError
    end
  else inr tt.

(** The part of the system a detection touches.  [gain] is kept as the
    JSON number it is published as: the command line gives a [float], the
    default is the [int] 50. *)
Record System : Type := mkSystem {
  freq : float;
  gain : value;
  detection_count : Z;
  mqtt_publisher : option Publisher
}.

Definition count_detection (self : System) : System :=
  mkSystem (freq self) (gain self) (detection_count self + 1)
           (mqtt_publisher self).

Section Client.

Variable dumps : value -> string.
Variable client_publish : Message -> option Z.

(** [_handle_remote_id]; [now] is [time.time()].  The system afterwards,
    the outbox afterwards, and whether the method returned or raised. *)
Definition _handle_remote_id (self : System) (remote_id : RemoteIDData)
    (method : string) (now : float) (o : outbox)
  : System * outbox * outcome unit :=
  let self := count_detection self in
  match _display_remote_id remote_id with
  | inl e => (self, o, inl e)
  | inr _ =>
    match mqtt_publisher self with
    | Some publisher =>
      if connected publisher then
        let detection_data :=
          JDict [ ("remote_id", json_of_rid (to_dict remote_id));
                  ("timestamp", JFloat now);
                  ("method", JStr method);
                  ("frequency_hz", JFloat (freq self));
                  ("gain_db", gain self);
                  ("detection_number", JInt (detection_count self)) ] in
        let '(o', _) :=
          publish_detection dumps client_publish publisher detection_data o in
        (self, o', inr tt)
      else (self, o, inr tt)
    | None => (self, o, inr tt)
    end
  end.

End Client.

End GnuRadio.

(* ================================================================== *)
(** * [src/ble_scanner.py]: [_publish] *)
(* ================================================================== *)

Module BlePublish.

Import Dyn ToDict Mqtt GnuRadio.

Section Client.

Variable dumps : value -> string.
Variable client_publish : Message -> option Z.

(** [_publish]; [now] is [time.time()].  The outbox afterwards: every
    exception is swallowed, and the callback [_on_remote_id] runs after the
    publication. *)
Definition _publish (mqtt : option Publisher) (source : string)
    (rid : RemoteIDData) (now : float) (o : outbox) : outbox :=
  let payload :=
    JDict [ ("timestamp", JFloat now);
            ("method", JStr "ble_advertising");
            ("source_mac", JStr source);
            ("remote_id", json_of_rid (to_dict rid)) ] in
  match mqtt with
  | Some publisher =>
    if connected publisher
    then fst (publish_detection dumps client_publish publisher payload o)
    else o
  | None => o
  end.

End Client.

End BlePublish.
(* ================================================================== *)
(** * Vocabulary of the statements about the code above *)
(* ================================================================== *)

Module Notions.

Import Dyn ToDict FusionPipeline Mqtt GnuRadio.

(** ** Information elements on the wire *)

(** The bytes of one element: identifier, length, data. *)
Definition ie_encode (ie : InformationElement) : bytes :=
  byte_of_int (ie_id ie) :: byte_of_int (ie_length ie) :: ie_data ie.

Definition ie_well_formed (ie : InformationElement) : Prop :=
  0 <= ie_id ie < 256 /\ 0 <= ie_length ie < 256
  /\ ie_length ie = len (ie_data ie).

(** What [_parse_information_elements] leaves unread: at most two bytes, or
    an element header announcing more data than there is. *)
Definition ie_leftover (rest : bytes) : Prop :=
  len rest <= 2
  \/ exists b_id b_len tail,
       rest = b_id :: b_len :: tail /\ len tail < byte_val b_len.

(** The last element has data, or bytes follow it. *)
Definition ends_visibly (ies : list InformationElement) (rest : bytes) : Prop :=
  rest <> [] \/ ies = []
  \/ exists init ie, ies = init ++ [ie] /\ ie_data ie <> [].

(** The OpenDroneID vendor element with the given type byte and payload. *)
Definition odid_element_of (vendor_type : byte) (payload : bytes)
  : InformationElement :=
  mkIE 0xDD (4 + len payload) (ODID_OUI ++ vendor_type :: payload).

(** A beacon frame: 36 bytes of header and fixed fields, then one
    OpenDroneID vendor element. *)
Definition odid_beacon (header : bytes) (vendor_type : byte) (payload : bytes)
  : bytes :=
  header ++ ie_encode (odid_element_of vendor_type payload).

(** The vendor-specific elements [extract_remote_id] looks into, and the
    payloads it hands to [_parse_remote_id_messages]. *)
Definition odid_element (ie : InformationElement) : bool :=
  (ie_id ie =? 0xDD) && (4 <? len (ie_data ie))
  && bytes_eqb (slice (ie_data ie) 0 3) ODID_OUI.

Definition odid_payloads (ies : list InformationElement) : list bytes :=
  map (fun ie => slice_from (ie_data ie) 4) (filter odid_element ies).

Fixpoint parse_all (payloads : list bytes) (remote_id : RemoteIDData)
  : result RemoteIDData :=
  match payloads with
  | [] => Ok remote_id
  | p :: rest =>
    remote_id <- _parse_remote_id_messages p remote_id ;;
    parse_all rest remote_id
  end.

(** ** Pattern search *)

(** [pat] is found in [data] at index [i]. *)
Definition occurs_at (pat data : bytes) (i : Z) : Prop :=
  0 <= i <= len data /\ bytes_prefix pat (slice_from data i) = true.

(** [AUTHENTIC_PATTERNS] in the order the two nested loops visit it. *)
Definition pattern_table : list (string * bytes) :=
  flat_map (fun entry : string * list bytes => map (pair (fst entry)) (snd entry))
           AUTHENTIC_PATTERNS.

(** ** Basic ID messages *)

(** A Basic ID message as [create_test_remote_id_packet] lays it out: the
    type byte, the identifier type, the identifier padded with NULs to 20
    bytes, and optionally the two reserved zero bytes. *)
Definition basic_id_message (id_type : byte) (text : string) (reserved : bool)
  : bytes :=
  [x00; id_type] ++ ljust (bytes_of_string text) 20 x00
  ++ (if reserved then [x00; x00] else []).

(** ** What the decoder writes into a record *)

(** [P] survives every assignment [_parse_remote_id_messages] makes, with
    the values it can assign. *)
Record writes_preserve (P : RemoteIDData -> Prop) : Prop := {
  w_uas_id_type : forall t r, P r -> P (set_uas_id_type (Some t) r);
  w_uas_id : forall u r, P r -> P (set_uas_id (Some u) r);
  w_status : forall v r,
      P r ->
      P (set_status (Some (if Z.land v 0x0F =? 0 then "Ground" else "Airborne")) r);
  w_direction : forall n r,
      0 <= n < 256 -> P r ->
      P (set_direction (if n =? 0xFF then None else Some (float_of_int n)) r);
  w_speed : forall n r,
      0 <= n < 256 -> P r ->
      P (set_speed (if n =? 0xFF then None
                    else Some (float_of_int n * 0.25)%float) r);
  w_vertical_speed : forall n r,
      -128 <= n < 128 -> P r ->
      P (set_vertical_speed (if n =? 0x7F then None
                             else Some (float_of_int n * 0.5)%float) r);
  w_latitude : forall n r,
      n <> 0 -> - 2 ^ 31 <= n < 2 ^ 31 -> P r ->
      P (set_latitude (Some (float_of_int n * 1e-7)%float) r);
  w_longitude : forall n r,
      n <> 0 -> - 2 ^ 31 <= n < 2 ^ 31 -> P r ->
      P (set_longitude (Some (float_of_int n * 1e-7)%float) r);
  w_altitude_msl : forall n r,
      n <> -1000 -> - 2 ^ 15 <= n < 2 ^ 15 -> P r ->
      P (set_altitude_msl (Some (float_of_int n * 0.5)%float) r);
  w_height : forall n r,
      n <> -1000 -> - 2 ^ 15 <= n < 2 ^ 15 -> P r ->
      P (set_height (Some (float_of_int n * 0.5)%float) r);
  w_auth_type : forall v r, P r -> P (set_auth_type (Some v) r);
  w_auth_page_index : forall v r, P r -> P (set_auth_page_index (Some v) r);
  w_auth_last_page_index :
    forall v r, P r -> P (set_auth_last_page_index (Some v) r);
  w_auth_payload : forall v r, P r -> P (set_auth_payload (Some v) r);
  w_self_id_text : forall s r, P r -> P (set_self_id_text (Some s) r);
  w_system_operator_location_type :
    forall v r, P r -> P (set_system_operator_location_type (Some v) r);
  w_system_eu_class : forall v r, P r -> P (set_system_eu_class (Some v) r);
  w_system_category : forall v r, P r -> P (set_system_category (Some v) r);
  w_operator_id : forall s r, P r -> P (set_operator_id (Some s) r)
}.

(** The fields no message type assigns. *)
Definition never_decoded (r : RemoteIDData) : Prop :=
  altitude_agl r = None /\ operator_latitude r = None
  /\ operator_longitude r = None /\ operator_altitude r = None
  /\ classification r = None.

(** [v] is [n * unit] for an encoded integer [n] between [lo] and [hi]. *)
Definition encoded (lo hi : Z) (unit : float) (o : option float) : Prop :=
  match o with
  | None => True
  | Some v => exists n, lo <= n <= hi /\ v = (float_of_int n * unit)%float
  end.

Definition encoded_except (skip lo hi : Z) (unit : float) (o : option float)
  : Prop :=
  match o with
  | None => True
  | Some v =>
    exists n, n <> skip /\ lo <= n <= hi /\ v = (float_of_int n * unit)%float
  end.

Definition within (lo hi : float) (o : option float) : Prop :=
  match o with
  | None => True
  | Some v => PrimFloat.leb lo v = true /\ PrimFloat.leb v hi = true
  end.

Definition decoded_ranges (r : RemoteIDData) : Prop :=
  match status r with
  | None => True
  | Some s => s = "Airborne" \/ s = "Ground"
  end
  /\ match direction r with
     | None => True
     | Some v => exists n, 0 <= n <= 254 /\ v = float_of_int n
     end
  /\ encoded 0 254 0.25 (speed r)
  /\ encoded (-128) 126 0.5 (vertical_speed r)
  /\ encoded_except 0 (- 2 ^ 31) (2 ^ 31 - 1) 1e-7 (latitude r)
  /\ encoded_except 0 (- 2 ^ 31) (2 ^ 31 - 1) 1e-7 (longitude r)
  /\ encoded_except (-1000) (- 2 ^ 15) (2 ^ 15 - 1) 0.5 (altitude_msl r)
  /\ encoded_except (-1000) (- 2 ^ 15) (2 ^ 15 - 1) 0.5 (height r).

(** [range(lo, hi + 1)] *)
Definition closed_range (lo hi : Z) : list Z :=
  map (fun k => lo + Z.of_nat k) (seq 0 (Z.to_nat (hi + 1 - lo))).

(** ** Bursts *)

(** The gaps, in samples, between each burst and the next. *)
Fixpoint gaps_after (prev : Burst) (rest : list Burst) : list Z :=
  match rest with
  | [] => []
  | curr :: rest' => (burst_start curr - burst_end prev) :: gaps_after curr rest'
  end.

Definition gaps (bursts_list : list Burst) : list Z :=
  match bursts_list with
  | [] => []
  | first :: rest => gaps_after first rest
  end.

(** ** Frame statistics and hopping *)

Definition total_frames (c : FrameCounts) : Z :=
  mgmt_beacon c + mgmt_action c + mgmt_probe_resp c + ctrl c + data c + other c.

Definition counts_le (c c' : FrameCounts) : Prop :=
  mgmt_beacon c <= mgmt_beacon c' /\ mgmt_action c <= mgmt_action c'
  /\ mgmt_probe_resp c <= mgmt_probe_resp c' /\ ctrl c <= ctrl c'
  /\ data c <= data c' /\ other c <= other c'.

(** The turns of the hopper in which the USRP accepted the retune. *)
Definition accepted_turns (turns : list bool) : nat :=
  List.length (filter (fun accepted : bool => accepted) turns).

(** The retunes of [k] accepted turns starting at index [start]. *)
Definition round_robin (channels : list float) (start : Z) (k : nat)
  : list float :=
  map (fun j => nth (Z.to_nat ((start + Z.of_nat j) mod len channels))
                    channels 0%float)
      (seq 0 k).

(** ** Payloads *)

Definition opt_json {A : Type} (f : A -> value) (o : option A) : value :=
  match o with Some a => f a | None => JNull end.

(** The three payloads of a detection handed over by [_handle_remote_id]. *)
Definition detection_payload (self : System) (remote_id : RemoteIDData)
    (method : string) (now : float) : value :=
  JDict [ ("remote_id", json_of_rid (to_dict remote_id));
          ("timestamp", JFloat now);
          ("method", JStr method);
          ("frequency_hz", JFloat (freq self));
          ("gain_db", gain self);
          ("detection_number", JInt (detection_count self + 1)) ].

Definition position_payload (remote_id : RemoteIDData) (now : float) : value :=
  JDict [ ("timestamp", JFloat now);
          ("uas_id", opt_json JStr (uas_id remote_id));
          ("latitude", opt_json JFloat (latitude remote_id));
          ("longitude", opt_json JFloat (longitude remote_id));
          ("altitude_msl", opt_json JFloat (altitude_msl remote_id));
          ("altitude_agl", opt_json JFloat (altitude_agl remote_id));
          ("velocity", json_of_velocity
                         (mkVelocityD (of_option (speed remote_id))
                                      (of_option (direction remote_id))
                                      (of_option (vertical_speed remote_id))));
          ("threat_level", JNull) ].

Definition classification_payload (now : float) : value :=
  JDict [ ("timestamp", JFloat now); ("brand", JNull); ("model", JNull);
          ("protocol", JNull); ("confidence", JNull); ("method", JNull);
          ("top_predictions", JList []) ].

(** The payload of a health message. *)
Definition health_payload (self : Publisher) (status : string)
    (is_connected : bool) (now_iso : string) : value :=
  JDict [ ("timestamp", JStr now_iso); ("status", JStr status);
          ("client_id", JStr (client_id self));
          ("connected", JBool is_connected);
          ("last_publish",
           match last_publish_time self with
           | Some t => JFloat t
           | None => JNull
           end) ].

(** The messages [msgs] went to the topics configured under [keys], in
    this order. *)
Definition published_under (self : Publisher) (msgs : list Message)
    (keys : list string) : Prop :=
  Forall2 (fun m k => assoc k (topics self) = Some (msg_topic m)) msgs keys.

(** The sequences of topics one call of [publish_detection] can reach. *)
Definition detection_runs : list (list string) :=
  [ [];
    ["detection"];
    ["detection"; "position"];
    ["detection"; "classification"];
    ["detection"; "position"; "classification"];
    ["detection"; "classification"; "alert"];
    ["detection"; "position"; "classification"; "alert"] ].

End Notions.

(* ================================================================== *)
(** * Inputs and stand-ins used to run the models *)
(* ================================================================== *)

Module Samples.

Import Dyn ToDict FusionPipeline Mqtt GnuRadio.

(** The buffer of [test_pattern_detection.py]. *)
Definition dji_test_data : bytes :=
  repeat x00 50 ++ bytes_of_string "DJI-RID-MAVIC3PRO-12345" ++ repeat x00 50.

(** The pattern [DJI-RID-] followed by one byte outside ASCII and by NULs. *)
Definition dji_non_ascii : bytes :=
  bytes_of_string "DJI-RID-" ++ [x80] ++ repeat x00 20.

(** [time.sleep] on a float, with the range of the clock taken as 9e9
    seconds (CPython's clock holds 2**63 nanoseconds). *)
Definition time_sleep (secs : float) : outcome unit :=
  if negb (PrimFloat.eqb secs secs) || PrimFloat.ltb secs 0 then inl ValueError
  else if PrimFloat.ltb 9e9 secs then inl OverflowError
  else inr tt.

(** A beacon frame (zeroed header) whose only element is an OpenDroneID
    vendor element carrying [location_unknown]. *)
Definition beacon_location : bytes :=
  repeat x00 36 ++ [xdd; x1c; xfa; x0b; xbc; x0d] ++ location_unknown.

(** The inputs of [test_data_fusion]. *)
Definition test_detection_features : FeaturesD :=
  mkFeaturesD
    (Val (mkSpectralD (Val 15.2e6%float) (Val (-52.3)%float)))
    (Val 18.5%float)
    (Val 0.01%float)
    (Val (mkBurstsD (Val 5)
            (Val [ (0, 10000, 0.0004%float, 0.52%float);
                   (160000, 170000, 0.0004%float, 0.51%float);
                   (320000, 330000, 0.0004%float, 0.53%float) ])))
    (Val 25e6%float).

Definition test_classification_result : ClassificationD :=
  mkClassificationD (Val "DJI") (Val "Mavic 3") (Val "OcuSync 3.0")
    (Val 0.94%float) (Val "hybrid") (Val true)
    (Val [ ("Mavic 3", 0.94%float); ("Air 2S", 0.04%float);
           ("Mini 3 Pro", 0.02%float) ]).

Definition test_remote_id_data : RidDict :=
  mkRidDict (Val "1FFJX8K3QH000001") (Val "Serial Number")
    (Val (mkPositionD (Val 12.3585%float) (Val (-1.5352)%float)
            (Val 120.5%float) (Val 45.2%float) (Val 45.2%float)))
    (Val (mkVelocityD (Val 12.3%float) (Val 87%float) (Val 2.5%float)))
    (Val (mkOperatorD (Val 12.3580%float) (Val (-1.5348)%float)
            (Val 280.0%float) (Val "BFA-OP-12345")))
    Missing (Val "Airborne") Missing Missing Missing Missing.

(** Mean and population standard deviation, summing from the left. *)
Definition np_mean (l : list float) : float :=
  (fold_left PrimFloat.add l 0 / float_of_int (len l))%float.

Definition np_std (l : list float) : float :=
  let m := np_mean l in
  PrimFloat.sqrt (np_mean (map (fun x => ((x - m) * (x - m))%float) l)).

(** A serialiser that only lists the keys of a dictionary. *)
Definition dumps (v : value) : string :=
  match v with
  | JDict d => String.concat "," (map fst d)
  | _ => ""
  end.

(** A client whose broker takes every message. *)
Definition accept_all (m : Message) : option Z := Some MQTT_ERR_SUCCESS.

(** The publisher of [main] once connected. *)
Definition connected_publisher : Publisher :=
  set_connected true (new_publisher "drone_detector").

(** The system on channel 6 with the default gain, connected. *)
Definition channel_6_system : System :=
  mkSystem 2.437e9 (JInt 50) 0 (Some connected_publisher).

(** The default device arguments of [main]. *)
Definition default_uhd_args : string :=
  "type=b200,master_clock_rate=32e6,num_recv_frames=256,recv_frame_size=16384".

End Samples.

(* ================================================================== *)
(** * Facts about the runtime fragment *)
(* ================================================================== *)

Module PyFacts.

Lemma len_nonneg {A : Type} (l : list A) : 0 <= len l.
Proof. unfold len. lia. Qed.

Lemma byte_val_range (b : byte) : 0 <= byte_val b < 256.
Proof.
  unfold byte_val. pose proof (Byte.to_N_bounded b). lia.
Qed.

Lemma getitem_in_range (data : bytes) (i : Z) :
  0 <= i < len data ->
  exists v, getitem data i = Ok v /\ 0 <= v < 256.
Proof.
  intros [Hi Hn]. unfold getitem.
  replace (i <? 0) with false by (symmetry; apply Z.ltb_ge; lia).
  replace ((0 <=? i) && (i <? len data)) with true
    by (symmetry; apply andb_true_iff; split;
        [apply Z.leb_le | apply Z.ltb_lt]; lia).
  destruct (nth_error data (Z.to_nat i)) as [b|] eqn:E.
  - exists (byte_val b). split; [reflexivity | apply byte_val_range].
  - apply nth_error_None in E. unfold len in Hn. lia.
Qed.

Lemma slice_len {A : Type} (data : list A) (a b : Z) :
  0 <= a -> a <= b -> b <= len data -> len (slice data a b) = b - a.
Proof.
  intros Ha Hab Hb. unfold slice, slice_bound.
  replace (a <? 0) with false by (symmetry; apply Z.ltb_ge; lia).
  replace (b <? 0) with false by (symmetry; apply Z.ltb_ge; lia).
  unfold len in *. rewrite length_firstn, length_skipn. lia.
Qed.

Lemma slice_from_len {A : Type} (data : list A) (a : Z) :
  0 <= a -> len (slice_from data a) = Z.max 0 (len data - a).
Proof.
  intros Ha. unfold slice_from, slice_bound.
  replace (a <? 0) with false by (symmetry; apply Z.ltb_ge; lia).
  unfold len in *. rewrite length_skipn. lia.
Qed.

Lemma slice_from_0 {A : Type} (data : list A) : slice_from data 0 = data.
Proof.
  unfold slice_from, slice_bound. cbn [Z.ltb Z.compare].
  rewrite Z.min_l by apply len_nonneg. reflexivity.
Qed.

Lemma bytes_of_int_ok (v : Z) :
  0 <= v < 256 -> exists b, bytes_of_int v = Ok [b] /\ byte_val b = v.
Proof.
  intros Hv. unfold bytes_of_int.
  replace ((0 <=? v) && (v <? 256)) with true
    by (symmetry; apply andb_true_iff; split;
        [apply Z.leb_le | apply Z.ltb_lt]; lia).
  destruct (Byte.of_N (Z.to_N v)) as [b|] eqn:E.
  - exists b. split; [reflexivity|].
    unfold byte_val. apply Byte.to_of_N in E. lia.
  - apply Byte.of_N_None_iff in E. lia.
Qed.

Lemma unpack_signed_ok (size : Z) (bs : bytes) :
  len bs = size ->
  unpack_signed size bs = Ok (to_signed (8 * size) (le_value bs)).
Proof.
  intros H. unfold unpack_signed. rewrite H, Z.eqb_refl. reflexivity.
Qed.

Lemma unpack_unsigned_ok (size : Z) (bs : bytes) :
  len bs = size -> unpack_unsigned size bs = Ok (le_value bs).
Proof.
  intros H. unfold unpack_unsigned. rewrite H, Z.eqb_refl. reflexivity.
Qed.

Lemma le_value_range (bs : bytes) : 0 <= le_value bs < 256 ^ len bs.
Proof.
  induction bs as [|b t IH].
  - cbn. lia.
  - replace (len (b :: t)) with (len t + 1) by (unfold len; cbn [List.length]; lia).
    rewrite Z.pow_add_r by (try apply len_nonneg; lia).
    cbn [le_value]. pose proof (byte_val_range b). nia.
Qed.

Lemma to_signed_range (bits v : Z) :
  0 < bits -> 0 <= v < 2 ^ bits ->
  - 2 ^ (bits - 1) <= to_signed bits v < 2 ^ (bits - 1).
Proof.
  intros Hb Hv. unfold to_signed.
  assert (E : 2 ^ bits = 2 * 2 ^ (bits - 1)).
  { replace bits with (1 + (bits - 1)) at 1 by lia.
    rewrite Z.pow_add_r by lia. reflexivity. }
  destruct (Z.ltb_spec v (2 ^ (bits - 1))); lia.
Qed.

End PyFacts.

Import PyFacts.

(* ================================================================== *)
(** * The message loop never raises and never runs out of fuel *)
(* ================================================================== *)

Module DecoderTotal.

(** Replaces an in-range [getitem] by the byte value it returns. *)
Ltac getitem_ok :=
  match goal with
  | |- context [getitem ?d ?i] =>
    let v := fresh "v" in
    let Hv := fresh "Hv" in
    let Hr := fresh "Hr" in
    destruct (getitem_in_range d i) as (v & Hv & Hr);
    [ lia | rewrite Hv; cbn [bind] ]
  end.

Ltac finish_flow := eexists; split; [reflexivity | cbn [advances]; lia].

Lemma parse_basic_id_ok (data : bytes) (offset : Z) (rid : RemoteIDData) :
  0 <= offset ->
  exists fl, parse_basic_id data offset rid = Ok fl /\ advances (offset - 1) fl.
Proof.
  intros H0. unfold parse_basic_id. rewrite !Z.geb_leb.
  destruct (Z.leb_spec 21 (len data - offset)); [|finish_flow].
  getitem_ok.
  destruct (Z.leb_spec 23 (len data - offset)); cbn [bind]; [|finish_flow].
  getitem_ok.
  destruct (v0 =? 0); [|cbn [bind]; finish_flow].
  getitem_ok.
  destruct (v1 =? 0); finish_flow.
Qed.

Lemma unpack_slice_ok (size : Z) (data : bytes) (a b : Z) :
  0 <= a -> b = a + size -> 0 <= size -> b <= len data ->
  unpack_signed size (slice data a b)
  = Ok (to_signed (8 * size) (le_value (slice data a b))).
Proof.
  intros. apply unpack_signed_ok. rewrite slice_len; lia.
Qed.

Lemma parse_location_ok (data : bytes) (offset : Z) (rid : RemoteIDData) :
  0 <= offset ->
  exists fl, parse_location data offset rid = Ok fl /\ advances (offset - 1) fl.
Proof.
  intros H0. unfold parse_location.
  destruct (Z.leb_spec (offset + 23) (len data)); [|finish_flow].
  do 4 getitem_ok.
  destruct (bytes_of_int_ok v2 Hr2) as (b & Hb & _). rewrite Hb. cbn [bind].
  unfold unpack_b, unpack_lt_i, unpack_lt_h.
  rewrite (unpack_signed_ok 1 [b]) by reflexivity. cbn [bind].
  rewrite !unpack_slice_ok by lia. cbn [bind].
  finish_flow.
Qed.

Lemma parse_auth_ok (data : bytes) (offset : Z) (rid : RemoteIDData) :
  0 <= offset ->
  exists fl, parse_auth data offset rid = Ok fl /\ advances (offset - 1) fl.
Proof.
  intros H0. unfold parse_auth.
  destruct (Z.leb_spec (offset + 4) (len data)); [|finish_flow].
  do 4 getitem_ok.
  destruct (Z.leb_spec (offset + 4 + v2) (len data)); finish_flow.
Qed.

Lemma parse_self_id_ok (data : bytes) (offset : Z) (rid : RemoteIDData) :
  0 <= offset ->
  exists fl, parse_self_id data offset rid = Ok fl /\ advances (offset - 1) fl.
Proof.
  intros H0. unfold parse_self_id.
  destruct (Z.leb_spec (offset + 24) (len data)); [|finish_flow].
  getitem_ok. finish_flow.
Qed.

Lemma parse_system_ok (data : bytes) (offset : Z) (rid : RemoteIDData) :
  0 <= offset ->
  exists fl, parse_system data offset rid = Ok fl /\ advances (offset - 1) fl.
Proof.
  intros H0. unfold parse_system.
  destruct (Z.leb_spec (offset + 3) (len data)); [|finish_flow].
  do 3 getitem_ok. finish_flow.
Qed.

Lemma parse_operator_id_ok (data : bytes) (offset : Z) (rid : RemoteIDData) :
  0 <= offset ->
  exists fl, parse_operator_id data offset rid = Ok fl /\ advances (offset - 1) fl.
Proof.
  intros H0. unfold parse_operator_id.
  destruct (Z.leb_spec (offset + 21) (len data)); [|finish_flow].
  getitem_ok. finish_flow.
Qed.

Lemma parse_message_ok (data : bytes) (offset : Z) (rid : RemoteIDData) :
  0 <= offset ->
  exists fl, parse_message data offset rid = Ok fl /\ advances offset fl.
Proof.
  intros H0. unfold parse_message. rewrite Z.geb_leb.
  destruct (Z.leb_spec (len data) (offset + 1)); [finish_flow|].
  getitem_ok.
  assert (U : forall P : Z -> RemoteIDData -> result flow,
             (forall o, 0 <= o ->
                exists fl, P o rid = Ok fl /\ advances (o - 1) fl) ->
             exists fl, P (offset + 1) rid = Ok fl /\ advances offset fl).
  { intros P HP. destruct (HP (offset + 1)) as (fl & E & A); [lia|].
    exists fl. split; [exact E|].
    replace (offset + 1 - 1) with offset in A by lia. exact A. }
  destruct (v =? MSG_TYPE_BASIC_ID);
    [apply (U (parse_basic_id data)); intros; now apply parse_basic_id_ok|].
  destruct (v =? MSG_TYPE_LOCATION);
    [apply (U (parse_location data)); intros; now apply parse_location_ok|].
  destruct (v =? MSG_TYPE_AUTH);
    [apply (U (parse_auth data)); intros; now apply parse_auth_ok|].
  destruct (v =? MSG_TYPE_SELF_ID);
    [apply (U (parse_self_id data)); intros; now apply parse_self_id_ok|].
  destruct (v =? MSG_TYPE_SYSTEM);
    [apply (U (parse_system data)); intros; now apply parse_system_ok|].
  destruct (v =? MSG_TYPE_OPERATOR_ID);
    [apply (U (parse_operator_id data)); intros; now apply parse_operator_id_ok|].
  finish_flow.
Qed.

(** With fuel for every byte still ahead, the loop returns a record. *)
Lemma parse_loop_ok (fuel : nat) (data : bytes) (offset : Z) (rid : RemoteIDData) :
  0 <= offset -> len data - offset <= Z.of_nat fuel ->
  exists r, parse_loop fuel data offset rid = Ok r.
Proof.
  revert offset rid. induction fuel as [|fuel IH]; intros offset rid H0 Hf.
  - cbn [parse_loop]. destruct (Z.ltb_spec offset (len data)); [lia|].
    eexists; reflexivity.
  - cbn [parse_loop]. destruct (Z.ltb_spec offset (len data)).
    + destruct (parse_message_ok data offset rid H0) as (fl & E & Hadv).
      rewrite E. cbn [bind]. destruct fl as [o r|r].
      * cbn [advances] in Hadv. apply IH; lia.
      * eexists; reflexivity.
    + eexists; reflexivity.
Qed.

(** More fuel than needed changes nothing. *)
Lemma parse_loop_fuel (fuel fuel' : nat) (data : bytes) (offset : Z)
    (rid r : RemoteIDData) :
  parse_loop fuel data offset rid = Ok r -> (fuel <= fuel')%nat ->
  parse_loop fuel' data offset rid = Ok r.
Proof.
  revert fuel' offset rid. induction fuel as [|fuel IH]; intros fuel' offset rid E Hle.
  - cbn [parse_loop] in E. destruct fuel'; cbn [parse_loop];
      destruct (offset <? len data); try discriminate; assumption.
  - destruct fuel' as [|fuel']; [lia|]. cbn [parse_loop] in *.
    destruct (offset <? len data); [|assumption].
    destruct (parse_message data offset rid) as [fl| |]; cbn [bind] in *;
      try discriminate.
    destruct fl; [apply IH; [assumption | lia] | assumption].
Qed.

Lemma _parse_remote_id_messages_ok (data : bytes) (rid : RemoteIDData) :
  exists r, _parse_remote_id_messages data rid = Ok r.
Proof.
  unfold _parse_remote_id_messages. apply parse_loop_ok; unfold len; lia.
Qed.

Lemma decode_from_raw_bytes_ok (raw_data : bytes) (now : float) :
  exists r, decode_from_raw_bytes raw_data now = Ok (Some r).
Proof.
  unfold decode_from_raw_bytes.
  destruct (_parse_remote_id_messages_ok raw_data
              (set_timestamp (Some now) new_RemoteIDData)) as (r & E).
  rewrite E. cbn [bind]. eexists; reflexivity.
Qed.

End DecoderTotal.

Import DecoderTotal.

(* ================================================================== *)
(** * The clock reading only ever reaches the [timestamp] field *)
(* ================================================================== *)

Module Timestamp.

Ltac split_head :=
  repeat lazymatch goal with
         | |- bind ?m _ = fmap _ (bind ?m _) =>
           destruct m; cbn [bind fmap]; [ | reflexivity | reflexivity ]
         | |- (if ?c then _ else _) = fmap _ (if ?c then _ else _) =>
           destruct c
         end.

Ltac split_fields :=
  repeat match goal with
         | |- context [if ?c then _ else _] => destruct c
         end.

Lemma parse_message_timestamp (data : bytes) (offset : Z) (t : option float)
    (rid : RemoteIDData) :
  parse_message data offset (set_timestamp t rid)
  = fmap (flow_map (set_timestamp t)) (parse_message data offset rid).
Proof.
  unfold parse_message.
  destruct (offset + 1 >=? len data); [reflexivity|].
  destruct (getitem data offset) as [msg_type| |]; cbn [bind fmap];
    [ | reflexivity | reflexivity ].
  destruct (msg_type =? MSG_TYPE_BASIC_ID).
  { unfold parse_basic_id. split_head; reflexivity. }
  destruct (msg_type =? MSG_TYPE_LOCATION).
  { unfold parse_location. split_head; try reflexivity.
    all: cbv zeta; split_fields; reflexivity. }
  destruct (msg_type =? MSG_TYPE_AUTH).
  { unfold parse_auth. split_head; reflexivity. }
  destruct (msg_type =? MSG_TYPE_SELF_ID).
  { unfold parse_self_id. split_head; reflexivity. }
  destruct (msg_type =? MSG_TYPE_SYSTEM).
  { unfold parse_system. split_head; reflexivity. }
  destruct (msg_type =? MSG_TYPE_OPERATOR_ID).
  { unfold parse_operator_id. split_head; reflexivity. }
  reflexivity.
Qed.

Lemma parse_loop_timestamp (fuel : nat) (data : bytes) (offset : Z)
    (t : option float) (rid : RemoteIDData) :
  parse_loop fuel data offset (set_timestamp t rid)
  = fmap (set_timestamp t) (parse_loop fuel data offset rid).
Proof.
  revert offset rid. induction fuel as [|fuel IH]; intros offset rid;
    cbn [parse_loop]; destruct (offset <? len data); try reflexivity.
  rewrite parse_message_timestamp.
  destruct (parse_message data offset rid) as [fl| |]; cbn [bind fmap];
    try reflexivity.
  destruct fl as [o r|r]; cbn [flow_map]; [apply IH | reflexivity].
Qed.

Lemma set_timestamp_twice (t t' : option float) (r : RemoteIDData) :
  set_timestamp t (set_timestamp t' r) = set_timestamp t r.
Proof. reflexivity. Qed.

End Timestamp.

Import Timestamp.

(* ================================================================== *)
(** * [_decode_printable]: which characters survive *)
(* ================================================================== *)

Module Printable.

Lemma not_printable_high (c : Z) : 0x80 <= c -> is_printable c = false.
Proof.
  intros H. unfold is_printable. apply andb_false_iff. right.
  apply Z.leb_gt. lia.
Qed.

Lemma continuation_high (c : Z) : is_continuation c = true -> 0x80 <= c.
Proof.
  unfold is_continuation. intros H. apply andb_true_iff in H.
  destruct H as [H _]. apply Z.leb_le in H. exact H.
Qed.

Lemma filter_high (c : Z) (l : list Z) :
  0x80 <= c -> filter is_printable (c :: l) = filter is_printable l.
Proof.
  intros H. cbn [filter]. rewrite not_printable_high by exact H. reflexivity.
Qed.

(** Drops from either side of the goal every head that is known to lie
    above 0x7F. *)
Ltac drop_high :=
  repeat (cbn [map]; rewrite filter_high
            by first [assumption | lia | apply continuation_high; assumption]).

(** Drops the first input byte only. *)
Ltac drop_first b :=
  cbn [map]; rewrite (filter_high (byte_val b)) by lia.

Ltac resume IH := apply IH; cbn [List.length]; lia.

(** Decoding with [errors='ignore'] loses or merges only bytes above 0x7F,
    so the printable characters of the decoded text are the printable bytes
    of the input, in order. *)
Lemma printable_of_decoded_bound (n : nat) (b : bytes) :
  (List.length b <= n)%nat ->
  filter is_printable (utf8_decode_ignore b)
  = filter is_printable (map byte_val b).
Proof.
  revert b. induction n as [|n IH]; intros b Hn.
  { destruct b; [reflexivity | cbn in Hn; lia]. }
  destruct b as [|b1 t1]; [reflexivity|].
  cbn [List.length] in Hn. cbn [utf8_decode_ignore].
  pose proof (byte_val_range b1) as R1.
  destruct (Z.ltb_spec (byte_val b1) 0x80) as [L1|L1].
  { cbn [map filter]. rewrite IH by lia. reflexivity. }
  destruct (Z.ltb_spec (byte_val b1) 0xC2) as [L2|L2].
  { drop_first b1. resume IH. }
  destruct (Z.ltb_spec (byte_val b1) 0xE0) as [L3|L3].
  { destruct t1 as [|b2 t2]; [drop_high; reflexivity|].
    cbn [List.length] in Hn.
    destruct (is_continuation (byte_val b2)) eqn:C2.
    - pose proof (continuation_high _ C2). drop_high. resume IH.
    - drop_first b1. resume IH. }
  destruct (Z.ltb_spec (byte_val b1) 0xF0) as [L4|L4].
  { destruct t1 as [|b2 t2]; [drop_high; reflexivity|].
    cbn [List.length] in Hn.
    destruct (is_continuation (byte_val b2)) eqn:C2; cbn [negb orb].
    2:{ drop_first b1. resume IH. }
    pose proof (continuation_high _ C2).
    assert (G : (if byte_val b2 <? 160
                 then byte_val b1 =? 224 else byte_val b1 =? 237) = false ->
                0x80 * 64 + 0x800 <= (byte_val b1 - 224) * 4096 + byte_val b2 * 64).
    { destruct (Z.ltb_spec (byte_val b2) 160);
        [destruct (Z.eqb_spec (byte_val b1) 224)
        |destruct (Z.eqb_spec (byte_val b1) 237)]; intros; try discriminate; lia. }
    destruct (if byte_val b2 <? 160
              then byte_val b1 =? 224 else byte_val b1 =? 237).
    { drop_first b1. resume IH. }
    specialize (G eq_refl).
    destruct t2 as [|b3 t3]; [drop_high; reflexivity|].
    cbn [List.length] in Hn.
    destruct (is_continuation (byte_val b3)) eqn:C3.
    - pose proof (continuation_high _ C3). drop_high. resume IH.
    - drop_first b1. cbn [map]. rewrite (filter_high (byte_val b2)) by lia.
      resume IH. }
  destruct (Z.ltb_spec (byte_val b1) 0xF5) as [L5|L5].
  { destruct t1 as [|b2 t2]; [drop_high; reflexivity|].
    cbn [List.length] in Hn.
    destruct (is_continuation (byte_val b2)) eqn:C2; cbn [negb orb].
    2:{ drop_first b1. resume IH. }
    pose proof (continuation_high _ C2).
    assert (G : (if byte_val b2 <? 144
                 then byte_val b1 =? 240 else byte_val b1 =? 244) = false ->
                0x80 * 4096 + 0x10000
                <= (byte_val b1 - 240) * 262144 + byte_val b2 * 4096).
    { destruct (Z.ltb_spec (byte_val b2) 144);
        [destruct (Z.eqb_spec (byte_val b1) 240)
        |destruct (Z.eqb_spec (byte_val b1) 244)]; intros; try discriminate; lia. }
    destruct (if byte_val b2 <? 144
              then byte_val b1 =? 240 else byte_val b1 =? 244).
    { drop_first b1. resume IH. }
    specialize (G eq_refl).
    destruct t2 as [|b3 t3]; [drop_high; reflexivity|].
    cbn [List.length] in Hn.
    destruct (is_continuation (byte_val b3)) eqn:C3; cbn [negb].
    2:{ drop_first b1. cbn [map]. rewrite (filter_high (byte_val b2)) by lia.
        resume IH. }
    pose proof (continuation_high _ C3).
    destruct t3 as [|b4 t4]; [drop_high; reflexivity|].
    cbn [List.length] in Hn.
    destruct (is_continuation (byte_val b4)) eqn:C4.
    - pose proof (continuation_high _ C4). drop_high. resume IH.
    - drop_first b1. cbn [map]. rewrite (filter_high (byte_val b2)) by lia.
      rewrite (filter_high (byte_val b3)) by lia. resume IH. }
  drop_first b1. resume IH.
Qed.

Lemma printable_of_decoded (b : bytes) :
  filter is_printable (utf8_decode_ignore b)
  = filter is_printable (map byte_val b).
Proof. apply (printable_of_decoded_bound (List.length b)). lia. Qed.

(** Trimming trailing NULs removes no printable character. *)
Lemma printable_of_rstrip (s : ustr) :
  filter is_printable (rstrip_nul s) = filter is_printable s.
Proof.
  induction s as [|c s IH]; [reflexivity|].
  unfold rstrip_nul in *. cbn [fold_right].
  destruct (fold_right _ [] s) as [|c' s'] eqn:E.
  - cbn [filter] in IH. destruct (Z.eqb_spec c 0) as [->|].
    + cbn [filter]. rewrite <- IH. reflexivity.
    + cbn [filter]. rewrite <- IH. reflexivity.
  - cbn [filter]. rewrite <- IH. reflexivity.
Qed.

(** The decoded, trimmed text is never longer than the input. *)
Lemma decoded_length_bound (n : nat) (b : bytes) :
  (List.length b <= n)%nat -> len (utf8_decode_ignore b) <= len b.
Proof.
  unfold len. revert b. induction n as [|n IH]; intros b Hn.
  { destruct b; [cbn; lia | cbn in Hn; lia]. }
  destruct b as [|b1 t1]; [cbn; lia|].
  cbn [List.length] in Hn. cbn [utf8_decode_ignore].
  repeat match goal with
         | |- context [match ?l with [] => _ | _ :: _ => _ end] =>
           destruct l; cbn [List.length] in *
         | |- context [if ?c then _ else _] => destruct c
         end;
    cbn [List.length];
    try lia;
    match goal with
    | |- context [utf8_decode_ignore ?l] =>
      let H := fresh in
      assert (H : (List.length l <= n)%nat) by (cbn [List.length]; lia);
      specialize (IH l H); cbn [List.length] in IH; lia
    end.
Qed.

Lemma rstrip_length (s : ustr) : len (rstrip_nul s) <= len s.
Proof.
  unfold len. induction s as [|c s IH]; [cbn; lia|].
  unfold rstrip_nul in *. cbn [fold_right].
  destruct (fold_right _ [] s); [destruct (c =? 0)|]; cbn [List.length] in *; lia.
Qed.

End Printable.

Import Printable.

(* ================================================================== *)
(** * Binary64 facts: a scaled non-zero integer is a non-zero float *)
(* ================================================================== *)

Module FloatFacts.

Lemma digits2_pos_lower (p : positive) :
  2 ^ (Zpos (digits2_pos p) - 1) <= Zpos p.
Proof.
  induction p as [p IH|p IH|]; cbn [digits2_pos].
  - rewrite Pos2Z.inj_succ. replace (Z.succ (Zpos (digits2_pos p)) - 1) with (1 + (Zpos (digits2_pos p) - 1)) by lia.
    rewrite Z.pow_add_r by lia. change (2^1) with 2. lia.
  - rewrite Pos2Z.inj_succ. replace (Z.succ (Zpos (digits2_pos p)) - 1) with (1 + (Zpos (digits2_pos p) - 1)) by lia.
    rewrite Z.pow_add_r by lia. change (2^1) with 2. lia.
  - cbn. lia.
Qed.

Lemma digits2_pos_upper (p : positive) :
  Zpos p < 2 ^ Zpos (digits2_pos p).
Proof.
  induction p as [p IH|p IH|]; cbn [digits2_pos].
  - rewrite Pos2Z.inj_succ, Z.pow_succ_r by lia. lia.
  - rewrite Pos2Z.inj_succ, Z.pow_succ_r by lia. lia.
  - cbn. lia.
Qed.

Lemma shr_1_m (mrs : shr_record) :
  0 <= shr_m mrs -> shr_m (shr_1 mrs) = shr_m mrs / 2.
Proof.
  destruct mrs as [m r s]. cbn [shr_m shr_1]. intros H.
  destruct m as [|p|p]; [reflexivity| |lia].
  destruct p as [p|p|]; cbn [shr_m].
  - rewrite Pos2Z.inj_xI. apply Z.div_unique with (r := 1); lia.
  - rewrite Pos2Z.inj_xO. apply Z.div_unique with (r := 0); lia.
  - reflexivity.
Qed.

Lemma iter_shr_m (p : positive) (mrs : shr_record) :
  0 <= shr_m mrs ->
  shr_m (iter_pos shr_1 p mrs) = shr_m mrs / 2 ^ Zpos p.
Proof.
  revert mrs. induction p as [p IH|p IH|]; intros mrs H; cbn [iter_pos].
  - assert (H1 : 0 <= shr_m (shr_1 mrs)) by (rewrite shr_1_m by lia; apply Z.div_pos; lia).
    assert (H2 : 0 <= shr_m (iter_pos shr_1 p (shr_1 mrs))) by (rewrite IH by lia; apply Z.div_pos; lia).
    rewrite IH by lia. rewrite IH by lia. rewrite shr_1_m by lia.
    rewrite !Z.div_div by lia.
    f_equal. rewrite Pos2Z.inj_xI.
    replace (2 * Z.pos p + 1) with (1 + Z.pos p + Z.pos p) by lia.
    rewrite !Z.pow_add_r by lia. change (2 ^ 1) with 2. ring.
  - assert (H2 : 0 <= shr_m (iter_pos shr_1 p mrs)) by (rewrite IH by lia; apply Z.div_pos; lia).
    rewrite IH by lia. rewrite IH by lia.
    rewrite !Z.div_div by lia.
    f_equal. rewrite <- Z.pow_add_r by lia. f_equal. lia.
  - rewrite shr_1_m by lia. reflexivity.
Qed.

Lemma shr_record_of_loc_m m l : shr_m (shr_record_of_loc m l) = m.
Proof. destruct l as [|[]]; reflexivity. Qed.

(** Shifting to the format keeps a positive mantissa positive as long as the
    exponent is not below the smallest one. *)
Lemma shr_fexp_pos (m e : Z) (l : location) :
  0 < m -> -1074 <= e ->
  0 < shr_m (fst (shr_fexp 53 1024 m e l)) /\ -1074 <= snd (shr_fexp 53 1024 m e l).
Proof.
  intros Hm He. unfold shr_fexp, shr.
  destruct m as [|p|p]; try lia. cbn [Zdigits2].
  pose proof (digits2_pos_lower p) as HL.
  set (d := Zpos (digits2_pos p)) in *.
  assert (Hd : 1 <= d) by (subst d; lia).
  unfold fexp, emin.
  destruct (Z.max (d + e - 53) (3 - 1024 - 53) - e) as [|k|k] eqn:K; cbn [fst snd].
  - rewrite shr_record_of_loc_m. lia.
  - rewrite iter_shr_m by (rewrite shr_record_of_loc_m; lia).
    rewrite shr_record_of_loc_m.
    assert (Hk : Zpos k <= d - 1) by lia.
    split; [|lia].
    apply Z.div_str_pos. split; [apply Z.pow_pos_nonneg; lia|].
    etransitivity; [|exact HL]. apply Z.pow_le_mono_r; lia.
  - rewrite shr_record_of_loc_m. lia.
Qed.

Lemma round_nearest_even_pos m l : 0 < m -> 0 < round_nearest_even m l.
Proof.
  intros H. destruct l as [|[]]; cbn [round_nearest_even]; try lia.
  destruct (Z.even m); lia.
Qed.

Lemma binary_round_aux_nonzero (sx : bool) (m e : Z) (l : location) :
  0 < m -> -1074 <= e ->
  forall s, binary_round_aux 53 1024 sx m e l <> S754_zero s.
Proof.
  intros Hm He s. unfold binary_round_aux.
  pose proof (shr_fexp_pos m e l Hm He) as [H1 H2].
  destruct (shr_fexp 53 1024 m e l) as [mrs' e']. cbn [fst snd] in *.
  pose proof (round_nearest_even_pos (shr_m mrs') (loc_of_shr_record mrs') H1) as H3.
  pose proof (shr_fexp_pos _ e' loc_Exact H3 H2) as [H4 H5].
  destruct (shr_fexp 53 1024 _ e' loc_Exact) as [mrs'' e'']. cbn [fst snd] in *.
  destruct (shr_m mrs''); try lia.
  destruct (e'' <=? 1024 - 53); discriminate.
Qed.

Lemma digits2_pos_iter_xO (p k : positive) :
  digits2_pos (Pos.iter xO p k) = (digits2_pos p + k)%positive.
Proof.
  induction k as [|k IH] using Pos.peano_ind.
  - cbn. lia.
  - rewrite Pos.iter_succ. cbn [digits2_pos]. rewrite IH. lia.
Qed.

Lemma binary_round_small (s : bool) (p : positive) :
  Zpos (digits2_pos p) < 53 ->
  exists m e,
    binary_round 53 1024 s p 0 = S754_finite s m e
    /\ -52 <= e
    /\ SpecFloat.valid_binary 53 1024 (S754_finite s m e) = true.
Proof.
  intros Hd. unfold binary_round, shl_align.
  set (d := Zpos (digits2_pos p)) in *.
  assert (Hfe : fexp 53 1024 (d + 0) = d - 53)
    by (unfold fexp, emin; lia).
  rewrite Hfe.
  destruct (d - 53 - 0) as [|k|k] eqn:K; try lia.
  assert (Hk : Zpos k = 53 - d) by lia.
  unfold binary_round_aux, shr_fexp. cbn [Zdigits2].
  rewrite digits2_pos_iter_xO, Pos2Z.inj_add. fold d.
  replace (fexp 53 1024 (d + Zpos k + (d - 53)) - (d - 53)) with 0
    by (unfold fexp, emin; lia).
  cbn [shr shr_record_of_loc shr_m loc_of_shr_record round_nearest_even Zdigits2].
  rewrite digits2_pos_iter_xO, Pos2Z.inj_add. fold d.
  replace (fexp 53 1024 (d + Zpos k + (d - 53)) - (d - 53)) with 0
    by (unfold fexp, emin; lia).
  cbn [shr shr_m].
  replace (d - 53 <=? 1024 - 53) with true by (symmetry; apply Z.leb_le; lia).
  eexists. eexists. split; [reflexivity|]. split; [lia|].
  unfold SpecFloat.valid_binary, bounded, canonical_mantissa.
  rewrite digits2_pos_iter_xO, Pos2Z.inj_add. fold d.
  apply andb_true_iff. split; [apply Z.eqb_eq; unfold fexp, emin; lia | apply Z.leb_le; lia].
Qed.

Lemma binary_normalize_small (n : Z) :
  n <> 0 -> - 2 ^ 52 < n < 2 ^ 52 ->
  exists s m e,
    binary_normalize 53 1024 n 0 false = S754_finite s m e
    /\ -52 <= e
    /\ SpecFloat.valid_binary 53 1024 (S754_finite s m e) = true.
Proof.
  intros Hn Hr.
  assert (D : forall p, Zpos p < 2 ^ 52 -> Zpos (digits2_pos p) < 53).
  { intros p Hp. pose proof (digits2_pos_lower p) as HL.
    destruct (Z_lt_le_dec (Zpos (digits2_pos p)) 53) as [|Hge]; [assumption|].
    assert (2 ^ 52 <= 2 ^ (Zpos (digits2_pos p) - 1)) by (apply Z.pow_le_mono_r; lia).
    lia. }
  destruct n as [|p|p]; [congruence| |]; cbn [binary_normalize].
  - destruct (binary_round_small false p) as (m & e & H); [apply D; lia|].
    exists false, m, e. exact H.
  - destruct (binary_round_small true p) as (m & e & H); [apply D; lia|].
    exists true, m, e. exact H.
Qed.

Lemma scaled_truthy (n : Z) (c : float) (sc : bool) (mc : positive) (ec : Z) :
  Prim2SF c = S754_finite sc mc ec -> -1022 <= ec ->
  n <> 0 -> - 2 ^ 52 < n < 2 ^ 52 ->
  float_truthy (float_of_int n * c) = true.
Proof.
  intros Hc Hec Hn Hr. unfold float_truthy, float_of_int.
  destruct (binary_normalize_small n Hn Hr) as (s & m & e & E & He & V).
  rewrite FloatAxioms.eqb_spec, FloatAxioms.mul_spec, FloatAxioms.Prim2SF_SF2Prim by (rewrite E; exact V).
  rewrite E, Hc. unfold SF64mul, prec, emax. cbn [SFmul].
  pose proof (binary_round_aux_nonzero (xorb s sc) (Zpos (m * mc)) (e + ec) loc_Exact
                ltac:(lia) ltac:(lia)) as NZ.
  destruct (binary_round_aux 53 1024 (xorb s sc) (Z.pos (m * mc)) (e + ec) loc_Exact)
    as [s'|s'| |s' m' e']; try reflexivity.
  - exfalso. exact (NZ s' eq_refl).
  - destruct s'; reflexivity.
  - destruct s'; reflexivity.
Qed.


(** Every non-zero 32-bit integer scaled by [1e-7] is a non-zero float. *)
Lemma scaled_1e_7_truthy (n : Z) :
  n <> 0 -> - 2 ^ 31 <= n < 2 ^ 31 ->
  float_truthy (float_of_int n * 1e-7) = true.
Proof.
  intros Hn Hr.
  apply (scaled_truthy n 1e-7 false 7555786372591432 (-76));
    [reflexivity | lia | assumption | lia].
Qed.

End FloatFacts.

Import FloatFacts.

(* ================================================================== *)
(** * Properties of the Remote ID decoder *)
(* ================================================================== *)

Module DecoderClaims.

(** The record [decode_from_raw_bytes] returns at one clock reading is the
    record it returns at any other, with the [timestamp] replaced. *)
Lemma decode_retimed (raw_data : bytes) (now1 now2 : float) :
  decode_from_raw_bytes raw_data now2
  = on_record (set_timestamp (Some now2)) (decode_from_raw_bytes raw_data now1).
Proof.
  unfold decode_from_raw_bytes, on_record, _parse_remote_id_messages.
  rewrite !parse_loop_timestamp.
  destruct (parse_loop _ raw_data 0 new_RemoteIDData) as [r| |];
    cbn [bind fmap]; try reflexivity.
  cbn [uas_id latitude set_timestamp].
  destruct (negb (is_valid_id (uas_id r)) && negb (opt_float_truthy (latitude r)));
    [destruct (search_patterns_in_bytes raw_data)|]; reflexivity.
Qed.

(** C9, as amended: two runs of the decoder on the same buffer return
    records that agree on every field except [timestamp]; the second record
    is the first one with the second clock reading stored in [timestamp]. *)
Theorem C9_decode_twice_equal_up_to_timestamp
    (raw_data : bytes) (now1 now2 : float) :
  decode_from_raw_bytes raw_data now2
  = on_record (set_timestamp (Some now2)) (decode_from_raw_bytes raw_data now1)
  /\ on_record (set_timestamp None) (decode_from_raw_bytes raw_data now1)
     = on_record (set_timestamp None) (decode_from_raw_bytes raw_data now2).
Proof.
  split; [apply decode_retimed|].
  rewrite (decode_retimed raw_data now1 now2). unfold on_record.
  destruct (decode_from_raw_bytes raw_data now1) as [[r|]| |]; reflexivity.
Qed.

(** C9, as stated, fails: decoding Scenario A at two different clock
    readings gives two different records. *)
Lemma C9_counterexample :
  decode_from_raw_bytes scenario_A 0%float
  <> decode_from_raw_bytes scenario_A 1%float.
Proof.
  intros H.
  apply (f_equal (fun m => match m with
                           | Ok (Some r) =>
                             match timestamp r with
                             | Some t => PrimFloat.eqb t 0%float
                             | None => false
                             end
                           | _ => false
                           end)) in H.
  vm_compute in H. discriminate.
Qed.

Lemma decode_timestamp (raw_data : bytes) (now : float) (r : RemoteIDData) :
  decode_from_raw_bytes raw_data now = Ok (Some r) -> timestamp r = Some now.
Proof.
  rewrite (decode_retimed raw_data now now). unfold on_record.
  destruct (decode_from_raw_bytes raw_data now) as [[r0|]| |]; cbn;
    intros H; try discriminate.
  injection H as <-. reflexivity.
Qed.

(** C10: on every input [decode_from_raw_bytes] returns a record, never
    [None], an exception or a loop without end; on the empty input every
    payload field of that record is absent; a record that fails the callers'
    filter is returned all the same, and it is the BLE and Wi-Fi scans that
    turn it down. *)
Theorem C10_decode_always_returns_a_record :
  (forall raw_data now,
      exists r, decode_from_raw_bytes raw_data now = Ok (Some r)
                /\ timestamp r = Some now)
  /\ (forall now,
         decode_from_raw_bytes [] now
         = Ok (Some (set_timestamp (Some now) new_RemoteIDData)))
  /\ (exists r,
         decode_from_raw_bytes unknown_basic_id 0%float = Ok (Some r)
         /\ uas_id_type r = Some "Unknown"
         /\ strict_filter r = false
         /\ wifi_first_filter r = false)
  /\ BLE._try_decode unknown_basic_id counting_clock = Ok None
  /\ WiFiSystem._try_decode_from_bytes unknown_basic_id counting_clock = Ok None.
Proof.
  split; [|split; [|split; [|split]]].
  - intros raw_data now.
    destruct (decode_from_raw_bytes_ok raw_data now) as (r & E).
    exists r. split; [exact E | exact (decode_timestamp _ _ _ E)].
  - intros now. reflexivity.
  - eexists. split; [vm_compute; reflexivity|].
    split; [reflexivity|]. split; vm_compute; reflexivity.
  - vm_compute. reflexivity.
  - vm_compute. reflexivity.
Qed.

(** C8, as amended: the characters kept are exactly the input bytes in
    0x20-0x7E, in order; they are returned when there are at least
    [max(6, len(s) // 2)] of them, [s] being the input decoded as UTF-8 with
    invalid bytes dropped and trailing NULs trimmed (never longer than the
    input); otherwise the upper-case hex of the original bytes is
    returned. *)
Theorem C8_decode_printable_characterised (b : bytes) :
  let kept := filter is_printable (map byte_val b) in
  let s := rstrip_nul (utf8_decode_ignore b) in
  _decode_printable b
  = (if Z.max 6 (len s / 2) <=? len kept then str_of_ustr kept else hex_upper b)
  /\ len s <= len b.
Proof.
  cbv zeta. split.
  - unfold _decode_printable.
    rewrite printable_of_rstrip, printable_of_decoded, Z.geb_leb. reflexivity.
  - etransitivity; [apply rstrip_length|].
    apply (decoded_length_bound (List.length b)). lia.
Qed.

(** C8, as stated, fails: all three bytes of ["ABC"] are printable, so not
    fewer than half of them survive, and yet the hex fallback is taken. *)
Lemma C8_counterexample :
  let b := bytes_of_string "ABC" in
  filter is_printable (map byte_val b) = map byte_val b
  /\ _decode_printable b = hex_upper b
  /\ _decode_printable b = "414243"
  /\ ~ (2 * len (filter is_printable (map byte_val b)) < len b).
Proof.
  cbv zeta. repeat split; try reflexivity. vm_compute. discriminate.
Qed.

(** C3: the Location/Vector message of Scenario B is two bytes shorter than
    the 23 bytes the decoder insists on after the type byte, so no field of
    it is decoded, alone, after Scenario A, or in the packet the repository
    builds for its own test; followed by two more bytes the same message
    decodes to exactly the values of the scenario. *)
Theorem C3_scenario_B_location_not_decoded (now : float) :
  decode_from_raw_bytes scenario_B now
  = Ok (Some (set_timestamp (Some now) new_RemoteIDData))
  /\ on_record (fun r => set_uas_id None (set_uas_id_type None r))
       (decode_from_raw_bytes (scenario_A ++ scenario_B) now)
     = Ok (Some (set_timestamp (Some now) new_RemoteIDData))
  /\ (p <- create_test_remote_id_packet ;;
      on_record (fun r => set_uas_id None (set_uas_id_type None r))
        (decode_from_raw_bytes p now))
     = Ok (Some (set_timestamp (Some now) new_RemoteIDData))
  /\ decode_from_raw_bytes (scenario_B ++ [x00; x00]) now
     = Ok (Some
             (set_latitude (Some 12.3585%float)
             (set_longitude (Some (-1.5352)%float)
             (set_altitude_msl (Some 120.5%float)
             (set_height (Some 45.0%float)
             (set_speed (Some 12.25%float)
             (set_direction (Some 87%float)
             (set_vertical_speed (Some 2.5%float)
             (set_status (Some "Airborne")
             (set_timestamp (Some now) new_RemoteIDData)))))))))).
Proof.
  repeat split; vm_compute; reflexivity.
Qed.

(** What one Location/Vector message does to the record: direction, speed
    and vertical speed are assigned in every case, [None] exactly on their
    sentinels; the altitude is assigned only when its raw value is not
    -1000 and is otherwise left as it was. *)
Lemma parse_location_fields (data : bytes) (offset : Z) (rid : RemoteIDData)
    (fl : flow) :
  offset + 23 <= len data ->
  parse_location data offset rid = Ok fl ->
  exists dir spd vs alt,
    getitem data (offset + 1) = Ok dir
    /\ getitem data (offset + 2) = Ok spd
    /\ (v <- getitem data (offset + 3) ;; b <- bytes_of_int v ;; unpack_b b) = Ok vs
    /\ unpack_lt_h (slice data (offset + 12) (offset + 14)) = Ok alt
    /\ (direction (flow_record fl) = None <-> dir = 0xFF)
    /\ (speed (flow_record fl) = None <-> spd = 0xFF)
    /\ (vertical_speed (flow_record fl) = None <-> vs = 0x7F)
    /\ (alt <> -1000 ->
        altitude_msl (flow_record fl) = Some (float_of_int alt * 0.5)%float)
    /\ (alt = -1000 -> altitude_msl (flow_record fl) = altitude_msl rid).
Proof.
  intros Hlen. unfold parse_location.
  replace (offset + 23 <=? len data) with true
    by (symmetry; apply Z.leb_le; exact Hlen).
  destruct (getitem data offset) as [status| |]; cbn [bind]; try discriminate.
  destruct (getitem data (offset + 1)) as [dir| |]; cbn [bind]; try discriminate.
  destruct (getitem data (offset + 2)) as [spd| |]; cbn [bind]; try discriminate.
  destruct (getitem data (offset + 3)) as [vb| |]; cbn [bind]; try discriminate.
  destruct (bytes_of_int vb) as [vbs| |]; cbn [bind]; try discriminate.
  destruct (unpack_b vbs) as [vs| |]; cbn [bind]; try discriminate.
  destruct (unpack_lt_i _) as [lat| |]; cbn [bind]; try discriminate.
  destruct (unpack_lt_i _) as [lon| |]; cbn [bind]; try discriminate.
  destruct (unpack_lt_h (slice data (offset + 12) (offset + 14))) as [alt| |];
    cbn [bind]; try discriminate.
  destruct (unpack_lt_h _) as [hgt| |]; cbn [bind]; try discriminate.
  intros H. injection H as <-. cbv zeta.
  exists dir, spd, vs, alt.
  do 4 (split; [reflexivity|]).
  destruct (Z.eqb_spec lat 0), (Z.eqb_spec lon 0), (Z.eqb_spec alt (-1000)),
    (Z.eqb_spec hgt (-1000));
    cbn [flow_record direction speed vertical_speed altitude_msl
         set_height set_altitude_msl set_longitude set_latitude
         set_vertical_speed set_speed set_direction set_status];
    destruct (Z.eqb_spec dir 255), (Z.eqb_spec spd 255), (Z.eqb_spec vs 127);
    repeat split; intros; try reflexivity; try assumption; try discriminate;
    try contradiction.
Qed.

(** C4: a second Location/Vector message whose altitude is the sentinel
    -1000 leaves the altitude of the first message in the record, while its
    direction, speed and vertical speed sentinels do clear their fields. *)
Theorem C4_stale_altitude_after_sentinel (now : float) :
  exists r,
    decode_from_raw_bytes (scenario_B ++ [x00; x00] ++ location_unknown) now
    = Ok (Some r)
    /\ unpack_lt_h (slice location_unknown 13 15) = Ok (-1000)
    /\ altitude_msl r = Some 120.5%float
    /\ direction r = None /\ speed r = None /\ vertical_speed r = None.
Proof.
  eexists. split; [vm_compute; reflexivity|]. repeat split.
Qed.

End DecoderClaims.

(* ================================================================== *)
(** * The zone check and the haversine distance *)
(* ================================================================== *)

Module ThreatBasics.

Import Fusion.

Section Zone.

Variable np_radians np_sin np_cos np_sqrt np_square : float -> float.
Variable np_arctan2 : float -> float -> float.
Variable restricted_zones : list Zone.

#[local] Abbreviation check :=
  (_check_restricted_zone np_radians np_sin np_cos np_sqrt np_square
     np_arctan2 restricted_zones).

(** [_calculate_distance] computes the haversine distance. *)
Lemma calculate_distance_haversine (lat1 lon1 lat2 lon2 : float) :
  _calculate_distance np_radians np_sin np_cos np_sqrt np_square np_arctan2
    lat1 lon1 lat2 lon2
  = haversine np_radians np_sin np_cos np_sqrt np_square np_arctan2
      lat1 lon1 lat2 lon2.
Proof. reflexivity. Qed.

(** A position that has its altitude is a non-empty dictionary. *)
Lemma altitude_present (p : PositionDict) (agl : float) :
  pos_altitude_agl p = Some agl -> position_truthy (Some p) = true.
Proof.
  intros E. cbn [position_truthy]. rewrite E. cbn [is_some].
  rewrite orb_true_r. reflexivity.
Qed.

(** Where the limit is not negative, the altitude test alone decides: a
    position without altitude reads as 0. *)
Lemma altitude_guard (limit : float) (p : PositionDict) :
  PrimFloat.ltb limit 0 = false ->
  position_truthy (Some p) && PrimFloat.ltb limit (get0 (pos_altitude_agl p))
  = PrimFloat.ltb limit (get0 (pos_altitude_agl p)).
Proof.
  intros L. destruct (pos_altitude_agl p) as [agl|] eqn:E.
  - rewrite (altitude_present p agl E). reflexivity.
  - cbn [get0]. rewrite L. apply andb_false_r.
Qed.

(** The zone check: the position has a non-zero latitude and a non-zero
    longitude, and some zone is within reach of it. *)
Lemma check_restricted_zone_spec (position : option PositionDict) :
  check position = true
  <-> exists p lat lon zone,
        position = Some p
        /\ pos_latitude p = Some lat /\ pos_longitude p = Some lon
        /\ float_truthy lat = true /\ float_truthy lon = true
        /\ In zone restricted_zones
        /\ PrimFloat.leb
             (haversine np_radians np_sin np_cos np_sqrt np_square np_arctan2
                lat lon (center_lat zone) (center_lon zone))
             (radius_km zone * 1000) = true.
Proof.
  unfold _check_restricted_zone. destruct position as [p|].
  - cbn [position_truthy].
    destruct (pos_latitude p) as [lat|] eqn:La;
      destruct (pos_longitude p) as [lon|] eqn:Lo;
      cbn [is_some orb negb opt_float_truthy].
    + destruct (float_truthy lat) eqn:Tla; destruct (float_truthy lon) eqn:Tlo;
        cbn [negb orb].
      * rewrite existsb_exists. split.
        -- intros (zone & Hin & Hz). exists p, lat, lon, zone.
           repeat split; try assumption.
        -- intros (p' & lat' & lon' & zone & E1 & E2 & E3 & _ & _ & Hin & Hz).
           injection E1 as <-. rewrite La in E2. rewrite Lo in E3.
           injection E2 as <-. injection E3 as <-.
           exists zone. split; assumption.
      * split; [discriminate|].
        intros (p' & lat' & lon' & zone & E1 & E2 & E3 & _ & T & _).
        injection E1 as <-. rewrite Lo in E3. injection E3 as <-. congruence.
      * split; [discriminate|].
        intros (p' & lat' & lon' & zone & E1 & E2 & E3 & T & _).
        injection E1 as <-. rewrite La in E2. injection E2 as <-. congruence.
      * split; [discriminate|].
        intros (p' & lat' & lon' & zone & E1 & E2 & E3 & T & _).
        injection E1 as <-. rewrite La in E2. injection E2 as <-. congruence.
    + split;
        [intros H;
         repeat match type of H with
                | (if ?c then _ else _) = _ => destruct c
                end; discriminate H|].
      intros (p' & lat' & lon' & zone & E1 & E2 & E3 & _).
      injection E1 as <-. congruence.
    + split;
        [intros H;
         repeat match type of H with
                | (if ?c then _ else _) = _ => destruct c
                end; discriminate H|].
      intros (p' & lat' & lon' & zone & E1 & E2 & E3 & _).
      injection E1 as <-. congruence.
    + split;
        [intros H;
         repeat match type of H with
                | (if ?c then _ else _) = _ => destruct c
                end; discriminate H|].
      intros (p' & lat' & lon' & zone & E1 & E2 & E3 & _).
      injection E1 as <-. congruence.
  - split; [discriminate|]. intros (p & ? & ? & ? & E & _). discriminate E.
Qed.

(** The zone check passes only on a non-empty position. *)
Lemma zone_guard (position : option PositionDict) :
  position_truthy position && check position = check position.
Proof.
  destruct (check position) eqn:C; [|apply andb_false_r].
  apply check_restricted_zone_spec in C.
  destruct C as (p & lat & lon & zone & -> & La & _).
  cbn [position_truthy]. rewrite La. reflexivity.
Qed.

End Zone.

End ThreatBasics.

(* ================================================================== *)
(** * Channel plan, band-pass step and threat assessment *)
(* ================================================================== *)

Module SystemClaims.

Import ChannelPlan.

(** C6: the plan [2g:1-3,5g:36/40] yields the five frequencies of
    Scenario F, in Hz; the centre of a 2.4 GHz channel is
    [2412 + 5 (ch - 1)] MHz for the channels 1 to 13 the plan admits, and
    the centre of a 5 GHz channel is [5000 + 5 ch] MHz (checked here for
    channels 1 to 200). *)
Theorem C6_channel_plan_frequencies :
  parse_scan_channels "2g:1-3,5g:36/40"
  = Ok [2.412e9; 2.417e9; 2.422e9; 5.180e9; 5.200e9]%float
  /\ Forall (fun ch => ch_to_freq_2g ch
                       = Ok (float_of_int ((2412 + 5 * (ch - 1)) * 1000000)))
            (range_step 1 14 1)
  /\ Forall (fun ch => ch_to_freq_5g ch
                       = Ok (float_of_int ((5000 + 5 * ch) * 1000000)))
            (range_step 1 201 1).
Proof.
  split; [vm_compute; reflexivity|].
  split; apply Forall_forall; intros ch Hin; vm_compute in Hin;
    repeat (destruct Hin as [<-|Hin]; [vm_compute; reflexivity|]);
    contradiction.
Qed.

Import Preprocessing.

Section BandPassRule.

Variable ndarray sos : Type.
Variable np_real np_imag : ndarray -> ndarray.
Variable np_complex : ndarray -> ndarray -> ndarray.
Variable butter_band : Z -> float -> float -> result sos.
Variable sosfilt : sos -> ndarray -> ndarray.

(** C7, as amended: with a zero Nyquist frequency the step raises
    ZeroDivisionError.  Otherwise, with the cut-offs divided by the Nyquist
    frequency, the step returns its input unchanged and logs a warning
    exactly when the low one is at most 0 or the high one at least 1.  In
    every other case, so also for cut-offs above 0.9 times the Nyquist
    frequency and for an inverted pair, the pair is handed as it is to the
    filter design of the given order (6 by default): when the design
    returns, the filter is applied to the real and to the imaginary part
    separately and no warning is logged; when the design raises, the step
    raises the same error, and returns nothing. *)
Theorem C7_bandpass_bypass_rule (sample_rate : float) (iq_samples : ndarray)
    (low_freq high_freq : float) (order : Z) :
  let nyquist := (sample_rate / 2.0)%float in
  let low := (low_freq / nyquist)%float in
  let high := (high_freq / nyquist)%float in
  let outside := PrimFloat.leb low 0 || PrimFloat.leb 1 high in
  let filtered (s : sos) :=
    np_complex (sosfilt s (np_real iq_samples))
               (sosfilt s (np_imag iq_samples)) in
  let run := bandpass_filter ndarray sos np_real np_imag np_complex
               butter_band sosfilt sample_rate iq_samples low_freq high_freq
               order in
  (PrimFloat.eqb nyquist 0 = true -> run = Raise ZeroDivisionError)
  /\ (PrimFloat.eqb nyquist 0 = false ->
      (outside = true ->
       run = Ok (iq_samples, [LogWarning low_freq high_freq]))
      /\ (outside = false ->
          run = (s <- butter_band order low high ;;
                 Ok (filtered s, [LogDebug low_freq high_freq order]))
          /\ (forall s, butter_band order low high = Ok s ->
                run = Ok (filtered s, [LogDebug low_freq high_freq order]))
          /\ (forall e, butter_band order low high = Raise e ->
                run = Raise e))
      /\ ((exists out, run = Ok (out, [LogWarning low_freq high_freq]))
          <-> outside = true)
      /\ (forall out log, run = Ok (out, log) ->
            (outside = true /\ out = iq_samples
             /\ log = [LogWarning low_freq high_freq])
            \/ (outside = false
                /\ log = [LogDebug low_freq high_freq order]
                /\ exists s, butter_band order low high = Ok s
                             /\ out = filtered s))).
Proof.
  cbv zeta. unfold bandpass_filter, float_div.
  destruct (PrimFloat.eqb (sample_rate / 2.0) 0) eqn:N; cbn [bind].
  - split; [reflexivity | discriminate].
  - split; [discriminate|]. intros _.
    destruct (PrimFloat.leb (low_freq / (sample_rate / 2.0)) 0
              || PrimFloat.leb 1 (high_freq / (sample_rate / 2.0))) eqn:O.
    + split; [reflexivity|]. split; [discriminate|].
      split; [split; [reflexivity | intros _; eexists; reflexivity]|].
      intros out log H. injection H as <- <-. left. repeat split.
    + split; [discriminate|].
      split.
      { intros _. split; [reflexivity|].
        split; intros x Hx; rewrite Hx; reflexivity. }
      split.
      { split; [|discriminate]. intros (out & H).
        destruct (butter_band order _ _) as [s| |]; cbn [bind] in H;
          discriminate H. }
      intros out log H. right. split; [reflexivity|].
      destruct (butter_band order _ _) as [s| |]; cbn [bind] in H;
        try discriminate H.
      injection H as <- <-. split; [reflexivity|].
      exists s. split; reflexivity.
Qed.

End BandPassRule.

(** The step on the samples and cut-offs of the repository's own test
    (25 MS/s, 4 to 6 MHz): the filter is designed and applied; with the
    cut-offs inverted the design raises and so does the step. *)
Lemma C7_bandpass_bypass_rule_witness :
  let run := bandpass_filter Toy.ndarray Toy.sos Toy.np_real Toy.np_imag
               Toy.np_complex Toy.butter_band Toy.sosfilt
               25e6 [(1, 2)%float] in
  PrimFloat.eqb (25e6 / 2.0) 0 = false
  /\ PrimFloat.leb (4e6 / (25e6 / 2.0)) 0
     || PrimFloat.leb 1 (6e6 / (25e6 / 2.0)) = false
  /\ Toy.butter_band 6 (4e6 / (25e6 / 2.0)) (6e6 / (25e6 / 2.0))
     = Ok (0.32, 0.48)%float
  /\ run 4e6%float 6e6%float 6
     = Ok (Toy.np_complex
             (Toy.sosfilt (0.32, 0.48)%float (Toy.np_real [(1, 2)%float]))
             (Toy.sosfilt (0.32, 0.48)%float (Toy.np_imag [(1, 2)%float])),
           [LogDebug 4e6 6e6 6])
  /\ PrimFloat.leb (6e6 / (25e6 / 2.0)) 0
     || PrimFloat.leb 1 (4e6 / (25e6 / 2.0)) = false
  /\ Toy.butter_band 6 (6e6 / (25e6 / 2.0)) (4e6 / (25e6 / 2.0))
     = Raise ValueError
  /\ run 6e6%float 4e6%float 6 = Raise ValueError.
Proof.
  cbv zeta.
  assert (N : PrimFloat.eqb (25e6 / 2.0) 0 = false) by reflexivity.
  assert (O : PrimFloat.leb (4e6 / (25e6 / 2.0)) 0
              || PrimFloat.leb 1 (6e6 / (25e6 / 2.0)) = false) by reflexivity.
  assert (B : Toy.butter_band 6 (4e6 / (25e6 / 2.0)) (6e6 / (25e6 / 2.0))
              = Ok (0.32, 0.48)%float) by reflexivity.
  assert (O' : PrimFloat.leb (6e6 / (25e6 / 2.0)) 0
               || PrimFloat.leb 1 (4e6 / (25e6 / 2.0)) = false) by reflexivity.
  assert (B' : Toy.butter_band 6 (6e6 / (25e6 / 2.0)) (4e6 / (25e6 / 2.0))
               = Raise ValueError) by reflexivity.
  destruct (C7_bandpass_bypass_rule Toy.ndarray Toy.sos Toy.np_real
              Toy.np_imag Toy.np_complex Toy.butter_band Toy.sosfilt
              25e6 [(1, 2)%float] 4e6 6e6 6) as [_ H].
  destruct (H N) as (_ & H2 & _). destruct (H2 O) as (_ & D & _).
  destruct (C7_bandpass_bypass_rule Toy.ndarray Toy.sos Toy.np_real
              Toy.np_imag Toy.np_complex Toy.butter_band Toy.sosfilt
              25e6 [(1, 2)%float] 6e6 4e6 6) as [_ H'].
  destruct (H' N) as (_ & H2' & _). destruct (H2' O') as (_ & _ & D').
  split; [exact N|]. split; [exact O|]. split; [exact B|].
  split; [exact (D _ B)|].
  split; [exact O'|]. split; [exact B'|].
  exact (D' _ B').
Defined.

(** C7, as stated, fails: at 25 MS/s a high cut-off of 11.5 MHz exceeds 0.9
    times the Nyquist frequency (11.25 MHz) and yet the filter is applied
    and no warning is logged; with the cut-offs inverted (5 MHz, 1 MHz) the
    step does not return its input either, it hands the inverted band to
    the filter design, whose error it raises. *)
Lemma C7_counterexample :
  let run := bandpass_filter Toy.ndarray Toy.sos Toy.np_real Toy.np_imag
               Toy.np_complex Toy.butter_band Toy.sosfilt 25e6 [(1, 2)%float] in
  PrimFloat.ltb (0.9 * (25e6 / 2.0)) 11.5e6 = true
  /\ (exists filtered,
         run 1e6%float 11.5e6%float 6 = Ok (filtered, [LogDebug 1e6 11.5e6 6])
         /\ filtered <> [(1, 2)%float])
  /\ run 5e6%float 1e6%float 6 = Raise ValueError.
Proof.
  cbv zeta. split; [reflexivity|]. split; [|reflexivity].
  eexists. split; [vm_compute; reflexivity|].
  intros H.
  apply (f_equal (fun l => match l with
                           | (a, _) :: _ => PrimFloat.eqb a 1
                           | [] => false
                           end)) in H.
  vm_compute in H. discriminate.
Qed.

Import Fusion.

Section ThreatRules.

Variable np_radians np_sin np_cos np_sqrt np_square : float -> float.
Variable np_arctan2 : float -> float -> float.
Variable restricted_zones : list Zone.

#[local] Abbreviation check :=
  (_check_restricted_zone np_radians np_sin np_cos np_sqrt np_square
     np_arctan2 restricted_zones).
#[local] Abbreviation score_of :=
  (threat_score np_radians np_sin np_cos np_sqrt np_square np_arctan2
     restricted_zones default_thresholds).
#[local] Abbreviation assess :=
  (_assess_threat np_radians np_sin np_cos np_sqrt np_square np_arctan2
     restricted_zones default_thresholds).
#[local] Abbreviation distance :=
  (_calculate_distance np_radians np_sin np_cos np_sqrt np_square np_arctan2).

(** C5, as amended: with the default limits the assessment returns, and the
    score is the sum of +20 when the Remote ID dictionary is empty, -10
    when it holds a non-empty [uas_id] (a Remote ID without identifier
    earns neither), +50 inside a restricted zone, +20 when [altitude_agl]
    is above 120 m, +10 above 20 m/s, +15 when the operator is more than
    5000 m away and +10 when the classification is not valid.  A position
    is inside a restricted zone exactly when its latitude and longitude are
    both there and non-zero and its distance to the centre of some zone is
    at most [radius_km * 1000]; the distance is the haversine distance on a
    sphere of radius 6 371 000 m.  The level is HIGH from 50, MEDIUM from
    20 and LOW below; the record of Scenario E, inside a zone and validly
    classified, scores 85 and is rated HIGH with its four contributors
    among the reasons. *)
Theorem C5_threat_score_and_level (remote_id : RemoteIdDict) (is_valid : bool) :
  (exists score reasons,
      score_of remote_id is_valid = inr (score, reasons)
      /\ score
         = points (negb (dict_truthy remote_id)) 20
           + points (opt_str_truthy (get_uas_id remote_id)) (-10)
           + points (check (get_position remote_id)) 50
           + points (PrimFloat.ltb 120 (height_agl_of remote_id)) 20
           + points (PrimFloat.ltb 20 (speed_of remote_id)) 10
           + points (PrimFloat.ltb 5000 (operator_distance_of remote_id)) 15
           + points (negb is_valid) 10
      /\ (exists reasons',
             assess remote_id is_valid = inr (level_of score, reasons')
             /\ reasons' <> []
             /\ (reasons <> [] -> reasons' = reasons))
      /\ (level_of score = HIGH <-> 50 <= score)
      /\ (level_of score = MEDIUM <-> 20 <= score < 50)
      /\ (level_of score = LOW <-> score < 20))
  /\ (forall position,
         check position = true
         <-> exists p lat lon zone,
               position = Some p
               /\ pos_latitude p = Some lat /\ pos_longitude p = Some lon
               /\ float_truthy lat = true /\ float_truthy lon = true
               /\ In zone restricted_zones
               /\ PrimFloat.leb
                    (distance lat lon (center_lat zone) (center_lon zone))
                    (radius_km zone * 1000) = true)
  /\ (forall lat1 lon1 lat2 lon2,
         distance lat1 lon1 lat2 lon2
         = haversine np_radians np_sin np_cos np_sqrt np_square np_arctan2
             lat1 lon1 lat2 lon2
         /\ distance lat1 lon1 lat2 lon2
            = (6371000
               * (2 * np_arctan2
                        (np_sqrt
                           (np_square (np_sin (np_radians (lat2 - lat1) / 2))
                            + np_cos (np_radians lat1) * np_cos (np_radians lat2)
                              * np_square
                                  (np_sin (np_radians (lon2 - lon1) / 2))))
                        (np_sqrt
                           (1 - (np_square
                                   (np_sin (np_radians (lat2 - lat1) / 2))
                                 + np_cos (np_radians lat1)
                                   * np_cos (np_radians lat2)
                                   * np_square
                                       (np_sin
                                          (np_radians (lon2 - lon1) / 2)))))))%float)
  /\ (forall lat lon agl other,
         float_truthy lat = true -> float_truthy lon = true ->
         (check (Some (mkPosition (Some lat) (Some lon) agl other)) = true
          <-> exists zone,
                In zone restricted_zones
                /\ PrimFloat.leb
                     (distance lat lon (center_lat zone) (center_lon zone))
                     (radius_km zone * 1000) = true))
  /\ (forall lat lon,
         check (get_position (scenario_E lat lon)) = true ->
         score_of (scenario_E lat lon) true
         = inr (50 + 20 + 10 + 15 - 10,
                [RemoteIDAvailable; InRestrictedZone; HighAltitude 200;
                 HighSpeed 25; OperatorFar])
         /\ assess (scenario_E lat lon) true
            = inr (HIGH,
                   [RemoteIDAvailable; InRestrictedZone; HighAltitude 200;
                    HighSpeed 25; OperatorFar])).
Proof.
  split.
  - assert (Hlevel : forall score,
               (level_of score = HIGH <-> 50 <= score)
               /\ (level_of score = MEDIUM <-> 20 <= score < 50)
               /\ (level_of score = LOW <-> score < 20)).
    { intros score. unfold level_of. rewrite !Z.geb_leb.
      destruct (Z.leb_spec 50 score); [|destruct (Z.leb_spec 20 score)];
        repeat split; intros; try discriminate; try lia; reflexivity. }
    assert (Hassess : forall score reasons,
               score_of remote_id is_valid = inr (score, reasons) ->
               exists reasons',
                 assess remote_id is_valid = inr (level_of score, reasons')
                 /\ reasons' <> []
                 /\ (reasons <> [] -> reasons' = reasons)).
    { intros score reasons E. unfold _assess_threat.
      rewrite E. destruct reasons as [|r rs].
      - eexists. split; [reflexivity|]. split; [discriminate|].
        intros H; now elim H.
      - eexists. split; [reflexivity|]. split; [discriminate|]. reflexivity. }
    assert (Hscore : exists score reasons,
               score_of remote_id is_valid = inr (score, reasons)
               /\ score
                  = points (negb (dict_truthy remote_id)) 20
                    + points (opt_str_truthy (get_uas_id remote_id)) (-10)
                    + points (check (get_position remote_id)) 50
                    + points (PrimFloat.ltb 120 (height_agl_of remote_id)) 20
                    + points (PrimFloat.ltb 20 (speed_of remote_id)) 10
                    + points (PrimFloat.ltb 5000
                                (operator_distance_of remote_id)) 15
                    + points (negb is_valid) 10).
    { clear Hassess Hlevel.
      unfold threat_score, height_agl_of, speed_of, operator_distance_of,
        step_remote_id, step_zone, step_altitude, step_speed, step_operator,
        step_classification.
      destruct remote_id as [|u p v o];
        cbn [dict_truthy negb get_uas_id get_position get_velocity
             get_operator].
      - destruct is_valid; eexists; eexists; split; reflexivity.
      - rewrite ThreatBasics.zone_guard.
        set (zone := _check_restricted_zone np_radians np_sin np_cos np_sqrt
                       np_square np_arctan2 restricted_zones p).
        cbn [default_thresholds altitude_agl_limit_m].
        destruct p as [p0|];
          [rewrite (ThreatBasics.altitude_guard 120 p0 eq_refl);
           destruct p0 as [plat plon [agl|] other]|];
          destruct (opt_str_truthy u), zone, is_valid;
          destruct v as [[[s|]]|]; destruct o as [[[d|]]|];
          cbn [default_thresholds altitude_agl_limit_m speed_limit_mps
               operator_distance_limit_m pos_altitude_agl vel_speed
               op_distance_to_uas_m get0];
          repeat match goal with
                 | |- context [PrimFloat.ltb 120 0] =>
                   change (PrimFloat.ltb 120 0) with false
                 | |- context [PrimFloat.ltb 20 0] =>
                   change (PrimFloat.ltb 20 0) with false
                 | |- context [PrimFloat.ltb 5000 0] =>
                   change (PrimFloat.ltb 5000 0) with false
                 | |- context [PrimFloat.ltb ?a ?b] =>
                   destruct (PrimFloat.ltb a b)
                 end;
          (eexists; eexists; split; reflexivity). }
    destruct Hscore as (score & reasons & E & Hsum).
    exists score, reasons. split; [exact E|]. split; [exact Hsum|].
    split; [exact (Hassess score reasons E) | apply Hlevel].
  - split; [exact (ThreatBasics.check_restricted_zone_spec np_radians np_sin
                     np_cos np_sqrt np_square np_arctan2 restricted_zones)|].
    split; [intros lat1 lon1 lat2 lon2; split; reflexivity|].
    split.
    { intros lat lon agl other Hlat Hlon. unfold _check_restricted_zone.
      cbn [position_truthy is_some orb pos_latitude pos_longitude
           opt_float_truthy].
      rewrite Hlat, Hlon. cbn [negb orb].
      rewrite existsb_exists. unfold in_zone. reflexivity. }
    intros lat lon Hzone.
    unfold _assess_threat, threat_score, step_zone, scenario_E in *.
    cbn [get_position] in *. rewrite ThreatBasics.zone_guard. rewrite Hzone.
    split; reflexivity.
Qed.

End ThreatRules.

(** Scenario E at the position of the repository's test record, inside the
    5 km zone centred at (12.3714, -1.5197). *)
Lemma C5_threat_score_and_level_witness :
  let check := _check_restricted_zone Toy.np_radians Toy.np_sin Toy.np_cos
                 Toy.np_sqrt Toy.np_square Toy.np_arctan2 RESTRICTED_ZONES in
  check (get_position (scenario_E 12.3585 (-1.5352))) = true
  /\ threat_score Toy.np_radians Toy.np_sin Toy.np_cos Toy.np_sqrt
       Toy.np_square Toy.np_arctan2 RESTRICTED_ZONES default_thresholds
       (scenario_E 12.3585 (-1.5352)) true
     = inr (85, [RemoteIDAvailable; InRestrictedZone; HighAltitude 200;
                 HighSpeed 25; OperatorFar])
  /\ _assess_threat Toy.np_radians Toy.np_sin Toy.np_cos Toy.np_sqrt
       Toy.np_square Toy.np_arctan2 RESTRICTED_ZONES default_thresholds
       (scenario_E 12.3585 (-1.5352)) true
     = inr (HIGH, [RemoteIDAvailable; InRestrictedZone; HighAltitude 200;
                   HighSpeed 25; OperatorFar]).
Proof.
  cbv zeta.
  assert (Hz : _check_restricted_zone Toy.np_radians Toy.np_sin Toy.np_cos
                 Toy.np_sqrt Toy.np_square Toy.np_arctan2 RESTRICTED_ZONES
                 (get_position (scenario_E 12.3585 (-1.5352))) = true)
    by (vm_compute; reflexivity).
  split; [exact Hz|].
  exact (proj2 (proj2 (proj2 (proj2
           (C5_threat_score_and_level Toy.np_radians Toy.np_sin Toy.np_cos
              Toy.np_sqrt Toy.np_square Toy.np_arctan2 RESTRICTED_ZONES
              (scenario_E 12.3585 (-1.5352)) true))))
           12.3585%float (-1.5352)%float Hz).
Defined.

(** C5, as stated, fails.  A Remote ID that is present but carries no
    identifier earns no -10: it scores 0 where the stated rule gives -10.
    And a position on the equator, at the very centre of a restricted zone
    of radius 5 km (haversine distance 0), is not found inside the zone,
    because its latitude 0.0 counts as missing: the record scores -10
    where the stated rule gives 50 - 10 = 40, and is rated LOW. *)
Lemma C5_counterexample :
  let zones := [mkZone "equator" 0 10 5]%float in
  let score_of := threat_score Toy.np_radians Toy.np_sin Toy.np_cos Toy.np_sqrt
                    Toy.np_square Toy.np_arctan2 zones default_thresholds in
  let assess := _assess_threat Toy.np_radians Toy.np_sin Toy.np_cos
                  Toy.np_sqrt Toy.np_square Toy.np_arctan2 zones
                  default_thresholds in
  let anonymous :=
    Dict None
         (Some (mkPosition (Some 12.3585%float) (Some (-1.5352)%float)
                           (Some 50%float) true))
         None None in
  let at_centre :=
    Dict (Some "1FFJX8K3QH000001")
         (Some (mkPosition (Some 0%float) (Some 10%float) (Some 50%float) true))
         None None in
  dict_truthy anonymous = true
  /\ score_of anonymous true = inr (0, [])
  /\ assess anonymous true = inr (LOW, [NoAnomaly])
  /\ _calculate_distance Toy.np_radians Toy.np_sin Toy.np_cos Toy.np_sqrt
       Toy.np_square Toy.np_arctan2 0%float 10%float 0%float 10%float
     = 0%float
  /\ PrimFloat.leb 0%float (5 * 1000)%float = true
  /\ _check_restricted_zone Toy.np_radians Toy.np_sin Toy.np_cos Toy.np_sqrt
       Toy.np_square Toy.np_arctan2 zones (get_position at_centre) = false
  /\ score_of at_centre true = inr (-10, [RemoteIDAvailable])
  /\ assess at_centre true = inr (LOW, [RemoteIDAvailable]).
Proof.
  cbv zeta. repeat split; vm_compute; reflexivity.
Qed.

End SystemClaims.

(* ================================================================== *)
(** * What the decoder can put into a record *)
(* ================================================================== *)

Module RecordInvariant.

Lemma returns_bind {A B : Type} (m : result A) (k : A -> result B)
    (Q : B -> Prop) :
  returns m (fun a => returns (k a) Q) -> returns (bind m k) Q.
Proof. destruct m; cbn; trivial. Qed.

Lemma unpack_signed_range (size : Z) (bs : bytes) (v : Z) :
  0 < size -> unpack_signed size bs = Ok v ->
  - 2 ^ (8 * size - 1) <= v < 2 ^ (8 * size - 1).
Proof.
  intros Hs. unfold unpack_signed.
  destruct (Z.eqb_spec (len bs) size) as [E|]; [|discriminate].
  intros H. injection H as <-.
  apply to_signed_range; [lia|].
  pose proof (le_value_range bs) as R. rewrite E in R.
  replace (2 ^ (8 * size)) with (256 ^ size); [exact R|].
  change 256 with (2 ^ 8). rewrite <- Z.pow_mul_r by lia. reflexivity.
Qed.

Lemma dict_get_known (k : Z) : In (dict_get ID_TYPES k "Unknown") decoder_types.
Proof.
  unfold ID_TYPES. cbn [dict_get].
  repeat match goal with
         | |- context [k =? ?c] => destruct (k =? c)
         end; cbn; tauto.
Qed.

(** Only the identifier type and the position matter to [decoder_record]. *)
Lemma decoder_record_ext (r r' : RemoteIDData) :
  uas_id_type r' = uas_id_type r -> latitude r' = latitude r ->
  longitude r' = longitude r ->
  decoder_record r -> decoder_record r'.
Proof.
  unfold decoder_record. intros -> -> ->. trivial.
Qed.

Lemma decoder_record_new (t : option float) :
  decoder_record (set_timestamp t new_RemoteIDData).
Proof. repeat split; intros ? H; discriminate H. Qed.

Lemma decoder_record_type (t : string) (r : RemoteIDData) :
  In t decoder_types -> decoder_record r ->
  decoder_record (set_uas_id_type (Some t) r).
Proof.
  intros Ht (H1 & H2 & H3). repeat split; cbn; trivial.
  intros t' H. injection H as <-. exact Ht.
Qed.

Lemma decoder_record_latitude (n : Z) (r : RemoteIDData) :
  n <> 0 -> - 2 ^ 31 <= n < 2 ^ 31 -> decoder_record r ->
  decoder_record (set_latitude (Some (float_of_int n * 1e-7)%float) r).
Proof.
  intros Hn Hr (H1 & H2 & H3). repeat split; cbn; trivial.
  intros f H. injection H as <-. now apply scaled_1e_7_truthy.
Qed.

Lemma decoder_record_longitude (n : Z) (r : RemoteIDData) :
  n <> 0 -> - 2 ^ 31 <= n < 2 ^ 31 -> decoder_record r ->
  decoder_record (set_longitude (Some (float_of_int n * 1e-7)%float) r).
Proof.
  intros Hn Hr (H1 & H2 & H3). repeat split; cbn; trivial.
  intros f H. injection H as <-. now apply scaled_1e_7_truthy.
Qed.

(** Peels the assignments off the record in the goal. *)
Ltac record_step :=
  lazymatch goal with
  | |- decoder_record (if ?c then _ else _) => destruct c eqn:?
  | |- decoder_record (set_latitude _ _) =>
    apply decoder_record_latitude; [lia | lia | ]
  | |- decoder_record (set_longitude _ _) =>
    apply decoder_record_longitude; [lia | lia | ]
  | |- decoder_record (set_uas_id_type (Some (dict_get _ _ _)) _) =>
    apply decoder_record_type; [apply dict_get_known | ]
  | |- decoder_record (?set ?v ?r) =>
    apply (decoder_record_ext r); [reflexivity | reflexivity | reflexivity | ]
  end.

(** Opens the next [bind] or test of a branch. *)
Ltac open_branch :=
  repeat lazymatch goal with
         | |- returns (bind ?m _) _ =>
           apply returns_bind; destruct m eqn:?; cbn [returns]; [ | exact I | exact I]
         | |- returns (if ?c then _ else _) _ => destruct c eqn:?
         | |- returns (Ok _) _ => cbn [returns flow_record]
         | |- decoder_record (flow_record _) => cbn [flow_record]
         end.

Lemma parse_message_record (data : bytes) (offset : Z) (r : RemoteIDData) :
  decoder_record r ->
  returns (parse_message data offset r) (fun fl => decoder_record (flow_record fl)).
Proof.
  intros Hr. unfold parse_message.
  destruct (offset + 1 >=? len data); [exact Hr|].
  apply returns_bind. destruct (getitem data offset) as [msg_type| |];
    cbn [returns]; trivial.
  destruct (msg_type =? MSG_TYPE_BASIC_ID).
  { unfold parse_basic_id. open_branch; repeat record_step; exact Hr. }
  destruct (msg_type =? MSG_TYPE_LOCATION).
  { unfold parse_location. open_branch; [|exact Hr].
    cbv zeta.
    repeat match goal with
           | H : unpack_lt_i _ = Ok _ |- _ =>
             apply unpack_signed_range in H; [|lia]
           | H : (_ =? 0) = false |- _ => apply Z.eqb_neq in H
           end.
    repeat record_step; try exact Hr.
    all: repeat match goal with
                | H : (_ =? 0) = false |- _ => apply Z.eqb_neq in H
                end; lia. }
  destruct (msg_type =? MSG_TYPE_AUTH).
  { unfold parse_auth. open_branch; repeat record_step; exact Hr. }
  destruct (msg_type =? MSG_TYPE_SELF_ID).
  { unfold parse_self_id. open_branch; repeat record_step; exact Hr. }
  destruct (msg_type =? MSG_TYPE_SYSTEM).
  { unfold parse_system. open_branch; repeat record_step; exact Hr. }
  destruct (msg_type =? MSG_TYPE_OPERATOR_ID).
  { unfold parse_operator_id. open_branch; repeat record_step; exact Hr. }
  exact Hr.
Qed.

Lemma parse_loop_record (fuel : nat) (data : bytes) (offset : Z)
    (r : RemoteIDData) :
  decoder_record r -> returns (parse_loop fuel data offset r) decoder_record.
Proof.
  revert offset r. induction fuel as [|fuel IH]; intros offset r Hr;
    cbn [parse_loop]; destruct (offset <? len data); cbn [returns]; trivial.
  apply returns_bind.
  pose proof (parse_message_record data offset r Hr) as H.
  destruct (parse_message data offset r) as [fl| |]; cbn [returns] in *; trivial.
  destruct fl as [o r'|r']; cbn [flow_record returns] in *; [apply IH|]; exact H.
Qed.

End RecordInvariant.

Import RecordInvariant.

(* ================================================================== *)
(** * The scanning callers *)
(* ================================================================== *)

Module ScanFacts.

Lemma first_some_inv {A B : Type} (f : A -> option B) (l : list A) (b : B) :
  first_some f l = Some b -> exists a, In a l /\ f a = Some b.
Proof.
  induction l as [|a l IH]; cbn [first_some]; [discriminate|].
  destruct (f a) as [b'|] eqn:E.
  - intros H. injection H as <-. exists a. split; [now left | exact E].
  - intros H. destruct (IH H) as (a' & Hin & Ha').
    exists a'. split; [now right | exact Ha'].
Qed.

Lemma try_pattern_type (data : bytes) (ptype : string) (pat : bytes)
    (info : PatternInfo) :
  try_pattern data ptype pat = Some info -> pattern_type info = ptype.
Proof.
  unfold try_pattern.
  repeat match goal with
         | |- context [if ?c then _ else _] => destruct c
         end; intros H; try discriminate; injection H as <-; reflexivity.
Qed.

Lemma search_patterns_type (data : bytes) (info : PatternInfo) :
  search_patterns_in_bytes data = Some info ->
  In (pattern_type info) pattern_types.
Proof.
  unfold search_patterns_in_bytes. intros H.
  apply first_some_inv in H. destruct H as ([ptype pats] & Hin & H).
  apply first_some_inv in H. destruct H as (pat & _ & H).
  apply try_pattern_type in H. cbn [fst] in H. rewrite H.
  unfold pattern_types. apply (in_map fst) in Hin. exact Hin.
Qed.

(** Every record [decode_from_raw_bytes] returns is a decoder record. *)
Lemma decode_record (raw_data : bytes) (now : float) (r : RemoteIDData) :
  decode_from_raw_bytes raw_data now = Ok (Some r) -> decoder_record r.
Proof.
  unfold decode_from_raw_bytes, _parse_remote_id_messages.
  pose proof (parse_loop_record (List.length raw_data) raw_data 0 _
                (decoder_record_new (Some now))) as H.
  destruct (parse_loop _ raw_data 0 _) as [r0| |]; cbn [bind returns] in *;
    try discriminate.
  intros E. injection E as <-.
  destruct (negb (is_valid_id (uas_id r0)) && negb (opt_float_truthy (latitude r0)));
    [|exact H].
  destruct (search_patterns_in_bytes raw_data) as [info|] eqn:S; [|exact H].
  destruct H as (H1 & H2 & H3).
  repeat split; cbn [uas_id_type latitude longitude set_uas_id set_uas_id_type];
    trivial.
  intros t E. injection E as <-.
  change (In (pattern_label (pattern_type info)) decoder_types).
  unfold decoder_types. apply in_or_app. right. apply in_or_app. right.
  apply (in_map pattern_label). exact (search_patterns_type _ _ S).
Qed.

Lemma attempt_some (filter : RemoteIDData -> bool) (chunk : bytes)
    (now : float) (r : RemoteIDData) :
  attempt filter chunk now = Ok (Some r) <->
  decode_from_raw_bytes chunk now = Ok (Some r) /\ filter r = true.
Proof.
  unfold attempt.
  destruct (decode_from_raw_bytes chunk now) as [[r'|]| |]; split;
    try (intros [H _]; discriminate H); try discriminate.
  - destruct (filter r') eqn:F; intros H; try discriminate.
    injection H as <-. split; [reflexivity | exact F].
  - intros [H F]. injection H as ->. rewrite F. reflexivity.
Qed.

(** An attempt never raises and never runs out of fuel. *)
Lemma attempt_returns (filter : RemoteIDData -> bool) (chunk : bytes) (now : float) :
  exists o, attempt filter chunk now = Ok o.
Proof.
  unfold attempt. destruct (decode_from_raw_bytes_ok chunk now) as (r & E).
  rewrite E. destruct (filter r); eexists; reflexivity.
Qed.

Lemma py_range_In (n i : Z) : In i (py_range n) <-> 0 <= i < n.
Proof.
  unfold py_range. rewrite in_map_iff. split.
  - intros (k & <- & Hk). apply in_seq in Hk. lia.
  - intros H. exists (Z.to_nat i). split; [lia|]. apply in_seq. lia.
Qed.

Lemma py_range_length (n : Z) : len (py_range n) = Z.max 0 n.
Proof.
  unfold py_range, len. rewrite length_map, length_seq. lia.
Qed.

(** The loop over suffixes, on the start positions [s], ..., [s + k - 1]:
    what it returns was accepted at some position, and every earlier
    position was tried and turned down. *)
Lemma scan_suffixes_found (filter : RemoteIDData -> bool) (data : bytes)
    (clk : clock) (k s : nat) (rid : RemoteIDData) :
  scan_suffixes filter data clk (map Z.of_nat (seq s k)) = Ok (Some rid) ->
  exists i : nat,
    (s <= i < s + k)%nat
    /\ attempt filter (slice_from data (Z.of_nat i)) (clk (Z.of_nat i + 1))
       = Ok (Some rid)
    /\ forall j : nat, (s <= j < i)%nat ->
         attempt filter (slice_from data (Z.of_nat j)) (clk (Z.of_nat j + 1))
         = Ok None.
Proof.
  revert s. induction k as [|k IH]; intros s; cbn [seq map scan_suffixes];
    [discriminate|].
  destruct (attempt filter (slice_from data (Z.of_nat s)) (clk (Z.of_nat s + 1)))
    as [[r|]| |] eqn:E; cbn [bind]; try discriminate.
  - intros H. injection H as <-. exists s. split; [lia|]. split; [exact E|].
    intros j Hj. lia.
  - intros H. destruct (IH (S s) H) as (i & Hi & Hacc & Hbefore).
    exists i. split; [lia|]. split; [exact Hacc|].
    intros j Hj. destruct (Nat.eq_dec j s) as [->|]; [exact E|].
    apply Hbefore. lia.
Qed.

Lemma scan_suffixes_none (filter : RemoteIDData -> bool) (data : bytes)
    (clk : clock) (idxs : list Z) :
  scan_suffixes filter data clk idxs = Ok None ->
  forall i, In i idxs -> attempt filter (slice_from data i) (clk (i + 1)) = Ok None.
Proof.
  induction idxs as [|i0 rest IH]; cbn [scan_suffixes]; [intros _ i []|].
  destruct (attempt filter (slice_from data i0) (clk (i0 + 1))) as [[r|]| |] eqn:E;
    cbn [bind]; try discriminate.
  intros H i [<-|Hin]; [exact E | exact (IH H i Hin)].
Qed.

Lemma scan_suffixes_returns (filter : RemoteIDData -> bool) (data : bytes)
    (clk : clock) (idxs : list Z) :
  exists o, scan_suffixes filter data clk idxs = Ok o.
Proof.
  induction idxs as [|i rest IH]; cbn [scan_suffixes]; [eexists; reflexivity|].
  destruct (attempt_returns filter (slice_from data i) (clk (i + 1))) as ([r|] & E);
    rewrite E; cbn [bind]; [eexists; reflexivity | exact IH].
Qed.

(** What a scan with window [w] returns: the record of the whole input if
    the first filter takes it, else the record of the first suffix, among
    the start positions [0 <= i < n - w], that the strict filter takes. *)
Lemma scan_result (first : RemoteIDData -> bool) (w : Z) (data : bytes)
    (clk : clock) (rid : RemoteIDData) :
  (r <- attempt first data (clk 0) ;;
   match r with
   | Some rid => Ok (Some rid)
   | None => scan_suffixes strict_filter data clk (py_range (Z.max 0 (len data - w)))
   end) = Ok (Some rid) ->
  (decode_from_raw_bytes data (clk 0) = Ok (Some rid) /\ first rid = true)
  \/ (exists i,
         0 <= i < len data - w
         /\ decode_from_raw_bytes (slice_from data i) (clk (i + 1)) = Ok (Some rid)
         /\ strict_filter rid = true
         /\ attempt first data (clk 0) = Ok None
         /\ forall j, 0 <= j < i ->
              attempt strict_filter (slice_from data j) (clk (j + 1)) = Ok None).
Proof.
  destruct (attempt first data (clk 0)) as [[r|]| |] eqn:E; cbn [bind];
    try discriminate.
  - intros H. injection H as <-. left. apply attempt_some. exact E.
  - intros H. right. unfold py_range in H.
    apply scan_suffixes_found in H. destruct H as (i & Hi & Hacc & Hbefore).
    apply attempt_some in Hacc. destruct Hacc as [Hdec Hfil].
    exists (Z.of_nat i). split; [lia|]. split; [exact Hdec|].
    split; [exact Hfil|]. split; [reflexivity|].
    intros j Hj. specialize (Hbefore (Z.to_nat j)).
    rewrite Z2Nat.id in Hbefore by lia. apply Hbefore. lia.
Qed.

(** An attempt goes on to the next candidate exactly when the decoder
    yields no record that passes the filter. *)
Lemma attempt_none (filter : RemoteIDData -> bool) (chunk : bytes)
    (now : float) :
  attempt filter chunk now = Ok None
  <-> forall r, decode_from_raw_bytes chunk now = Ok (Some r) -> filter r = false.
Proof.
  unfold attempt. destruct (decode_from_raw_bytes_ok chunk now) as (r & E).
  rewrite E. destruct (filter r) eqn:F; split.
  - discriminate.
  - intros H. specialize (H r eq_refl). congruence.
  - intros _ r' H. injection H as <-. exact F.
  - reflexivity.
Qed.

(** The loop returns nothing when every suffix is turned down. *)
Lemma scan_suffixes_all_none (filter : RemoteIDData -> bool) (data : bytes)
    (clk : clock) (idxs : list Z) :
  (forall i, In i idxs ->
             attempt filter (slice_from data i) (clk (i + 1)) = Ok None) ->
  scan_suffixes filter data clk idxs = Ok None.
Proof.
  induction idxs as [|i0 rest IH]; cbn [scan_suffixes]; [reflexivity|].
  intros H. rewrite (H i0 (or_introl eq_refl)). cbn [bind].
  apply IH. intros i Hi. apply H. right. exact Hi.
Qed.

(** The loop returns the record of the first suffix that is accepted. *)
Lemma scan_suffixes_first (filter : RemoteIDData -> bool) (data : bytes)
    (clk : clock) (k s i : nat) (rid : RemoteIDData) :
  (s <= i < s + k)%nat ->
  attempt filter (slice_from data (Z.of_nat i)) (clk (Z.of_nat i + 1))
  = Ok (Some rid) ->
  (forall j : nat, (s <= j < i)%nat ->
     attempt filter (slice_from data (Z.of_nat j)) (clk (Z.of_nat j + 1))
     = Ok None) ->
  scan_suffixes filter data clk (map Z.of_nat (seq s k)) = Ok (Some rid).
Proof.
  revert s. induction k as [|k IH]; intros s Hi Hacc Hbefore; [lia|].
  cbn [seq map scan_suffixes].
  destruct (Nat.eq_dec i s) as [->|Hne].
  - rewrite Hacc. reflexivity.
  - rewrite (Hbefore s) by lia. cbn [bind].
    apply IH; [lia | exact Hacc |]. intros j Hj. apply Hbefore. lia.
Qed.

(** A scan with window [w], in full: it returns a record exactly when the
    whole input or some suffix start [0 <= i < n - w] is accepted, and then
    the record of the earliest accepted attempt; it returns nothing
    exactly when the whole input and every such suffix were tried and
    turned down. *)
Lemma scan_result_iff (first : RemoteIDData -> bool) (w : Z) (data : bytes)
    (clk : clock) :
  let scan :=
    r <- attempt first data (clk 0) ;;
    match r with
    | Some rid => Ok (Some rid)
    | None => scan_suffixes strict_filter data clk (py_range (Z.max 0 (len data - w)))
    end in
  (forall rid,
      scan = Ok (Some rid)
      <-> (decode_from_raw_bytes data (clk 0) = Ok (Some rid) /\ first rid = true)
          \/ (exists i,
                 0 <= i < len data - w
                 /\ decode_from_raw_bytes (slice_from data i) (clk (i + 1))
                    = Ok (Some rid)
                 /\ strict_filter rid = true
                 /\ attempt first data (clk 0) = Ok None
                 /\ forall j, 0 <= j < i ->
                      attempt strict_filter (slice_from data j) (clk (j + 1))
                      = Ok None))
  /\ (scan = Ok None
      <-> attempt first data (clk 0) = Ok None
          /\ forall i, 0 <= i < len data - w ->
               attempt strict_filter (slice_from data i) (clk (i + 1)) = Ok None).
Proof.
  cbv zeta. split.
  - intros rid. split; [apply scan_result|].
    intros [H|(i & Hi & Hdec & Hfil & Hfirst & Hbefore)].
    + apply attempt_some in H. rewrite H. reflexivity.
    + rewrite Hfirst. cbn [bind]. unfold py_range.
      apply (scan_suffixes_first strict_filter data clk _ 0 (Z.to_nat i)).
      * lia.
      * rewrite Z2Nat.id by lia. apply attempt_some. split; assumption.
      * intros j Hj. apply Hbefore. lia.
  - destruct (attempt first data (clk 0)) as [[r|]| |] eqn:E; cbn [bind].
    + split; [discriminate | intros [H _]; discriminate H].
    + split.
      * intros H. split; [reflexivity|]. intros i Hi.
        apply (scan_suffixes_none _ _ _ _ H). apply py_range_In. lia.
      * intros [_ H]. apply scan_suffixes_all_none. intros i Hi.
        apply H. apply py_range_In in Hi. lia.
    + split; [discriminate | intros [H _]; discriminate H].
    + split; [discriminate | intros [H _]; discriminate H].
Qed.

(** ** From the filters to the emission invariant *)

Lemma plausible_ascii_spec (s : string) :
  is_plausible_ascii s = true -> 6 <= str_len s <= 32 /\ printable_text s.
Proof.
  unfold is_plausible_ascii, printable_text.
  destruct (negb (str_truthy s)); [discriminate|].
  rewrite Z.gtb_ltb.
  destruct (Z.ltb_spec (str_len s) 6) as [|L6]; [discriminate|].
  destruct (Z.ltb_spec 32 (str_len s)) as [|L32]; [discriminate|].
  cbn [orb]. intros Hall. split; [lia|].
  apply Forall_forall. intros ch Hin.
  rewrite forallb_forall in Hall. specialize (Hall ch Hin). cbv zeta in Hall.
  apply andb_true_iff in Hall. destruct Hall as [H1 H2].
  apply Z.leb_le in H1. apply Z.leb_le in H2. lia.
Qed.

(** Among the type strings the decoder produces, the four the strict filter
    lets through are the recognised ones. *)
Lemma strict_types (t : string) :
  In t decoder_types ->
  set_mem (lower t)
    [ "serial number"; "caa registration id"; "utm uuid"; "specific session id" ]
  = true ->
  In t recognized_types.
Proof.
  intros Hin. vm_compute in Hin.
  repeat (destruct Hin as [<-|Hin];
          [vm_compute; intros H; try discriminate H; tauto|]).
  contradiction.
Qed.

(** The first Wi-Fi filter lets through, besides those four, exactly the
    pattern-detection labels. *)
Lemma first_types (t : string) :
  In t decoder_types ->
  (set_mem (lower t)
     [ "serial number"; "caa registration id"; "utm uuid";
       "specific session id"; "pattern detection" ] = true ->
   In t recognized_types)
  /\ (contains "pattern detection" (lower t) = true ->
      exists ptype, In ptype pattern_types /\ t = pattern_label ptype).
Proof.
  intros Hin. vm_compute in Hin.
  repeat (destruct Hin as [<-|Hin];
          [split; vm_compute; intros H; try discriminate H; try tauto;
           first [ exists "dji_remote_id"; split; [tauto | reflexivity]
                 | exists "astm_f3411"; split; [tauto | reflexivity]
                 | exists "opendroneid"; split; [tauto | reflexivity] ]|]).
  contradiction.
Qed.

Lemma has_location_present (r : RemoteIDData) :
  decoder_record r -> has_location r = true -> position_present r.
Proof.
  intros (_ & H2 & H3). unfold has_location, position_present.
  destruct (latitude r) as [lat|]; [|discriminate].
  destruct (longitude r) as [lon|]; [|discriminate].
  intros _. exists lat, lon. repeat split; auto.
Qed.

Lemma identifier_ok (allowed : list string) (r : RemoteIDData) :
  decoder_record r ->
  set_mem "" allowed = false ->
  (forall t, In t decoder_types -> set_mem (lower t) allowed = true ->
             In t recognized_types) ->
  set_mem (lower (or_empty (uas_id_type r))) allowed = true ->
  is_plausible_ascii (or_empty (uas_id r)) = true ->
  valid_identifier r.
Proof.
  intros (H1 & _ & _) Hempty Hallowed Hmem Hplaus. unfold valid_identifier.
  destruct (uas_id r) as [u|]; [|discriminate Hplaus].
  destruct (uas_id_type r) as [t|] eqn:T.
  - exists t, u. cbn [or_empty] in *.
    destruct (plausible_ascii_spec u Hplaus) as [Hlen Hprint].
    repeat split; auto; try lia.
  - cbn [or_empty lower] in Hmem. congruence.
Qed.

Lemma strict_filter_invariant (r : RemoteIDData) :
  decoder_record r -> strict_filter r = true ->
  valid_identifier r \/ position_present r.
Proof.
  intros Hr. unfold strict_filter. cbv zeta. intros H.
  apply orb_true_iff in H. destruct H as [H|H].
  - apply andb_true_iff in H. destruct H as [Hmem Hplaus]. left.
    refine (identifier_ok _ r Hr _ _ Hmem Hplaus);
      [reflexivity | exact strict_types].
  - right. exact (has_location_present r Hr H).
Qed.

Lemma wifi_first_filter_invariant (r : RemoteIDData) :
  decoder_record r -> wifi_first_filter r = true -> emission_invariant r.
Proof.
  intros Hr. unfold wifi_first_filter, emission_invariant. cbv zeta. intros H.
  apply orb_true_iff in H. destruct H as [H|H].
  - apply orb_true_iff in H. destruct H as [H|H].
    + apply andb_true_iff in H. destruct H as [Hmem Hplaus]. left.
      refine (identifier_ok _ r Hr _ _ Hmem Hplaus);
        [reflexivity | exact (fun t Ht => proj1 (first_types t Ht))].
    + right. right. unfold pattern_provenance.
      destruct Hr as (H1 & _ & _).
      destruct (uas_id_type r) as [t|]; [|discriminate H].
      cbn [or_empty] in H.
      destruct (proj2 (first_types t (H1 t eq_refl)) H) as (ptype & Hin & ->).
      exists ptype. split; [exact Hin | reflexivity].
  - right. left. exact (has_location_present r Hr H).
Qed.

End ScanFacts.

Import ScanFacts.

(* ================================================================== *)
(** * The callers always return *)
(* ================================================================== *)

Module CallersTotal.

Lemma ie_loop_ok (fuel : nat) (ie_data : bytes) (offset : Z)
    (ies : list InformationElement) :
  0 <= offset -> len ie_data - offset <= Z.of_nat fuel ->
  exists ies', ie_loop fuel ie_data offset ies = Ok ies'.
Proof.
  revert offset ies. induction fuel as [|fuel IH]; intros offset ies H0 Hf;
    cbn [ie_loop]; destruct (Z.ltb_spec offset (len ie_data - 2));
    try (eexists; reflexivity); [lia|].
  destruct (getitem_in_range ie_data offset) as (v & Hv & Rv); [lia|].
  destruct (getitem_in_range ie_data (offset + 1)) as (w & Hw & Rw); [lia|].
  rewrite Hv, Hw. cbn [bind].
  destruct (offset + 2 + w >? len ie_data); [eexists; reflexivity|].
  apply IH; lia.
Qed.

Lemma _parse_information_elements_ok (ie_data : bytes) :
  exists ies, _parse_information_elements ie_data = Ok ies.
Proof.
  unfold _parse_information_elements. apply ie_loop_ok; unfold len; lia.
Qed.

Lemma parse_beacon_frame_ok (frame_bytes : bytes) :
  exists o, parse_beacon_frame frame_bytes = Ok o.
Proof.
  unfold parse_beacon_frame.
  destruct (Z.ltb_spec (len frame_bytes) 36); [eexists; reflexivity|].
  unfold unpack_lt_H, unpack_lt_Q.
  rewrite !unpack_unsigned_ok by (rewrite slice_len; lia). cbn [bind].
  destruct (_parse_information_elements_ok (slice_from frame_bytes 36)) as (ies & E).
  rewrite E. cbn [bind except_none]. eexists; reflexivity.
Qed.

Lemma parse_beacon_body_ok (body_bytes : bytes) :
  exists o, parse_beacon_body body_bytes = Ok o.
Proof.
  unfold parse_beacon_body.
  destruct (Z.ltb_spec (len body_bytes) 12); [eexists; reflexivity|].
  unfold unpack_lt_H, unpack_lt_Q.
  rewrite !unpack_unsigned_ok by (rewrite slice_len; lia). cbn [bind].
  destruct (_parse_information_elements_ok (slice_from body_bytes 12)) as (ies & E).
  rewrite E. cbn [bind except_none]. eexists; reflexivity.
Qed.

Lemma extract_loop_ok (ies : list InformationElement) (rid : RemoteIDData) :
  exists r, extract_loop ies rid = Ok r.
Proof.
  revert rid. induction ies as [|ie rest IH]; intros rid; cbn [extract_loop];
    [eexists; reflexivity|].
  destruct (ie_id ie =? 221); [|apply IH].
  destruct (Z.ltb_spec (len (ie_data ie)) 4); [apply IH|].
  destruct (getitem_in_range (ie_data ie) 3) as (v & Hv & _); [lia|].
  rewrite Hv. cbn [bind].
  destruct (negb (bytes_eqb (slice (ie_data ie) 0 3) ODID_OUI)); [apply IH|].
  destruct (len (ie_data ie) >? 4).
  - destruct (_parse_remote_id_messages_ok (slice_from (ie_data ie) 4) rid)
      as (r & E).
    rewrite E. cbn [bind]. apply IH.
  - cbn [bind]. apply IH.
Qed.

Lemma extract_remote_id_ok (beacon_info : BeaconInfo) (now : float) :
  exists o, extract_remote_id beacon_info now = Ok o.
Proof.
  unfold extract_remote_id.
  destruct (extract_loop_ok (information_elements beacon_info)
              (set_timestamp (Some now) new_RemoteIDData)) as (r & E).
  rewrite E. cbn [bind].
  destruct (opt_str_truthy (uas_id r) || opt_float_truthy (latitude r));
    eexists; reflexivity.
Qed.

Lemma wifi_scan_ok (data : bytes) (clk : clock) :
  exists o, WiFiSystem._try_decode_from_bytes data clk = Ok o.
Proof.
  unfold WiFiSystem._try_decode_from_bytes.
  destruct (attempt_returns wifi_first_filter data (clk 0)) as ([r|] & E);
    rewrite E; cbn [bind]; [eexists; reflexivity|].
  apply scan_suffixes_returns.
Qed.

Lemma ble_scan_ok (data : bytes) (clk : clock) :
  exists o, BLE._try_decode data clk = Ok o.
Proof.
  unfold BLE._try_decode.
  destruct (attempt_returns strict_filter data (clk 0)) as ([r|] & E);
    rewrite E; cbn [bind]; [eexists; reflexivity|].
  apply scan_suffixes_returns.
Qed.

Lemma publish_all_ok (candidates : list bytes) (clks : nat -> clock) (k : nat) :
  exists published, BLE.publish_all candidates clks k = Ok published.
Proof.
  revert k. induction candidates as [|payload rest IH]; intros k;
    cbn [BLE.publish_all]; [eexists; reflexivity|].
  destruct (ble_scan_ok payload (clks k)) as (o & E). rewrite E. cbn [bind].
  destruct (IH (S k)) as (tail & T). rewrite T. cbn [bind].
  destruct o; eexists; reflexivity.
Qed.

Lemma process_wifi_pdu_ok (packet_bytes : bytes) (clk : clock) :
  exists o, WiFiSystem._process_wifi_pdu packet_bytes clk = Ok o.
Proof.
  unfold WiFiSystem._process_wifi_pdu.
  assert (Hscan : forall clk',
             exists o,
               (rid0 <- WiFiSystem._try_decode_from_bytes packet_bytes clk' ;;
                match rid0 with
                | Some rid0 =>
                  if opt_str_truthy (uas_id rid0) || has_location rid0
                  then Ok (Some (rid0, "wifi_action_nan"))
                  else Ok None
                | None => Ok None
                end) = Ok o).
  { intros clk'. destruct (wifi_scan_ok packet_bytes clk') as ([r|] & E);
      rewrite E; cbn [bind]; [|eexists; reflexivity].
    destruct (opt_str_truthy (uas_id r) || has_location r); eexists; reflexivity. }
  destruct (parse_beacon_frame_ok packet_bytes) as ([bi|] & E); rewrite E;
    cbn [bind].
  - destruct (extract_remote_id_ok bi (clk 0)) as ([r|] & X); rewrite X;
      cbn [bind]; [|eexists; reflexivity].
    destruct (opt_str_truthy (uas_id r)); eexists; reflexivity.
  - destruct (parse_beacon_body_ok packet_bytes) as ([bb|] & B); rewrite B;
      cbn [bind]; [|apply Hscan].
    destruct (extract_remote_id_ok bb (clk 0)) as ([r|] & X); rewrite X;
      cbn [bind]; [|apply Hscan].
    destruct (opt_str_truthy (uas_id r) || has_location r);
      [eexists; reflexivity | apply Hscan].
Qed.

End CallersTotal.

Import CallersTotal.

(* ================================================================== *)
(** * Properties of the tolerance scan and of the emitted records *)
(* ================================================================== *)

Module ScanClaims.

Lemma wifi_scan_invariant (data : bytes) (clk : clock) (rid : RemoteIDData) :
  WiFiSystem._try_decode_from_bytes data clk = Ok (Some rid) ->
  emission_invariant rid.
Proof.
  intros H. apply scan_result in H.
  destruct H as [[Hdec Hfil]|(i & _ & Hdec & Hfil & _)].
  - exact (wifi_first_filter_invariant rid (decode_record _ _ _ Hdec) Hfil).
  - destruct (strict_filter_invariant rid (decode_record _ _ _ Hdec) Hfil);
      [left | right; left]; assumption.
Qed.

Lemma ble_scan_invariant (data : bytes) (clk : clock) (rid : RemoteIDData) :
  BLE._try_decode data clk = Ok (Some rid) ->
  valid_identifier rid \/ position_present rid.
Proof.
  intros H. apply scan_result in H.
  destruct H as [[Hdec Hfil]|(i & _ & Hdec & Hfil & _)];
    exact (strict_filter_invariant rid (decode_record _ _ _ Hdec) Hfil).
Qed.

Lemma publish_all_invariant (candidates : list bytes) (clks : nat -> clock)
    (k : nat) (published : list RemoteIDData) :
  BLE.publish_all candidates clks k = Ok published ->
  Forall (fun r => valid_identifier r \/ position_present r) published.
Proof.
  revert k published. induction candidates as [|payload rest IH];
    intros k published; cbn [BLE.publish_all].
  - intros H. injection H as <-. constructor.
  - destruct (BLE._try_decode payload (clks k)) as [rid| |] eqn:E; cbn [bind];
      try discriminate.
    destruct (BLE.publish_all rest clks (S k)) as [tail| |] eqn:T; cbn [bind];
      try discriminate.
    specialize (IH (S k) tail T).
    destruct rid as [r|]; intros H; injection H as <-; [|exact IH].
    constructor; [exact (ble_scan_invariant _ _ _ E) | exact IH].
Qed.

(** C2, as amended: after the attempt on the whole input, the scan re-tries
    the suffixes that start at the positions [0 <= i < n - 128] (Wi-Fi) or
    [0 <= i < n - 64] (BLE), in increasing order, that is every suffix longer
    than 128 (64) bytes and none of the last 128 (64) start positions.  It
    returns a record exactly when the whole input or one of these suffixes
    decodes to a record that passes its filter (recognised type with a
    plausible identifier, or latitude and longitude present; on the whole
    Wi-Fi input also a pattern-detection record), and then the record of
    the earliest such attempt; it returns nothing exactly when the whole
    input and every one of these suffixes were tried and turned down, an
    attempt being turned down exactly when the decoder yields no record
    that passes the filter.  The scan always returns. *)
Theorem C2_tolerance_scan_window (data : bytes) (clk : clock) :
  (forall rid,
      WiFiSystem._try_decode_from_bytes data clk = Ok (Some rid)
      <-> (decode_from_raw_bytes data (clk 0) = Ok (Some rid)
           /\ wifi_first_filter rid = true)
          \/ (exists i,
                 0 <= i < len data - 128
                 /\ decode_from_raw_bytes (slice_from data i) (clk (i + 1))
                    = Ok (Some rid)
                 /\ strict_filter rid = true
                 /\ attempt wifi_first_filter data (clk 0) = Ok None
                 /\ forall j, 0 <= j < i ->
                      attempt strict_filter (slice_from data j) (clk (j + 1))
                      = Ok None))
  /\ (WiFiSystem._try_decode_from_bytes data clk = Ok None
      <-> attempt wifi_first_filter data (clk 0) = Ok None
          /\ forall i, 0 <= i < len data - 128 ->
               attempt strict_filter (slice_from data i) (clk (i + 1)) = Ok None)
  /\ (forall rid,
         BLE._try_decode data clk = Ok (Some rid)
         <-> (decode_from_raw_bytes data (clk 0) = Ok (Some rid)
              /\ strict_filter rid = true)
             \/ (exists i,
                    0 <= i < len data - 64
                    /\ decode_from_raw_bytes (slice_from data i) (clk (i + 1))
                       = Ok (Some rid)
                    /\ strict_filter rid = true
                    /\ attempt strict_filter data (clk 0) = Ok None
                    /\ forall j, 0 <= j < i ->
                         attempt strict_filter (slice_from data j) (clk (j + 1))
                         = Ok None))
  /\ (BLE._try_decode data clk = Ok None
      <-> attempt strict_filter data (clk 0) = Ok None
          /\ forall i, 0 <= i < len data - 64 ->
               attempt strict_filter (slice_from data i) (clk (i + 1)) = Ok None)
  /\ (forall filter chunk now,
         attempt filter chunk now = Ok None
         <-> forall r, decode_from_raw_bytes chunk now = Ok (Some r) ->
                       filter r = false)
  /\ (forall i, In i (WiFiSystem.suffix_starts (len data))
                <-> 0 <= i < len data - 128)
  /\ (forall i, In i (BLE.suffix_starts (len data)) <-> 0 <= i < len data - 64)
  /\ len (WiFiSystem.suffix_starts (len data)) = Z.max 0 (len data - 128)
  /\ len (BLE.suffix_starts (len data)) = Z.max 0 (len data - 64)
  /\ (exists o, WiFiSystem._try_decode_from_bytes data clk = Ok o)
  /\ (exists o, BLE._try_decode data clk = Ok o).
Proof.
  destruct (scan_result_iff wifi_first_filter 128 data clk) as [W1 W2].
  destruct (scan_result_iff strict_filter 64 data clk) as [B1 B2].
  split; [exact W1|]. split; [exact W2|].
  split; [exact B1|]. split; [exact B2|].
  split; [exact attempt_none|].
  assert (T : (exists o, WiFiSystem._try_decode_from_bytes data clk = Ok o)
              /\ (exists o, BLE._try_decode data clk = Ok o))
    by (split; [apply wifi_scan_ok | apply ble_scan_ok]).
  unfold WiFiSystem.suffix_starts, BLE.suffix_starts.
  split; [intros i; rewrite py_range_In; lia|].
  split; [intros i; rewrite py_range_In; lia|].
  rewrite !py_range_length.
  split; [lia|]. split; [lia|]. exact T.
Qed.

(** The Wi-Fi scan of [shifted_150] and the BLE scan of [shifted_90] return
    the record found at start position 1, the whole input and the suffix at
    position 0 having been turned down; the Wi-Fi scan of
    [pattern_behind_150] returns nothing, so each of its 22 suffix starts
    was tried and turned down. *)
Lemma C2_tolerance_scan_window_witness :
  WiFiSystem._try_decode_from_bytes shifted_150 counting_clock
  = Ok (Some (scenario_A_record 2))
  /\ ((decode_from_raw_bytes shifted_150 (counting_clock 0)
       = Ok (Some (scenario_A_record 2))
       /\ wifi_first_filter (scenario_A_record 2) = true)
      \/ (exists i,
             0 <= i < len shifted_150 - 128
             /\ decode_from_raw_bytes (slice_from shifted_150 i)
                  (counting_clock (i + 1))
                = Ok (Some (scenario_A_record 2))
             /\ strict_filter (scenario_A_record 2) = true
             /\ attempt wifi_first_filter shifted_150 (counting_clock 0) = Ok None
             /\ forall j, 0 <= j < i ->
                  attempt strict_filter (slice_from shifted_150 j)
                    (counting_clock (j + 1)) = Ok None))
  /\ BLE._try_decode shifted_90 counting_clock = Ok (Some (scenario_A_record 2))
  /\ ((decode_from_raw_bytes shifted_90 (counting_clock 0)
       = Ok (Some (scenario_A_record 2))
       /\ strict_filter (scenario_A_record 2) = true)
      \/ (exists i,
             0 <= i < len shifted_90 - 64
             /\ decode_from_raw_bytes (slice_from shifted_90 i)
                  (counting_clock (i + 1))
                = Ok (Some (scenario_A_record 2))
             /\ strict_filter (scenario_A_record 2) = true
             /\ attempt strict_filter shifted_90 (counting_clock 0) = Ok None
             /\ forall j, 0 <= j < i ->
                  attempt strict_filter (slice_from shifted_90 j)
                    (counting_clock (j + 1)) = Ok None))
  /\ WiFiSystem._try_decode_from_bytes pattern_behind_150 counting_clock = Ok None
  /\ len pattern_behind_150 - 128 = 22
  /\ attempt wifi_first_filter pattern_behind_150 (counting_clock 0) = Ok None
  /\ (forall i, 0 <= i < len pattern_behind_150 - 128 ->
        attempt strict_filter (slice_from pattern_behind_150 i)
          (counting_clock (i + 1)) = Ok None).
Proof.
  assert (H : WiFiSystem._try_decode_from_bytes shifted_150 counting_clock
              = Ok (Some (scenario_A_record 2))) by (vm_compute; reflexivity).
  assert (B : BLE._try_decode shifted_90 counting_clock
              = Ok (Some (scenario_A_record 2))) by (vm_compute; reflexivity).
  assert (N : WiFiSystem._try_decode_from_bytes pattern_behind_150
                counting_clock = Ok None) by (vm_compute; reflexivity).
  destruct (C2_tolerance_scan_window shifted_150 counting_clock)
    as (W1 & _).
  destruct (C2_tolerance_scan_window shifted_90 counting_clock)
    as (_ & _ & B1 & _).
  destruct (C2_tolerance_scan_window pattern_behind_150 counting_clock)
    as (_ & W2 & _).
  split; [exact H|].
  split; [exact (proj1 (W1 _) H)|].
  split; [exact B|].
  split; [exact (proj1 (B1 _) B)|].
  split; [exact N|].
  split; [reflexivity|].
  exact (proj1 W2 N).
Defined.

(** C2, as stated, fails.  On a 150-byte Wi-Fi input the record returned is
    the one found at start position 1, which is not among the last 128
    positions, and none of the last 128 positions is ever tried; on a
    300-byte input 172 suffixes are re-tried (236 on the BLE path), not at
    most 128 (64); the same happens on the BLE path with a 90-byte input.
    Nor is the first record satisfying the emission invariant accepted: in
    [pattern_behind_150] the suffix at position 1 decodes to a
    pattern-detection record and the scan still returns nothing. *)
Lemma C2_counterexample :
  len shifted_150 = 150
  /\ WiFiSystem._try_decode_from_bytes shifted_150 counting_clock
     = Ok (Some (scenario_A_record (counting_clock 2)))
  /\ decode_from_raw_bytes (slice_from shifted_150 1) (counting_clock 2)
     = Ok (Some (scenario_A_record (counting_clock 2)))
  /\ ~ (150 - 128 <= 1)
  /\ (forall i, 150 - 128 <= i < 150 -> ~ In i (WiFiSystem.suffix_starts 150))
  /\ len (WiFiSystem.suffix_starts 300) = 172
  /\ len shifted_90 = 90
  /\ BLE._try_decode shifted_90 counting_clock
     = Ok (Some (scenario_A_record (counting_clock 2)))
  /\ ~ (90 - 64 <= 1)
  /\ (forall i, 90 - 64 <= i < 90 -> ~ In i (BLE.suffix_starts 90))
  /\ len (BLE.suffix_starts 300) = 236
  /\ (exists r,
         decode_from_raw_bytes (slice_from pattern_behind_150 1) (counting_clock 2)
         = Ok (Some r)
         /\ uas_id_type r = Some (pattern_label "dji_remote_id")
         /\ pattern_provenance r)
  /\ WiFiSystem._try_decode_from_bytes pattern_behind_150 counting_clock = Ok None.
Proof.
  split; [reflexivity|].
  split; [vm_compute; reflexivity|].
  split; [vm_compute; reflexivity|].
  split; [lia|].
  split; [intros i Hi Hin; apply py_range_In in Hin; lia|].
  split; [reflexivity|].
  split; [reflexivity|].
  split; [vm_compute; reflexivity|].
  split; [lia|].
  split; [intros i Hi Hin; apply py_range_In in Hin; lia|].
  split; [reflexivity|].
  split; [|vm_compute; reflexivity].
  eexists. split; [vm_compute; reflexivity|].
  split; [reflexivity|].
  exists "dji_remote_id". split; [vm_compute; tauto | reflexivity].
Qed.

Lemma process_wifi_pdu_emits (packet_bytes : bytes) (clk : clock)
    (rid : RemoteIDData) (method : string) :
  WiFiSystem._process_wifi_pdu packet_bytes clk = Ok (Some (rid, method)) ->
  (method = "wifi_action_nan" /\ emission_invariant rid)
  \/ (method = "wifi_beacon" /\ 36 <= len packet_bytes
      /\ opt_str_truthy (uas_id rid) = true)
  \/ (method = "wifi_beacon_body"
      /\ (opt_str_truthy (uas_id rid) = true \/ has_location rid = true)).
Proof.
  unfold WiFiSystem._process_wifi_pdu.
  assert (Hscan : forall clk',
             (rid0 <- WiFiSystem._try_decode_from_bytes packet_bytes clk' ;;
              match rid0 with
              | Some rid0 =>
                if opt_str_truthy (uas_id rid0) || has_location rid0
                then Ok (Some (rid0, "wifi_action_nan"))
                else Ok None
              | None => Ok None
              end) = Ok (Some (rid, method)) ->
             method = "wifi_action_nan" /\ emission_invariant rid).
  { intros clk' H.
    destruct (WiFiSystem._try_decode_from_bytes packet_bytes clk')
      as [[r|]| |] eqn:E; cbn [bind] in H; try discriminate.
    destruct (opt_str_truthy (uas_id r) || has_location r); try discriminate.
    injection H as <- <-. split; [reflexivity|].
    exact (wifi_scan_invariant _ _ _ E). }
  unfold parse_beacon_frame.
  destruct (Z.ltb_spec (len packet_bytes) 36) as [Hshort|Hlong]; cbn [bind].
  - destruct (parse_beacon_body packet_bytes) as [[bb|]| |]; cbn [bind];
      try discriminate.
    + destruct (extract_remote_id bb (clk 0)) as [[r|]| |]; cbn [bind];
        try discriminate.
      * destruct (opt_str_truthy (uas_id r) || has_location r) eqn:T.
        -- intros H. injection H as <- <-. right. right.
           split; [reflexivity|]. apply orb_true_iff in T. exact T.
        -- intros H. left. exact (Hscan _ H).
      * intros H. left. exact (Hscan _ H).
    + intros H. left. exact (Hscan _ H).
  - match goal with
    | |- bind (except_none ?m) _ = _ -> _ =>
      destruct (except_none m) as [[bi|]| |]; cbn [bind]; try discriminate
    end.
    + destruct (extract_remote_id bi (clk 0)) as [[r|]| |]; cbn [bind];
        try discriminate.
      destruct (opt_str_truthy (uas_id r)) eqn:T; try discriminate.
      intros H. injection H as <- <-. right. left. auto.
    + destruct (parse_beacon_body packet_bytes) as [[bb|]| |] eqn:B;
        cbn [bind]; try discriminate.
      * destruct (extract_remote_id bb (clk 0)) as [[r|]| |]; cbn [bind];
          try discriminate.
        -- destruct (opt_str_truthy (uas_id r) || has_location r) eqn:T.
           ++ intros H. injection H as <- <-. right. right.
              split; [reflexivity|]. apply orb_true_iff in T. exact T.
           ++ intros H. left. exact (Hscan _ H).
        -- intros H. left. exact (Hscan _ H).
      * intros H. left. exact (Hscan _ H).
Qed.

(** C1, as amended: every record emitted through the Wi-Fi scan of
    arbitrary bytes (method [wifi_action_nan]) satisfies (a), (b) or (c);
    every record the BLE path publishes satisfies (a) or (b); a record
    emitted from a beacon frame is only known to carry a non-empty
    identifier (from a beacon body: a non-empty identifier, or latitude and
    longitude).  Processing a frame or an advertisement always returns. *)
Theorem C1_emitted_records :
  (forall packet_bytes clk rid method,
      WiFiSystem._process_wifi_pdu packet_bytes clk = Ok (Some (rid, method)) ->
      (method = "wifi_action_nan" /\ emission_invariant rid)
      \/ (method = "wifi_beacon" /\ 36 <= len packet_bytes
          /\ opt_str_truthy (uas_id rid) = true)
      \/ (method = "wifi_beacon_body"
          /\ (opt_str_truthy (uas_id rid) = true \/ has_location rid = true)))
  /\ (forall data clk rid,
         WiFiSystem._try_decode_from_bytes data clk = Ok (Some rid) ->
         emission_invariant rid)
  /\ (forall data clk rid,
         BLE._try_decode data clk = Ok (Some rid) ->
         valid_identifier rid \/ position_present rid)
  /\ (forall service_data manufacturer_data clks published,
         BLE._handle_adv service_data manufacturer_data clks = Ok published ->
         Forall (fun r => valid_identifier r \/ position_present r) published)
  /\ (forall packet_bytes clk,
         exists o, WiFiSystem._process_wifi_pdu packet_bytes clk = Ok o)
  /\ (forall service_data manufacturer_data clks,
         exists published,
           BLE._handle_adv service_data manufacturer_data clks = Ok published).
Proof.
  split; [exact process_wifi_pdu_emits|].
  split; [exact wifi_scan_invariant|].
  split; [exact ble_scan_invariant|].
  split; [|split].
  - intros sd md clks published. unfold BLE._handle_adv.
    apply publish_all_invariant.
  - exact process_wifi_pdu_ok.
  - intros sd md clks. unfold BLE._handle_adv. apply publish_all_ok.
Qed.

(** Scenario A, received as a short Wi-Fi frame and as a BLE payload. *)
Lemma C1_emitted_records_witness :
  WiFiSystem._process_wifi_pdu scenario_A counting_clock
  = Ok (Some (scenario_A_record 1, "wifi_action_nan"))
  /\ emission_invariant (scenario_A_record 1)
  /\ BLE._handle_adv [scenario_A] [] (fun _ => counting_clock)
     = Ok [scenario_A_record 0]
  /\ Forall (fun r => valid_identifier r \/ position_present r)
            [scenario_A_record 0]
  /\ WiFiSystem._try_decode_from_bytes scenario_A counting_clock
     = Ok (Some (scenario_A_record 0))
  /\ emission_invariant (scenario_A_record 0)
  /\ BLE._try_decode scenario_A counting_clock = Ok (Some (scenario_A_record 0))
  /\ (valid_identifier (scenario_A_record 0)
      \/ position_present (scenario_A_record 0)).
Proof.
  assert (H3 : WiFiSystem._try_decode_from_bytes scenario_A counting_clock
               = Ok (Some (scenario_A_record 0))) by (vm_compute; reflexivity).
  assert (H4 : BLE._try_decode scenario_A counting_clock
               = Ok (Some (scenario_A_record 0))) by (vm_compute; reflexivity).
  assert (H1 : WiFiSystem._process_wifi_pdu scenario_A counting_clock
               = Ok (Some (scenario_A_record 1, "wifi_action_nan")))
    by (vm_compute; reflexivity).
  assert (H2 : BLE._handle_adv [scenario_A] [] (fun _ => counting_clock)
               = Ok [scenario_A_record 0]) by (vm_compute; reflexivity).
  split; [exact H1|]. split.
  - destruct (proj1 C1_emitted_records _ _ _ _ H1) as [[_ H]|[[E _]|[E _]]];
      [exact H | discriminate E | discriminate E].
  - split; [exact H2|].
    split; [exact (proj1 (proj2 (proj2 (proj2 C1_emitted_records))) _ _ _ _ H2)|].
    split; [exact H3|].
    split; [exact (proj1 (proj2 C1_emitted_records) _ _ _ H3)|].
    split; [exact H4|].
    exact (proj1 (proj2 (proj2 C1_emitted_records)) _ _ _ H4).
Defined.

(** C1, as stated, fails on the beacon path: a beacon whose OpenDroneID
    element carries a Basic-ID of unknown type with a non-text identifier is
    emitted, with a 40-character hex identifier of type ["Unknown"], no
    position and no pattern match. *)
Lemma C1_counterexample :
  exists rid,
    WiFiSystem._process_wifi_pdu beacon_unknown counting_clock
    = Ok (Some (rid, "wifi_beacon"))
    /\ uas_id_type rid = Some "Unknown"
    /\ uas_id rid = Some "FFFFFFFFFFFFFFFFFFFFFFFFFFFFFFFFFFFFFFFF"
    /\ latitude rid = None
    /\ ~ emission_invariant rid.
Proof.
  eexists. split; [vm_compute; reflexivity|].
  split; [reflexivity|]. split; [reflexivity|]. split; [reflexivity|].
  intros [(t & u & Ht & Hin & _)|[(lat & lon & Hlat & _)|(p & Hin & Ht)]].
  - cbn in Ht. injection Ht as <-. vm_compute in Hin.
    repeat (destruct Hin as [Hin|Hin]; [discriminate Hin|]). contradiction.
  - cbn in Hlat. discriminate Hlat.
  - cbn in Ht. vm_compute in Hin.
    repeat (destruct Hin as [<-|Hin]; [discriminate Ht|]). contradiction.
Qed.

End ScanClaims.

(* ================================================================== *)
(** * Beacon frames and their information elements *)
(* ================================================================== *)

Module BeaconFacts.

Import Notions.

Lemma byte_of_int_val (b : byte) : byte_of_int (byte_val b) = b.
Proof.
  unfold byte_of_int, byte_val. rewrite N2Z.id, Byte.of_to_N. reflexivity.
Qed.

Lemma skipn_head_getitem (d : bytes) (o : Z) (b : byte) (t : bytes) :
  0 <= o -> skipn (Z.to_nat o) d = b :: t -> getitem d o = Ok (byte_val b).
Proof.
  intros Ho E. unfold getitem.
  assert (L : (Z.to_nat o < List.length d)%nat).
  { destruct (Nat.lt_ge_cases (Z.to_nat o) (List.length d)) as [|G]; [assumption|].
    rewrite skipn_all2 in E by assumption. discriminate. }
  replace (o <? 0) with false by (symmetry; apply Z.ltb_ge; lia).
  replace ((0 <=? o) && (o <? len d)) with true
    by (symmetry; apply andb_true_iff; unfold len; split;
        [apply Z.leb_le | apply Z.ltb_lt]; lia).
  rewrite <- (firstn_skipn (Z.to_nat o) d) at 1.
  rewrite nth_error_app2 by (rewrite length_firstn; lia).
  rewrite length_firstn, Nat.min_l by lia. rewrite Nat.sub_diag, E. reflexivity.
Qed.

Lemma skipn_tail {A : Type} (d : list A) (n : nat) (b : A) (t : list A) :
  skipn n d = b :: t -> skipn (S n) d = t.
Proof.
  revert d. induction n as [|n IH]; intros d E.
  - cbn in E. subst d. reflexivity.
  - destruct d as [|a d]; [discriminate|]. cbn [skipn] in *. apply IH, E.
Qed.

Lemma skipn_add {A : Type} (d : list A) (n m : nat) :
  skipn (n + m) d = skipn m (skipn n d).
Proof.
  revert d. induction n as [|n IH]; intros d; [reflexivity|].
  destruct d as [|a d]; [rewrite skipn_nil; cbn; now rewrite skipn_nil|].
  cbn [Nat.add skipn]. apply IH.
Qed.

Lemma slice_firstn_skipn {A : Type} (d : list A) (a b : Z) :
  0 <= a -> a <= b -> b <= len d ->
  slice d a b = firstn (Z.to_nat (b - a)) (skipn (Z.to_nat a) d).
Proof.
  intros Ha Hab Hb. unfold slice, slice_bound.
  replace (a <? 0) with false by (symmetry; apply Z.ltb_ge; lia).
  replace (b <? 0) with false by (symmetry; apply Z.ltb_ge; lia).
  rewrite !Z.min_l by lia. reflexivity.
Qed.

Lemma ie_loop_layout (fuel : nat) (d : bytes) (offset : Z)
    (acc ies : list InformationElement) :
  0 <= offset ->
  ie_loop fuel d offset acc = Ok ies ->
  exists new rest,
    ies = acc ++ new
    /\ skipn (Z.to_nat offset) d = flat_map ie_encode new ++ rest
    /\ Forall ie_well_formed new
    /\ ie_leftover rest.
Proof.
  revert offset acc. induction fuel as [|fuel IH]; intros offset acc Ho E.
  - cbn [ie_loop] in E. destruct (Z.ltb_spec offset (len d - 2)); [discriminate|].
    injection E as <-. exists [], (skipn (Z.to_nat offset) d).
    rewrite app_nil_r. repeat split; [constructor|].
    left. unfold len in *. rewrite length_skipn. lia.
  - cbn [ie_loop] in E. destruct (Z.ltb_spec offset (len d - 2)) as [Hlt|Hge].
    + destruct (skipn (Z.to_nat offset) d) as [|a [|l tail]] eqn:Sk.
      * apply (f_equal (@List.length _)) in Sk. rewrite length_skipn in Sk.
        cbn in Sk. unfold len in *. lia.
      * apply (f_equal (@List.length _)) in Sk. rewrite length_skipn in Sk.
        cbn in Sk. unfold len in *. lia.
      * assert (S1 : skipn (Z.to_nat (offset + 1)) d = l :: tail).
        { replace (Z.to_nat (offset + 1)) with (S (Z.to_nat offset)) by lia.
          apply (skipn_tail _ _ _ _ Sk). }
        assert (S2 : skipn (Z.to_nat (offset + 2)) d = tail).
        { replace (Z.to_nat (offset + 2)) with (S (Z.to_nat (offset + 1))) by lia.
          apply (skipn_tail _ _ _ _ S1). }
        rewrite (skipn_head_getitem d offset a _ Ho Sk) in E. cbn [bind] in E.
        rewrite (skipn_head_getitem d (offset + 1) l _ ltac:(lia) S1) in E.
        cbn [bind] in E.
        assert (L : len tail = len d - offset - 2).
        { rewrite <- S2. unfold len in *. rewrite length_skipn. lia. }
        pose proof (byte_val_range a) as Ra. pose proof (byte_val_range l) as Rl.
        destruct (Z.gtb_spec (offset + 2 + byte_val l) (len d)) as [Hover|Hfit].
        -- injection E as <-. exists [], (a :: l :: tail).
           rewrite app_nil_r. repeat split; [constructor|].
           right. exists a, l, tail. split; [reflexivity | lia].
        -- apply IH in E; [|lia]. destruct E as (new & rest & -> & Hs & Hwf & Hl).
           exists (mkIE (byte_val a) (byte_val l)
                        (slice d (offset + 2) (offset + 2 + byte_val l)) :: new), rest.
           rewrite slice_firstn_skipn by lia.
           replace (offset + 2 + byte_val l - (offset + 2)) with (byte_val l) by lia.
           rewrite S2. split; [rewrite <- app_assoc; reflexivity|].
           split; [|split; [|exact Hl]].
           ++ cbn [flat_map]. unfold ie_encode at 1. cbn [ie_id ie_length ie_data].
              rewrite !byte_of_int_val. cbn [app]. do 2 f_equal.
              rewrite <- app_assoc, <- Hs.
              replace (Z.to_nat (offset + 2 + byte_val l))
                with (Z.to_nat (offset + 2) + Z.to_nat (byte_val l))%nat by lia.
              rewrite skipn_add, S2. symmetry. apply firstn_skipn.
           ++ constructor; [|exact Hwf]. unfold ie_well_formed.
              cbn [ie_id ie_length ie_data]. repeat split; try lia.
              unfold len in *. rewrite length_firstn. lia.
    + injection E as <-. exists [], (skipn (Z.to_nat offset) d).
      rewrite app_nil_r. repeat split; [constructor|].
      left. unfold len in *. rewrite length_skipn. lia.
Qed.

(** X1: [_parse_information_elements] returns on every input, and the
    elements it returns are exactly the input read from the left: the input
    is the concatenation of the encodings (identifier byte, length byte,
    data) of the returned elements, each with the length its length byte
    states, followed by a remainder that is either at most two bytes long
    or a header announcing more data than is left. *)
Theorem X1_information_elements_layout (ie_data : bytes) :
  exists ies rest,
    _parse_information_elements ie_data = Ok ies
    /\ ie_data = flat_map ie_encode ies ++ rest
    /\ Forall ie_well_formed ies
    /\ ie_leftover rest.
Proof.
  destruct (CallersTotal._parse_information_elements_ok ie_data) as (ies & E).
  destruct (ie_loop_layout _ _ 0 [] ies ltac:(lia) E) as (new & rest & -> & Hs & W & L).
  exists new, rest. cbn [app] in *. repeat split; assumption.
Qed.
Lemma extract_loop_payloads (ies : list InformationElement) (r : RemoteIDData) :
  extract_loop ies r = parse_all (odid_payloads ies) r.
Proof.
  revert r. induction ies as [|ie rest IH]; intros r; [reflexivity|].
  cbn [extract_loop]. unfold odid_payloads, odid_element in *.
  cbn [filter]. destruct (ie_id ie =? 221); cbn [andb]; [|apply IH].
  destruct (Z.ltb_spec (len (ie_data ie)) 4) as [Short|Long].
  - replace (4 <? len (ie_data ie)) with false by (symmetry; apply Z.ltb_ge; lia).
    apply IH.
  - destruct (getitem_in_range (ie_data ie) 3) as (v & -> & _); [lia|].
    cbn [bind].
    destruct (bytes_eqb (slice (ie_data ie) 0 3) ODID_OUI);
      cbn [negb]; [|rewrite andb_false_r; apply IH].
    rewrite andb_true_r, Z.gtb_ltb.
    destruct (4 <? len (ie_data ie)); cbn [map parse_all]; [|apply IH].
    destruct (_parse_remote_id_messages (slice_from (ie_data ie) 4) r);
      cbn [bind]; [apply IH | reflexivity | reflexivity].
Qed.

(** X2: [extract_remote_id] looks only at the vendor-specific elements
    (identifier 0xDD) with more than four data bytes whose first three are
    the OpenDroneID OUI; it parses what follows their fourth byte, in the
    order of the elements, into one record, and returns that record when it
    has an identifier or a latitude.  A beacon without such an element
    yields [None]. *)
Theorem X2_extract_remote_id_payloads (beacon_info : BeaconInfo) (now : float) :
  let payloads := odid_payloads (information_elements beacon_info) in
  extract_remote_id beacon_info now
  = (remote_id <- parse_all payloads (set_timestamp (Some now) new_RemoteIDData) ;;
     if opt_str_truthy (uas_id remote_id) || opt_float_truthy (latitude remote_id)
     then Ok (Some remote_id) else Ok None)
  /\ (payloads = [] -> extract_remote_id beacon_info now = Ok None).
Proof.
  cbv zeta. unfold extract_remote_id. rewrite extract_loop_payloads.
  split; [reflexivity|]. intros ->. reflexivity.
Qed.

Lemma val_of_int (v : Z) : 0 <= v < 256 -> byte_val (byte_of_int v) = v.
Proof.
  intros H. unfold byte_val, byte_of_int.
  destruct (Byte.of_N (Z.to_N v)) as [b|] eqn:E.
  - apply Byte.to_of_N in E. rewrite E. lia.
  - apply Byte.of_N_None_iff in E. lia.
Qed.

Lemma skipn_prefix {A : Type} (pre l : list A) :
  skipn (Z.to_nat (len pre)) (pre ++ l) = l.
Proof.
  unfold len. rewrite Nat2Z.id, skipn_app, skipn_all, Nat.sub_diag. reflexivity.
Qed.

Lemma ie_loop_stops (fuel : nat) (pre rest : bytes)
    (acc : list InformationElement) :
  ie_leftover rest -> len rest <= Z.of_nat fuel ->
  ie_loop fuel (pre ++ rest) (len pre) acc = Ok acc.
Proof.
  intros L F. pose proof (len_nonneg pre) as Hp.
  assert (Ld : len (pre ++ rest) = len pre + len rest)
    by (unfold len; rewrite length_app; lia).
  destruct fuel as [|fuel]; cbn [ie_loop]; rewrite Ld;
    destruct (Z.ltb_spec (len pre) (len pre + len rest - 2)) as [Hlt|Hge];
    try reflexivity; [exfalso; lia|].
  destruct L as [L|(b_id & b_len & tail & -> & L)]; [exfalso; lia|].
  pose proof (skipn_prefix pre (b_id :: b_len :: tail)) as Sk.
  rewrite (skipn_head_getitem _ _ _ _ Hp Sk). cbn [bind].
  assert (S1 : skipn (Z.to_nat (len pre + 1)) (pre ++ b_id :: b_len :: tail)
               = b_len :: tail).
  { replace (Z.to_nat (len pre + 1)) with (S (Z.to_nat (len pre))) by lia.
    apply (skipn_tail _ _ _ _ Sk). }
  rewrite (skipn_head_getitem _ (len pre + 1) _ _ ltac:(lia) S1). cbn [bind].
  replace (len pre + 2 + byte_val b_len >? len pre + len (b_id :: b_len :: tail))
    with true; [reflexivity|].
  symmetry. apply Z.gtb_lt. unfold len in *. cbn [List.length]. lia.
Qed.

Lemma ends_visibly_tail (ie : InformationElement)
    (ies : list InformationElement) (rest : bytes) :
  ends_visibly (ie :: ies) rest ->
  ends_visibly ies rest /\ 0 < len (ie_data ie ++ flat_map ie_encode ies ++ rest).
Proof.
  intros [R|[E|(init & l & E & D)]].
  - split; [left; exact R|].
    unfold len. rewrite !length_app. destruct rest; [contradiction|].
    cbn [List.length]. lia.
  - discriminate E.
  - destruct init as [|i init]; cbn [app] in E; injection E as -> ->.
    + split; [right; left; reflexivity|].
      unfold len. rewrite length_app. destruct (ie_data l); [contradiction|].
      cbn [List.length]. lia.
    + split; [right; right; exists init, l; split; [reflexivity | exact D]|].
      unfold len. rewrite !length_app, flat_map_app, length_app.
      cbn [flat_map ie_encode List.length app]. unfold ie_encode.
      cbn [List.length]. destruct (ie_data l); [contradiction|].
      cbn [List.length]. lia.
Qed.

Lemma ie_loop_encoded (ies : list InformationElement) :
  forall (fuel : nat) (pre rest : bytes) (acc : list InformationElement),
    Forall ie_well_formed ies -> ie_leftover rest -> ends_visibly ies rest ->
    len (flat_map ie_encode ies ++ rest) <= Z.of_nat fuel ->
    ie_loop fuel (pre ++ flat_map ie_encode ies ++ rest) (len pre) acc
    = Ok (acc ++ ies).
Proof.
  induction ies as [|ie ies IH]; intros fuel pre rest acc W L V F.
  - cbn [flat_map app] in *. rewrite app_nil_r.
    apply ie_loop_stops; assumption.
  - inversion W as [|? ? (Hid & Hlen & Hdata) W']; subst.
    destruct (ends_visibly_tail _ _ _ V) as (V' & Pos).
    pose proof (len_nonneg pre) as Hp.
    cbn [flat_map] in *. unfold ie_encode at 1 in F. unfold ie_encode at 1.
    cbn [app] in *.
    set (tail := ie_data ie ++ flat_map ie_encode ies ++ rest) in *.
    assert (Et : (ie_data ie ++ flat_map ie_encode ies) ++ rest = tail)
      by (unfold tail; now rewrite app_assoc).
    rewrite Et in *.
    set (d := pre ++ byte_of_int (ie_id ie) :: byte_of_int (ie_length ie) :: tail).
    assert (Ld : len d = len pre + 2 + len tail).
    { unfold d, len. rewrite length_app. cbn [List.length]. lia. }
    assert (Lf : len (byte_of_int (ie_id ie) :: byte_of_int (ie_length ie) :: tail)
                 = 2 + len tail) by (unfold len; cbn [List.length]; lia).
    rewrite Lf in F.
    destruct fuel as [|fuel]; [pose proof (len_nonneg tail); lia|].
    cbn [ie_loop]. rewrite Ld.
    destruct (Z.ltb_spec (len pre) (len pre + 2 + len tail - 2)); [|lia].
    pose proof (skipn_prefix pre
                  (byte_of_int (ie_id ie) :: byte_of_int (ie_length ie) :: tail))
      as Sk. fold d in Sk.
    rewrite (skipn_head_getitem _ _ _ _ Hp Sk). cbn [bind].
    assert (S1 : skipn (Z.to_nat (len pre + 1)) d
                 = byte_of_int (ie_length ie) :: tail).
    { replace (Z.to_nat (len pre + 1)) with (S (Z.to_nat (len pre))) by lia.
      apply (skipn_tail _ _ _ _ Sk). }
    assert (S2 : skipn (Z.to_nat (len pre + 2)) d = tail).
    { replace (Z.to_nat (len pre + 2)) with (S (Z.to_nat (len pre + 1))) by lia.
      apply (skipn_tail _ _ _ _ S1). }
    rewrite (skipn_head_getitem _ (len pre + 1) _ _ ltac:(lia) S1). cbn [bind].
    rewrite !val_of_int by assumption.
    assert (Lt : len tail = ie_length ie + len (flat_map ie_encode ies ++ rest)).
    { unfold tail, len in *. rewrite length_app. lia. }
    pose proof (len_nonneg (flat_map ie_encode ies ++ rest)) as Hr.
    replace (len pre + 2 + ie_length ie >? len pre + 2 + len tail) with false
      by (symmetry; rewrite Z.gtb_ltb; apply Z.ltb_ge; lia).
    rewrite slice_firstn_skipn by lia. rewrite S2.
    replace (len pre + 2 + ie_length ie - (len pre + 2)) with (ie_length ie)
      by lia.
    assert (Fd : firstn (Z.to_nat (ie_length ie)) tail = ie_data ie).
    { unfold tail. rewrite Hdata. unfold len. rewrite Nat2Z.id.
      rewrite firstn_app, firstn_all, Nat.sub_diag. cbn [firstn].
      now rewrite app_nil_r. }
    rewrite Fd.
    replace (mkIE (ie_id ie) (ie_length ie) (ie_data ie)) with ie
      by (destruct ie; reflexivity).
    specialize (IH fuel
                  (pre ++ byte_of_int (ie_id ie) :: byte_of_int (ie_length ie)
                       :: ie_data ie)
                  rest (acc ++ [ie]) W' L V').
    assert (Ep : (pre ++ byte_of_int (ie_id ie) :: byte_of_int (ie_length ie)
                      :: ie_data ie) ++ flat_map ie_encode ies ++ rest = d).
    { unfold d, tail. rewrite <- app_assoc. reflexivity. }
    rewrite Ep in IH.
    assert (Lp : len (pre ++ byte_of_int (ie_id ie) :: byte_of_int (ie_length ie)
                          :: ie_data ie) = len pre + 2 + ie_length ie).
    { unfold len in *. rewrite length_app. cbn [List.length]. lia. }
    rewrite Lp in IH. rewrite IH by lia.
    rewrite <- app_assoc. reflexivity.
Qed.

Lemma parse_encoded (ies : list InformationElement) (rest : bytes) :
  Forall ie_well_formed ies -> ie_leftover rest -> ends_visibly ies rest ->
  _parse_information_elements (flat_map ie_encode ies ++ rest) = Ok ies.
Proof.
  intros W L V. unfold _parse_information_elements.
  apply (ie_loop_encoded ies _ [] rest [] W L V). unfold len. lia.
Qed.

(** X22: parsing the encoding of well-formed information elements gives the
    elements back, whatever unreadable remainder follows them, as long as
    the last element has data or is followed by at least one byte.  An
    element without data at the very end of the input is dropped: the loop
    needs three bytes to start on an element. *)
Theorem X22_information_elements_round_trip (ies : list InformationElement)
    (rest : bytes) :
  Forall ie_well_formed ies -> ie_leftover rest ->
  (ends_visibly ies rest ->
   _parse_information_elements (flat_map ie_encode ies ++ rest) = Ok ies)
  /\ (forall id, 0 <= id < 256 ->
        _parse_information_elements
          (flat_map ie_encode (ies ++ [mkIE id 0 []]))
        = Ok ies).
Proof.
  intros W L. split.
  - intros V. exact (parse_encoded ies rest W L V).
  - intros id Hid. rewrite flat_map_app. cbn [flat_map ie_encode app].
    unfold ie_encode. cbn [ie_id ie_length ie_data app].
    unfold _parse_information_elements.
    apply (ie_loop_encoded ies _ [] [byte_of_int id; byte_of_int 0] [] W).
    + left. unfold len. cbn [List.length]. lia.
    + left. discriminate.
    + apply Z.le_refl.
Qed.

Lemma X22_information_elements_round_trip_witness :
  slice_from beacon_unknown 36
  = flat_map ie_encode [odid_element_of x0d unknown_basic_id] ++ []
  /\ _parse_information_elements (slice_from beacon_unknown 36)
     = Ok [odid_element_of x0d unknown_basic_id]
  /\ _parse_information_elements
       (flat_map ie_encode [odid_element_of x0d unknown_basic_id; mkIE 7 0 []])
     = Ok [odid_element_of x0d unknown_basic_id].
Proof.
  assert (S : slice_from beacon_unknown 36
              = flat_map ie_encode [odid_element_of x0d unknown_basic_id] ++ [])
    by reflexivity.
  assert (W : Forall ie_well_formed [odid_element_of x0d unknown_basic_id]).
  { constructor; [|constructor]. unfold ie_well_formed. cbn. lia. }
  assert (L : ie_leftover []) by (left; cbn; lia).
  destruct (X22_information_elements_round_trip
              [odid_element_of x0d unknown_basic_id] [] W L) as (A & B).
  split; [exact S|]. split.
  - rewrite S. apply A. right. right.
    exists [], (odid_element_of x0d unknown_basic_id).
    split; [reflexivity | discriminate].
  - apply (B 7). lia.
Defined.

End BeaconFacts.

(* ================================================================== *)
(** * The pattern search *)
(* ================================================================== *)

Module PatternFacts.

Import Notions.

Lemma slice_from_skipn {A : Type} (d : list A) (i : Z) :
  0 <= i <= len d -> slice_from d i = skipn (Z.to_nat i) d.
Proof.
  intros H. unfold slice_from, slice_bound.
  replace (i <? 0) with false by (symmetry; apply Z.ltb_ge; lia).
  rewrite Z.min_l by lia. reflexivity.
Qed.

Lemma find_from_spec (p data : bytes) (pos : Z) :
  0 <= pos ->
  (find_from pos p data = -1
   /\ forall k, (k <= List.length data)%nat -> bytes_prefix p (skipn k data) = false)
  \/ (exists k, (k <= List.length data)%nat
        /\ find_from pos p data = pos + Z.of_nat k
        /\ bytes_prefix p (skipn k data) = true
        /\ forall j, (j < k)%nat -> bytes_prefix p (skipn j data) = false).
Proof.
  revert pos. induction data as [|b t IH]; intros pos Hp; cbn [find_from].
  - destruct (bytes_prefix p []) eqn:E.
    + right. exists 0%nat. cbn [skipn List.length]. repeat split; try lia. exact E.
    + left. split; [reflexivity|]. intros k Hk. cbn in Hk.
      replace k with 0%nat by lia. exact E.
  - destruct (bytes_prefix p (b :: t)) eqn:E.
    + right. exists 0%nat. cbn [skipn List.length]. repeat split; try lia. exact E.
    + destruct (IH (pos + 1) ltac:(lia)) as [[F N]|(k & Hk & F & Y & N)].
      * left. split; [exact F|]. intros [|k] Hk; [exact E|].
        cbn [skipn]. apply N. cbn in Hk. lia.
      * right. exists (S k). cbn [skipn List.length]. repeat split; try lia.
        -- exact Y.
        -- intros [|j] Hj; [exact E|]. cbn [skipn]. apply N. lia.
Qed.

Lemma find_spec (data p : bytes) :
  (find data p = -1 /\ forall i, ~ occurs_at p data i)
  \/ (occurs_at p data (find data p)
      /\ forall j, 0 <= j < find data p -> ~ occurs_at p data j).
Proof.
  unfold find. destruct (find_from_spec p data 0 ltac:(lia))
    as [[F N]|(k & Hk & F & Y & N)].
  - left. split; [exact F|]. intros i [Hi P].
    rewrite slice_from_skipn in P by exact Hi.
    rewrite N in P; [discriminate | unfold len in Hi; lia].
  - right. rewrite F. cbn [Z.add]. split.
    + unfold occurs_at. unfold len. split; [lia|].
      rewrite slice_from_skipn by (unfold len; lia). rewrite Nat2Z.id. exact Y.
    + intros j Hj [Hi P]. rewrite slice_from_skipn in P by exact Hi.
      rewrite N in P; [discriminate | lia].
Qed.

Lemma try_pattern_none (data : bytes) (ptype : string) (pat : bytes) :
  try_pattern data ptype pat = None -> forall i, ~ occurs_at pat data i.
Proof.
  unfold try_pattern. intros H.
  destruct (find_spec data pat) as [[F N]|[O _]]; [exact N|].
  destruct (Z.eqb_spec (find data pat) (-1)) as [E|E].
  - rewrite E in O. destruct O as [[? _] _]. lia.
  - cbn [negb] in H.
    destruct (String.eqb ptype "dji_remote_id"
              && (len (slice_from data (find data pat)) >=? 20));
      [destruct (find (slice_from data (find data pat)) [x00] >? len pat)|];
      discriminate.
Qed.

Lemma try_pattern_some (data : bytes) (ptype : string) (pat : bytes)
    (info : PatternInfo) :
  try_pattern data ptype pat = Some info ->
  pattern_type info = ptype /\ pattern info = hex pat
  /\ confidence info = "pattern_match"
  /\ pattern_offset info = find data pat
  /\ occurs_at pat data (pattern_offset info)
  /\ forall j, 0 <= j < pattern_offset info -> ~ occurs_at pat data j.
Proof.
  unfold try_pattern. intros H.
  destruct (Z.eqb_spec (find data pat) (-1)) as [E|E]; cbn [negb] in H;
    [discriminate|].
  assert (G : pattern_type info = ptype /\ pattern info = hex pat
              /\ confidence info = "pattern_match"
              /\ pattern_offset info = find data pat).
  { destruct (String.eqb ptype "dji_remote_id"
              && (len (slice_from data (find data pat)) >=? 20));
      [destruct (find (slice_from data (find data pat)) [x00] >? len pat)|];
      injection H as <-; repeat split. }
  destruct G as (G1 & G2 & G3 & G4). repeat (split; [assumption|]).
  rewrite G4. destruct (find_spec data pat) as [[F _]|[O N]]; [contradiction|].
  split; assumption.
Qed.

Lemma search_patterns_flat (data : bytes) :
  search_patterns_in_bytes data
  = first_some (fun e => try_pattern data (fst e) (snd e)) pattern_table.
Proof.
  unfold search_patterns_in_bytes, pattern_table, AUTHENTIC_PATTERNS.
  cbn [flat_map map app fst snd first_some].
  repeat match goal with
         | |- context [match try_pattern ?d ?t ?p with _ => _ end] =>
           destruct (try_pattern d t p)
         end; reflexivity.
Qed.

Lemma first_some_split {A B : Type} (f : A -> option B) (l : list A) :
  match first_some f l with
  | Some b => exists before a after,
                l = before ++ a :: after /\ f a = Some b
                /\ forall a', In a' before -> f a' = None
  | None => forall a, In a l -> f a = None
  end.
Proof.
  induction l as [|a l IH]; cbn [first_some].
  - intros a [].
  - destruct (f a) as [b|] eqn:E.
    + exists [], a, l. repeat split; [exact E | intros a' []].
    + destruct (first_some f l) as [b|].
      * destruct IH as (before & a0 & after & -> & F & N).
        exists (a :: before), a0, after. repeat split; [exact F|].
        intros a' [<-|H]; [exact E | apply N, H].
      * intros a' [<-|H]; [exact E | apply IH, H].
Qed.

(** X3: [search_patterns_in_bytes] returns [None] exactly when no pattern
    of [AUTHENTIC_PATTERNS] occurs in the data.  Otherwise it reports the
    first pattern, in table order, that occurs anywhere in the data,
    together with the position of its first occurrence, its lower-case hex
    form and the confidence ["pattern_match"]; no pattern earlier in the
    table occurs in the data. *)
Theorem X3_search_patterns_first_match (data : bytes) :
  match search_patterns_in_bytes data with
  | None =>
    forall ptype pat i, In (ptype, pat) pattern_table -> ~ occurs_at pat data i
  | Some info =>
    exists before pat after,
      pattern_table = before ++ (pattern_type info, pat) :: after
      /\ pattern info = hex pat
      /\ confidence info = "pattern_match"
      /\ occurs_at pat data (pattern_offset info)
      /\ (forall j, 0 <= j < pattern_offset info -> ~ occurs_at pat data j)
      /\ (forall ptype' pat' i, In (ptype', pat') before -> ~ occurs_at pat' data i)
  end.
Proof.
  rewrite search_patterns_flat.
  pose proof (first_some_split (fun e => try_pattern data (fst e) (snd e))
                               pattern_table) as H.
  destruct (first_some _ pattern_table) as [info|].
  - destruct H as (before & [ptype pat] & after & E & F & N). cbn [fst snd] in F.
    destruct (try_pattern_some _ _ _ _ F) as (T & P & C & _ & O & M).
    exists before, pat, after. rewrite T. repeat (split; [assumption|]).
    intros ptype' pat' i Hin. apply (try_pattern_none data ptype' pat').
    exact (N _ Hin).
  - intros ptype pat i Hin. apply (try_pattern_none data ptype pat).
    exact (H _ Hin).
Qed.
Lemma bytes_prefix_app (p l : bytes) :
  bytes_prefix p l = true <-> exists t, l = p ++ t.
Proof.
  revert l. induction p as [|a p IH]; intros l; cbn [bytes_prefix].
  - split; [intros _; exists l; reflexivity | reflexivity].
  - destruct l as [|b l].
    + split; [discriminate | intros (t & E); discriminate].
    + rewrite andb_true_iff, IH. split.
      * intros [E (t & ->)]. apply Byte.byte_dec_bl in E. subst b.
        exists t. reflexivity.
      * intros (t & E). injection E as -> ->. split.
        -- apply Byte.byte_dec_lb. reflexivity.
        -- exists t. reflexivity.
Qed.

Lemma first_nul_split (l : bytes) (k : Z) :
  occurs_at [x00] l k ->
  (forall j, 0 <= j < k -> ~ occurs_at [x00] l j) ->
  exists rest,
    l = slice_to l k ++ x00 :: rest /\ ~ In x00 (slice_to l k)
    /\ len (slice_to l k) = k.
Proof.
  intros [Hk P] N. rewrite slice_from_skipn in P by exact Hk.
  apply bytes_prefix_app in P. destruct P as (rest & E). cbn [app] in E.
  assert (T : slice_to l k = firstn (Z.to_nat k) l).
  { unfold slice_to, slice_bound.
    replace (k <? 0) with false by (symmetry; apply Z.ltb_ge; lia).
    rewrite Z.min_l by lia. reflexivity. }
  exists rest. rewrite T. split; [|split].
  - rewrite <- E. symmetry. apply firstn_skipn.
  - intros Hin. apply In_nth_error in Hin. destruct Hin as (j & Hj).
    assert (Lj : (j < Z.to_nat k)%nat).
    { assert (B : nth_error (firstn (Z.to_nat k) l) j <> None) by congruence.
      apply nth_error_Some in B. rewrite length_firstn in B. lia. }
    rewrite nth_error_firstn in Hj.
    replace (j <? Z.to_nat k)%nat with true in Hj
      by (symmetry; apply Nat.ltb_lt; exact Lj).
    apply (N (Z.of_nat j)); [lia|]. unfold occurs_at.
    rewrite slice_from_skipn by lia. rewrite Nat2Z.id. split; [lia|].
    apply bytes_prefix_app. apply nth_error_split in Hj.
    destruct Hj as (l1 & l2 & -> & <-). exists l2.
    rewrite skipn_app, skipn_all, Nat.sub_diag. reflexivity.
  - unfold len in *. rewrite length_firstn. lia.
Qed.

Lemma ascii_decode_app (a b : bytes) :
  ascii_decode_ignore (a ++ b)
  = String.append (ascii_decode_ignore a) (ascii_decode_ignore b).
Proof.
  unfold ascii_decode_ignore. rewrite filter_app, map_app.
  generalize (map (fun b0 => ascii_of_int (byte_val b0))
                  (filter (fun b0 => byte_val b0 <? 128) a)) as x.
  generalize (map (fun b0 => ascii_of_int (byte_val b0))
                  (filter (fun b0 => byte_val b0 <? 128) b)) as y.
  intros y x. induction x as [|c x IH]; cbn; [reflexivity | now rewrite IH].
Qed.

Lemma startswith_append (s t : string) : startswith s (String.append s t) = true.
Proof.
  induction s as [|a s IH]; cbn; [reflexivity|].
  rewrite Ascii.eqb_refl. exact IH.
Qed.

Lemma string_of_list_length (l : list ascii) :
  String.length (string_of_list_ascii l) = List.length l.
Proof. induction l as [|a l IH]; cbn; [reflexivity | now rewrite IH]. Qed.

Lemma ascii_decode_count (bs : bytes) :
  String.length (ascii_decode_ignore bs)
  = List.length (filter (fun b => byte_val b <? 128) bs).
Proof.
  unfold ascii_decode_ignore. rewrite string_of_list_length, length_map.
  reflexivity.
Qed.

(** Decoding with [errors='ignore'] drops the bytes outside ASCII and keeps
    one character for each of the others. *)
Lemma ascii_decode_length (bs : bytes) :
  str_len (ascii_decode_ignore bs) <= len bs
  /\ (str_len (ascii_decode_ignore bs) = len bs
      <-> Forall (fun b => byte_val b < 128) bs)
  /\ (ascii_decode_ignore bs = ""
      <-> Forall (fun b => 128 <= byte_val b) bs).
Proof.
  assert (Z0 : forall s, s = "" <-> String.length s = 0%nat).
  { intros s. destruct s; cbn; split; intros H; try reflexivity;
      discriminate H. }
  rewrite Z0. unfold str_len, len. rewrite ascii_decode_count.
  induction bs as [|b bs (L & E & N)]; cbn [filter List.length].
  - repeat split; try constructor; lia.
  - pose proof (filter_length_le (fun b0 => byte_val b0 <? 128) bs) as F.
    destruct (Z.ltb_spec (byte_val b) 128) as [A|A]; cbn [List.length].
    + split; [lia|]. split; [split|split].
      * intros H. constructor; [exact A|]. apply E. lia.
      * intros H. inversion H as [|? ? _ T]. apply E in T. lia.
      * discriminate.
      * intros H. inversion H. lia.
    + split; [lia|]. split; [split|split].
      * intros H. lia.
      * intros H. inversion H. lia.
      * intros H. constructor; [exact A | apply N, H].
      * intros H. inversion H as [|? ? _ T]. apply N, T.
Qed.

Lemma append_length (s t : string) :
  String.length (String.append s t) = (String.length s + String.length t)%nat.
Proof. induction s as [|a s IH]; cbn; [reflexivity | now rewrite IH]. Qed.

Lemma append_self (s t : string) : String.append s t = s <-> t = "".
Proof.
  split.
  - intros H. apply (f_equal String.length) in H. rewrite append_length in H.
    destruct t; [reflexivity | cbn in H; lia].
  - intros ->. induction s as [|a s IH]; cbn; [reflexivity | now rewrite IH].
Qed.

(** The DJI patterns are ASCII texts. *)
Lemma dji_pattern_ascii (pat : bytes) :
  In ("dji_remote_id", pat) pattern_table ->
  str_len (ascii_decode_ignore pat) = len pat.
Proof.
  intros H. cbv [pattern_table AUTHENTIC_PATTERNS flat_map map fst snd app] in H.
  repeat (destruct H as [H|H];
          [first [ injection H as <-; reflexivity | discriminate H ]|]).
  contradiction.
Qed.

Lemma try_pattern_identifier (data : bytes) (ptype : string) (pat : bytes)
    (info : PatternInfo) (u : string) :
  try_pattern data ptype pat = Some info -> pattern_uas_id info = Some u ->
  let remaining := slice_from data (pattern_offset info) in
  ptype = "dji_remote_id" /\ 20 <= len remaining
  /\ exists id_bytes tail rest,
       remaining = id_bytes ++ x00 :: rest
       /\ ~ In x00 id_bytes
       /\ len pat < len id_bytes
       /\ u = ascii_decode_ignore id_bytes
       /\ startswith (ascii_decode_ignore pat) u = true
       /\ id_bytes = pat ++ tail.
Proof.
  cbv zeta. intros H U.
  destruct (try_pattern_some _ _ _ _ H) as (_ & _ & _ & Off & Occ & _).
  unfold try_pattern in H.
  destruct (find data pat =? -1); cbn [negb] in H; [discriminate|].
  rewrite Off.
  destruct (String.eqb_spec ptype "dji_remote_id") as [->|]; cbn [andb] in H;
    [|injection H as <-; discriminate].
  destruct (Z.geb_spec (len (slice_from data (find data pat))) 20) as [L|L];
    [|injection H as <-; discriminate].
  destruct (Z.gtb_spec (find (slice_from data (find data pat)) [x00]) (len pat))
    as [G|G]; [|injection H as <-; discriminate].
  injection H as <-. cbn [pattern_uas_id] in U. injection U as <-.
  split; [reflexivity|]. split; [lia|].
  set (remaining := slice_from data (find data pat)) in *.
  destruct (find_spec remaining [x00]) as [[F _]|[O N]].
  { pose proof (len_nonneg pat). lia. }
  destruct (first_nul_split _ _ O N) as (rest & E & NoNul & Len).
  remember (find remaining [x00]) as k eqn:Hk.
  rewrite Off in Occ. destruct Occ as [_ P]. fold remaining in P.
  apply bytes_prefix_app in P. destruct P as (t & P).
  assert (Q : slice_to remaining k
              = pat ++ firstn (Z.to_nat (k - len pat)) t).
  { assert (T : slice_to remaining k = firstn (Z.to_nat k) remaining).
    { unfold slice_to, slice_bound. destruct O as [Hk' _].
      replace (k <? 0) with false by (symmetry; apply Z.ltb_ge; lia).
      rewrite Z.min_l by lia. reflexivity. }
    rewrite T, P, firstn_app. f_equal.
    - apply firstn_all2. unfold len in G. lia.
    - f_equal. unfold len. lia. }
  exists (slice_to remaining k), (firstn (Z.to_nat (k - len pat)) t), rest.
  repeat split; try assumption; try lia.
  rewrite Q, ascii_decode_app. apply startswith_append.
Qed.

(** X4: when the pattern search reports an identifier, the pattern is a
    DJI Remote ID pattern, at least 20 bytes follow its position, and a NUL
    byte follows the pattern.  The bytes from the pattern up to the first
    such NUL are longer than the pattern, and the identifier is their ASCII
    text with the bytes outside ASCII left out: the text of the pattern
    followed by the text of the bytes behind it.  So the identifier starts
    with the pattern, is at least as long as the pattern and at most as
    long as those bytes, and it is the bare pattern exactly when every byte
    behind the pattern is outside ASCII. *)
Theorem X4_pattern_identifier (data : bytes) (info : PatternInfo) (u : string) :
  search_patterns_in_bytes data = Some info ->
  pattern_uas_id info = Some u ->
  let remaining := slice_from data (pattern_offset info) in
  pattern_type info = "dji_remote_id" /\ 20 <= len remaining
  /\ exists pat id_bytes rest,
       In ("dji_remote_id", pat) pattern_table
       /\ pattern info = hex pat
       /\ remaining = id_bytes ++ x00 :: rest
       /\ ~ In x00 id_bytes
       /\ len pat < len id_bytes
       /\ u = ascii_decode_ignore id_bytes
       /\ startswith (ascii_decode_ignore pat) u = true
       /\ exists tail,
            id_bytes = pat ++ tail /\ tail <> []
            /\ u = String.append (ascii_decode_ignore pat)
                                 (ascii_decode_ignore tail)
            /\ len pat <= str_len u <= len id_bytes
            /\ (str_len u = len id_bytes
                <-> Forall (fun b => byte_val b < 128) tail)
            /\ (u = ascii_decode_ignore pat
                <-> Forall (fun b => 128 <= byte_val b) tail).
Proof.
  cbv zeta. intros S U. rewrite search_patterns_flat in S.
  apply ScanFacts.first_some_inv in S. destruct S as ([ptype pat] & Hin & T).
  cbn [fst snd] in T.
  destruct (try_pattern_some _ _ _ _ T) as (Ty & Pa & _).
  destruct (try_pattern_identifier _ _ _ _ _ T U)
    as (-> & L & id_bytes & tail & rest & E & N & G & D & W & Q).
  split; [exact Ty|]. split; [exact L|].
  exists pat, id_bytes, rest. repeat (split; [assumption|]).
  exists tail. split; [exact Q|].
  pose proof (dji_pattern_ascii pat Hin) as A.
  destruct (ascii_decode_length tail) as (Lt & Et & Nt).
  assert (Lu : str_len u = len pat + str_len (ascii_decode_ignore tail)).
  { rewrite D, Q, ascii_decode_app. unfold str_len in *.
    rewrite append_length. lia. }
  assert (Li : len id_bytes = len pat + len tail).
  { rewrite Q. unfold len. rewrite length_app. lia. }
  split.
  { intros ->. rewrite app_nil_r in Q. subst id_bytes. lia. }
  split; [rewrite D, Q; apply ascii_decode_app|].
  split; [unfold str_len in *; lia|].
  split.
  { rewrite <- Et. lia. }
  rewrite <- Nt. rewrite D, Q, ascii_decode_app. apply append_self.
Qed.

(** The buffer of the repository's pattern test yields the identifier
    [DJI-RID-MAVIC3PRO-12345]; a pattern followed by a byte outside ASCII
    yields the bare pattern as the identifier. *)
Lemma X4_pattern_identifier_witness :
  match search_patterns_in_bytes Samples.dji_test_data with
  | Some info =>
    pattern_uas_id info = Some "DJI-RID-MAVIC3PRO-12345"
    /\ pattern_offset info = 50
    /\ pattern_type info = "dji_remote_id"
    /\ 20 <= len (slice_from Samples.dji_test_data (pattern_offset info))
  | None => False
  end
  /\ match search_patterns_in_bytes Samples.dji_non_ascii with
     | Some info =>
       pattern_uas_id info = Some "DJI-RID-"
       /\ pattern info = hex (bytes_of_string "DJI-RID-")
       /\ pattern_type info = "dji_remote_id"
       /\ 20 <= len (slice_from Samples.dji_non_ascii (pattern_offset info))
     | None => False
     end.
Proof.
  split.
  - destruct (search_patterns_in_bytes Samples.dji_test_data) as [info|] eqn:S.
    + pose proof S as S'. vm_compute in S'. injection S' as <-.
      assert (U : pattern_uas_id
                    (mkPatternInfo "dji_remote_id" "444a492d5249442d" 50
                       (Some "DJI-RID-MAVIC3PRO-12345") "pattern_match")
                  = Some "DJI-RID-MAVIC3PRO-12345") by reflexivity.
      split; [exact U|]. split; [reflexivity|].
      destruct (X4_pattern_identifier _ _ _ S U) as (T & L & _).
      split; assumption.
    + vm_compute in S. discriminate S.
  - destruct (search_patterns_in_bytes Samples.dji_non_ascii) as [info|] eqn:S.
    + pose proof S as S'. vm_compute in S'. injection S' as <-.
      assert (U : pattern_uas_id
                    (mkPatternInfo "dji_remote_id" "444a492d5249442d" 0
                       (Some "DJI-RID-") "pattern_match")
                  = Some "DJI-RID-") by reflexivity.
      split; [exact U|]. split; [reflexivity|].
      destruct (X4_pattern_identifier _ _ _ S U) as (T & L & _).
      split; assumption.
    + vm_compute in S. discriminate S.
Defined.

End PatternFacts.

(* ================================================================== *)
(** * What the decoder writes, and what it never does *)
(* ================================================================== *)

Module WriteFacts.

Import Notions.


Section Preservation.

Variable P : RemoteIDData -> Prop.
Hypothesis W : writes_preserve P.

Ltac write_step :=
  lazymatch goal with
  | |- P (if ?c then ?a else ?b) => destruct c eqn:?
  | |- P (set_uas_id_type _ _) => apply (w_uas_id_type P W)
  | |- P (set_uas_id _ _) => apply (w_uas_id P W)
  | |- P (set_status _ _) => apply (w_status P W)
  | |- P (set_direction _ _) => apply (w_direction P W); [lia|]
  | |- P (set_speed _ _) => apply (w_speed P W); [lia|]
  | |- P (set_vertical_speed _ _) => apply (w_vertical_speed P W); [lia|]
  | |- P (set_latitude _ _) => apply (w_latitude P W); [lia|lia|]
  | |- P (set_longitude _ _) => apply (w_longitude P W); [lia|lia|]
  | |- P (set_altitude_msl _ _) => apply (w_altitude_msl P W); [lia|lia|]
  | |- P (set_height _ _) => apply (w_height P W); [lia|lia|]
  | |- P (set_auth_type _ _) => apply (w_auth_type P W)
  | |- P (set_auth_page_index _ _) => apply (w_auth_page_index P W)
  | |- P (set_auth_last_page_index _ _) => apply (w_auth_last_page_index P W)
  | |- P (set_auth_payload _ _) => apply (w_auth_payload P W)
  | |- P (set_self_id_text _ _) => apply (w_self_id_text P W)
  | |- P (set_system_operator_location_type _ _) =>
    apply (w_system_operator_location_type P W)
  | |- P (set_system_eu_class _ _) => apply (w_system_eu_class P W)
  | |- P (set_system_category _ _) => apply (w_system_category P W)
  | |- P (set_operator_id _ _) => apply (w_operator_id P W)
  end.

Ltac open_write :=
  repeat lazymatch goal with
         | |- returns (bind ?m _) _ =>
           apply returns_bind; destruct m eqn:?; cbn [returns]; [ | exact I | exact I]
         | |- returns (if ?c then _ else _) _ => destruct c eqn:?
         | |- returns (Ok _) _ => cbn [returns flow_record]
         | |- P (flow_record _) => cbn [flow_record]
         end.

Lemma getitem_range (data : bytes) (i v : Z) :
  getitem data i = Ok v -> 0 <= v < 256.
Proof.
  unfold getitem. destruct ((0 <=? (if i <? 0 then i + len data else i))
                            && ((if i <? 0 then i + len data else i) <? len data));
    [|discriminate].
  destruct (nth_error data _) as [b|]; [|discriminate].
  intros E. injection E as <-. apply byte_val_range.
Qed.

Lemma parse_message_preserves (data : bytes) (offset : Z) (r : RemoteIDData) :
  P r -> returns (parse_message data offset r) (fun fl => P (flow_record fl)).
Proof.
  intros Hr. unfold parse_message.
  destruct (offset + 1 >=? len data); [exact Hr|].
  apply returns_bind. destruct (getitem data offset) as [msg_type| |];
    cbn [returns]; trivial.
  destruct (msg_type =? MSG_TYPE_BASIC_ID).
  { unfold parse_basic_id. open_write; repeat write_step; exact Hr. }
  destruct (msg_type =? MSG_TYPE_LOCATION).
  { unfold parse_location. open_write; [|exact Hr].
    cbv zeta.
    repeat match goal with
           | H : unpack_lt_i _ = Ok _ |- _ =>
             apply unpack_signed_range in H; [|lia]
           | H : unpack_lt_h _ = Ok _ |- _ =>
             apply unpack_signed_range in H; [|lia]
           | H : unpack_b _ = Ok _ |- _ =>
             apply unpack_signed_range in H; [|lia]
           | H : getitem _ _ = Ok _ |- _ => apply getitem_range in H
           end.
    repeat write_step; try exact Hr.
    all: repeat match goal with
                | H : (_ =? _) = false |- _ => apply Z.eqb_neq in H
                end; lia. }
  destruct (msg_type =? MSG_TYPE_AUTH).
  { unfold parse_auth. open_write; repeat write_step; exact Hr. }
  destruct (msg_type =? MSG_TYPE_SELF_ID).
  { unfold parse_self_id. open_write; repeat write_step; exact Hr. }
  destruct (msg_type =? MSG_TYPE_SYSTEM).
  { unfold parse_system. open_write; repeat write_step; exact Hr. }
  destruct (msg_type =? MSG_TYPE_OPERATOR_ID).
  { unfold parse_operator_id. open_write; repeat write_step; exact Hr. }
  exact Hr.
Qed.

Lemma parse_loop_preserves (fuel : nat) (data : bytes) (offset : Z)
    (r : RemoteIDData) :
  P r -> returns (parse_loop fuel data offset r) P.
Proof.
  revert offset r. induction fuel as [|fuel IH]; intros offset r Hr;
    cbn [parse_loop]; destruct (offset <? len data); cbn [returns]; trivial.
  apply returns_bind.
  pose proof (parse_message_preserves data offset r Hr) as H.
  destruct (parse_message data offset r) as [fl| |]; cbn [returns] in *; trivial.
  destruct fl as [o r'|r']; cbn [flow_record returns] in *; [apply IH|]; exact H.
Qed.

Lemma decode_preserves (raw_data : bytes) (now : float) :
  P (set_timestamp (Some now) new_RemoteIDData) ->
  exists r, decode_from_raw_bytes raw_data now = Ok (Some r) /\ P r.
Proof.
  intros H0. destruct (decode_from_raw_bytes_ok raw_data now) as (r & E).
  exists r. split; [exact E|]. revert E.
  unfold decode_from_raw_bytes, _parse_remote_id_messages.
  pose proof (parse_loop_preserves (List.length raw_data) raw_data 0 _ H0) as H.
  destruct (parse_loop _ raw_data 0 _) as [r0| |]; cbn [bind returns] in *;
    try discriminate.
  intros E. injection E as <-.
  destruct (negb (is_valid_id (uas_id r0)) && negb (opt_float_truthy (latitude r0)));
    [|exact H].
  destruct (search_patterns_in_bytes raw_data) as [info|]; [|exact H].
  repeat write_step. exact H.
Qed.

Lemma extract_loop_preserves (ies : list InformationElement) (r : RemoteIDData) :
  P r -> returns (extract_loop ies r) P.
Proof.
  revert r. induction ies as [|ie rest IH]; intros r Hr; cbn [extract_loop];
    [exact Hr|].
  destruct (ie_id ie =? 221); [|apply IH, Hr].
  destruct (len (ie_data ie) <? 4); [apply IH, Hr|].
  apply returns_bind. destruct (getitem (ie_data ie) 3); cbn [returns]; trivial.
  destruct (negb (bytes_eqb (slice (ie_data ie) 0 3) ODID_OUI)); [apply IH, Hr|].
  apply returns_bind. destruct (len (ie_data ie) >? 4).
  - unfold _parse_remote_id_messages.
    pose proof (parse_loop_preserves
                  (List.length (slice_from (ie_data ie) 4))
                  (slice_from (ie_data ie) 4) 0 r Hr) as H.
    destruct (parse_loop _ _ 0 r); cbn [returns] in *; trivial. apply IH, H.
  - cbn [returns]. apply IH, Hr.
Qed.

Lemma extract_preserves (beacon_info : BeaconInfo) (now : float) :
  P (set_timestamp (Some now) new_RemoteIDData) ->
  exists o, extract_remote_id beacon_info now = Ok o
            /\ match o with Some r => P r | None => True end.
Proof.
  intros H0. destruct (CallersTotal.extract_remote_id_ok beacon_info now) as (o & E).
  exists o. split; [exact E|]. revert E. unfold extract_remote_id.
  pose proof (extract_loop_preserves (information_elements beacon_info) _ H0) as H.
  destruct (extract_loop _ _) as [r| |]; cbn [bind returns] in *; try discriminate.
  destruct (opt_str_truthy (uas_id r) || opt_float_truthy (latitude r));
    intros E; injection E as <-; [exact H | exact I].
Qed.

End Preservation.
Lemma never_decoded_writes : writes_preserve never_decoded.
Proof.
  constructor; intros; unfold never_decoded in *; assumption.
Qed.

(** X5: no message ever assigns the AGL altitude, the operator latitude,
    longitude and altitude, or the classification: they are [None] in every
    record [decode_from_raw_bytes] or [extract_remote_id] returns. *)
Theorem X5_decoder_leaves_fields_unset (raw_data : bytes)
    (beacon_info : BeaconInfo) (now : float) :
  (exists r, decode_from_raw_bytes raw_data now = Ok (Some r) /\ never_decoded r)
  /\ (exists o, extract_remote_id beacon_info now = Ok o
                /\ match o with Some r => never_decoded r | None => True end).
Proof.
  assert (H0 : never_decoded (set_timestamp (Some now) new_RemoteIDData)).
  { repeat split. }
  split.
  - exact (decode_preserves _ never_decoded_writes raw_data now H0).
  - exact (extract_preserves _ never_decoded_writes beacon_info now H0).
Qed.

Lemma decoded_ranges_writes : writes_preserve decoded_ranges.
Proof.
  constructor; intros; unfold decoded_ranges in *;
    try assumption;
    repeat match goal with H : _ /\ _ |- _ => destruct H end;
    repeat split; try assumption;
    cbn [status direction speed vertical_speed latitude longitude altitude_msl
         height set_status set_direction set_speed set_vertical_speed
         set_latitude set_longitude set_altitude_msl set_height].
  - destruct (Z.land v 15 =? 0); [right | left]; reflexivity.
  - destruct (Z.eqb_spec n 255); [exact I|]. exists n. split; [lia | reflexivity].
  - destruct (Z.eqb_spec n 255); [exact I|]. exists n. split; [lia | reflexivity].
  - destruct (Z.eqb_spec n 127); [exact I|]. exists n. split; [lia | reflexivity].
  - exists n. repeat split; [assumption | lia | lia].
  - exists n. repeat split; [assumption | lia | lia].
  - exists n. repeat split; [assumption | lia | lia].
  - exists n. repeat split; [assumption | lia | lia].
Qed.

Lemma closed_range_In (lo hi n : Z) : lo <= n <= hi -> In n (closed_range lo hi).
Proof.
  intros H. unfold closed_range. apply in_map_iff.
  exists (Z.to_nat (n - lo)). split; [lia|]. apply in_seq. lia.
Qed.

Lemma range_check (f : Z -> float) (lo hi : Z) (flo fhi : float) :
  forallb (fun n => PrimFloat.leb flo (f n) && PrimFloat.leb (f n) fhi)
          (closed_range lo hi) = true ->
  forall n, lo <= n <= hi ->
            PrimFloat.leb flo (f n) = true /\ PrimFloat.leb (f n) fhi = true.
Proof.
  intros A n R. rewrite forallb_forall in A.
  specialize (A n (closed_range_In _ _ _ R)). apply andb_true_iff in A. exact A.
Qed.

Lemma encoded_except_weaken (skip lo hi : Z) (unit : float) (o : option float) :
  encoded_except skip lo hi unit o -> encoded lo hi unit o.
Proof.
  destruct o as [v|]; [|trivial]. intros (n & _ & R & E). exists n. split; assumption.
Qed.

(** X6: every record [decode_from_raw_bytes] returns has its numeric
    fields within the range of their encoding: the status is ["Airborne"]
    or ["Ground"]; direction is a whole number from 0 to 254; speed is a
    multiple of 0.25 up to 63.5; vertical speed a multiple of 0.5 from -64
    to 63; latitude and longitude are non-zero 32-bit integers times 1e-7;
    altitude and height are 16-bit integers other than -1000 times 0.5. *)
Theorem X6_decoded_value_ranges (raw_data : bytes) (now : float) :
  exists r,
    decode_from_raw_bytes raw_data now = Ok (Some r)
    /\ decoded_ranges r
    /\ within 0 254 (direction r)
    /\ within 0 63.5 (speed r)
    /\ within (-64) 63 (vertical_speed r).
Proof.
  assert (H0 : decoded_ranges (set_timestamp (Some now) new_RemoteIDData)).
  { repeat split. }
  destruct (decode_preserves _ decoded_ranges_writes raw_data now H0) as (r & E & R).
  exists r. split; [exact E|]. split; [exact R|].
  destruct R as (_ & D & S & V & _).
  split; [|split].
  - destruct (direction r) as [v|]; [|exact I]. destruct D as (n & R & ->).
    apply (range_check float_of_int 0 254); [vm_compute; reflexivity | exact R].
  - destruct (speed r) as [v|]; [|exact I]. destruct S as (n & R & ->).
    apply (range_check (fun n => float_of_int n * 0.25)%float 0 254);
      [vm_compute; reflexivity | exact R].
  - destruct (vertical_speed r) as [v|]; [|exact I]. destruct V as (n & R & ->).
    apply (range_check (fun n => float_of_int n * 0.5)%float (-128) 126);
      [vm_compute; reflexivity | exact R].
Qed.

End WriteFacts.

(* ================================================================== *)
(** * Identifiers: the printable decoder and the Basic ID round trip *)
(* ================================================================== *)

Module IdentifierFacts.

Import Notions BeaconFacts.


Lemma int_of_ascii_of_int (c : Z) : 0 <= c < 256 -> int_of_ascii (ascii_of_int c) = c.
Proof.
  intros H. unfold int_of_ascii, ascii_of_int.
  rewrite N_ascii_embedding by lia. lia.
Qed.

Lemma str_len_of_list (l : list ascii) : str_len (string_of_list_ascii l) = len l.
Proof.
  unfold str_len, len. f_equal. induction l as [|a l IH]; cbn; [reflexivity|].
  now rewrite IH.
Qed.

Lemma printable_text_of_list (l : list ascii) :
  Forall (fun ch => 32 <= int_of_ascii ch <= 126) l ->
  printable_text (string_of_list_ascii l).
Proof.
  intros H. unfold printable_text. now rewrite list_ascii_of_string_of_list_ascii.
Qed.

Lemma kept_printable (l : list Z) :
  printable_text (str_of_ustr (filter is_printable l)).
Proof.
  apply printable_text_of_list. apply Forall_map, Forall_forall.
  intros c Hc. apply filter_In in Hc. destruct Hc as [_ Hc].
  unfold is_printable in Hc. apply andb_true_iff in Hc.
  destruct Hc as [A B]. apply Z.leb_le in A, B.
  rewrite int_of_ascii_of_int; lia.
Qed.

Lemma hex_digit_printable (d : Z) :
  0 <= d < 16 -> 32 <= int_of_ascii (hex_digit true d) <= 126.
Proof.
  intros H. unfold hex_digit. destruct (Z.ltb_spec d 10);
    rewrite int_of_ascii_of_int; lia.
Qed.

Lemma hex_upper_printable (b : bytes) : printable_text (hex_upper b).
Proof.
  apply printable_text_of_list. induction b as [|x b IH]; cbn [flat_map].
  - constructor.
  - pose proof (byte_val_range x) as R. unfold hex_byte. cbn [app].
    constructor; [|constructor; [|exact IH]]; apply hex_digit_printable.
    + split; [apply Z.div_pos; lia | apply Z.div_lt_upper_bound; lia].
    + apply Z.mod_pos_bound. lia.
Qed.

Lemma hex_upper_len (b : bytes) : str_len (hex_upper b) = 2 * len b.
Proof.
  unfold hex_upper. rewrite str_len_of_list. unfold len.
  induction b as [|x b IH]; [reflexivity|].
  cbn [flat_map hex_byte app List.length]. lia.
Qed.

Lemma kept_len (b : bytes) :
  len (filter is_printable (map byte_val b)) <= len b.
Proof.
  unfold len. pose proof (filter_length_le is_printable (map byte_val b)) as H.
  rewrite length_map in H. lia.
Qed.

Lemma decode_printable_cases (b : bytes) :
  let kept := filter is_printable (map byte_val b) in
  let s := rstrip_nul (utf8_decode_ignore b) in
  (Z.max 6 (len s / 2) <= len kept /\ _decode_printable b = str_of_ustr kept)
  \/ (len kept < Z.max 6 (len s / 2) /\ _decode_printable b = hex_upper b).
Proof.
  cbv zeta. unfold _decode_printable.
  rewrite printable_of_rstrip, printable_of_decoded, Z.geb_leb.
  destruct (Z.leb_spec (Z.max 6 (len (rstrip_nul (utf8_decode_ignore b)) / 2))
                       (len (filter is_printable (map byte_val b))));
    [left | right]; split; (lia || reflexivity).
Qed.

Lemma str_len_zero (s : string) : str_len s = 0 -> s = "".
Proof.
  destruct s; [reflexivity|]. unfold str_len. cbn [String.length]. lia.
Qed.

Lemma plausible_ascii_complete (s : string) :
  6 <= str_len s <= 32 -> printable_text s -> is_plausible_ascii s = true.
Proof.
  intros L P. unfold is_plausible_ascii.
  destruct s as [|a s]; [unfold str_len in L; cbn in L; lia|].
  cbn [str_truthy negb].
  replace ((str_len (String a s) <? 6) || (str_len (String a s) >? 32)) with false.
  - apply forallb_forall. intros ch Hin. unfold printable_text in P.
    rewrite Forall_forall in P. specialize (P ch Hin).
    apply andb_true_iff. split; apply Z.leb_le; lia.
  - symmetry. apply orb_false_iff. split; [apply Z.ltb_ge|]; lia.
Qed.

Lemma plausible_ascii_length (s : string) :
  is_plausible_ascii s = true -> 6 <= str_len s <= 32.
Proof. intros H. apply ScanFacts.plausible_ascii_spec in H. tauto. Qed.

(** X7: whatever the bytes, [_decode_printable] returns printable ASCII
    only (the hex fallback included), at most twice as long as the input,
    and the empty string only for empty input.  For a 20-byte identifier
    field the result passes the plausibility test of the callers exactly
    when at least six, and at least half, of the decoded characters are
    printable. *)
Theorem X7_decode_printable_output (b : bytes) :
  printable_text (_decode_printable b)
  /\ (_decode_printable b = "" <-> b = [])
  /\ str_len (_decode_printable b) <= 2 * len b
  /\ (len b = 20 ->
      is_plausible_ascii (_decode_printable b)
      = (Z.max 6 (len (rstrip_nul (utf8_decode_ignore b)) / 2)
         <=? len (filter is_printable (map byte_val b)))).
Proof.
  pose proof (kept_len b) as K. pose proof (len_nonneg b) as Lb.
  destruct (decode_printable_cases b) as [[G ->]|[G ->]].
  - split; [apply kept_printable|].
    assert (Ls : str_len (str_of_ustr (filter is_printable (map byte_val b)))
                 = len (filter is_printable (map byte_val b))).
    { unfold str_of_ustr. rewrite str_len_of_list. unfold len.
      now rewrite length_map. }
    split; [|split].
    + split.
      * intros E. rewrite E in Ls. unfold str_len in Ls. cbn in Ls. lia.
      * intros ->. unfold len in G. cbn in G. lia.
    + lia.
    + intros L20. replace (_ <=? _) with true by (symmetry; apply Z.leb_le; lia).
      apply plausible_ascii_complete; [lia | apply kept_printable].
  - split; [apply hex_upper_printable|].
    pose proof (hex_upper_len b) as Lh. split; [|split].
    + split.
      * intros E. rewrite E in Lh. unfold str_len in Lh. cbn in Lh.
        destruct b; [reflexivity|]. unfold len in Lh. cbn in Lh. lia.
      * intros ->. reflexivity.
    + lia.
    + intros L20. replace (_ <=? _) with false by (symmetry; apply Z.leb_gt; lia).
      destruct (is_plausible_ascii (hex_upper b)) eqn:E; [|reflexivity].
      apply plausible_ascii_length in E. lia.
Qed.
Lemma byte_val_of_ascii (a : ascii) : byte_val (byte_of_ascii a) = int_of_ascii a.
Proof.
  unfold byte_val, int_of_ascii. f_equal.
  apply Byte.to_of_N. symmetry. apply byte_of_ascii_via_N.
Qed.

Lemma utf8_decode_ascii (bs : bytes) :
  Forall (fun b => byte_val b < 0x80) bs -> utf8_decode_ignore bs = map byte_val bs.
Proof.
  induction 1 as [|b bs Hb _ IH]; [reflexivity|].
  cbn [utf8_decode_ignore map].
  replace (byte_val b <? 128) with true by (symmetry; apply Z.ltb_lt; exact Hb).
  now rewrite IH.
Qed.

Lemma rstrip_nul_app (l m : ustr) :
  rstrip_nul m = [] -> rstrip_nul (l ++ m) = rstrip_nul l.
Proof.
  intros E. unfold rstrip_nul in *. now rewrite fold_right_app, E.
Qed.

Lemma rstrip_nul_zeros (k : nat) : rstrip_nul (repeat 0 k) = [].
Proof.
  induction k as [|k IH]; [reflexivity|].
  unfold rstrip_nul in *. cbn [repeat fold_right]. now rewrite IH.
Qed.

Lemma rstrip_nul_nonzero (l : ustr) : Forall (fun c => c <> 0) l -> rstrip_nul l = l.
Proof.
  induction 1 as [|c l Hc _ IH]; [reflexivity|].
  unfold rstrip_nul in *. cbn [fold_right]. rewrite IH.
  destruct l; [|reflexivity].
  destruct (Z.eqb_spec c 0); [contradiction | reflexivity].
Qed.

Lemma filter_all {A : Type} (f : A -> bool) (l : list A) :
  Forall (fun a => f a = true) l -> filter f l = l.
Proof.
  induction 1 as [|a l Ha _ IH]; [reflexivity|]. cbn [filter]. now rewrite Ha, IH.
Qed.

Lemma ascii_of_int_of_ascii (a : ascii) : ascii_of_int (int_of_ascii a) = a.
Proof.
  unfold ascii_of_int, int_of_ascii. rewrite N2Z.id. apply ascii_N_embedding.
Qed.

Lemma length_list_of_string (s : string) :
  List.length (list_ascii_of_string s) = String.length s.
Proof. induction s as [|a s IH]; cbn; [reflexivity | now rewrite IH]. Qed.

Lemma decode_printable_padded (text : string) :
  printable_text text -> 6 <= str_len text <= 20 ->
  _decode_printable (ljust (bytes_of_string text) 20 x00) = text.
Proof.
  intros P L. unfold printable_text in P.
  set (chars := list_ascii_of_string text) in *.
  assert (Lc : len chars = str_len text).
  { unfold chars, len, str_len. now rewrite length_list_of_string. }
  unfold _decode_printable, ljust, bytes_of_string. fold chars.
  rewrite utf8_decode_ascii.
  2:{ apply Forall_app. split.
      - apply Forall_map. revert P. apply Forall_impl. intros a Ha.
        rewrite byte_val_of_ascii. lia.
      - apply Forall_forall. intros b Hb. apply repeat_spec in Hb. subst b.
        cbn. lia. }
  rewrite map_app, map_map, map_repeat.
  rewrite (map_ext _ int_of_ascii) by apply byte_val_of_ascii.
  change (byte_val x00) with 0.
  rewrite rstrip_nul_app by apply rstrip_nul_zeros.
  rewrite rstrip_nul_nonzero
    by (apply Forall_map; revert P; apply Forall_impl; intros a Ha; lia).
  rewrite filter_all.
  2:{ apply Forall_map. revert P. apply Forall_impl. intros a Ha.
      unfold is_printable. apply andb_true_iff. split; apply Z.leb_le; lia. }
  assert (Lm : len (map int_of_ascii chars) = str_len text).
  { unfold len in *. now rewrite length_map. }
  rewrite Lm.
  replace (str_len text >=? Z.max 6 (str_len text / 2)) with true.
  - unfold str_of_ustr. rewrite map_map.
    rewrite (map_ext _ (fun a => a)) by apply ascii_of_int_of_ascii.
    rewrite map_id. apply string_of_list_ascii_of_string.
  - symmetry. rewrite Z.geb_leb. apply Z.leb_le.
    assert (str_len text / 2 <= str_len text)
      by (apply Z.div_le_upper_bound; lia).
    lia.
Qed.

Lemma ljust_len (b : bytes) (width : Z) (fill : byte) :
  len b <= width -> len (ljust b width fill) = width.
Proof.
  intros H. unfold ljust, len in *. rewrite length_app, repeat_length. lia.
Qed.

Lemma basic_id_parsed (id_type : byte) (id_bytes reserved : bytes)
    (r : RemoteIDData) :
  len id_bytes = 20 -> reserved = [] \/ reserved = [x00; x00] ->
  _parse_remote_id_messages (x00 :: id_type :: id_bytes ++ reserved) r
  = Ok (set_uas_id (Some (_decode_printable id_bytes))
          (set_uas_id_type
             (Some (dict_get ID_TYPES (byte_val id_type) "Unknown")) r)).
Proof.
  intros L20 R.
  set (data := x00 :: id_type :: id_bytes ++ reserved).
  assert (Ld : len data = 22 + len reserved).
  { unfold data, len in *. cbn [List.length]. rewrite length_app. lia. }
  assert (Lr : len reserved = 0 \/ len reserved = 2)
    by (destruct R as [-> | ->]; [left | right]; reflexivity).
  assert (G0 : getitem data 0 = Ok 0).
  { apply (skipn_head_getitem data 0 x00 (id_type :: id_bytes ++ reserved));
      [lia | reflexivity]. }
  assert (G1 : getitem data 1 = Ok (byte_val id_type)).
  { apply (skipn_head_getitem data 1 id_type (id_bytes ++ reserved));
      [lia | reflexivity]. }
  assert (Sl : slice data 2 22 = id_bytes).
  { rewrite slice_firstn_skipn by lia. unfold data.
    change (Z.to_nat 2) with 2%nat. cbn [skipn].
    rewrite firstn_app. replace (Z.to_nat (22 - 2)) with (List.length id_bytes)
      by (unfold len in L20; lia).
    rewrite firstn_all, Nat.sub_diag. cbn [firstn]. apply app_nil_r. }
  assert (Sk : skipn (Z.to_nat 22) data = reserved).
  { unfold data. replace (Z.to_nat 22) with (S (S (List.length id_bytes)))
      by (unfold len in L20; lia).
    cbn [skipn]. rewrite skipn_app, skipn_all, Nat.sub_diag. reflexivity. }
  assert (Step : parse_message data 0 r
                 = Ok (Next (22 + len reserved)
                         (set_uas_id (Some (_decode_printable id_bytes))
                            (set_uas_id_type
                               (Some (dict_get ID_TYPES (byte_val id_type)
                                        "Unknown")) r)))).
  { unfold parse_message. rewrite Ld.
    replace (0 + 1 >=? 22 + len reserved) with false
      by (symmetry; rewrite Z.geb_leb; apply Z.leb_gt; lia).
    rewrite G0. cbn [bind]. change (0 =? MSG_TYPE_BASIC_ID) with true.
    cbv iota. unfold parse_basic_id. rewrite Ld.
    replace (22 + len reserved - (0 + 1) >=? 21) with true
      by (symmetry; rewrite Z.geb_leb; apply Z.leb_le; lia).
    change (0 + 1) with 1. rewrite G1. cbn [bind].
    change (1 + 1) with 2. change (1 + 21) with 22. rewrite Sl.
    destruct R as [-> | ->].
    - change (len []) with 0 in *. reflexivity.
    - change (len [x00; x00]) with 2 in *.
      change (22 + 2 - 1 >=? 23) with true. cbv iota.
      change (1 + 22) with 23.
      rewrite (skipn_head_getitem data 22 x00 [x00] ltac:(lia) Sk).
      cbn [bind]. change (byte_val x00 =? 0) with true. cbv iota.
      rewrite (skipn_head_getitem data 23 x00 [] ltac:(lia)
                 (skipn_tail _ _ _ _ Sk)).
      reflexivity. }
  unfold _parse_remote_id_messages.
  assert (F : exists fuel, List.length data = S fuel).
  { unfold data. cbn [List.length]. eexists. reflexivity. }
  destruct F as (fuel & ->). cbn [parse_loop].
  replace (0 <? len data) with true by (symmetry; apply Z.ltb_lt; lia).
  rewrite Step. cbn [bind].
  destruct fuel; cbn [parse_loop];
    replace (22 + len reserved <? len data) with false
      by (symmetry; apply Z.ltb_ge; lia);
    reflexivity.
Qed.

(** X8: a Basic ID message laid out as [create_test_remote_id_packet]
    does (type byte, identifier type, identifier padded with NULs to 20
    bytes, with or without the two reserved bytes) decodes to a record
    holding exactly that identifier and the name of its type, provided the
    identifier is printable, 6 to 20 characters long and passes
    [_is_valid_id]. *)
Theorem X8_basic_id_round_trip (id_type : byte) (text : string) (reserved : bool)
    (now : float) :
  printable_text text -> 6 <= str_len text <= 20 ->
  is_valid_id (Some text) = true ->
  decode_from_raw_bytes (basic_id_message id_type text reserved) now
  = Ok (Some (set_uas_id (Some text)
                (set_uas_id_type
                   (Some (dict_get ID_TYPES (byte_val id_type) "Unknown"))
                   (set_timestamp (Some now) new_RemoteIDData)))).
Proof.
  intros P L V. unfold decode_from_raw_bytes, basic_id_message.
  cbn [app].
  rewrite basic_id_parsed.
  - cbn [bind]. rewrite decode_printable_padded by assumption.
    cbn [uas_id set_uas_id]. rewrite V. reflexivity.
  - apply ljust_len. unfold bytes_of_string, len, str_len in *.
    rewrite length_map, length_list_of_string. lia.
  - destruct reserved; [right | left]; reflexivity.
Qed.

Lemma X8_basic_id_round_trip_witness :
  decode_from_raw_bytes (basic_id_message x01 "DJI-TEST-001" false) 0
  = Ok (Some (scenario_A_record 0))
  /\ basic_id_message x01 "DJI-TEST-001" false = scenario_A.
Proof.
  split; [|reflexivity].
  apply (X8_basic_id_round_trip x01 "DJI-TEST-001" false 0).
  - unfold printable_text. cbn [list_ascii_of_string].
    repeat (apply Forall_cons; [cbn; lia|]). apply Forall_nil.
  - cbn. lia.
  - reflexivity.
Defined.

End IdentifierFacts.

(* ================================================================== *)
(** * Routing of a PDU in [_process_wifi_pdu] *)
(* ================================================================== *)

Module RoutingFacts.

Import WiFiSystem.

Lemma parse_beacon_frame_long (frame_bytes : bytes) :
  36 <= len frame_bytes ->
  exists ies,
    _parse_information_elements (slice_from frame_bytes 36) = Ok ies
    /\ parse_beacon_frame frame_bytes
       = Ok (Some (mkBeaconInfo
                     (Some (le_value (slice frame_bytes 0 2)))
                     (Some (mac_string (slice frame_bytes 10 16)))
                     (Some (mac_string (slice frame_bytes 16 22)))
                     (le_value (slice frame_bytes 24 32))
                     (le_value (slice frame_bytes 32 34))
                     (le_value (slice frame_bytes 34 36))
                     ies)).
Proof.
  intros L.
  destruct (CallersTotal._parse_information_elements_ok (slice_from frame_bytes 36))
    as (ies & E).
  exists ies. split; [exact E|]. unfold parse_beacon_frame.
  replace (len frame_bytes <? 36) with false by (symmetry; apply Z.ltb_ge; lia).
  unfold unpack_lt_H, unpack_lt_Q.
  rewrite !unpack_unsigned_ok by (rewrite slice_len; lia).
  cbn [bind]. rewrite E. reflexivity.
Qed.

Lemma parse_beacon_frame_short (frame_bytes : bytes) :
  len frame_bytes < 36 -> parse_beacon_frame frame_bytes = Ok None.
Proof.
  intros L. unfold parse_beacon_frame.
  replace (len frame_bytes <? 36) with true by (symmetry; apply Z.ltb_lt; lia).
  reflexivity.
Qed.

Lemma short_scan_single_attempt (data : bytes) (clk : clock) :
  len data <= 128 ->
  _try_decode_from_bytes data clk = attempt wifi_first_filter data (clk 0).
Proof.
  intros L. unfold _try_decode_from_bytes, suffix_starts.
  rewrite Z.max_l by lia. cbn [py_range Z.to_nat seq map scan_suffixes].
  destruct (ScanFacts.attempt_returns wifi_first_filter data (clk 0)) as ([r|] & ->);
    reflexivity.
Qed.

(** X9: [_process_wifi_pdu] treats every packet of at least 36 bytes as a
    beacon: [parse_beacon_frame] accepts it and only the beacon branch can
    emit.  The body and raw-scan fallbacks are reached only by packets
    shorter than 36 bytes, and for those the suffix loop of
    [_try_decode_from_bytes] is empty: the scan is the single attempt at
    position 0. *)
Theorem X9_process_wifi_pdu_routing (packet_bytes : bytes) (clk : clock) :
  (36 <= len packet_bytes ->
   exists beacon_info,
     parse_beacon_frame packet_bytes = Ok (Some beacon_info)
     /\ _process_wifi_pdu packet_bytes clk
        = (remote_id <- extract_remote_id beacon_info (clk 0) ;;
           match remote_id with
           | Some rid =>
             if opt_str_truthy (uas_id rid) then Ok (Some (rid, "wifi_beacon"))
             else Ok None
           | None => Ok None
           end))
  /\ (forall rid method,
         _process_wifi_pdu packet_bytes clk = Ok (Some (rid, method)) ->
         (method = "wifi_beacon" /\ 36 <= len packet_bytes)
         \/ ((method = "wifi_beacon_body" \/ method = "wifi_action_nan")
             /\ len packet_bytes < 36))
  /\ (len packet_bytes < 36 ->
      suffix_starts (len packet_bytes) = []
      /\ forall clk', _try_decode_from_bytes packet_bytes clk'
                      = attempt wifi_first_filter packet_bytes (clk' 0)).
Proof.
  assert (Long : 36 <= len packet_bytes ->
           exists beacon_info,
             parse_beacon_frame packet_bytes = Ok (Some beacon_info)
             /\ _process_wifi_pdu packet_bytes clk
                = (remote_id <- extract_remote_id beacon_info (clk 0) ;;
                   match remote_id with
                   | Some rid =>
                     if opt_str_truthy (uas_id rid)
                     then Ok (Some (rid, "wifi_beacon")) else Ok None
                   | None => Ok None
                   end)).
  { intros L. destruct (parse_beacon_frame_long packet_bytes L) as (ies & _ & E).
    eexists. split; [exact E|]. unfold _process_wifi_pdu. rewrite E. reflexivity. }
  split; [exact Long|]. split.
  - intros rid method E.
    destruct (Z.le_gt_cases 36 (len packet_bytes)) as [L|L].
    + left. split; [|exact L]. destruct (Long L) as (bi & _ & E').
      rewrite E' in E.
      destruct (extract_remote_id bi (clk 0)) as [[r|]| |]; cbn [bind] in E;
        try discriminate.
      destruct (opt_str_truthy (uas_id r)); [|discriminate].
      injection E as _ <-. reflexivity.
    + right. split; [|lia]. unfold _process_wifi_pdu in E.
      rewrite (parse_beacon_frame_short _ L) in E. cbn [bind] in E.
      assert (Scan : forall c,
                 (rid0 <- _try_decode_from_bytes packet_bytes c ;;
                  match rid0 with
                  | Some rid0 =>
                    if opt_str_truthy (uas_id rid0) || has_location rid0
                    then Ok (Some (rid0, "wifi_action_nan")) else Ok None
                  | None => Ok None
                  end) = Ok (Some (rid, method)) ->
                 method = "wifi_action_nan").
      { intros c H. destruct (_try_decode_from_bytes packet_bytes c) as [[r|]| |];
          cbn [bind] in H; try discriminate.
        destruct (opt_str_truthy (uas_id r) || has_location r); [|discriminate].
        injection H as _ <-. reflexivity. }
      destruct (parse_beacon_body packet_bytes) as [[bb|]| |]; cbn [bind] in E;
        try discriminate.
      * destruct (extract_remote_id bb (clk 0)) as [[r|]| |]; cbn [bind] in E;
          try discriminate.
        -- destruct (opt_str_truthy (uas_id r) || has_location r).
           ++ injection E as _ <-. left. reflexivity.
           ++ right. exact (Scan _ E).
        -- right. exact (Scan _ E).
      * right. exact (Scan _ E).
  - intros L. split.
    + unfold suffix_starts. rewrite Z.max_l by lia. reflexivity.
    + intros clk'. apply short_scan_single_attempt. lia.
Qed.

End RoutingFacts.

(* ================================================================== *)
(** * From a beacon frame to the emitted record *)
(* ================================================================== *)

Module EndToEnd.

Import Notions BeaconFacts IdentifierFacts RoutingFacts WiFiSystem.

Lemma slice_after_prefix {A : Type} (pre l : list A) (a b : Z) :
  0 <= a -> a <= b -> b <= len l ->
  slice (pre ++ l) (len pre + a) (len pre + b) = slice l a b.
Proof.
  intros Ha Hab Hb. pose proof (len_nonneg pre) as Hp.
  assert (Lpl : len (pre ++ l) = len pre + len l)
    by (unfold len; rewrite length_app; lia).
  rewrite !slice_firstn_skipn by lia.
  replace (len pre + b - (len pre + a)) with (b - a) by lia.
  f_equal.
  replace (Z.to_nat (len pre + a)) with (Z.to_nat (len pre) + Z.to_nat a)%nat
    by lia.
  rewrite skipn_add, skipn_prefix. reflexivity.
Qed.

Lemma slice_from_after_prefix {A : Type} (pre l : list A) (a : Z) :
  0 <= a -> a <= len l ->
  slice_from (pre ++ l) (len pre + a) = slice_from l a.
Proof.
  intros Ha Hb. pose proof (len_nonneg pre) as Hp.
  assert (Lpl : len (pre ++ l) = len pre + len l)
    by (unfold len; rewrite length_app; lia).
  unfold slice_from, slice_bound.
  replace (len pre + a <? 0) with false by (symmetry; apply Z.ltb_ge; lia).
  replace (a <? 0) with false by (symmetry; apply Z.ltb_ge; lia).
  rewrite !Z.min_l by lia.
  replace (Z.to_nat (len pre + a)) with (Z.to_nat (len pre) + Z.to_nat a)%nat
    by lia.
  rewrite skipn_add, skipn_prefix. reflexivity.
Qed.

(** X23: [parse_beacon_body] on the body of a frame (what follows its
    24-byte header) and [parse_beacon_frame] on the frame itself read the
    same timestamp, beacon interval, capability and information elements;
    the body parser leaves the header keys out.  [extract_remote_id]
    therefore gives the same result on both. *)
Theorem X23_beacon_frame_and_body_agree (header body_bytes : bytes) (now : float) :
  len header = 24 -> 12 <= len body_bytes ->
  exists frame_info body_info,
    parse_beacon_frame (header ++ body_bytes) = Ok (Some frame_info)
    /\ parse_beacon_body body_bytes = Ok (Some body_info)
    /\ beacon_timestamp frame_info = beacon_timestamp body_info
    /\ beacon_interval frame_info = beacon_interval body_info
    /\ capability frame_info = capability body_info
    /\ information_elements frame_info = information_elements body_info
    /\ frame_control body_info = None /\ src_addr body_info = None
    /\ bssid body_info = None
    /\ extract_remote_id frame_info now = extract_remote_id body_info now.
Proof.
  intros H B.
  assert (Lf : 36 <= len (header ++ body_bytes))
    by (unfold len in *; rewrite length_app; lia).
  destruct (parse_beacon_frame_long _ Lf) as (ies & E & ->).
  unfold parse_beacon_body.
  replace (len body_bytes <? 12) with false by (symmetry; apply Z.ltb_ge; lia).
  unfold unpack_lt_H, unpack_lt_Q.
  rewrite !unpack_unsigned_ok by (rewrite slice_len; lia). cbn [bind].
  change 36 with (24 + 12) in E. rewrite <- H in E.
  rewrite slice_from_after_prefix in E by lia. rewrite E.
  cbn [bind except_none].
  do 2 eexists. split; [reflexivity|]. split; [reflexivity|].
  cbn [beacon_timestamp beacon_interval capability information_elements
       frame_control src_addr bssid].
  assert (Sh : forall a b,
             0 <= a -> a <= b -> b <= len body_bytes ->
             slice (header ++ body_bytes) (24 + a) (24 + b)
             = slice body_bytes a b).
  { intros a b Ha Hab Hb. rewrite <- H. apply slice_after_prefix; lia. }
  change (slice (header ++ body_bytes) 24 32)
    with (slice (header ++ body_bytes) (24 + 0) (24 + 8)).
  change (slice (header ++ body_bytes) 32 34)
    with (slice (header ++ body_bytes) (24 + 8) (24 + 10)).
  change (slice (header ++ body_bytes) 34 36)
    with (slice (header ++ body_bytes) (24 + 10) (24 + 12)).
  rewrite !Sh by lia.
  repeat split.
Qed.

Lemma X23_beacon_frame_and_body_agree_witness :
  exists frame_info body_info,
    parse_beacon_frame beacon_unknown = Ok (Some frame_info)
    /\ parse_beacon_body (slice_from beacon_unknown 24) = Ok (Some body_info)
    /\ information_elements frame_info = information_elements body_info
    /\ information_elements body_info
       = [odid_element_of x0d unknown_basic_id].
Proof.
  destruct (X23_beacon_frame_and_body_agree (repeat x00 24)
              (slice_from beacon_unknown 24) 0 eq_refl)
    as (fi & bi & F & B & _ & _ & _ & I & _).
  - vm_compute. discriminate.
  - exists fi, bi. split; [exact F|]. split; [exact B|]. split; [exact I|].
    vm_compute in B. injection B as <-. reflexivity.
Defined.


Lemma odid_beacon_parsed (header : bytes) (vendor_type : byte) (payload : bytes) :
  len header = 36 -> len payload <= 251 ->
  exists beacon_info,
    parse_beacon_frame (odid_beacon header vendor_type payload)
    = Ok (Some beacon_info)
    /\ information_elements beacon_info = [odid_element_of vendor_type payload].
Proof.
  intros H P. pose proof (len_nonneg payload) as P0.
  set (e := odid_element_of vendor_type payload).
  assert (Lf : 36 <= len (odid_beacon header vendor_type payload)).
  { unfold odid_beacon, len in *. rewrite length_app. lia. }
  destruct (parse_beacon_frame_long _ Lf) as (ies & E & ->).
  eexists. split; [reflexivity|]. cbn [information_elements].
  assert (S : slice_from (odid_beacon header vendor_type payload) 36
              = flat_map ie_encode [e] ++ []).
  { unfold slice_from, slice_bound, odid_beacon.
    replace (36 <? 0) with false by reflexivity.
    rewrite Z.min_l by (unfold len in *; rewrite length_app; lia).
    rewrite <- H. rewrite skipn_prefix. cbn [flat_map]. now rewrite !app_nil_r. }
  rewrite S in E. rewrite parse_encoded in E.
  - now injection E as <-.
  - constructor; [|constructor]. unfold ie_well_formed, e, odid_element_of.
    cbn [ie_id ie_length ie_data]. unfold len in *. rewrite length_app.
    cbn [List.length ODID_OUI]. lia.
  - left. unfold len. cbn. lia.
  - right. right. exists [], e. split; [reflexivity|].
    unfold e, odid_element_of. cbn [ie_data ODID_OUI app]. discriminate.
Qed.

Lemma odid_element_payload (vendor_type : byte) (payload : bytes) :
  payload <> [] ->
  odid_payloads [odid_element_of vendor_type payload] = [payload].
Proof.
  intros N. unfold odid_payloads, odid_element, odid_element_of.
  cbn [filter ie_id ie_data Z.eqb Pos.eqb andb].
  assert (L : len (ODID_OUI ++ vendor_type :: payload) = 4 + len payload)
    by (unfold len; rewrite length_app; cbn [List.length ODID_OUI]; lia).
  rewrite L.
  assert (0 < len payload)
    by (destruct payload; [contradiction | unfold len; cbn [List.length]; lia]).
  replace (4 <? 4 + len payload) with true by (symmetry; apply Z.ltb_lt; lia).
  assert (S3 : slice (ODID_OUI ++ vendor_type :: payload) 0 3 = ODID_OUI).
  { rewrite slice_firstn_skipn by lia. reflexivity. }
  rewrite S3. change (bytes_eqb ODID_OUI ODID_OUI) with true. cbn [andb].
  cbn [map ie_data]. f_equal.
  unfold slice_from, slice_bound. rewrite L.
  replace (4 <? 0) with false by reflexivity.
  rewrite Z.min_l by lia. reflexivity.
Qed.

(** X24: a beacon frame (any 36 bytes of header and fixed fields) whose
    single element is an OpenDroneID vendor element carrying a Basic ID
    message with a printable identifier of 6 to 20 characters is emitted by
    [_process_wifi_pdu] with method ["wifi_beacon"], as a record holding
    that identifier, the name of its type and the time of the call. *)
Theorem X24_beacon_with_basic_id_is_emitted (header : bytes)
    (vendor_type id_type : byte) (text : string) (reserved : bool)
    (clk : clock) :
  len header = 36 -> printable_text text -> 6 <= str_len text <= 20 ->
  _process_wifi_pdu
    (odid_beacon header vendor_type (basic_id_message id_type text reserved))
    clk
  = Ok (Some (set_uas_id (Some text)
                (set_uas_id_type
                   (Some (dict_get ID_TYPES (byte_val id_type) "Unknown"))
                   (set_timestamp (Some (clk 0)) new_RemoteIDData)),
              "wifi_beacon")).
Proof.
  intros H P L.
  set (payload := basic_id_message id_type text reserved).
  assert (Lj : len (ljust (bytes_of_string text) 20 x00) = 20).
  { apply ljust_len. unfold bytes_of_string, len, str_len in *.
    rewrite length_map, length_list_of_string. lia. }
  assert (Lp : len payload = 22 \/ len payload = 24).
  { unfold payload, basic_id_message, len in *. rewrite !length_app.
    destruct reserved; cbn [List.length]; lia. }
  assert (Np : payload <> []) by (unfold payload; discriminate).
  destruct (odid_beacon_parsed header vendor_type payload H ltac:(lia))
    as (bi & E & I).
  unfold _process_wifi_pdu. rewrite E. cbn [bind].
  unfold extract_remote_id. rewrite I, extract_loop_payloads.
  rewrite odid_element_payload by exact Np.
  cbn [parse_all]. unfold payload, basic_id_message. cbn [app].
  rewrite basic_id_parsed;
    [|exact Lj | destruct reserved; [right | left]; reflexivity].
  cbn [bind]. rewrite decode_printable_padded by assumption.
  assert (T : opt_str_truthy (Some text) = true).
  { destruct text; [cbn in L; lia | reflexivity]. }
  cbn [uas_id set_uas_id]. rewrite T.
  cbn [orb bind uas_id set_uas_id]. rewrite T. reflexivity.
Qed.

Lemma X24_beacon_with_basic_id_is_emitted_witness :
  _process_wifi_pdu
    (odid_beacon (repeat x00 36) x0d (basic_id_message x01 "DJI-TEST-001" true))
    counting_clock
  = Ok (Some (scenario_A_record 0, "wifi_beacon")).
Proof.
  apply (X24_beacon_with_basic_id_is_emitted (repeat x00 36) x0d x01
           "DJI-TEST-001" true counting_clock).
  - reflexivity.
  - unfold printable_text. cbn [list_ascii_of_string].
    repeat (apply Forall_cons; [cbn; lia|]). apply Forall_nil.
  - cbn. lia.
Defined.

End EndToEnd.

(* ================================================================== *)
(** * Bounds on the threat level *)
(* ================================================================== *)

Module ThreatFacts.

Import Fusion.

Section ThreatBounds.

Variable np_radians np_sin np_cos np_sqrt np_square : float -> float.
Variable np_arctan2 : float -> float -> float.
Variable restricted_zones : list Zone.
Variable threat_thresholds : Thresholds.

#[local] Abbreviation zone_check :=
  (_check_restricted_zone np_radians np_sin np_cos np_sqrt np_square
     np_arctan2 restricted_zones).
#[local] Abbreviation score :=
  (threat_score np_radians np_sin np_cos np_sqrt np_square np_arctan2
     restricted_zones threat_thresholds).
#[local] Abbreviation assess_threat :=
  (_assess_threat np_radians np_sin np_cos np_sqrt np_square np_arctan2
     restricted_zones threat_thresholds).

Lemma threat_score_parts (remote_id : RemoteIdDict) (is_valid : bool)
    (s : Z) (reasons : list reason) :
  score remote_id is_valid = inr (s, reasons) ->
  0 <= s - (points (negb (dict_truthy remote_id)) 20
            + points (opt_str_truthy (get_uas_id remote_id)) (-10)
            + points (zone_check (get_position remote_id)) 50) <= 55
  /\ (zone_check (get_position remote_id) = true -> In InRestrictedZone reasons)
  /\ (dict_truthy remote_id = false ->
      In NoRemoteID reasons /\ zone_check (get_position remote_id) = false
      /\ s <= 45).
Proof.
  unfold threat_score, step_remote_id, step_zone. rewrite ThreatBasics.zone_guard.
  unfold step_altitude, step_speed, step_operator, step_classification, bump,
    points.
  destruct remote_id as [|u p v o]; cbn [dict_truthy negb get_uas_id get_position
    get_velocity get_operator is_some andb fst snd].
  - cbn [_check_restricted_zone app opt_str_truthy or_empty str_truthy].
    destruct (PrimFloat.ltb (speed_limit_mps threat_thresholds) (get0 None));
      [discriminate|].
    destruct (PrimFloat.ltb (operator_distance_limit_m threat_thresholds)
                            (get0 None));
      destruct is_valid; cbn [negb fst snd app]; intros E; injection E as <- <-;
      (split; [|split; [discriminate|]]);
      try lia; intros _; (split; [left; reflexivity | split; [reflexivity | lia]]).
  - assert (Z0 : zone_check None = false) by reflexivity.
    destruct (opt_str_truthy u);
      destruct p as [p|];
      [destruct (zone_check (Some p)) eqn:Z | rewrite Z0
      |destruct (zone_check (Some p)) eqn:Z | rewrite Z0];
      cbn [fst snd app];
      repeat match goal with
             | |- context [position_truthy ?x && ?c] =>
               destruct (position_truthy x && c)
             | |- context [PrimFloat.ltb ?a ?b] => destruct (PrimFloat.ltb a b)
             | |- context [match pos_altitude_agl ?p with _ => _ end] =>
               destruct (pos_altitude_agl p)
             | |- context [match (match ?v with Some _ => _ | None => _ end) with _ => _ end] =>
               destruct v
             | |- context [match vel_speed ?v with _ => _ end] =>
               destruct (vel_speed v)
             | |- context [negb ?b] => destruct b; cbn [negb]
             end;
      cbn [fst snd app]; intros E; try discriminate; injection E as <- <-;
      (split; [lia|split; [|discriminate]]);
      try discriminate; intros _; cbn [In]; tauto.
Qed.

(** The altitude step raises only when it formats an altitude that is not
    there: on a non-empty position without [altitude_agl], under a limit
    below 0. *)
Lemma step_altitude_raises (position : option PositionDict) (a : acc) :
  step_altitude threat_thresholds position a = inl KeyError
  <-> position_truthy position = true
      /\ (exists p, position = Some p /\ pos_altitude_agl p = None)
      /\ PrimFloat.ltb (altitude_agl_limit_m threat_thresholds) 0 = true.
Proof.
  unfold step_altitude. destruct position as [p|].
  - destruct (pos_altitude_agl p) as [agl|] eqn:A; cbn [get0].
    + split.
      * destruct (_ && _); discriminate.
      * intros (_ & (p' & E & A') & _). injection E as <-. congruence.
    + destruct (position_truthy (Some p)) eqn:T;
        destruct (PrimFloat.ltb (altitude_agl_limit_m threat_thresholds) 0)
          eqn:L; cbn [andb]; split; try discriminate;
        try (intros (T' & _ & L'); discriminate).
      * intros _. split; [reflexivity|]. split; [|reflexivity].
        exists p. split; [reflexivity | exact A].
      * reflexivity.
  - split; [discriminate|]. intros (T & _). discriminate T.
Qed.

(** The speed step raises only when it formats a speed that is not there,
    under a limit below 0. *)
Lemma step_speed_raises (velocity : option VelocityDict) (a : acc) :
  step_speed threat_thresholds velocity a = inl KeyError
  <-> match velocity with Some v => vel_speed v | None => None end = None
      /\ PrimFloat.ltb (speed_limit_mps threat_thresholds) 0 = true.
Proof.
  unfold step_speed. cbv zeta.
  destruct (match velocity with Some v => vel_speed v | None => None end)
    as [sp|]; cbn [get0].
  - split; [destruct (PrimFloat.ltb _ _); discriminate|].
    intros [E _]. discriminate E.
  - destruct (PrimFloat.ltb (speed_limit_mps threat_thresholds) 0);
      split; try discriminate; try (intros [_ E]; discriminate E).
    + intros _. split; reflexivity.
    + reflexivity.
Qed.

Lemma assess_threat_raises (remote_id : RemoteIdDict) (is_valid : bool) :
  assess_threat remote_id is_valid = inl KeyError
  <-> (position_truthy (get_position remote_id) = true
       /\ (exists p, get_position remote_id = Some p
                     /\ pos_altitude_agl p = None)
       /\ PrimFloat.ltb (altitude_agl_limit_m threat_thresholds) 0 = true)
      \/ (match get_velocity remote_id with
          | Some v => vel_speed v
          | None => None
          end = None
          /\ PrimFloat.ltb (speed_limit_mps threat_thresholds) 0 = true).
Proof.
  rewrite <- (step_altitude_raises (get_position remote_id)
                (step_zone np_radians np_sin np_cos np_sqrt np_square
                   np_arctan2 restricted_zones (get_position remote_id)
                   (step_remote_id remote_id (0, [])))).
  unfold _assess_threat, threat_score.
  destruct (step_altitude threat_thresholds (get_position remote_id) _)
    as [[]|a1] eqn:A.
  - split; [left; reflexivity | reflexivity].
  - rewrite <- (step_speed_raises (get_velocity remote_id) a1).
    destruct (step_speed threat_thresholds (get_velocity remote_id) a1)
      as [[]|a2].
    + split; [right; reflexivity | reflexivity].
    + destruct (step_classification is_valid _) as [sc rs].
      split; [discriminate | intros [H|H]; discriminate H].
Qed.

(** X15: [_assess_threat] raises KeyError exactly when a limit below 0
    makes it format a value that is not there: the altitude of a non-empty
    position without [altitude_agl], or the speed of a Remote ID without
    speed; in every other case it returns, so always under limits that are
    not negative.  Whenever it returns: a drone inside a restricted zone
    is never rated LOW and the zone is among the reasons; a drone with an
    identifier outside every zone is never rated HIGH; and without any
    Remote ID data the level is MEDIUM. *)
Theorem X15_threat_level_bounds (remote_id : RemoteIdDict) (is_valid : bool) :
  (assess_threat remote_id is_valid = inl KeyError
   <-> (position_truthy (get_position remote_id) = true
        /\ (exists p, get_position remote_id = Some p
                      /\ pos_altitude_agl p = None)
        /\ PrimFloat.ltb (altitude_agl_limit_m threat_thresholds) 0 = true)
       \/ (match get_velocity remote_id with
           | Some v => vel_speed v
           | None => None
           end = None
           /\ PrimFloat.ltb (speed_limit_mps threat_thresholds) 0 = true))
  /\ (PrimFloat.ltb (altitude_agl_limit_m threat_thresholds) 0 = false ->
      PrimFloat.ltb (speed_limit_mps threat_thresholds) 0 = false ->
      exists lvl reasons, assess_threat remote_id is_valid = inr (lvl, reasons))
  /\ (forall lvl reasons,
         assess_threat remote_id is_valid = inr (lvl, reasons) ->
         (zone_check (get_position remote_id) = true ->
          lvl <> LOW /\ In InRestrictedZone reasons)
         /\ (opt_str_truthy (get_uas_id remote_id) = true ->
             zone_check (get_position remote_id) = false -> lvl <> HIGH)
         /\ (dict_truthy remote_id = false ->
             lvl = MEDIUM /\ In NoRemoteID reasons)).
Proof.
  split; [apply assess_threat_raises|]. split.
  { intros La Ls.
    destruct (assess_threat remote_id is_valid) as [[]|[lvl reasons]] eqn:E;
      [|exists lvl, reasons; reflexivity].
    apply assess_threat_raises in E.
    destruct E as [(_ & _ & E)|[_ E]]; congruence. }
  intros lvl reasons. unfold _assess_threat.
  destruct (score remote_id is_valid) as [e|[s rs]] eqn:E; [discriminate|].
  intros H. injection H as <- <-.
  destruct (threat_score_parts _ _ _ _ E) as (B & Zn & Em).
  assert (In_rs : forall x, In x rs ->
                            In x match rs with [] => [NoAnomaly] | _ => rs end).
  { intros x Hx. destruct rs; [destruct Hx | exact Hx]. }
  unfold points in B. unfold level_of. split; [|split].
  - intros Z. rewrite Z in B. split; [|apply In_rs, Zn, Z].
    destruct (negb (dict_truthy remote_id)), (opt_str_truthy (get_uas_id remote_id));
      repeat match goal with
             | |- context [?a >=? ?b] => destruct (Z.geb_spec a b)
             end; (discriminate || lia).
  - intros U Z. rewrite U, Z in B.
    destruct remote_id as [|u p v o]; [discriminate|].
    cbn [dict_truthy negb] in B.
    destruct (Z.geb_spec s 50); [lia|].
    destruct (s >=? 20); discriminate.
  - intros D. destruct (Em D) as (N & Z & Le). rewrite D, Z in B.
    cbn [negb] in B. split; [|apply In_rs, N].
    destruct remote_id; [|discriminate]. cbn [get_uas_id opt_str_truthy or_empty
      str_truthy] in B.
    destruct (Z.geb_spec s 50); [lia|].
    destruct (Z.geb_spec s 20); [reflexivity | lia].
Qed.

End ThreatBounds.

(** Scenario E inside a zone is rated HIGH and an empty Remote ID MEDIUM;
    under an altitude limit of -5 m an empty position is passed over and
    the assessment returns LOW, while a position that has only its
    coordinates makes it raise. *)
Lemma X15_threat_level_bounds_witness :
  let assess := _assess_threat Toy.np_radians Toy.np_sin Toy.np_cos Toy.np_sqrt
                  Toy.np_square Toy.np_arctan2 RESTRICTED_ZONES in
  let below := mkThresholds (-5) 20 5000 in
  let no_keys := Dict None (Some (mkPosition None None None false)) None None in
  let no_altitude :=
    Dict None (Some (mkPosition (Some 12.3585%float) (Some (-1.5352)%float)
                                None false)) None None in
  assess default_thresholds (scenario_E 12.3585 (-1.5352)) true
  = inr (HIGH, [RemoteIDAvailable; InRestrictedZone; HighAltitude 200;
                HighSpeed 25; OperatorFar])
  /\ HIGH <> LOW
  /\ assess default_thresholds EmptyDict true = inr (MEDIUM, [NoRemoteID])
  /\ (dict_truthy EmptyDict = false -> MEDIUM = MEDIUM /\ In NoRemoteID [NoRemoteID])
  /\ assess below no_keys true = inr (LOW, [NoAnomaly])
  /\ assess below no_altitude true = inl KeyError.
Proof.
  cbv zeta.
  assert (A : _assess_threat Toy.np_radians Toy.np_sin Toy.np_cos Toy.np_sqrt
                Toy.np_square Toy.np_arctan2 RESTRICTED_ZONES default_thresholds
                (scenario_E 12.3585 (-1.5352)) true
              = inr (HIGH, [RemoteIDAvailable; InRestrictedZone; HighAltitude 200;
                            HighSpeed 25; OperatorFar]))
    by (vm_compute; reflexivity).
  assert (B : _assess_threat Toy.np_radians Toy.np_sin Toy.np_cos Toy.np_sqrt
                Toy.np_square Toy.np_arctan2 RESTRICTED_ZONES default_thresholds
                EmptyDict true
              = inr (MEDIUM, [NoRemoteID]))
    by (vm_compute; reflexivity).
  destruct (X15_threat_level_bounds Toy.np_radians Toy.np_sin Toy.np_cos
              Toy.np_sqrt Toy.np_square Toy.np_arctan2 RESTRICTED_ZONES
              default_thresholds (scenario_E 12.3585 (-1.5352)) true)
    as (_ & _ & HA).
  destruct (X15_threat_level_bounds Toy.np_radians Toy.np_sin Toy.np_cos
              Toy.np_sqrt Toy.np_square Toy.np_arctan2 RESTRICTED_ZONES
              default_thresholds EmptyDict true)
    as (_ & _ & HB).
  destruct (X15_threat_level_bounds Toy.np_radians Toy.np_sin Toy.np_cos
              Toy.np_sqrt Toy.np_square Toy.np_arctan2 RESTRICTED_ZONES
              (mkThresholds (-5) 20 5000)
              (Dict None (Some (mkPosition (Some 12.3585%float)
                                  (Some (-1.5352)%float) None false))
                    None None) true)
    as (HC & _).
  split; [exact A|]. split.
  - refine (proj1 (proj1 (HA _ _ A) _)). vm_compute. reflexivity.
  - split; [exact B|].
    split; [exact (proj2 (proj2 (HB _ _ B)))|].
    split; [vm_compute; reflexivity|].
    apply HC. left. split; [reflexivity|]. split; [|reflexivity].
    eexists. split; reflexivity.
Defined.

End ThreatFacts.

(* ================================================================== *)
(** * [fuse_detection_data] *)
(* ================================================================== *)

Module FuseFacts.

Import Fusion.
Import Dyn ToDict FusionPipeline Notions.
#[local] Open Scope dyn_scope.

Lemma overall_quality_needs_metadata (fusion_result : FusionResult) :
  fr_metadata fusion_result = None ->
  exists e, _compute_overall_quality fusion_result = inl e.
Proof.
  intros M. unfold _compute_overall_quality. rewrite M.
  destruct (fr_classification fusion_result) as [c|]; cbn [obind];
    [|eexists; reflexivity].
  destruct (fr_detection fusion_result) as [d|]; cbn [obind];
    eexists; reflexivity.
Qed.

Lemma gaps_after_length (prev : Burst) (rest : list Burst) :
  List.length (gaps_after prev rest) = List.length rest.
Proof.
  revert prev. induction rest as [|c rest IH]; intros prev; cbn; [reflexivity|].
  now rewrite IH.
Qed.

Lemma burst_intervals_spec (prev : Burst) (rest : list Burst)
    (sample_rate : option float) (acc : list float) :
  match burst_intervals prev rest sample_rate acc with
  | inr intervals =>
    rest = [] /\ intervals = acc
    \/ exists sr,
         sample_rate = Some sr /\ PrimFloat.eqb sr 0 = false
         /\ intervals
            = acc ++ map (fun g => (float_of_int g / sr)%float)
                         (gaps_after prev rest)
  | inl e =>
    rest <> []
    /\ (e = TypeError /\ sample_rate = None
        \/ e = ZeroDivisionError
           /\ (exists sr, sample_rate = Some sr /\ PrimFloat.eqb sr 0 = true)
        \/ e = OverflowError)
  end.
Proof.
  revert prev acc. induction rest as [|curr rest IH]; intros prev acc.
  - cbn. left. split; reflexivity.
  - cbn [burst_intervals]. destruct sample_rate as [sr|]; cbn [number obind].
    + unfold int_div_float.
      destruct (PrimFloat.is_infinity (float_of_int (burst_start curr - burst_end prev))).
      { cbn [obind]. split; [discriminate | right; right; reflexivity]. }
      destruct (PrimFloat.eqb sr 0) eqn:Z0; cbn [obind].
      { split; [discriminate|]. right. left. split; [reflexivity|].
        exists sr. split; [reflexivity | exact Z0]. }
      specialize (IH curr
                     (acc ++ [(float_of_int (burst_start curr - burst_end prev)
                               / sr)%float])).
      destruct (burst_intervals curr rest (Some sr) _) as [e|intervals].
      * destruct IH as [_ IH]. split; [discriminate | exact IH].
      * right. exists sr. split; [reflexivity|]. split; [exact Z0|].
        cbn [gaps_after map].
        destruct IH as [[-> ->]|(sr' & E & _ & ->)].
        -- reflexivity.
        -- injection E as <-. rewrite <- app_assoc. reflexivity.
    + split; [discriminate|]. left. split; reflexivity.
Qed.

(** X16: [_compute_burst_intervals] returns the empty list for fewer than
    two bursts, whatever the sample rate.  When it returns, it gives one
    interval per consecutive pair of bursts: the gap from the end of one to
    the start of the next, divided by the sample rate.  With two bursts or
    more a missing sample rate raises [TypeError] and a zero one raises
    [ZeroDivisionError] (or [OverflowError] for a gap too large for a
    float). *)
Theorem X16_burst_intervals (bursts_list : list Burst) (sample_rate : option float) :
  (len bursts_list <= 1 ->
   _compute_burst_intervals bursts_list sample_rate = inr [])
  /\ (forall intervals,
         _compute_burst_intervals bursts_list sample_rate = inr intervals ->
         len intervals = Z.max 0 (len bursts_list - 1)
         /\ (1 < len bursts_list ->
             exists sr,
               sample_rate = Some sr /\ PrimFloat.eqb sr 0 = false
               /\ intervals = map (fun g => (float_of_int g / sr)%float)
                                  (gaps bursts_list)))
  /\ (1 < len bursts_list ->
      (sample_rate = None ->
       _compute_burst_intervals bursts_list sample_rate = inl TypeError)
      /\ (forall sr, sample_rate = Some sr -> PrimFloat.eqb sr 0 = true ->
            exists e, _compute_burst_intervals bursts_list sample_rate = inl e
                      /\ (e = ZeroDivisionError \/ e = OverflowError))).
Proof.
  unfold _compute_burst_intervals, gaps.
  destruct bursts_list as [|first rest].
  { split; [reflexivity|]. split.
    - intros intervals E. injection E as <-.
      split; [reflexivity | unfold len; cbn; lia].
    - unfold len; cbn; lia. }
  pose proof (burst_intervals_spec first rest sample_rate []) as S.
  assert (L : len (first :: rest) = len rest + 1)
    by (unfold len; cbn [List.length]; lia).
  rewrite L. split; [|split].
  - intros H. destruct rest; [reflexivity | unfold len in H; cbn in H; lia].
  - intros intervals E. rewrite E in S.
    destruct S as [[-> ->]|(sr & Sr & Z0 & ->)].
    + split; [reflexivity | unfold len; cbn; lia].
    + cbn [app]. split.
      * unfold len. rewrite length_map, gaps_after_length. lia.
      * intros _. exists sr. repeat split; assumption.
  - intros H. split.
    + intros ->. destruct rest; [unfold len in H; cbn in H; lia | reflexivity].
    + intros sr -> Z0.
      destruct (burst_intervals first rest (Some sr) []) as [e|intervals].
      * exists e. split; [reflexivity|].
        destruct S as [_ [[_ C]|[[E _]|E]]];
          [discriminate | left; exact E | right; exact E].
      * destruct S as [[-> _]|(sr' & E & Z1 & _)].
        -- unfold len in H. cbn in H. lia.
        -- injection E as <-. congruence.
Qed.

Section Fuse.

Variable np_radians np_sin np_cos np_sqrt np_square : float -> float.
Variable np_arctan2 : float -> float -> float.
Variable np_mean np_std : list float -> float.
Variable restricted_zones : list Zone.
Variable threat_thresholds : Thresholds.

#[local] Abbreviation fuse :=
  (fuse_detection_data np_radians np_sin np_cos np_sqrt np_square np_arctan2
     np_mean np_std restricted_zones threat_thresholds).
#[local] Abbreviation rid_section :=
  (remote_id_section np_radians np_sin np_cos np_sqrt np_square np_arctan2).
#[local] Abbreviation assess :=
  (_assess_threat np_radians np_sin np_cos np_sqrt np_square np_arctan2
     restricted_zones threat_thresholds).

Lemma to_dict_truthy (r : RemoteIDData) : rid_truthy (to_dict r) = true.
Proof.
  unfold rid_truthy, to_dict. cbn [rd_position is_missing].
  rewrite !andb_false_r. reflexivity.
Qed.

Lemma copy_without_agl (r : RemoteIDData) :
  altitude_agl r = None -> operator_latitude r = None ->
  match rid_section (Some (to_dict r)) with
  | inl e => e = TypeError
  | inr None => False
  | inr (Some out) => ro_position out = None /\ ro_operator out = None
  end
  /\ (opt_float_truthy (latitude r) && opt_float_truthy (longitude r) = true ->
      rid_section (Some (to_dict r)) = inl TypeError).
Proof.
  intros A O. unfold remote_id_section. rewrite to_dict_truthy. cbn [negb].
  unfold to_dict. cbn [rd_position rd_velocity rd_operator rd_uas_id
    rd_uas_id_type rd_status as_dict obind pd_latitude pd_longitude
    pd_altitude_msl pd_altitude_agl pd_height vd_speed vd_direction
    vd_vertical_speed od_latitude od_longitude od_altitude od_id].
  rewrite A, O. unfold truthy_float.
  assert (G : forall o : option float, get (of_option o) = o)
    by (intros [f|]; reflexivity).
  rewrite !G. cbn [of_option get_or get opt_float_truthy andb number obind].
  destruct (opt_float_truthy (latitude r) && opt_float_truthy (longitude r)) eqn:T.
  - apply andb_true_iff in T. destruct T as [T1 T2].
    destruct (latitude r) as [lat|]; [|discriminate].
    destruct (longitude r) as [lon|]; [|discriminate].
    cbn [number obind].
    destruct (altitude_msl r); cbn [of_option get_or number obind];
      split; reflexivity.
  - cbn [obind]. split; [|discriminate].
    destruct (speed r) as [s|]; cbn [number obind].
    + destruct (direction r); cbn [of_option get_or number obind];
        [|reflexivity].
      destruct (vertical_speed r); cbn [of_option get_or number obind];
        [|reflexivity].
      split; reflexivity.
    + split; reflexivity.
Qed.

(** X17: [fuse_detection_data] never returns: [_compute_overall_quality]
    is called while the metadata dictionary is being built, when
    [fusion_result['metadata']] is still empty.  Whenever the sections
    before it go through, the exception is [KeyError('has_remote_id')]. *)
Theorem X17_fuse_detection_data_always_raises
    (detection_features : FeaturesD) (classification_result : ClassificationD)
    (remote_id_data : option RidDict) (center_freq : float)
    (now_iso : string) (now_unix : float) :
  (exists e,
      fuse detection_features classification_result remote_id_data center_freq
           now_iso now_unix = inl e)
  /\ (forall detection classification remote_id assessed,
         detection_section np_mean np_std detection_features center_freq
         = inr detection ->
         classification_section classification_result = inr classification ->
         rid_section remote_id_data = inr remote_id ->
         lift_threat (assess (threat_view remote_id)
                             (truthy_bool (co_is_valid classification)))
         = inr assessed ->
         fuse detection_features classification_result remote_id_data
              center_freq now_iso now_unix
         = inl (KeyError "has_remote_id")).
Proof.
  unfold fuse_detection_data. split.
  - destruct (detection_section _ _ _ _) as [e|detection]; cbn [obind];
      [eexists; reflexivity|].
    destruct (classification_section _) as [e|classification] eqn:C; cbn [obind];
      [eexists; reflexivity|].
    destruct (rid_section _) as [e|remote_id]; cbn [obind];
      [eexists; reflexivity|].
    destruct (lift_threat _) as [e|[lvl reasons]]; cbn [obind];
      [eexists; reflexivity|].
    destruct (number (get_or 0%float (cl_confidence classification_result)));
      cbn [obind]; [eexists; reflexivity|].
    eexists. reflexivity.
  - intros detection classification remote_id [lvl reasons] D C R A.
    rewrite D. cbn [obind]. rewrite C. cbn [obind]. rewrite R. cbn [obind].
    rewrite A. cbn [obind].
    assert (N : exists c, number (get_or 0%float
                                    (cl_confidence classification_result))
                          = inr c).
    { unfold classification_section in C.
      destruct (number (get_or 0%float (cl_confidence classification_result)));
        [discriminate | eexists; reflexivity]. }
    destruct N as (c & ->). reflexivity.
Qed.

(** X18: for the record [extract_remote_id] returns, turned into a
    dictionary by [to_dict] and handed to [fuse_detection_data]: if its
    latitude and longitude are set and non-zero the Remote ID section
    raises [TypeError] ([to_dict] stores [altitude_agl] as [None], which
    [float] refuses); otherwise the section, if it returns, copies neither
    a position nor an operator. *)
Theorem X18_decoded_position_cannot_be_fused
    (beacon_info : BeaconInfo) (now : float)
    (detection_features : FeaturesD) (classification_result : ClassificationD)
    (center_freq : float) (now_iso : string) (now_unix : float) :
  exists o,
    extract_remote_id beacon_info now = Ok o
    /\ match o with
       | None => True
       | Some r =>
         (opt_float_truthy (latitude r) && opt_float_truthy (longitude r) = true ->
          rid_section (Some (to_dict r)) = inl TypeError
          /\ forall detection classification,
               detection_section np_mean np_std detection_features center_freq
               = inr detection ->
               classification_section classification_result
               = inr classification ->
               fuse detection_features classification_result
                    (Some (to_dict r)) center_freq now_iso now_unix
               = inl TypeError)
         /\ (opt_float_truthy (latitude r) && opt_float_truthy (longitude r)
             = false ->
             match rid_section (Some (to_dict r)) with
             | inl e => e = TypeError
             | inr None => False
             | inr (Some out) =>
               ro_position out = None /\ ro_operator out = None
             end)
       end.
Proof.
  assert (H0 : never_decoded (set_timestamp (Some now) new_RemoteIDData))
    by (repeat split).
  destruct (WriteFacts.extract_preserves _ WriteFacts.never_decoded_writes
              beacon_info now H0) as (o & E & P).
  exists o. split; [exact E|]. destruct o as [r|]; [|exact I].
  destruct P as (A & O & _).
  destruct (copy_without_agl r A O) as (S & T).
  split.
  - intros L. split; [exact (T L)|].
    intros detection classification D C. unfold fuse_detection_data.
    rewrite D. cbn [obind]. rewrite C. cbn [obind].
    rewrite (T L). reflexivity.
  - intros _. exact S.
Qed.

End Fuse.

Lemma X17_fuse_detection_data_always_raises_witness :
  let fuse := fuse_detection_data Toy.np_radians Toy.np_sin Toy.np_cos
                Toy.np_sqrt Toy.np_square Toy.np_arctan2 Samples.np_mean
                Samples.np_std RESTRICTED_ZONES default_thresholds in
  fuse Samples.test_detection_features Samples.test_classification_result
       (Some Samples.test_remote_id_data) 2.437e9%float "2025-01-01T00:00:00"
       0%float
  = inl (KeyError "has_remote_id").
Proof.
  cbv zeta.
  destruct (detection_section Samples.np_mean Samples.np_std
              Samples.test_detection_features 2.437e9) as [e|d] eqn:D;
    [vm_compute in D; discriminate D|].
  destruct (classification_section Samples.test_classification_result)
    as [e|c] eqn:C; [vm_compute in C; discriminate C|].
  destruct (remote_id_section Toy.np_radians Toy.np_sin Toy.np_cos Toy.np_sqrt
              Toy.np_square Toy.np_arctan2 (Some Samples.test_remote_id_data))
    as [e|r] eqn:R; [vm_compute in R; discriminate R|].
  destruct (lift_threat
              (_assess_threat Toy.np_radians Toy.np_sin Toy.np_cos Toy.np_sqrt
                 Toy.np_square Toy.np_arctan2 RESTRICTED_ZONES
                 default_thresholds (threat_view r)
                 (truthy_bool (co_is_valid c)))) as [e|a] eqn:A.
  - exfalso. vm_compute in C. injection C as <-.
    vm_compute in R. injection R as <-.
    vm_compute in A. discriminate A.
  - exact (proj2 (X17_fuse_detection_data_always_raises Toy.np_radians Toy.np_sin
                    Toy.np_cos Toy.np_sqrt Toy.np_square Toy.np_arctan2
                    Samples.np_mean Samples.np_std RESTRICTED_ZONES
                    default_thresholds Samples.test_detection_features
                    Samples.test_classification_result
                    (Some Samples.test_remote_id_data) 2.437e9
                    "2025-01-01T00:00:00" 0) d c r a D C R A).
Defined.

Lemma X18_decoded_position_cannot_be_fused_witness :
  exists beacon_info r,
    parse_beacon_frame Samples.beacon_location = Ok (Some beacon_info)
    /\ extract_remote_id beacon_info 0 = Ok (Some r)
    /\ latitude r = Some 12.3585%float
    /\ remote_id_section Toy.np_radians Toy.np_sin Toy.np_cos Toy.np_sqrt
         Toy.np_square Toy.np_arctan2 (Some (to_dict r))
       = inl TypeError.
Proof.
  destruct (parse_beacon_frame Samples.beacon_location) as [[bi|]| |] eqn:B;
    try (vm_compute in B; discriminate B).
  exists bi.
  destruct (X18_decoded_position_cannot_be_fused Toy.np_radians Toy.np_sin
              Toy.np_cos Toy.np_sqrt Toy.np_square Toy.np_arctan2
              Samples.np_mean Samples.np_std RESTRICTED_ZONES default_thresholds
              bi 0 Samples.test_detection_features
              Samples.test_classification_result 2.437e9 "" 0) as (o & E & P).
  assert (F : exists r, o = Some r /\ latitude r = Some 12.3585%float
                        /\ longitude r = Some (-1.5352)%float).
  { vm_compute in B. injection B as <-. vm_compute in E. injection E as <-.
    eexists. repeat split. }
  destruct F as (r & -> & La & Lo).
  exists r. split; [reflexivity|]. split; [exact E|]. split; [exact La|].
  apply (proj1 P). rewrite La, Lo. reflexivity.
Defined.

End FuseFacts.

(* ================================================================== *)
(** * What [publish_detection] publishes *)
(* ================================================================== *)

Module PubFacts.
Import Dyn Mqtt Notions.
#[local] Open Scope action_scope.

Lemma abind_pure {A B : Type} (m : outcome A) (k : A -> action B) (o : outbox) :
  abind (pure m) k o
  = match m with
    | inl e => (o, inl e)
    | inr a => k a o
    end.
Proof. unfold abind, pure. destruct m; reflexivity. Qed.

Section Client.

Variable dumps : value -> string.
Variable client_publish : Message -> option Z.

Lemma abind_send {B : Type} (m : Message) (k : Z -> action B) (o : outbox) :
  abind (send client_publish m) k o
  = match client_publish m with
    | Some rc => k rc (o ++ [m])
    | None => (o, inl ValueError)
    end.
Proof. unfold abind, send. destruct (client_publish m); reflexivity. Qed.

(** One step of a publishing function: a lookup that raises ends it with
    the outbox as it is. *)
Ltac lookup_step :=
  rewrite abind_pure;
  match goal with
  | |- context [match ?m with inl _ => _ | inr _ => _ end] =>
    let e := fresh "e" in
    let v := fresh "v" in
    destruct m as [e|v]
  end.

Lemma publish_position_cases (self : Publisher) (detection_data : value)
    (o : outbox) :
  (exists r, _publish_position dumps client_publish self detection_data o
             = (o, r))
  \/ (exists m,
         _publish_position dumps client_publish self detection_data o
         = (o ++ [m], inr tt)
         /\ assoc "position" (topics self) = Some (msg_topic m)).
Proof.
  unfold _publish_position.
  do 2 (lookup_step; [left; eexists; reflexivity|]).
  destruct (negb (truthy v0)); [left; eexists; reflexivity|].
  do 8 (lookup_step; [left; eexists; reflexivity|]).
  rewrite abind_pure. unfold topic_of.
  destruct (assoc "position" (topics self)) as [t|] eqn:T;
    [|left; eexists; reflexivity].
  rewrite abind_send.
  destruct (client_publish _); [|left; eexists; reflexivity].
  right. eexists. split; reflexivity.
Qed.

Lemma publish_classification_cases (self : Publisher) (detection_data : value)
    (o : outbox) :
  (exists e, _publish_classification dumps client_publish self detection_data o
             = (o, inl e))
  \/ (exists m,
         _publish_classification dumps client_publish self detection_data o
         = (o ++ [m], inr tt)
         /\ assoc "classification" (topics self) = Some (msg_topic m)).
Proof.
  unfold _publish_classification.
  do 8 (lookup_step; [left; eexists; reflexivity|]).
  rewrite abind_pure. unfold topic_of.
  destruct (assoc "classification" (topics self)) as [t|] eqn:T;
    [|left; eexists; reflexivity].
  rewrite abind_send.
  destruct (client_publish _); [|left; eexists; reflexivity].
  right. eexists. split; reflexivity.
Qed.

Lemma publish_alert_cases (self : Publisher) (detection_data : value)
    (o : outbox) :
  (exists e, _publish_alert dumps client_publish self detection_data o
             = (o, inl e))
  \/ (exists m r,
         _publish_alert dumps client_publish self detection_data o
         = (o ++ [m], r)
         /\ assoc "alert" (topics self) = Some (msg_topic m)).
Proof.
  unfold _publish_alert.
  do 13 (lookup_step; [left; eexists; reflexivity|]).
  rewrite abind_pure. unfold topic_of.
  destruct (assoc "alert" (topics self)) as [t|] eqn:T;
    [|left; eexists; reflexivity].
  rewrite abind_send.
  destruct (client_publish _); [|left; eexists; reflexivity].
  right.
  repeat (rewrite abind_pure; cbv beta iota;
          try match goal with
              | |- context [match ?m with inl _ => _ | inr _ => _ end] =>
                destruct m
              end);
    do 2 eexists; split; reflexivity.
Qed.


(** X19: [publish_detection] only appends to what was published, in the
    order detection, position, classification, alert, each at most once
    and each on its configured topic.  Nothing is published when the
    publisher is not connected; the first message always carries the whole
    detection; an alert is published only for a threat level of HIGH or
    MEDIUM; and [True] is returned only if the broker accepted the
    detection, the classification went out, and the alert went out whenever
    the level asked for one. *)
Theorem X19_publish_detection_runs (self : Publisher) (detection_data : value)
    (o : outbox) :
  exists msgs keys ok,
    publish_detection dumps client_publish self detection_data o
    = (o ++ msgs, ok)
    /\ In keys detection_runs
    /\ published_under self msgs keys
    /\ (connected self = false -> msgs = [] /\ ok = false)
    /\ (forall m rest,
           msgs = m :: rest ->
           m = mkMessage (msg_topic m) (dumps detection_data)
                         (qos_of self "detection" 1) (retain self))
    /\ (In "alert" keys ->
        exists threat_level,
          threat_level_of detection_data = inr threat_level
          /\ is_high_or_medium threat_level = true)
    /\ (ok = true ->
        In "classification" keys
        /\ (forall m rest, msgs = m :: rest ->
                           client_publish m = Some MQTT_ERR_SUCCESS)
        /\ forall threat_level,
             threat_level_of detection_data = inr threat_level ->
             is_high_or_medium threat_level = true -> In "alert" keys).
Proof.
  unfold publish_detection.
  destruct (connected self) eqn:C; cbn [negb].
  2:{ exists [], [], false. rewrite app_nil_r.
      split; [reflexivity|]. split; [left; reflexivity|].
      split; [constructor|]. split; [split; reflexivity|].
      split; [discriminate|]. split; [intros []|]. discriminate. }
  rewrite abind_pure. unfold topic_of.
  destruct (assoc "detection" (topics self)) as [t|] eqn:T.
  2:{ exists [], [], false. rewrite app_nil_r.
      split; [reflexivity|]. split; [left; reflexivity|].
      split; [constructor|]. split; [discriminate|].
      split; [discriminate|]. split; [intros []|]. discriminate. }
  rewrite abind_send.
  set (first := mkMessage t (dumps detection_data) (qos_of self "detection" 1)
                          (retain self)) in *.
  destruct (client_publish first) as [rc|] eqn:P.
  2:{ exists [], [], false. rewrite app_nil_r.
      split; [reflexivity|]. split; [left; reflexivity|].
      split; [constructor|]. split; [discriminate|].
      split; [discriminate|]. split; [intros []|]. discriminate. }
  assert (F : assoc "detection" (topics self) = Some (msg_topic first))
    by exact T.
  assert (Hd : forall tail m rest,
             first :: tail = m :: rest ->
             m = mkMessage (msg_topic m) (dumps detection_data)
                           (qos_of self "detection" 1) (retain self)).
  { intros tail m rest E. injection E as <- _. reflexivity. }
  destruct (Z.eqb_spec rc MQTT_ERR_SUCCESS) as [->|Hrc].
  2:{ exists [first], ["detection"], false.
      split; [reflexivity|]. split; [cbn; tauto|].
      split; [repeat constructor; exact F|]. split; [discriminate|].
      split; [apply Hd|]. split; [|discriminate].
      cbn. intros [E|[]]. discriminate E. }
  assert (Ok1 : forall tail m rest,
             first :: tail = m :: rest ->
             client_publish m = Some MQTT_ERR_SUCCESS).
  { intros tail m rest E. injection E as <- _. exact P. }
  unfold abind at 1.
  destruct (publish_position_cases self detection_data (o ++ [first]))
    as [(r1 & ->)|(m1 & -> & T1)].
  - (* no position message *)
    destruct r1 as [e|[]].
    { exists [first], ["detection"], false.
      split; [reflexivity|]. split; [cbn; tauto|].
      split; [repeat constructor; exact F|]. split; [discriminate|].
      split; [apply Hd|]. split; [|discriminate].
      cbn. intros [E|[]]. discriminate E. }
    unfold abind at 1.
    destruct (publish_classification_cases self detection_data (o ++ [first]))
      as [(e & ->)|(m2 & -> & T2)].
    { exists [first], ["detection"], false.
      split; [reflexivity|]. split; [cbn; tauto|].
      split; [repeat constructor; exact F|]. split; [discriminate|].
      split; [apply Hd|]. split; [|discriminate].
      cbn. intros [E|[]]. discriminate E. }
    rewrite abind_pure.
    destruct (threat_level_of detection_data) as [e|lvl] eqn:L.
    { exists [first; m2], ["detection"; "classification"], false.
      rewrite <- !app_assoc.
      split; [reflexivity|]. split; [cbn; tauto|].
      split; [repeat constructor; assumption|]. split; [discriminate|].
      split; [apply Hd|]. split; [|discriminate].
      cbn. intros [E|[E|[]]]; discriminate E. }
    destruct (is_high_or_medium lvl) eqn:H.
    + unfold abind.
      destruct (publish_alert_cases self detection_data ((o ++ [first]) ++ [m2]))
        as [(e & ->)|(m3 & r3 & -> & T3)].
      { exists [first; m2], ["detection"; "classification"], false.
        rewrite <- !app_assoc.
        split; [reflexivity|]. split; [cbn; tauto|].
        split; [repeat constructor; assumption|]. split; [discriminate|].
        split; [apply Hd|]. split; [|discriminate].
        cbn. intros [E|[E|[]]]; discriminate E. }
      exists [first; m2; m3], ["detection"; "classification"; "alert"],
             match r3 with inr _ => true | inl _ => false end.
      rewrite <- !app_assoc.
      split; [destruct r3; reflexivity|]. split; [cbn; tauto|].
      split; [repeat constructor; assumption|]. split; [discriminate|].
      split; [apply Hd|].
      split; [intros _; exists lvl; split; [reflexivity | exact H]|].
      intros _. split; [cbn; tauto|]. split; [apply Ok1|].
      intros; cbn; tauto.
    + exists [first; m2], ["detection"; "classification"], true.
      rewrite <- !app_assoc.
      split; [reflexivity|]. split; [cbn; tauto|].
      split; [repeat constructor; assumption|]. split; [discriminate|].
      split; [apply Hd|].
      split; [cbn; intros [E|[E|[]]]; discriminate E|].
      intros _. split; [cbn; tauto|]. split; [apply Ok1|].
      intros lvl' E. injection E as <-. congruence.
  - (* a position message *)
    unfold abind at 1.
    destruct (publish_classification_cases self detection_data
                ((o ++ [first]) ++ [m1]))
      as [(e & ->)|(m2 & -> & T2)].
    { exists [first; m1], ["detection"; "position"], false.
      rewrite <- !app_assoc.
      split; [reflexivity|]. split; [cbn; tauto|].
      split; [repeat constructor; assumption|]. split; [discriminate|].
      split; [apply Hd|]. split; [|discriminate].
      cbn. intros [E|[E|[]]]; discriminate E. }
    rewrite abind_pure.
    destruct (threat_level_of detection_data) as [e|lvl] eqn:L.
    { exists [first; m1; m2], ["detection"; "position"; "classification"], false.
      rewrite <- !app_assoc.
      split; [reflexivity|]. split; [cbn; tauto|].
      split; [repeat constructor; assumption|]. split; [discriminate|].
      split; [apply Hd|]. split; [|discriminate].
      cbn. intros [E|[E|[E|[]]]]; discriminate E. }
    destruct (is_high_or_medium lvl) eqn:H.
    + unfold abind.
      destruct (publish_alert_cases self detection_data
                  (((o ++ [first]) ++ [m1]) ++ [m2]))
        as [(e & ->)|(m3 & r3 & -> & T3)].
      { exists [first; m1; m2], ["detection"; "position"; "classification"],
               false.
        rewrite <- !app_assoc.
        split; [reflexivity|]. split; [cbn; tauto|].
        split; [repeat constructor; assumption|]. split; [discriminate|].
        split; [apply Hd|]. split; [|discriminate].
        cbn. intros [E|[E|[E|[]]]]; discriminate E. }
      exists [first; m1; m2; m3],
             ["detection"; "position"; "classification"; "alert"],
             match r3 with inr _ => true | inl _ => false end.
      rewrite <- !app_assoc.
      split; [destruct r3; reflexivity|]. split; [cbn; tauto|].
      split; [repeat constructor; assumption|]. split; [discriminate|].
      split; [apply Hd|].
      split; [intros _; exists lvl; split; [reflexivity | exact H]|].
      intros _. split; [cbn; tauto|]. split; [apply Ok1|].
      intros; cbn; tauto.
    + exists [first; m1; m2], ["detection"; "position"; "classification"], true.
      rewrite <- !app_assoc.
      split; [reflexivity|]. split; [cbn; tauto|].
      split; [repeat constructor; assumption|]. split; [discriminate|].
      split; [apply Hd|].
      split; [cbn; intros [E|[E|[E|[]]]]; discriminate E|].
      intros _. split; [cbn; tauto|]. split; [apply Ok1|].
      intros lvl' E. injection E as <-. congruence.
Qed.

End Client.

End PubFacts.

(* ================================================================== *)
(** * Hand-over of a detection to the MQTT publisher *)
(* ================================================================== *)

Module HandOver.

Import Dyn ToDict Mqtt GnuRadio BlePublish Notions.

Lemma json_entry_of_option {A : Type} (f : A -> value) (key : string)
    (o : option A) :
  json_entry f key (of_option o) = [(key, opt_json f o)].
Proof. destruct o; reflexivity. Qed.

Lemma handed_lookups (remote_id : RemoteIDData) :
  let d := match json_of_rid (to_dict remote_id) with
           | JDict d => d
           | _ => []
           end in
  json_of_rid (to_dict remote_id) = JDict d
  /\ lookup "position" d
     = Some (JDict [ ("latitude", opt_json JFloat (latitude remote_id));
                     ("longitude", opt_json JFloat (longitude remote_id));
                     ("altitude_msl", opt_json JFloat (altitude_msl remote_id));
                     ("altitude_agl", opt_json JFloat (altitude_agl remote_id));
                     ("height", opt_json JFloat (height remote_id)) ])
  /\ lookup "uas_id" d = Some (opt_json JStr (uas_id remote_id))
  /\ lookup "velocity" d
     = Some (json_of_velocity
               (mkVelocityD (of_option (speed remote_id))
                            (of_option (direction remote_id))
                            (of_option (vertical_speed remote_id)))).
Proof.
  cbv zeta. unfold json_of_rid, to_dict, json_of_position.
  cbn [rd_uas_id rd_uas_id_type rd_position rd_velocity rd_operator
       rd_timestamp rd_status rd_classification rd_self_id rd_auth rd_system
       pd_latitude pd_longitude pd_altitude_msl pd_altitude_agl pd_height].
  rewrite !json_entry_of_option.
  cbn [json_entry app lookup String.eqb Ascii.eqb Bool.eqb
       pd_latitude pd_longitude pd_altitude_msl pd_altitude_agl pd_height].
  rewrite !json_entry_of_option. cbn [app].
  repeat split; reflexivity.
Qed.

Lemma display_remote_id_cases (remote_id : RemoteIDData) :
  let unknown_altitude :=
    opt_float_truthy (latitude remote_id) = true
    /\ opt_float_truthy (longitude remote_id) = true
    /\ (altitude_msl remote_id = None \/ height remote_id = None) in
  _display_remote_id remote_id = inl TypeError /\ unknown_altitude
  \/ _display_remote_id remote_id = inr tt /\ ~ unknown_altitude.
Proof.
  cbv zeta. unfold _display_remote_id.
  destruct (opt_float_truthy (latitude remote_id));
    [|right; split; [reflexivity | intros (A & _); discriminate A]].
  destruct (opt_float_truthy (longitude remote_id)); cbn [andb];
    [|right; split; [reflexivity | intros (_ & A & _); discriminate A]].
  destruct (altitude_msl remote_id) as [alt|];
    [|left; repeat split; left; reflexivity].
  destruct (height remote_id) as [hgt|];
    [|left; repeat split; right; reflexivity].
  right. split; [reflexivity|]. intros (_ & _ & [A|A]); discriminate A.
Qed.

Section Client.

Variable dumps : value -> string.
Variable client_publish : Message -> option Z.

(** X13: [_handle_remote_id] always counts the detection, and the only
    exception it can raise is the [TypeError] of [_display_remote_id].  It
    raises exactly when latitude and longitude are set and non-zero while
    the MSL altitude or the height is unknown, and then nothing is
    published: such a detection is counted and lost. *)
Theorem X13_unknown_altitude_blocks_publication (self : System)
    (remote_id : RemoteIDData) (method : string) (now : float) (o : outbox) :
  exists o' r,
    _handle_remote_id dumps client_publish self remote_id method now o
    = (count_detection self, o', r)
    /\ (r = inl TypeError \/ r = inr tt)
    /\ (r = inl TypeError <->
        opt_float_truthy (latitude remote_id) = true
        /\ opt_float_truthy (longitude remote_id) = true
        /\ (altitude_msl remote_id = None \/ height remote_id = None))
    /\ (r = inl TypeError -> o' = o).
Proof.
  unfold _handle_remote_id.
  destruct (display_remote_id_cases remote_id) as [(-> & U)|(-> & U)].
  - exists o, (inl TypeError). split; [reflexivity|].
    split; [left; reflexivity|]. split; [|reflexivity].
    split; [intros _; exact U | reflexivity].
  - assert (R : forall o',
               (@inr error unit tt = inl TypeError \/ @inr error unit tt = inr tt)
               /\ (@inr error unit tt = inl TypeError <->
                   opt_float_truthy (latitude remote_id) = true
                   /\ opt_float_truthy (longitude remote_id) = true
                   /\ (altitude_msl remote_id = None \/ height remote_id = None))
               /\ (@inr error unit tt = inl TypeError -> o' = o)).
    { intros o'. split; [right; reflexivity|].
      split; [|discriminate]. split; [discriminate | intros A; destruct (U A)]. }
    cbn [mqtt_publisher count_detection].
    destruct (mqtt_publisher self) as [publisher|];
      [|exists o, (inr tt); split; [reflexivity | apply R]].
    destruct (connected publisher);
      [|exists o, (inr tt); split; [reflexivity | apply R]].
    destruct (publish_detection dumps client_publish publisher _ o) as [o1 b].
    exists o1, (inr tt). split; [reflexivity | apply R].
Qed.

(** The broker takes every message. *)
Hypothesis accepted : forall m, client_publish m = Some MQTT_ERR_SUCCESS.

Ltac run_action :=
  cbv beta iota zeta delta [abind pure aret get_key get_default subscript
                            threat_level_of topic_of obind];
  cbn [lookup assoc TOPICS String.eqb Ascii.eqb Bool.eqb truthy negb].

Ltac publish_three remote_id T :=
  let E := fresh "E" in
  let Lp := fresh "Lp" in
  let Lu := fresh "Lu" in
  let Lv := fresh "Lv" in
  destruct (handed_lookups remote_id) as (E & Lp & Lu & Lv);
  set (d := match json_of_rid (to_dict remote_id) with
            | JDict d => d
            | _ => []
            end) in *;
  rewrite E;
  unfold _publish_position, _publish_classification;
  run_action; rewrite T; run_action;
  unfold send; rewrite accepted; run_action;
  rewrite Lp; run_action; rewrite Lu, Lv; run_action;
  rewrite accepted; run_action; rewrite accepted; run_action;
  cbn [MQTT_ERR_SUCCESS Z.eqb is_high_or_medium fst];
  rewrite <- ?app_assoc.

(** X14: when the publisher is connected with the default topics, the
    broker takes every message and the detection can be logged,
    [_handle_remote_id] counts the detection and publishes exactly three
    messages: the detection itself, its position (with a [null] threat
    level) and a classification whose fields are all [null]; no alert is
    ever published on this path. *)
Theorem X14_handed_over_detection_messages (self : System) (publisher : Publisher)
    (remote_id : RemoteIDData) (method : string) (now : float) (o : outbox) :
  mqtt_publisher self = Some publisher ->
  connected publisher = true ->
  topics publisher = TOPICS ->
  _display_remote_id remote_id = inr tt ->
  _handle_remote_id dumps client_publish self remote_id method now o
  = (count_detection self,
     o ++ [ mkMessage "drone/detection"
              (dumps (detection_payload self remote_id method now))
              (qos_of publisher "detection" 1) (retain publisher);
            mkMessage "drone/position"
              (dumps (position_payload remote_id now))
              (qos_of publisher "position" 1) (retain publisher);
            mkMessage "drone/classification"
              (dumps (classification_payload now))
              (qos_of publisher "detection" 1) (retain publisher) ],
     inr tt).
Proof.
  intros P C T D. unfold _handle_remote_id. rewrite D.
  cbn [mqtt_publisher count_detection]. rewrite P, C.
  unfold publish_detection. rewrite C. cbn [negb].
  unfold detection_payload, position_payload.
  cbn [freq gain detection_count].
  publish_three remote_id T. reflexivity.
Qed.

(** X21: when the publisher is connected with the default topics and the
    broker takes every message, the BLE scanner publishes exactly three
    messages per record: the detection, its position and a classification
    with [null] fields; unlike the Wi-Fi path, a record without altitude is
    published too. *)
Theorem X21_ble_detection_messages (publisher : Publisher) (source : string)
    (rid : RemoteIDData) (now : float) (o : outbox) :
  connected publisher = true ->
  topics publisher = TOPICS ->
  _publish dumps client_publish (Some publisher) source rid now o
  = o ++ [ mkMessage "drone/detection"
             (dumps (JDict [ ("timestamp", JFloat now);
                             ("method", JStr "ble_advertising");
                             ("source_mac", JStr source);
                             ("remote_id", json_of_rid (to_dict rid)) ]))
             (qos_of publisher "detection" 1) (retain publisher);
           mkMessage "drone/position"
             (dumps (position_payload rid now))
             (qos_of publisher "position" 1) (retain publisher);
           mkMessage "drone/classification"
             (dumps (classification_payload now))
             (qos_of publisher "detection" 1) (retain publisher) ].
Proof.
  intros C T. unfold _publish. rewrite C.
  unfold publish_detection. rewrite C. cbn [negb].
  unfold position_payload.
  publish_three rid T. reflexivity.
Qed.

End Client.

Lemma X13_unknown_altitude_blocks_publication_witness :
  exists remote_id,
    WiFiSystem._process_wifi_pdu location_unknown counting_clock
    = Ok (Some (remote_id, "wifi_action_nan"))
    /\ latitude remote_id = Some 12.3585%float
    /\ altitude_msl remote_id = None
    /\ _handle_remote_id Samples.dumps Samples.accept_all
         Samples.channel_6_system remote_id "wifi_action_nan" 2 []
       = (count_detection Samples.channel_6_system, [], inl TypeError).
Proof.
  assert (D : exists r,
             WiFiSystem._process_wifi_pdu location_unknown counting_clock
             = Ok (Some (r, "wifi_action_nan"))
             /\ latitude r = Some 12.3585%float
             /\ longitude r = Some (-1.5352)%float
             /\ altitude_msl r = None).
  { eexists. split; [vm_compute; reflexivity|].
    split; [reflexivity|]. split; reflexivity. }
  destruct D as (r & D & La & Lo & Al).
  exists r. split; [exact D|]. split; [exact La|]. split; [exact Al|].
  destruct (X13_unknown_altitude_blocks_publication Samples.dumps
              Samples.accept_all Samples.channel_6_system r "wifi_action_nan"
              2 []) as (o' & res & E & _ & I & K).
  assert (R : res = inl TypeError).
  { apply I. rewrite La, Lo. repeat split. left. exact Al. }
  rewrite E, R, (K R). reflexivity.
Defined.

Lemma X14_handed_over_detection_messages_witness :
  WiFiSystem._process_wifi_pdu scenario_A counting_clock
  = Ok (Some (scenario_A_record 1, "wifi_action_nan"))
  /\ _display_remote_id (scenario_A_record 1) = inr tt
  /\ _handle_remote_id Samples.dumps Samples.accept_all
       Samples.channel_6_system (scenario_A_record 1) "wifi_action_nan" 2 []
     = (count_detection Samples.channel_6_system,
        [ mkMessage "drone/detection"
            "remote_id,timestamp,method,frequency_hz,gain_db,detection_number"
            1 false;
          mkMessage "drone/position"
            "timestamp,uas_id,latitude,longitude,altitude_msl,altitude_agl,velocity,threat_level"
            1 false;
          mkMessage "drone/classification"
            "timestamp,brand,model,protocol,confidence,method,top_predictions"
            1 false ],
        inr tt).
Proof.
  split; [vm_compute; reflexivity|]. split; [reflexivity|].
  exact (X14_handed_over_detection_messages Samples.dumps Samples.accept_all
           (fun m => eq_refl) Samples.channel_6_system
           Samples.connected_publisher (scenario_A_record 1) "wifi_action_nan"
           2 [] eq_refl eq_refl eq_refl eq_refl).
Defined.

Lemma X21_ble_detection_messages_witness :
  exists rid,
    BLE._handle_adv [location_unknown] [] (fun _ => counting_clock) = Ok [rid]
    /\ altitude_msl rid = None
    /\ map msg_topic
         (_publish Samples.dumps Samples.accept_all
            (Some Samples.connected_publisher) "AA:BB:CC:DD:EE:FF" rid 1 [])
       = ["drone/detection"; "drone/position"; "drone/classification"].
Proof.
  assert (D : exists r,
             BLE._handle_adv [location_unknown] [] (fun _ => counting_clock)
             = Ok [r]
             /\ altitude_msl r = None).
  { eexists. split; [vm_compute; reflexivity | reflexivity]. }
  destruct D as (r & D & Al).
  exists r. split; [exact D|]. split; [exact Al|].
  rewrite (X21_ble_detection_messages Samples.dumps Samples.accept_all
             (fun m => eq_refl) Samples.connected_publisher
             "AA:BB:CC:DD:EE:FF" r 1 [] eq_refl eq_refl).
  reflexivity.
Defined.

End HandOver.

(* ================================================================== *)
(** * Health messages *)
(* ================================================================== *)

Module HealthFacts.

Import Dyn Mqtt Notions.

Section Client.

Variable dumps_ascii : value -> string.
Variable client_publish : Message -> option Z.

(** X20: when the health topic is configured and the client does not
    raise: a successful [_on_connect] marks the publisher connected and
    publishes one health message saying so; a failed one publishes nothing;
    [disconnect] on a connected publisher publishes one health message with
    [connected: false] and leaves it disconnected; on a disconnected one,
    for instance after a first [disconnect], it publishes nothing. *)
Theorem X20_health_reports_connection_state (self : Publisher) (topic : string)
    (now_iso later_iso : string) (o : outbox) :
  assoc "health" (topics self) = Some topic ->
  (forall m, client_publish m <> None) ->
  let health status is_connected :=
    mkMessage topic
      (dumps_ascii (health_payload self status is_connected now_iso))
      (qos_of self "health" 0) (retain self) in
  _on_connect dumps_ascii client_publish self 0 now_iso o
  = (o ++ [health "connected" true], set_connected true self, inr tt)
  /\ (forall rc, rc <> 0 ->
                 _on_connect dumps_ascii client_publish self rc now_iso o
                 = (o, set_connected false self, inr tt))
  /\ (connected self = true ->
      disconnect dumps_ascii client_publish self now_iso o
      = (o ++ [health "disconnected" false], set_connected false self, inr tt))
  /\ (connected self = false ->
      disconnect dumps_ascii client_publish self now_iso o = (o, self, inr tt))
  /\ disconnect dumps_ascii client_publish (set_connected false self)
                later_iso o
     = (o, set_connected false self, inr tt).
Proof.
  intros T A. cbv zeta.
  assert (S : forall m o', exists rc, send client_publish m o' = (o' ++ [m], inr rc)).
  { intros m o'. unfold send. destruct (client_publish m) as [rc|] eqn:E.
    - exists rc. reflexivity.
    - destruct (A m E). }
  assert (H : forall status b,
             _publish_health_status dumps_ascii client_publish
               (set_connected b self) status now_iso o
             = (o ++ [mkMessage topic
                        (dumps_ascii (health_payload self status b now_iso))
                        (qos_of self "health" 0) (retain self)], inr tt)).
  { intros status b. unfold _publish_health_status, topic_of.
    cbn [topics set_connected]. rewrite T.
    unfold abind at 1. unfold pure. cbv beta iota.
    unfold abind.
    destruct (S (mkMessage topic
                   (dumps_ascii (health_payload self status b now_iso))
                   (qos_of self "health" 0) (retain self)) o) as (rc & E).
    unfold health_payload, qos_of in *.
    cbn [client_id connected last_publish_time qos retain set_connected] in *.
    rewrite E. reflexivity. }
  split; [|split; [|split; [|split]]].
  - unfold _on_connect. cbn [Z.eqb]. rewrite H. reflexivity.
  - intros rc Hrc. unfold _on_connect.
    destruct (Z.eqb_spec rc 0); [contradiction | reflexivity].
  - intros C. unfold disconnect. rewrite C. rewrite H. reflexivity.
  - intros C. unfold disconnect. rewrite C. reflexivity.
  - reflexivity.
Qed.

End Client.

Lemma X20_health_reports_connection_state_witness :
  let self := new_publisher "drone_detector" in
  _on_connect Samples.dumps Samples.accept_all self 0 "2025-01-01T00:00:00" []
  = ([ mkMessage "system/health"
         "timestamp,status,client_id,connected,last_publish" 0 false ],
     set_connected true self, inr tt)
  /\ disconnect Samples.dumps Samples.accept_all (set_connected true self)
       "2025-01-01T00:00:00" []
     = ([ mkMessage "system/health"
            "timestamp,status,client_id,connected,last_publish" 0 false ],
        self, inr tt).
Proof.
  cbv zeta.
  assert (A : forall m, Samples.accept_all m <> None) by (intros m; discriminate).
  split.
  - exact (proj1 (X20_health_reports_connection_state Samples.dumps
                    Samples.accept_all (new_publisher "drone_detector")
                    "system/health" "2025-01-01T00:00:00" "" [] eq_refl A)).
  - exact (proj1 (proj2 (proj2 (X20_health_reports_connection_state Samples.dumps
                    Samples.accept_all
                    (set_connected true (new_publisher "drone_detector"))
                    "system/health" "2025-01-01T00:00:00" "" [] eq_refl A)))
                 eq_refl).
Defined.

End HealthFacts.

(* ================================================================== *)
(** * The running system: frame statistics, hopping, device arguments *)
(* ================================================================== *)

Module SystemFacts.

Import Dyn Mqtt GnuRadio Notions.

Lemma count_frame_one (ftype fsub : Z) (c : FrameCounts) :
  total_frames (count_frame ftype fsub c) = total_frames c + 1
  /\ counts_le c (count_frame ftype fsub c).
Proof.
  unfold count_frame, total_frames, counts_le.
  destruct (ftype =? 0); [destruct (fsub =? 8); [|destruct (fsub =? 13);
    [|destruct (fsub =? 5)]] | destruct (ftype =? 1); [|destruct (ftype =? 2)]];
    cbn [mgmt_beacon mgmt_action mgmt_probe_resp ctrl data other]; lia.
Qed.

Lemma count_from_metadata_step (md : option (list (meta_key * meta_value)))
    (c : FrameCounts) :
  count_from_metadata md c = c
  \/ exists ftype fsub, count_from_metadata md c = count_frame ftype fsub c.
Proof.
  unfold count_from_metadata. destruct md as [md|]; [|left; reflexivity].
  cbv zeta.
  match goal with
  | |- context [match ?ft with MNone => _ | MInt _ => _ | MNotInt => _ end] =>
    destruct ft as [|ftv|]; [left; reflexivity | | left; reflexivity]
  end.
  match goal with
  | |- context [match ?fs with MNone => _ | MInt _ => _ | MNotInt => _ end] =>
    destruct fs as [|fsv|]; [right; eauto | right; eauto | left; reflexivity]
  end.
Qed.

(** X10: processing a PDU never raises in the statistics block and never
    decreases a frame counter.  The header block adds exactly one frame
    when the packet has at least 24 bytes and none otherwise; the metadata
    block adds at most one more, so a frame whose metadata names its type
    and subtype and which has a header is counted twice. *)
Theorem X10_frame_statistics (md : option (list (meta_key * meta_value)))
    (packet_bytes : bytes) (c : FrameCounts) :
  exists c',
    count_pdu md packet_bytes c = Ok c'
    /\ counts_le c c'
    /\ total_frames c'
       = total_frames (count_from_metadata md c)
         + (if 24 <=? len packet_bytes then 1 else 0)
    /\ total_frames c <= total_frames (count_from_metadata md c)
       <= total_frames c + 1
    /\ (forall ftv fsv,
           md = Some [(KStr "type", MInt ftv); (KStr "subtype", MInt fsv)] ->
           24 <= len packet_bytes ->
           total_frames c' = total_frames c + 2).
Proof.
  assert (M : counts_le c (count_from_metadata md c)
              /\ total_frames c <= total_frames (count_from_metadata md c)
                 <= total_frames c + 1).
  { destruct (count_from_metadata_step md c) as [-> | (ft & fs & ->)].
    - unfold counts_le. lia.
    - destruct (count_frame_one ft fs c) as [T L]. split; [exact L | lia]. }
  destruct M as [Mle Mt].
  unfold count_pdu, count_from_header. rewrite Z.geb_leb.
  destruct (Z.leb_spec 24 (len packet_bytes)) as [L|L].
  - destruct (getitem_in_range packet_bytes 0) as (fc0 & -> & _); [lia|].
    cbn [bind].
    destruct (count_frame_one (Z.land (Z.shiftr fc0 2) 3)
                              (Z.land (Z.shiftr fc0 4) 15)
                              (count_from_metadata md c)) as [T Lc].
    eexists. split; [reflexivity|]. split; [|split; [exact T|split; [exact Mt|]]].
    + unfold counts_le in *. lia.
    + intros ftv fsv -> _. rewrite T.
      change (count_from_metadata (Some [(KStr "type", MInt ftv);
                                         (KStr "subtype", MInt fsv)]) c)
        with (count_frame ftv fsv c).
      destruct (count_frame_one ftv fsv c) as [T' _]. lia.
  - eexists. split; [reflexivity|]. split; [exact Mle|].
    split; [lia|]. split; [exact Mt|]. intros; lia.
Qed.

Lemma round_robin_step (channels : list float) (start : Z) (k : nat) :
  round_robin channels start (S k)
  = nth (Z.to_nat (start mod len channels)) channels 0%float
    :: round_robin channels (start + 1) k.
Proof.
  unfold round_robin. cbn [seq map]. rewrite Z.add_0_r. f_equal.
  rewrite <- seq_shift, map_map. apply map_ext. intros j.
  do 3 f_equal. lia.
Qed.

Lemma last_default {A : Type} (a : A) (l : list A) (d d' : A) :
  last (a :: l) d = last (a :: l) d'.
Proof.
  revert a. induction l as [|b l IH]; intros a; [reflexivity|].
  change (last (b :: l) d = last (b :: l) d'). apply IH.
Qed.

Section Hopping.

Variable time_sleep : float -> outcome unit.
Variable hop_interval : float.

#[local] Abbreviation turns_of := (hop_turns time_sleep hop_interval).

(** While the pause returns, the thread never ends and every accepted turn
    moves the index on. *)
Lemma fold_hop (channels : list float) (turns : list bool) (h : Hopper) :
  time_sleep hop_interval = inr tt ->
  let r := turns_of channels turns h in
  snd r = inr tt
  /\ hop_idx (fst r) = hop_idx h + Z.of_nat (accepted_turns turns)
  /\ hop_tuned (fst r)
     = hop_tuned h ++ round_robin channels (hop_idx h) (accepted_turns turns)
  /\ hop_freq (fst r)
     = last (round_robin channels (hop_idx h) (accepted_turns turns))
            (hop_freq h).
Proof.
  intros S. cbv zeta. revert h.
  induction turns as [|accepted turns IH]; intros h.
  - cbn. rewrite app_nil_r. repeat split; lia.
  - cbn [hop_turns]. unfold hop_turn. rewrite S. unfold accepted_turns.
    destruct accepted.
    + destruct (IH (mkHopper (hop_idx h + 1)
                      (nth (Z.to_nat (hop_idx h mod len channels)) channels
                           0%float)
                      (hop_tuned h
                       ++ [nth (Z.to_nat (hop_idx h mod len channels))
                               channels 0%float])))
        as (O & I & T & F).
      cbn [hop_idx hop_tuned hop_freq] in I, T, F.
      cbn [filter List.length]. fold (accepted_turns turns).
      rewrite round_robin_step. rewrite O, I, T, F.
      split; [reflexivity|]. split; [lia|].
      split; [rewrite <- app_assoc; reflexivity|].
      destruct (round_robin channels (hop_idx h + 1) (accepted_turns turns))
        as [|f l] eqn:R; [reflexivity|].
      change (last (f :: l)
                (nth (Z.to_nat (hop_idx h mod len channels)) channels 0%float)
              = last (f :: l) (hop_freq h)).
      apply last_default.
    + cbn [filter]. exact (IH h).
Qed.

(** X11: with a non-empty channel list and a hop interval that
    [time.sleep] accepts, the hopper never ends by itself and visits the
    channels round robin, starting at the first: after any sequence of
    turns the index is the number of retunes the USRP accepted, the
    accepted retunes are the channels in cyclic order (a refused retune is
    tried again on the next turn, no channel is skipped), and [self.freq]
    is the last accepted one, or the initial frequency if none was.  With
    a hop interval that [time.sleep] rejects, the thread ends in its first
    turn with the exception of the pause: the index is still 0, and the
    first channel is tuned and recorded in [self.freq] if the USRP accepted
    that retune, nothing otherwise. *)
Theorem X11_channel_hopper_round_robin (channels : list float) (turns : list bool)
    (freq : float) :
  channels <> [] ->
  let r := _channel_hopper time_sleep hop_interval true channels turns freq in
  let h := fst r in
  (time_sleep hop_interval = inr tt ->
   snd r = inr tt
   /\ hop_idx h = Z.of_nat (accepted_turns turns)
   /\ hop_tuned h = round_robin channels 0 (accepted_turns turns)
   /\ hop_freq h = last (hop_tuned h) freq
   /\ Forall (fun f => In f channels) (hop_tuned h)
   /\ (forall j, (j + List.length channels < accepted_turns turns)%nat ->
               nth (j + List.length channels) (hop_tuned h) 0%float
               = nth j (hop_tuned h) 0%float))
  /\ (forall e, time_sleep hop_interval = inl e ->
      match turns with
      | [] => r = (mkHopper 0 freq [], inr tt)
      | accepted :: _ =>
        snd r = inl e
        /\ hop_idx h = 0
        /\ hop_tuned h = (if accepted then [nth 0 channels 0%float] else [])
        /\ hop_freq h = (if accepted then nth 0 channels 0%float else freq)
      end).
Proof.
  intros NE. cbv zeta. unfold _channel_hopper.
  destruct channels as [|c0 cs]; [contradiction|]. cbn [negb orb].
  set (channels := c0 :: cs) in *. split.
  - intros S.
    destruct (fold_hop channels turns (mkHopper 0 freq []) S) as (O & I & T & F).
    cbn [hop_idx hop_tuned hop_freq app Z.add] in *.
    rewrite O, I, T, F. repeat split.
    + assert (Ln : 0 < len channels) by (unfold len, channels; cbn; lia).
      apply Forall_forall. intros f Hf. unfold round_robin in Hf.
      apply in_map_iff in Hf. destruct Hf as (j & <- & _).
      apply nth_In. unfold len in *.
      pose proof (Z.mod_pos_bound (0 + Z.of_nat j)
                    (Z.of_nat (List.length channels)) Ln). lia.
    + intros j Hj. unfold round_robin.
      assert (Ln : 0 < len channels) by (unfold len, channels; cbn; lia).
      set (f := fun j0 : nat =>
                  nth (Z.to_nat ((0 + Z.of_nat j0) mod len channels)) channels
                      0%float).
      rewrite (nth_indep _ 0%float (f 0%nat))
        by (rewrite length_map, length_seq; lia).
      rewrite (nth_indep (map f _) 0%float (f 0%nat))
        by (rewrite length_map, length_seq; lia).
      rewrite !map_nth, !seq_nth by lia.
      unfold f. cbn [Nat.add]. do 2 f_equal.
      replace (0 + Z.of_nat (j + List.length channels))
        with (0 + Z.of_nat j + 1 * len channels) by (unfold len; lia).
      apply Z.mod_add. lia.
  - intros e S. destruct turns as [|accepted rest]; [reflexivity|].
    cbn [hop_turns]. unfold hop_turn. rewrite S.
    assert (M : nth (Z.to_nat (hop_idx (mkHopper 0 freq []) mod len channels))
                    channels 0%float = nth 0 channels 0%float).
    { cbn [hop_idx]. rewrite Z.mod_0_l; [reflexivity|].
      unfold len, channels. cbn. lia. }
    destruct accepted; cbn [fst snd hop_idx hop_tuned hop_freq app];
      repeat split; try reflexivity; rewrite ?M; reflexivity.
Qed.

End Hopping.

(** With the default plan and a pause of 7 seconds, five turns of which the
    second is refused retune to channels 1, 6, 11 and 1 again; with a pause
    of -1 second the thread ends in its first turn, after one retune. *)
Lemma X11_channel_hopper_round_robin_witness :
  let channels := init_channels None false in
  let run := fun hop_interval =>
    _channel_hopper Samples.time_sleep hop_interval true channels
      [true; false; true; true; true] 2.437e9 in
  Samples.time_sleep 7 = inr tt
  /\ snd (run 7%float) = inr tt
  /\ hop_tuned (fst (run 7%float)) = [2412e6; 2437e6; 2462e6; 2412e6]%float
  /\ hop_idx (fst (run 7%float)) = 4
  /\ hop_freq (fst (run 7%float)) = 2412e6%float
  /\ Samples.time_sleep (-1) = inl ValueError
  /\ snd (run (-1)%float) = inl ValueError
  /\ hop_idx (fst (run (-1)%float)) = 0
  /\ hop_tuned (fst (run (-1)%float)) = [2412e6%float]
  /\ hop_freq (fst (run (-1)%float)) = 2412e6%float.
Proof.
  cbv zeta.
  assert (NE : init_channels None false <> []) by discriminate.
  assert (S7 : Samples.time_sleep 7 = inr tt) by reflexivity.
  assert (S1 : Samples.time_sleep (-1) = inl ValueError) by reflexivity.
  destruct (X11_channel_hopper_round_robin Samples.time_sleep 7
              (init_channels None false) [true; false; true; true; true]
              2.437e9 NE) as [A _].
  destruct (A S7) as (O & I & T & F & _).
  destruct (X11_channel_hopper_round_robin Samples.time_sleep (-1)
              (init_channels None false) [true; false; true; true; true]
              2.437e9 NE) as [_ B].
  destruct (B _ S1) as (O' & I' & T' & F').
  split; [exact S7|]. split; [exact O|].
  split; [rewrite T; reflexivity|]. split; [rewrite I; reflexivity|].
  split; [rewrite F, T; reflexivity|].
  split; [exact S1|]. split; [exact O'|]. split; [exact I'|].
  split; [exact T' | exact F'].
Defined.

End SystemFacts.

Module ArgsFacts.

Import GnuRadio.

Lemma startswith_refl (s : string) : startswith s s = true.
Proof.
  induction s as [|a s IH]; cbn; [reflexivity|].
  rewrite Ascii.eqb_refl. exact IH.
Qed.

Lemma contains_prefix (p s : string) : startswith p s = true -> contains p s = true.
Proof. intros H. destruct s; cbn [contains]; rewrite H; reflexivity. Qed.

Lemma contains_append_r (p a b : string) :
  contains p b = true -> contains p (String.append a b) = true.
Proof.
  intros H. induction a as [|c a IH]; [exact H|].
  cbn [String.append contains]. rewrite IH. apply orb_true_r.
Qed.

(** X12: with a non-empty [--uhd-serial], the device arguments handed to
    the system contain [serial=] and start with the arguments given; the
    step is idempotent; arguments already naming a serial are left as they
    are, and otherwise [serial=<serial>] is appended, after a comma where
    one is needed. *)
Theorem X12_with_serial (uhd_args uhd_serial : string) :
  uhd_serial <> "" ->
  let result := with_serial uhd_args uhd_serial in
  contains "serial=" result = true
  /\ startswith uhd_args result = true
  /\ with_serial result uhd_serial = result
  /\ (contains "serial=" uhd_args = true -> result = uhd_args)
  /\ (contains "serial=" uhd_args = false ->
      exists sep, (sep = "" \/ sep = ",")
                  /\ result = String.append uhd_args
                                (String.append sep
                                   (String.append "serial=" uhd_serial))).
Proof.
  intros NE. cbv zeta.
  assert (T : str_truthy uhd_serial = true)
    by (destruct uhd_serial; [contradiction | reflexivity]).
  assert (S1 : forall a, contains "serial="
                           (String.append a (String.append "serial=" uhd_serial))
                         = true).
  { intros a. apply contains_append_r, contains_prefix, PatternFacts.startswith_append. }
  assert (S2 : forall a, contains "serial="
                           (String.append a (String.append ",serial=" uhd_serial))
                         = true).
  { intros a. apply contains_append_r.
    change (String.append ",serial=" uhd_serial)
      with (String.append "," (String.append "serial=" uhd_serial)).
    apply contains_append_r, contains_prefix, PatternFacts.startswith_append. }
  unfold with_serial. rewrite T.
  destruct (contains "serial=" uhd_args) eqn:C; cbn [negb].
  - rewrite C. cbn [negb]. repeat split; try assumption; try discriminate.
    apply startswith_refl.
  - destruct (str_truthy uhd_args && negb (endswith "," uhd_args)).
    + rewrite S2. cbn [negb]. repeat split; try discriminate.
      * apply PatternFacts.startswith_append.
      * intros _. exists ",". split; [right; reflexivity | reflexivity].
    + rewrite S1. cbn [negb]. repeat split; try discriminate.
      * apply PatternFacts.startswith_append.
      * intros _. exists "". split; [left; reflexivity | reflexivity].
Qed.

Lemma X12_with_serial_witness :
  with_serial Samples.default_uhd_args "31F4A2B"
  = String.append Samples.default_uhd_args ",serial=31F4A2B"
  /\ with_serial (with_serial Samples.default_uhd_args "31F4A2B") "31F4A2B"
     = with_serial Samples.default_uhd_args "31F4A2B".
Proof.
  assert (NE : "31F4A2B" <> "") by discriminate.
  destruct (X12_with_serial Samples.default_uhd_args "31F4A2B" NE)
    as (_ & _ & I & _).
  split; [reflexivity | exact I].
Defined.

End ArgsFacts.
